(** * colorconverter: the orchestration layer of [colorconverter.py]

    The script parses a command line, decides which input colour model
    was supplied, range-checks the values, fans the input out over
    observers and illuminants, collects every conversion in the nested
    dictionary [res] through [result] and prints [res] as JSON.

    The embedding follows the Python source function by function.

    - Python [float] is the kernel's binary64 type [float]; Python [int]
      is [Z].
    - A raised exception is the left injection of [sum]; the right
      injection is a normal return.
    - The colour-science library ([colour], NumPy's numerics,
      matplotlib) is not part of the script.  Its tables and the values
      it computes appear as parameters of the sections that need them,
      and its calls are taken to return normally. *)

From Stdlib Require Import ZArith List String Ascii Bool Lia.
From Stdlib Require Import Floats.
From Stdlib Require Import DecimalString.
From Stdlib Require Import QArith Qcanon Qround.
Import ListNotations.

Local Open Scope string_scope.
Local Open Scope Z_scope.

(** ** Exceptions and the error monad *)

Inductive exn : Type :=
| ValueError (msg : string)
| KeyError (key : string)
| TypeError (msg : string)
| NameError (name : string)
| SystemExit (code : Z).

Definition M (A : Type) : Type := (exn + A)%type.

Definition ret {A : Type} (a : A) : M A := inr a.
Definition raise {A : Type} (e : exn) : M A := inl e.

Definition bind {A B : Type} (c : M A) (k : A -> M B) : M B :=
  match c with
  | inl e => inl e
  | inr a => k a
  end.

Declare Scope py_scope.
Delimit Scope py_scope with py.
Notation "x <- c ;; k" := (bind c (fun x => k))
  (at level 100, c at next level, right associativity) : py_scope.
Notation "' pat <- c ;; k" := (bind c (fun x => match x with pat => k end))
  (at level 100, pat pattern, c at next level, right associativity) : py_scope.
Notation "c ;;; k" := (bind c (fun _ => k))
  (at level 100, right associativity) : py_scope.
Local Open Scope py_scope.

Definition returns {A : Type} (c : M A) : bool :=
  match c with inr _ => true | inl _ => false end.

(** ** Numbers *)

(** A Python [int] used where a [float] is expected.  The conversion is
    exact below [2^53], which covers every integer the script compares a
    float with or divides. *)
Definition Z2F (z : Z) : float :=
  match z with
  | Z0 => 0%float
  | Zpos _ => PrimFloat.of_uint63 (Uint63.of_Z z)
  | Zneg _ => PrimFloat.opp (PrimFloat.of_uint63 (Uint63.of_Z (- z)))
  end.

(** [lo <= x <= hi] of Python: the conjunction of the two comparisons,
    false as soon as [x] is NaN. *)
Definition between (lo hi x : float) : bool :=
  PrimFloat.leb lo x && PrimFloat.leb x hi.

(** Python's [a / b] on two ints, as a float. *)
Definition py_truediv (a b : Z) : float := PrimFloat.div (Z2F a) (Z2F b).

(** Python's [int(x)] on a finite float: truncation toward zero. *)
Definition py_int (x : float) : Z :=
  match Prim2SF x with
  | S754_finite s m e =>
      let v := Z.shiftl (Z.pos m) e in
      if s then - v else v
  | _ => 0
  end.

Definition string_of_Z (z : Z) : string :=
  NilZero.string_of_int (Z.to_int z).

(** ** Module constants *)

(** [BITDEPTH_FACTOR]: factor for the normalization of values to 0:1. *)
Definition BITDEPTH_FACTOR : list (string * Z) :=
  [("8", 255); ("15+1", 32768); ("16", 65535); ("32", 1)].

Fixpoint dict_get {V : Type} (d : list (string * V)) (k : string) : option V :=
  match d with
  | [] => None
  | (k', v) :: d' => if String.eqb k k' then Some v else dict_get d' k
  end.

Definition VIS_SPECTRUM_MIN : Z := 360.
Definition VIS_SPECTRUM_MAX : Z := 830.

Definition RGB_ILLUMINANTS_LIST : list string :=
  ["A"; "C"; "D50"; "D55"; "D65"; "D75"; "E";
   "FL1"; "FL2"; "FL3"; "FL3.1"; "FL3.2"; "FL3.3"; "FL3.4"; "FL3.5";
   "FL3.6"; "FL3.7"; "FL3.8"; "FL3.9"; "FL3.10"; "FL3.11"; "FL3.12";
   "FL3.13"; "FL3.14"; "FL3.15"; "FL4"; "FL5"; "FL6"; "FL7"; "FL8";
   "FL9"; "FL10"; "FL11"; "FL12";
   "HP1"; "HP2"; "HP3"; "HP4"; "HP5"; "ID50"; "ID65";
   "LED-B1"; "LED-B2"; "LED-B3"; "LED-B4"; "LED-B5"; "LED-BH1";
   "LED-RGB1"; "LED-V1"; "LED-V2";
   "ISO 7589 Sensitometric Daylight";
   "ISO 7589 Sensitometric Studio Tungsten";
   "ISO 7589 Sensitometric Photoflood";
   "ISO 7589 Sensitometric Printer";
   "ACES"; "Blackmagic Wide Gamut"; "DCI-P3"].

Definition CIE_ILLUMINANTS_LIST : list string :=
  ["A"; "D50"; "D55"; "D65"; "D75";
   "FL1"; "FL2"; "FL3"; "FL3.1"; "FL3.2"; "FL3.3"; "FL3.4"; "FL3.5";
   "FL3.6"; "FL3.7"; "FL3.8"; "FL3.9"; "FL3.10"; "FL3.11"; "FL3.12";
   "FL3.13"; "FL3.14"; "FL3.15"; "FL4"; "FL5"; "FL6"; "FL7"; "FL8";
   "FL9"; "FL10"; "FL11"; "FL12";
   "HP1"; "HP2"; "HP3"; "HP4"; "HP5"; "ID50"; "ID65";
   "LED-B1"; "LED-B2"; "LED-B3"; "LED-B4"; "LED-B5"; "LED-BH1";
   "LED-RGB1"; "LED-V1"; "LED-V2"].

Definition ISO_7589_ILLUMINANTS_LIST : list string :=
  ["ISO 7589 Sensitometric Daylight";
   "ISO 7589 Sensitometric Studio Tungsten";
   "ISO 7589 Sensitometric Photoflood";
   "ISO 7589 Sensitometric Printer"].

Definition CHROMATIC_ADAPTATION_TRANSFORMS : list string :=
  ["Bianco 2010"; "Bianco PC 2010"; "Bradford"; "CAT02";
   "CAT02 Brill 2008"; "CAT16"; "CMCCAT97"; "CMCCAT2000"; "Fairchild";
   "Sharp"; "Von Kries"; "XYZ Scaling"].

Definition STANDARD_OBSERVERS : list string :=
  ["CIE 1931 2 Degree Standard Observer";
   "CIE 1964 10 Degree Standard Observer"].

Definition RGB_CSS_COLORSPACES : list string :=
  ["sRGB"; "Adobe RGB (1998)"; "Display P3"; "ITU-R BT.2020";
   "ProPhoto RGB"].

Definition COLOR_MODELS_ALIASES : list string :=
  ["aces"; "adobe1998"; "prophoto"; "ALEXA Wide Gamut"].

Definition str_in (s : string) (l : list string) : bool :=
  existsb (String.eqb s) l.

(** ** Command-line arguments *)

(** The namespace [parser.parse_args()] returns.  An option that was not
    given is [None], as in argparse. *)
Record Args : Type := {
  show_warnings : bool;
  bitdepth : string;
  precalc : string;
  observer : string;
  input_illuminant : string;
  cat : option (list string);
  illuminant_list : string;
  plotpath : option string;
  lstar : option float;
  astar : option float;
  bstar : option float;
  lchab_l_val : option float;
  lchab_ch_val : option float;
  lchab_ab_val : option float;
  l_val : option float;
  u_val : option float;
  v_val : option float;
  lchuv_l_val : option float;
  lchuv_ch_val : option float;
  lchuv_uv_val : option float;
  x_val : option float;
  y_val : option float;
  z_val : option float;
  red : option float;
  green : option float;
  blue : option float;
  input_colorspace : string;
  start : option Z;
  stop : option Z;
  interval : option Z;
  spectype : option string;
  data : option (list float);
  intrpl_intrvl : option Z;
  tm30path : option string;
  tm30format : option string;
  wave : option float
}.

Inductive ColorModel : Type :=
| CIELAB | CIELCHab | CIELUV | CIELCHuv | CIEXYZ | RGB | Spectrum
| Wavelength.

Definition ColorModel_eqb (a b : ColorModel) : bool :=
  match a, b with
  | CIELAB, CIELAB | CIELCHab, CIELCHab | CIELUV, CIELUV
  | CIELCHuv, CIELCHuv | CIEXYZ, CIEXYZ | RGB, RGB
  | Spectrum, Spectrum | Wavelength, Wavelength => true
  | _, _ => false
  end.

Definition is_not_None {A : Type} (o : option A) : bool :=
  match o with Some _ => true | None => false end.

(** [determine_color_model(args)] *)
Definition determine_color_model (args : Args) : option ColorModel :=
  if is_not_None (lstar args) && is_not_None (astar args)
     && is_not_None (bstar args) then Some CIELAB
  else if is_not_None (lchab_l_val args) && is_not_None (lchab_ch_val args)
     && is_not_None (lchab_ab_val args) then Some CIELCHab
  else if is_not_None (l_val args) && is_not_None (u_val args)
     && is_not_None (v_val args) then Some CIELUV
  else if is_not_None (lchuv_l_val args) && is_not_None (lchuv_ch_val args)
     && is_not_None (lchuv_uv_val args) then Some CIELCHuv
  else if is_not_None (x_val args) && is_not_None (y_val args)
     && is_not_None (z_val args) then Some CIEXYZ
  else if is_not_None (red args) && is_not_None (green args)
     && is_not_None (blue args) then Some RGB
  else if is_not_None (start args) && is_not_None (stop args)
     && is_not_None (interval args) && is_not_None (data args)
     then Some Spectrum
  else if is_not_None (wave args) then Some Wavelength
  else None.

(** What a process has written and how it ended. *)
Inductive stdout_item (J : Type) : Type :=
| HelpText
| Printed (doc : J).
Arguments HelpText {J}.
Arguments Printed {J} doc.

(** [MyParser.error(message)]: the help goes to standard output, the
    message to standard error, and the process exits with status 2. *)
Definition MyParser_error {J A : Type} (message : string)
  : list (stdout_item J) * list string * M A :=
  ([HelpText], ["Error: " ++ message], raise (SystemExit 2)).

(** [s[-4:]] *)
Definition last4 (s : string) : string :=
  let n := String.length s in
  substring (n - 4) 4 s.

Definition set_plotpath (args : Args) (p : option string) : Args :=
  {| show_warnings := show_warnings args; bitdepth := bitdepth args;
     precalc := precalc args; observer := observer args;
     input_illuminant := input_illuminant args; cat := cat args;
     illuminant_list := illuminant_list args; plotpath := p;
     lstar := lstar args; astar := astar args; bstar := bstar args;
     lchab_l_val := lchab_l_val args; lchab_ch_val := lchab_ch_val args;
     lchab_ab_val := lchab_ab_val args;
     l_val := l_val args; u_val := u_val args; v_val := v_val args;
     lchuv_l_val := lchuv_l_val args; lchuv_ch_val := lchuv_ch_val args;
     lchuv_uv_val := lchuv_uv_val args;
     x_val := x_val args; y_val := y_val args; z_val := z_val args;
     red := red args; green := green args; blue := blue args;
     input_colorspace := input_colorspace args;
     start := start args; stop := stop args; interval := interval args;
     spectype := spectype args; data := data args;
     intrpl_intrvl := intrpl_intrvl args; tm30path := tm30path args;
     tm30format := tm30format args; wave := wave args |}.

(** [parse_arguments()], from the namespace argparse produced on: the
    [.svg] suffix of the plot path, the choice of the model, and the
    error when no model is complete. *)
Definition parse_arguments {J : Type} (parsed : Args)
  : list (stdout_item J) * list string * M (Args * ColorModel) :=
  let args :=
    match plotpath parsed with
    | Some p =>
        if negb (String.eqb (last4 p) ".svg")
        then set_plotpath parsed (Some (p ++ ".svg"))
        else parsed
    | None => parsed
    end in
  match determine_color_model args with
  | None =>
      MyParser_error
        "Full set of input values for one of the color models is required"
  | Some model => ([], [], ret (args, model))
  end.

(** ** Range checks *)

Definition CIELAB_DEPTH_VALUES
  : list (string * ((float * float) * (float * float))) :=
  [("8", ((0, 100), (-200, 200)));
   ("15+1", ((0, 32768), (-25600, 25600)));
   ("16", ((0, 65535), (-51200, 51200)));
   ("32", ((0, 1), (-1, 1)))]%float.

(** [327.68] and [655.35] are the doubles Python reads these literals
    as; the products are binary64 products, as in the source. *)
Definition lit_327_68 : float := 0x1.47ae147ae147bp+8%float.
Definition lit_655_35 : float := 0x1.47acccccccccdp+9%float.

Definition CIELCHUV_DEPTH_VALUES
  : list (string * ((float * float) * (float * float) * (float * float))) :=
  [("8", ((0, 100), (0, 230), (0, 360)));
   ("15+1", ((0, 32768), (0, 230 * lit_327_68), (0, 360 * lit_327_68)));
   ("16", ((0, 65535), (0, 230 * lit_655_35), (0, 360 * lit_655_35)));
   ("32", ((0, 1), (0, 230), (0, 360)))]%float.

Definition CIEXYZ_DEPTH_VALUES : list (string * (float * float)) :=
  [("8", (0, 1)); ("15+1", (0, 1)); ("16", (0, 1)); ("32", (0, 1))]%float.

Definition invalid_bit_depth {A : Type} (bitdepth : string) : M A :=
  raise (ValueError ("Invalid bit depth specified: " ++ bitdepth)).

(** [validate_rgb_values(bitdepth, red, green, blue)] *)
Definition validate_rgb_values (bitdepth : string) (red green blue : float)
  : M (float * float * float * Z) :=
  match dict_get BITDEPTH_FACTOR bitdepth with
  | None => invalid_bit_depth bitdepth
  | Some max_val =>
      if negb (between 0 (Z2F max_val) red
               && between 0 (Z2F max_val) green
               && between 0 (Z2F max_val) blue)
      then raise (ValueError
             ("RGB values are out of range for the specified bit depth: "
              ++ bitdepth))
      else ret (red, green, blue, max_val)
  end.

(** [validate_cielab_values(bitdepth, lstar, astar, bstar)] *)
Definition validate_cielab_values (bitdepth : string) (lstar astar bstar : float)
  : M (float * float * float * Z) :=
  match dict_get CIELAB_DEPTH_VALUES bitdepth with
  | None => invalid_bit_depth bitdepth
  | Some ((min_val_lstar, max_val_lstar),
          (min_val_a_b_star, max_val_a_b_star)) =>
      if negb (between min_val_lstar max_val_lstar lstar
               && between min_val_a_b_star max_val_a_b_star astar
               && between min_val_a_b_star max_val_a_b_star bstar)
      then raise (ValueError
             ("CIELAB values are out of range for the specified bit depth: "
              ++ bitdepth))
      else
        match dict_get BITDEPTH_FACTOR bitdepth with
        | None => raise (KeyError bitdepth)
        | Some factor => ret (lstar, astar, bstar, factor)
        end
  end.

(** The loop [for val_name, (min_val, max_val) in value_ranges.items()]
    of [validate_cielchab_values]: the first value found out of range
    raises. *)
Fixpoint check_value_ranges (ranges : list (string * (float * float)))
  (values : list (string * float)) : M unit :=
  match ranges with
  | [] => ret tt
  | (val_name, (min_val, max_val)) :: ranges' =>
      match dict_get values val_name with
      | None => raise (KeyError val_name)
      | Some v =>
          if negb (between min_val max_val v)
          then raise (ValueError (val_name ++ " is out of range"))
          else check_value_ranges ranges' values
      end
  end.

(** [validate_cielchab_values(bitdepth, lchab_l_val, lchab_ch_val,
    lchab_ab_val)] *)
Definition validate_cielchab_values (bitdepth : string)
  (lchab_l_val lchab_ch_val lchab_ab_val : float)
  : M (float * float * float * Z) :=
  match dict_get BITDEPTH_FACTOR bitdepth with
  | None => invalid_bit_depth bitdepth
  | Some factor =>
      let value_ranges :=
        [("lchab_l_val", (0, 100)); ("lchab_ch_val", (0, 230));
         ("lchab_ab_val", (0, 360))]%float in
      let values :=
        [("lchab_l_val", lchab_l_val); ("lchab_ch_val", lchab_ch_val);
         ("lchab_ab_val", lchab_ab_val)] in
      check_value_ranges value_ranges values ;;;
      ret (lchab_l_val, lchab_ch_val, lchab_ab_val, factor)
  end.

(** [validate_cieluv_values(bitdepth, l_val, u_val, v_val)] *)
Definition validate_cieluv_values (bitdepth : string) (l_val u_val v_val : float)
  : M (float * float * float * Z) :=
  match dict_get BITDEPTH_FACTOR bitdepth with
  | None => invalid_bit_depth bitdepth
  | Some factor =>
      let value_ranges :=
        [("8", ((0, 100), (-200, 200)));
         ("15+1", ((0, 32768), (-25600, 25600)));
         ("16", ((0, 65535), (-51200, 51200)));
         ("32", ((0, 1), (-1, 1)))]%float in
      match dict_get value_ranges bitdepth with
      | None => raise (KeyError bitdepth)
      | Some ((l_lo, l_hi), (uv_lo, uv_hi)) =>
          if negb (between l_lo l_hi l_val
                   && between uv_lo uv_hi u_val
                   && between uv_lo uv_hi v_val)
          then raise (ValueError
                 ("CIELUV values are out of range for the specified bit depth: "
                  ++ bitdepth))
          else ret (l_val, u_val, v_val, factor)
      end
  end.

(** [validate_cielchuv_values(bitdepth, lchuv_l_val, lchuv_ch_val,
    lchuv_uv_val)] *)
Definition validate_cielchuv_values (bitdepth : string)
  (lchuv_l_val lchuv_ch_val lchuv_uv_val : float)
  : M (float * float * float * Z) :=
  match dict_get CIELCHUV_DEPTH_VALUES bitdepth with
  | None => invalid_bit_depth bitdepth
  | Some ((min_l, max_l), (min_ch, max_ch), (min_uv, max_uv)) =>
      if negb (between min_l max_l lchuv_l_val
               && between min_ch max_ch lchuv_ch_val
               && between min_uv max_uv lchuv_uv_val)
      then raise (ValueError
             ("CIELCHuv values are out of range for the specified bit depth: "
              ++ bitdepth))
      else
        match dict_get BITDEPTH_FACTOR bitdepth with
        | None => raise (KeyError bitdepth)
        | Some factor => ret (lchuv_l_val, lchuv_ch_val, lchuv_uv_val, factor)
        end
  end.

(** [validate_ciexyz_values(bitdepth, x_val, y_val, z_val)] *)
Definition validate_ciexyz_values (bitdepth : string) (x_val y_val z_val : float)
  : M (float * float * float * Z) :=
  match dict_get CIEXYZ_DEPTH_VALUES bitdepth with
  | None => invalid_bit_depth bitdepth
  | Some (min_val, max_val) =>
      if negb (between min_val max_val x_val
               && between min_val max_val y_val
               && between min_val max_val z_val)
      then raise (ValueError
             ("CIEXYZ values are out of range for the specified bit depth: "
              ++ bitdepth))
      else
        match dict_get BITDEPTH_FACTOR bitdepth with
        | None => raise (KeyError bitdepth)
        | Some factor => ret (x_val, y_val, z_val, factor)
        end
  end.

(** [int((stop - start) / interval) + 1] *)
Definition expected_data_length (start stop interval : Z) : Z :=
  py_int (py_truediv (stop - start) interval) + 1.

(** [validate_spectrum_values(start, stop, interval, data)] *)
Definition validate_spectrum_values (start stop interval : Z)
  (data : list float) : M (Z * Z * Z * list float) :=
  let max_val_start := 750 in
  let min_val_start := 380 in
  let max_val_stop := 780 in
  let min_val_stop := 400 in
  let max_val_interval := 20 in
  let min_val_interval := 1 in
  if negb ((min_val_start <=? start) && (start <=? max_val_start)
           && ((min_val_stop <=? stop) && (stop <=? max_val_stop))
           && ((min_val_interval <=? interval)
               && (interval <=? max_val_interval)))
  then raise (ValueError "Spectral parameters are out of range")
  else if stop <=? start
  then raise (ValueError "Stop value should be greater than start value")
  else
    let expected := expected_data_length start stop interval in
    if negb (Z.of_nat (List.length data) =? expected)
    then raise (ValueError
           ("Data length mismatch. Expected " ++ string_of_Z expected
            ++ " values but got "
            ++ string_of_Z (Z.of_nat (List.length data)) ++ " values."))
    else if existsb (fun x => PrimFloat.ltb x 0) data
            || existsb (fun x => PrimFloat.ltb 1 x) data
    then raise (ValueError "Spectral data values are out of 0-1 range")
    else ret (start, stop, interval, data).

(** [validate_wave_value(wave)] *)
Definition validate_wave_value (wave : float) : M float :=
  if negb (between (Z2F VIS_SPECTRUM_MIN) (Z2F VIS_SPECTRUM_MAX) wave)
  then raise (ValueError
         "Wavelength value must be between 360 - 830 nm [CIE 015:2018, pg. 21]")
  else ret wave.

(** ** [normalize] and [denormalize]

    Both are elementwise NumPy expressions.  They are written once over
    the arithmetic they run on, so that the arithmetic of the script
    (binary64) and exact arithmetic can both be plugged in. *)

Class Arith (num : Type) : Type := {
  of_int : Z -> num;          (* a Python int operand *)
  amul : num -> num -> num;   (* [*] *)
  adiv : num -> num -> num;   (* [/] *)
  rint : num -> num           (* [np.rint]: nearest integer, ties to even *)
}.

Section Normalization.
Context {num : Type} `{Arith num}.

(** [np.round(x, decimals)] for [decimals >= 0] on a float array:
    NumPy multiplies by [10**decimals], applies [rint] and divides. *)
Definition np_round (decimals : nat) (x : num) : num :=
  let p := of_int (10 ^ Z.of_nat decimals) in
  adiv (rint (amul x p)) p.

(** [np.array(a) * np.array(factors)] on one-dimensional operands:
    equal lengths multiply pairwise, a length-one operand is
    broadcast, any other pair of shapes is an error. *)
Fixpoint mul_pairwise (a factors : list num) : list num :=
  match a, factors with
  | x :: a', f :: factors' => amul x f :: mul_pairwise a' factors'
  | _, _ => []
  end.

Definition np_mul (a factors : list num) : M (list num) :=
  if Nat.eqb (List.length a) (List.length factors)
  then ret (mul_pairwise a factors)
  else match a, factors with
       | [x], _ => ret (map (fun f => amul x f) factors)
       | _, [f] => ret (map (fun x => amul x f) a)
       | _, _ => raise (ValueError "operands could not be broadcast together")
       end.

(** [denormalize(a, *factors)] *)
Definition denormalize (a : list num) (factors : list num) : M (list num) :=
  let precision := 3%nat in
  let factors := match factors with [] => [of_int 1] | _ => factors end in
  let factors :=
    (factors ++ repeat (hd (of_int 1) factors)
                       (List.length a - List.length factors))%list in
  denormalized_values <- np_mul a factors ;;
  ret (map (np_round precision) denormalized_values).

(** [normalize(a, b, c, factor)] *)
Definition normalize (a b c factor : num) : list num :=
  map (fun x => adiv x factor) [a; b; c].
End Normalization.

(** The arithmetic the script runs on. *)
Definition two52 : float := 0x1p+52%float.

(** Nearest integer, ties to even, keeping the sign of a zero result. *)
Definition float_rint (x : float) : float :=
  let a := PrimFloat.abs x in
  if PrimFloat.ltb a two52 then
    let r := ((a + two52) - two52)%float in
    match PrimFloat.classify x with
    | NNormal | NSubn | NZero => PrimFloat.opp r
    | _ => r
    end
  else x.

#[export] Instance float_arith : Arith float := {
  of_int := Z2F;
  amul := PrimFloat.mul;
  adiv := PrimFloat.div;
  rint := float_rint
}.

(** Exact arithmetic on the rationals. *)
Definition Qc_rint (x : Qc) : Qc :=
  let n := Qfloor x in
  let frac := (x - Q2Qc (inject_Z n))%Qc in
  let half := Q2Qc (1 # 2) in
  match (frac ?= half)%Qc with
  | Lt => Q2Qc (inject_Z n)
  | Gt => Q2Qc (inject_Z (n + 1))
  | Eq => if Z.even n then Q2Qc (inject_Z n) else Q2Qc (inject_Z (n + 1))
  end.

#[export] Instance Qc_arith : Arith Qc := {
  of_int := fun z => Q2Qc (inject_Z z);
  amul := Qcmult;
  adiv := Qcdiv;
  rint := Qc_rint
}.

(** ** Python values and dictionaries

    [res] and everything stored in it are trees: the templates are
    literals, [json.loads] returns trees, and [result] stores values it
    has just built.  A dictionary is the list of its items in insertion
    order, with one item per key. *)

(** The keys that occur: strings, [False] (the default of the
    [illuminant] and [observer] parameters) and floats (the wavelengths
    of a recovered spectrum). *)
Inductive pykey : Type :=
| KStr (s : string)
| KFalse
| KNum (f : float).

(** Key equality is Python's [==]: [False == 0.0], and NaN differs from
    itself. *)
Definition key_eqb (a b : pykey) : bool :=
  match a, b with
  | KStr s, KStr t => String.eqb s t
  | KFalse, KFalse => true
  | KFalse, KNum f | KNum f, KFalse => PrimFloat.eqb f 0
  | KNum f, KNum g => PrimFloat.eqb f g
  | _, _ => false
  end.

#[local] Set Warnings "-register-all".
Inductive pyval : Type :=
| VNone
| VBool (b : bool)
| VInt (z : Z)
| VFloat (f : float)
| VStr (s : string)
| VList (l : list pyval)
| VDict (d : list (pykey * pyval))
| VNpInt (z : Z)                (* an instance of [np.integer] *)
| VNpFloat (f : float)          (* an instance of [np.floating] *)
| VArray (l : list pyval)       (* an [np.ndarray] and its elements *)
| VObject (cls : string).       (* any other object *)

Definition dict : Type := list (pykey * pyval).

(** [d.get(k)] *)
Fixpoint dict_lookup (d : dict) (k : pykey) : option pyval :=
  match d with
  | [] => None
  | (k', v') :: d' => if key_eqb k k' then Some v' else dict_lookup d' k
  end.

(** [k in d] *)
Definition dict_mem (d : dict) (k : pykey) : bool :=
  match dict_lookup d k with Some _ => true | None => false end.

(** [d[k] = v]: an existing item keeps its place and its key. *)
Fixpoint dict_set (d : dict) (k : pykey) (v : pyval) : dict :=
  match d with
  | [] => [(k, v)]
  | (k', v') :: d' =>
      if key_eqb k k' then (k', v) :: d' else (k', v') :: dict_set d' k v
  end.

(** [dict(pairs)] *)
Definition py_dict (pairs : list (pykey * pyval)) : dict :=
  fold_left (fun d kv => dict_set d (fst kv) (snd kv)) pairs [].

(** [a | b] on two dicts *)
Definition dict_merge (a b : dict) : dict :=
  fold_left (fun d kv => dict_set d (fst kv) (snd kv)) b a.

(** The keyword arguments [illuminant], [observer] and [cat] of
    [result] are [False] or a string at every call site ([cat] may also
    be [None]). *)
Inductive ctxarg : Type :=
| AFalse
| AStr (s : string).

Definition key_of (a : ctxarg) : pykey :=
  match a with AFalse => KFalse | AStr s => KStr s end.

(** Truth value in [if observer:] and [elif illuminant:]. *)
Definition truthy (a : ctxarg) : bool :=
  match a with
  | AFalse => false
  | AStr s => negb (String.eqb s "")
  end.

(** Outside the fragment the embedding describes: subscripting a list or
    an array that sits where [result] expects a dictionary, and code
    lists that are not lists of strings. *)
Definition unsupported {A : Type} (what : string) : M A :=
  raise (TypeError ("unsupported: " ++ what)).

(** The dictionary a value must be for [k in v], [v[k]] and
    [v[k] = x] with a string key to go through.  Strings, numbers,
    [None] and other objects raise [TypeError] on one of the three. *)
Definition as_dict (v : pyval) : M dict :=
  match v with
  | VDict d => ret d
  | VList _ | VArray _ => unsupported "subscript of a list or array"
  | _ => raise (TypeError "object is not a dictionary")
  end.

(** [d[k]] on a dictionary, for a string key *)
Definition dict_getitem (d : dict) (k : string) : M pyval :=
  match dict_lookup d (KStr k) with
  | Some v => ret v
  | None => raise (KeyError k)
  end.

(** The keys [zip(res[model]["codes"], value)] takes from the template. *)
Fixpoint code_keys (codes : list pyval) : M (list pykey) :=
  match codes with
  | [] => ret []
  | VStr s :: codes' => ks <- code_keys codes' ;; ret (KStr s :: ks)
  | _ :: _ => unsupported "code that is not a string"
  end.

(** The part of [result] that pairs the codes of the template with the
    components of the value:

    [if "codes" in res[model]:]
    [    if not isinstance(value, (list, np.ndarray)): value = [value]]
    [    value = dict(zip(res[model]["codes"], value))] *)
Definition code_value (template : dict) (value : pyval) : M pyval :=
  match dict_lookup template (KStr "codes") with
  | None => ret value
  | Some codes =>
      let components :=
        match value with
        | VList l | VArray l => l
        | _ => [value]
        end in
      match codes with
      | VList cs =>
          ks <- code_keys cs ;;
          ret (VDict (py_dict (combine ks components)))
      | _ => unsupported "codes that are not a list"
      end
  end.

(** [if model not in res: res[model] = {}] *)
Definition ensure_model (res : dict) (model : string) : dict :=
  if negb (dict_mem res (KStr model))
  then dict_set res (KStr model) (VDict [])
  else res.

(** [if k not in d: d[k] = {}] *)
Definition setdefault_empty (d : dict) (k : pykey) : dict :=
  if negb (dict_mem d k) then dict_set d k (VDict []) else d.

(** [d[k] = value] when [cat is None], [d[k][cat] = value] otherwise,
    for a [k] that [d] holds. *)
Definition store_under (d : dict) (k : pykey) (cat : option ctxarg)
  (value : pyval) : M dict :=
  match cat with
  | None => ret (dict_set d k value)
  | Some c =>
      match dict_lookup d k with
      | None => raise (KeyError "")
      | Some inner =>
          inner <- as_dict inner ;;
          ret (dict_set d k (VDict (dict_set inner (key_of c) value)))
      end
  end.

(** [result(model, value, illuminant=False, observer=False, cat=None,
    use_space_separated=False, no_scientific_notation=False)], on the
    global [res], which it returns updated. *)
Definition result (res : dict) (model : string) (value : pyval)
  (illuminant observer : ctxarg) (cat : option ctxarg)
  (use_space_separated no_scientific_notation : bool) : M dict :=
  (* [isinstance(value)] with one argument raises as soon as it is
     evaluated *)
  (if use_space_separated
   then raise (TypeError "isinstance expected 2 arguments, got 1")
   else ret tt) ;;;
  entry <- dict_getitem res model ;;
  template <- as_dict entry ;;
  value <- code_value template value ;;
  let res := ensure_model res model in
  entry <- dict_getitem res model ;;
  m <- as_dict entry ;;
  if truthy observer then
    let m := setdefault_empty m (key_of observer) in
    o <- match dict_lookup m (key_of observer) with
         | Some o => as_dict o
         | None => raise (KeyError "")
         end ;;
    let o := setdefault_empty o (key_of illuminant) in
    o <- store_under o (key_of illuminant) cat value ;;
    ret (dict_set res (KStr model) (VDict (dict_set m (key_of observer) (VDict o))))
  else if truthy illuminant then
    let m := setdefault_empty m (key_of illuminant) in
    m <- store_under m (key_of illuminant) cat value ;;
    ret (dict_set res (KStr model) (VDict m))
  else
    ret (dict_set res (KStr model) (VDict (dict_set m (KStr "None") value))).

(** [v[k1][k2]...] *)
Fixpoint lookup_path (v : pyval) (path : list pykey) : option pyval :=
  match path with
  | [] => Some v
  | k :: path' =>
      match v with
      | VDict d =>
          match dict_lookup d k with
          | Some v' => lookup_path v' path'
          | None => None
          end
      | _ => None
      end
  end.

(** ** JSON serialization

    A document is kept as a tree; the text [json.dumps] renders it to
    (number formatting, escapes, the separators) is not modelled.  A key
    of an object is the dictionary key it was rendered from. *)

Inductive json : Type :=
| JNull
| JBool (b : bool)
| JInt (z : Z)
| JFloat (f : float)
| JStr (s : string)
| JArr (l : list json)
| JObj (items : list (pykey * json)).

Fixpoint mapM {A B : Type} (f : A -> M B) (l : list A) : M (list B) :=
  match l with
  | [] => ret []
  | x :: l' => y <- f x ;; ys <- mapM f l' ;; ret (y :: ys)
  end.

(** [json.JSONEncoder.default(o)] *)
Definition JSONEncoder_default (o : pyval) : M pyval :=
  raise (TypeError "Object is not JSON serializable").

(** [ndarray.tolist()]: NumPy scalars become Python scalars, nested
    arrays nested lists. *)
Fixpoint tolist_item (v : pyval) : pyval :=
  match v with
  | VNpInt z => VInt z
  | VNpFloat f => VFloat f
  | VArray l => VList (map tolist_item l)
  | _ => v
  end.

Definition tolist (l : list pyval) : list pyval := map tolist_item l.

(** [NumpyEncoder.default(o)].  [np.float64] is a subclass of [float];
    the encoder never hands it to [default], and it is a [VFloat]
    here. *)
Definition NumpyEncoder_default (o : pyval) : M pyval :=
  match o with
  | VNpInt z => ret (VInt z)
  | VNpFloat f => ret (VFloat f)
  | VArray l => ret (VList (tolist l))
  | _ => JSONEncoder_default o
  end.

(** The encoder of [json]: native types are encoded directly, anything
    else goes through [default] and the value it returns is encoded in
    turn.  [fuel] bounds the nesting of these calls. *)
Fixpoint encode (default : pyval -> M pyval) (fuel : nat) (o : pyval)
  : M json :=
  match fuel with
  | O => raise (TypeError "maximum recursion depth exceeded")
  | S fuel =>
      match o with
      | VStr s => ret (JStr s)
      | VNone => ret JNull
      | VBool b => ret (JBool b)
      | VInt z => ret (JInt z)
      | VFloat f => ret (JFloat f)
      | VList l => js <- mapM (encode default fuel) l ;; ret (JArr js)
      | VDict d =>
          items <- mapM (fun kv => j <- encode default fuel (snd kv) ;;
                                   ret (fst kv, j)) d ;;
          ret (JObj items)
      | _ => o' <- default o ;; encode default fuel o'
      end
  end.

(** Nesting depth of a value. *)
Fixpoint height (v : pyval) : nat :=
  match v with
  | VList l | VArray l => S (fold_right (fun x n => Nat.max (height x) n) O l)
  | VDict d => S (fold_right (fun kv n => Nat.max (height (snd kv)) n) O d)
  | _ => 1%nat
  end.

(** [json.dumps(o, cls=NumpyEncoder, separators=(",", ":"))] *)
Definition json_dumps (o : pyval) : M json :=
  encode NumpyEncoder_default (2 * height o) o.

(** The reading the documentation gives of the encoder: first convert
    NumPy integers to [int], NumPy floats to [float] and arrays to
    lists, then serialize with the standard encoder. *)
Fixpoint np_to_py (v : pyval) : pyval :=
  match v with
  | VNpInt z => VInt z
  | VNpFloat f => VFloat f
  | VArray l => VList (map np_to_py l)
  | VList l => VList (map np_to_py l)
  | VDict d => VDict (map (fun kv => (fst kv, np_to_py (snd kv))) d)
  | _ => v
  end.

(** The standard encoder, which has no [default] to fall back on. *)
Fixpoint std_encode (o : pyval) : M json :=
  match o with
  | VStr s => ret (JStr s)
  | VNone => ret JNull
  | VBool b => ret (JBool b)
  | VInt z => ret (JInt z)
  | VFloat f => ret (JFloat f)
  | VList l => js <- mapM std_encode l ;; ret (JArr js)
  | VDict d =>
      items <- mapM (fun kv => j <- std_encode (snd kv) ;; ret (fst kv, j)) d ;;
      ret (JObj items)
  | _ => raise (TypeError "Object is not JSON serializable")
  end.

(** ** The templates

    [COLOR_MODELS_TEMPLATES] is filled by one assignment per model; the
    items below are in the order of these assignments.  [T_x] is the
    literal assigned to key [x]. *)

Definition dquote : string := String (ascii_of_nat 34) EmptyString.

Definition T_ACES2065_1 : pyval :=
  VDict
    [(KStr "name", VStr "ACES2065-1");
     (KStr "section", VStr "RGB Color Spaces");
     (KStr "ui_group", VStr "rgb");
     (KStr "description",
       VStr ("Used primarily in cinema for exchange of full fidelity "
             ++ "images and archiving; not recommended for rendering"));
     (KStr "illuminant", VStr "ACES");
     (KStr "observer", VStr "CIE 1931 2 Degree Standard Observer");
     (KStr "labels", VList [VStr "Red"; VStr "Green"; VStr "Blue"]);
     (KStr "codes", VList [VStr "R"; VStr "G"; VStr "B"])].

Definition T_ACEScc : pyval :=
  VDict
    [(KStr "name", VStr "ACEScc");
     (KStr "section", VStr "RGB Color Spaces");
     (KStr "ui_group", VStr "rgb");
     (KStr "description",
       VStr ("Workspace for color correctors, target for ASC-CDL "
             ++ "values created on-set"));
     (KStr "illuminant", VStr "ACES");
     (KStr "observer", VStr "CIE 1931 2 Degree Standard Observer");
     (KStr "labels", VList [VStr "Red"; VStr "Green"; VStr "Blue"]);
     (KStr "codes", VList [VStr "R"; VStr "G"; VStr "B"])].

Definition T_ACEScct : pyval :=
  VDict
    [(KStr "name", VStr "ACEScct");
     (KStr "section", VStr "RGB Color Spaces");
     (KStr "ui_group", VStr "rgb");
     (KStr "description",
       VStr ("Alternative workspace for color correctors, intended to "
             ++ "be transient and internal to software or hardware "
             ++ "systems; not intended for interchange or archiving"));
     (KStr "illuminant", VStr "ACES");
     (KStr "observer", VStr "CIE 1931 2 Degree Standard Observer");
     (KStr "labels", VList [VStr "Red"; VStr "Green"; VStr "Blue"]);
     (KStr "codes", VList [VStr "R"; VStr "G"; VStr "B"])].

Definition T_ACEScg : pyval :=
  VDict
    [(KStr "name", VStr "ACEScg");
     (KStr "section", VStr "RGB Color Spaces");
     (KStr "ui_group", VStr "rgb");
     (KStr "description",
       VStr ("Workspace for painting/compositing applications that "
             ++ "don't support ACES2065-1 or ACEScc"));
     (KStr "illuminant", VStr "ACES");
     (KStr "observer", VStr "CIE 1931 2 Degree Standard Observer");
     (KStr "labels", VList [VStr "Red"; VStr "Green"; VStr "Blue"]);
     (KStr "codes", VList [VStr "R"; VStr "G"; VStr "B"])].

Definition T_ACESproxy : pyval :=
  VDict
    [(KStr "name", VStr "ACESproxy");
     (KStr "section", VStr "RGB Color Spaces");
     (KStr "ui_group", VStr "rgb");
     (KStr "description",
       VStr ("A lightweight encoding for transmission over HD-SDI (or "
             ++ "other production transmission schemes), on-set look "
             ++ "management. Not intended to be stored or used in "
             ++ "production imagery"));
     (KStr "illuminant", VStr "ACES");
     (KStr "observer", VStr "CIE 1931 2 Degree Standard Observer");
     (KStr "labels", VList [VStr "Red"; VStr "Green"; VStr "Blue"]);
     (KStr "codes", VList [VStr "R"; VStr "G"; VStr "B"])].

Definition T_ARRI_Wide_Gamut_3 : pyval :=
  VDict
    [(KStr "name", VStr "ARRI Wide Gamut 3 / LogCv3");
     (KStr "section", VStr "RGB Color Spaces");
     (KStr "ui_group", VStr "rgb");
     (KStr "description",
       VStr ("Based on virtual primaries optimized for the encoding of "
             ++ "the color data generated by ARRI camera systems, often "
             ++ "referred to as LogC3"));
     (KStr "illuminant", VStr "D65");
     (KStr "observer", VStr "CIE 1931 2 Degree Standard Observer");
     (KStr "labels", VList [VStr "Red"; VStr "Green"; VStr "Blue"]);
     (KStr "codes", VList [VStr "R"; VStr "G"; VStr "B"])].

Definition T_ARRI_Wide_Gamut_4 : pyval :=
  VDict
    [(KStr "name", VStr "ARRI Wide Gamut 4 / LogC4");
     (KStr "section", VStr "RGB Color Spaces");
     (KStr "ui_group", VStr "rgb");
     (KStr "description",
       VStr ("Sometimes referred to as LogC4, this space provides the "
             ++ "encoding used for media from the ARRI ALEXA 35"));
     (KStr "illuminant", VStr "D65");
     (KStr "observer", VStr "CIE 1931 2 Degree Standard Observer");
     (KStr "labels", VList [VStr "Red"; VStr "Green"; VStr "Blue"]);
     (KStr "codes", VList [VStr "R"; VStr "G"; VStr "B"])].

Definition T_Adobe_RGB_1998 : pyval :=
  VDict
    [(KStr "name", VStr "A98 RGB");
     (KStr "section", VStr "RGB Color Spaces");
     (KStr "ui_group", VStr "rgb");
     (KStr "description",
       VStr ("Originally defined to meet the demands for an RGB "
             ++ "working space suited for print production"));
     (KStr "illuminant", VStr "D65");
     (KStr "observer", VStr "CIE 1931 2 Degree Standard Observer");
     (KStr "labels", VList [VStr "Red"; VStr "Green"; VStr "Blue"]);
     (KStr "codes", VList [VStr "R"; VStr "G"; VStr "B"])].

Definition T_Adobe_Wide_Gamut_RGB : pyval :=
  VDict
    [(KStr "name", VStr "Adobe Wide Gamut RGB");
     (KStr "section", VStr "RGB Color Spaces");
     (KStr "ui_group", VStr "rgb");
     (KStr "description",
       VStr ("Offers a large gamut by using pure spectral primary "
             ++ "colors; covers 77.6% of visible colors in CIELAB"));
     (KStr "illuminant", VStr "D50");
     (KStr "observer", VStr "CIE 1931 2 Degree Standard Observer");
     (KStr "labels", VList [VStr "Red"; VStr "Green"; VStr "Blue"]);
     (KStr "codes", VList [VStr "R"; VStr "G"; VStr "B"])].

Definition T_Apple_RGB : pyval :=
  VDict
    [(KStr "name", VStr "Apple RGB");
     (KStr "section", VStr "RGB Color Spaces");
     (KStr "ui_group", VStr "rgb");
     (KStr "description",
       VStr ("Describes the characteristics of a legacy Apple monitor, "
             ++ "used for press workflows before the widespread adoption "
             ++ "of color management"));
     (KStr "illuminant", VStr "D65");
     (KStr "observer", VStr "CIE 1931 2 Degree Standard Observer");
     (KStr "labels", VList [VStr "Red"; VStr "Green"; VStr "Blue"]);
     (KStr "codes", VList [VStr "R"; VStr "G"; VStr "B"])].

Definition T_Best_RGB : pyval :=
  VDict
    [(KStr "name", VStr "Best RGB");
     (KStr "section", VStr "RGB Color Spaces");
     (KStr "ui_group", VStr "rgb");
     (KStr "description",
       VStr ("Almost identical to Don RGB 4 except for a modified red "
             ++ "coordinate that helps encompass the reds and magentas in "
             ++ "Fujichrome Velvia, and a slight increase in green "
             ++ "saturation; created by Don Hutcheson at HutchColor"));
     (KStr "illuminant", VStr "D50");
     (KStr "observer", VStr "CIE 1931 2 Degree Standard Observer");
     (KStr "labels", VList [VStr "Red"; VStr "Green"; VStr "Blue"]);
     (KStr "codes", VList [VStr "R"; VStr "G"; VStr "B"])].

Definition T_Beta_RGB : pyval :=
  VDict
    [(KStr "name", VStr "Beta RGB");
     (KStr "section", VStr "RGB Color Spaces");
     (KStr "ui_group", VStr "rgb");
     (KStr "description",
       VStr ("Designed by Bruce Lindbloom as an optimized capture, "
             ++ "archiving and editing space for high-end digital imaging "
             ++ "applications"));
     (KStr "illuminant", VStr "D50");
     (KStr "observer", VStr "CIE 1931 2 Degree Standard Observer");
     (KStr "labels", VList [VStr "Red"; VStr "Green"; VStr "Blue"]);
     (KStr "codes", VList [VStr "R"; VStr "G"; VStr "B"])].

Definition T_Blackmagic_Wide_Gamut : pyval :=
  VDict
    [(KStr "name", VStr "Blackmagic Wide Gamut");
     (KStr "section", VStr "RGB Color Spaces");
     (KStr "ui_group", VStr "rgb");
     (KStr "description",
       VStr ("A custom non-linear color space created by Blackmagic "
             ++ "Design to preserve maximum color data and dynamic range"));
     (KStr "illuminant", VStr "Blackmagic Wide Gamut");
     (KStr "observer", VStr "CIE 1931 2 Degree Standard Observer");
     (KStr "labels", VList [VStr "Red"; VStr "Green"; VStr "Blue"]);
     (KStr "codes", VList [VStr "R"; VStr "G"; VStr "B"])].

Definition T_CIE_RGB : pyval :=
  VDict
    [(KStr "name", VStr "CIE RGB");
     (KStr "section", VStr "CIE Fundamentals");
     (KStr "ui_group", VStr "cie");
     (KStr "description",
       VStr ("Created by the CIE in 1931, leveraging the results of a "
             ++ "series of experiments done in the late 1920s"));
     (KStr "illuminant", VStr "E");
     (KStr "observer", VStr "CIE 1931 2 Degree Standard Observer");
     (KStr "labels", VList [VStr "Red"; VStr "Green"; VStr "Blue"]);
     (KStr "codes", VList [VStr "R"; VStr "G"; VStr "B"])].

Definition T_Cinema_Gamut : pyval :=
  VDict
    [(KStr "name", VStr "Canon Cinema Gamut");
     (KStr "section", VStr "RGB Color Spaces");
     (KStr "ui_group", VStr "rgb");
     (KStr "description",
       VStr ("Cinema Gamut is a set of primaries specified by Canon, "
             ++ "typically paired with the Canon Log 2 or Canon Log 3 "
             ++ "curve"));
     (KStr "illuminant", VStr "D65");
     (KStr "observer", VStr "CIE 1931 2 Degree Standard Observer");
     (KStr "labels", VList [VStr "Red"; VStr "Green"; VStr "Blue"]);
     (KStr "codes", VList [VStr "R"; VStr "G"; VStr "B"])].

Definition T_ColorMatch_RGB : pyval :=
  VDict
    [(KStr "name", VStr "ColorMatch RGB");
     (KStr "section", VStr "RGB Color Spaces");
     (KStr "ui_group", VStr "rgb");
     (KStr "description",
       VStr ("A legacy space created by Radius to work with their "
             ++ "PressView displays"));
     (KStr "illuminant", VStr "D50");
     (KStr "observer", VStr "CIE 1931 2 Degree Standard Observer");
     (KStr "labels", VList [VStr "Red"; VStr "Green"; VStr "Blue"]);
     (KStr "codes", VList [VStr "R"; VStr "G"; VStr "B"])].

Definition T_DCDM_XYZ : pyval :=
  VDict
    [(KStr "name", VStr "DCDM XYZ");
     (KStr "section", VStr "RGB Color Spaces");
     (KStr "ui_group", VStr "rgb");
     (KStr "description",
       VStr ("Digital Cinema Distribution Master [DCDM] was devised by "
             ++ "Digital Cinema Initiatives, LLC (DCI) for the purpose of "
             ++ "exchanging content to encoding systems, as well as to "
             ++ "the Digital Cinema playback system"));
     (KStr "illuminant", VStr "E");
     (KStr "observer", VStr "CIE 1931 2 Degree Standard Observer");
     (KStr "labels", VList [VStr "Red"; VStr "Green"; VStr "Blue"]);
     (KStr "codes", VList [VStr "R"; VStr "G"; VStr "B"])].

Definition T_DCI_P3 : pyval :=
  VDict
    [(KStr "name", VStr "DCI-P3");
     (KStr "section", VStr "RGB Color Spaces");
     (KStr "ui_group", VStr "rgb");
     (KStr "description",
       VStr ("First defined as part of the Digital Cinema Initiative "
             ++ "in 2005 for digital motion picture distribution"));
     (KStr "illuminant", VStr "DCI-P3");
     (KStr "observer", VStr "CIE 1931 2 Degree Standard Observer");
     (KStr "labels", VList [VStr "Red"; VStr "Green"; VStr "Blue"]);
     (KStr "codes", VList [VStr "R"; VStr "G"; VStr "B"])].

Definition T_DCI_P3_P : pyval :=
  VDict
    [(KStr "name", VStr "DCI-P3+");
     (KStr "section", VStr "RGB Color Spaces");
     (KStr "ui_group", VStr "rgb");
     (KStr "description", VStr "An expanded gamut version of DCI-P3");
     (KStr "illuminant", VStr "DCI-P3");
     (KStr "observer", VStr "CIE 1931 2 Degree Standard Observer");
     (KStr "labels", VList [VStr "Red"; VStr "Green"; VStr "Blue"]);
     (KStr "codes", VList [VStr "R"; VStr "G"; VStr "B"])].

Definition T_DJI_D_Gamut : pyval :=
  VDict
    [(KStr "name", VStr "DJI D-Gamut");
     (KStr "section", VStr "RGB Color Spaces");
     (KStr "ui_group", VStr "rgb");
     (KStr "description",
       VStr ("Designed to encompass the capabilities of the DJI "
             ++ "Zenmuse sensor, while simultaneously providing an ideal "
             ++ "starting point for color grading"));
     (KStr "illuminant", VStr "D65");
     (KStr "observer", VStr "CIE 1931 2 Degree Standard Observer");
     (KStr "labels", VList [VStr "Red"; VStr "Green"; VStr "Blue"]);
     (KStr "codes", VList [VStr "R"; VStr "G"; VStr "B"])].

Definition T_DRAGONcolor : pyval :=
  VDict
    [(KStr "name", VStr "DRAGONcolor");
     (KStr "section", VStr "RGB Color Spaces");
     (KStr "ui_group", VStr "rgb");
     (KStr "description",
       VStr ("Acts as a color engine that converts between the "
             ++ "camera's native gamut and monitor RGB, which is assumed "
             ++ "to be close to Rec. 709, from RED"));
     (KStr "illuminant", VStr "D65");
     (KStr "observer", VStr "CIE 1931 2 Degree Standard Observer");
     (KStr "labels", VList [VStr "Red"; VStr "Green"; VStr "Blue"]);
     (KStr "codes", VList [VStr "R"; VStr "G"; VStr "B"])].

Definition T_DRAGONcolor2 : pyval :=
  VDict
    [(KStr "name", VStr "DRAGONcolor2");
     (KStr "section", VStr "RGB Color Spaces");
     (KStr "ui_group", VStr "rgb");
     (KStr "description", VStr "A RED color space evolution of DRAGONcolor");
     (KStr "illuminant", VStr "D65");
     (KStr "observer", VStr "CIE 1931 2 Degree Standard Observer");
     (KStr "labels", VList [VStr "Red"; VStr "Green"; VStr "Blue"]);
     (KStr "codes", VList [VStr "R"; VStr "G"; VStr "B"])].

Definition T_DaVinci_Wide_Gamut : pyval :=
  VDict
    [(KStr "name", VStr "DaVinci Wide Gamut");
     (KStr "section", VStr "RGB Color Spaces");
     (KStr "ui_group", VStr "rgb");
     (KStr "description",
       VStr ("DWG is designed to accommodate the vast majority of "
             ++ "colors that can be captured using the latest cameras and "
             ++ "capture devices; it facilitates the storage and "
             ++ "manipulation of intermediate image data in modern "
             ++ "production pipelines"));
     (KStr "illuminant", VStr "D65");
     (KStr "observer", VStr "CIE 1931 2 Degree Standard Observer");
     (KStr "labels", VList [VStr "Red"; VStr "Green"; VStr "Blue"]);
     (KStr "codes", VList [VStr "R"; VStr "G"; VStr "B"])].

Definition T_Display_P3 : pyval :=
  VDict
    [(KStr "name", VStr "Display P3");
     (KStr "section", VStr "RGB Color Spaces");
     (KStr "ui_group", VStr "rgb");
     (KStr "description",
       VStr ("Display P3 is a variant of the DCI-P3 color space, "
             ++ "advanced by Apple to better characterize the wider gamut "
             ++ "possible on contemporary devices"));
     (KStr "illuminant", VStr "D65");
     (KStr "observer", VStr "CIE 1931 2 Degree Standard Observer");
     (KStr "labels", VList [VStr "Red"; VStr "Green"; VStr "Blue"]);
     (KStr "codes", VList [VStr "R"; VStr "G"; VStr "B"])].

Definition T_Don_RGB_4 : pyval :=
  VDict
    [(KStr "name", VStr "Don RGB 4");
     (KStr "section", VStr "RGB Color Spaces");
     (KStr "ui_group", VStr "rgb");
     (KStr "description",
       VStr ("Wide gamut workspace with a 2.2 gamma. Captures the "
             ++ "Ektachrome color gamut with virtually no clipping, from "
             ++ "Don Hutcheson at HutchColor"));
     (KStr "illuminant", VStr "D50");
     (KStr "observer", VStr "CIE 1931 2 Degree Standard Observer");
     (KStr "labels", VList [VStr "Red"; VStr "Green"; VStr "Blue"]);
     (KStr "codes", VList [VStr "R"; VStr "G"; VStr "B"])].

Definition T_EBU_Tech_3213_E : pyval :=
  VDict
    [(KStr "name", VStr "EBU Tech. 3213-E");
     (KStr "section", VStr "RGB Color Spaces");
     (KStr "ui_group", VStr "rgb");
     (KStr "description",
       VStr ("In 1975, the European Broadcasting Union recommended "
             ++ "this space for studio monitors for broadcasting "
             ++ "organizations using PAL or SECAM signals"));
     (KStr "illuminant", VStr "D65");
     (KStr "observer", VStr "CIE 1931 2 Degree Standard Observer");
     (KStr "labels", VList [VStr "Red"; VStr "Green"; VStr "Blue"]);
     (KStr "codes", VList [VStr "R"; VStr "G"; VStr "B"])].

Definition T_ECI_RGB_v2 : pyval :=
  VDict
    [(KStr "name", VStr "ECI RGB v2");
     (KStr "section", VStr "RGB Color Spaces");
     (KStr "ui_group", VStr "rgb");
     (KStr "description",
       VStr ("The Metamorfoze Preservation Imaging Guidelines promotes "
             ++ "use of this European Color Initiative space - and "
             ++ "requires it at their strictest level of compliance"));
     (KStr "illuminant", VStr "D50");
     (KStr "observer", VStr "CIE 1931 2 Degree Standard Observer");
     (KStr "labels", VList [VStr "Red"; VStr "Green"; VStr "Blue"]);
     (KStr "codes", VList [VStr "R"; VStr "G"; VStr "B"])].

Definition T_ERIMM_RGB : pyval :=
  VDict
    [(KStr "name", VStr "ERIMM RGB");
     (KStr "section", VStr "RGB Color Spaces");
     (KStr "ui_group", VStr "rgb");
     (KStr "description",
       VStr ("Extended Reference Input Medium Metric, intended to "
             ++ "encode extended dynamic range scene-referred images"));
     (KStr "illuminant", VStr "D50");
     (KStr "observer", VStr "CIE 1931 2 Degree Standard Observer");
     (KStr "labels", VList [VStr "Red"; VStr "Green"; VStr "Blue"]);
     (KStr "codes", VList [VStr "R"; VStr "G"; VStr "B"])].

Definition T_Ekta_Space_PS_5 : pyval :=
  VDict
    [(KStr "name", VStr "Ekta Space PS 5");
     (KStr "section", VStr "RGB Color Spaces");
     (KStr "ui_group", VStr "rgb");
     (KStr "description",
       VStr ("Developed by Joseph Holmes for high quality storage of "
             ++ "image data from scans of transparencies"));
     (KStr "illuminant", VStr "D50");
     (KStr "observer", VStr "CIE 1931 2 Degree Standard Observer");
     (KStr "labels", VList [VStr "Red"; VStr "Green"; VStr "Blue"]);
     (KStr "codes", VList [VStr "R"; VStr "G"; VStr "B"])].

Definition T_F_Gamut : pyval :=
  VDict
    [(KStr "name", VStr "Fujifilm F-Log");
     (KStr "section", VStr "RGB Color Spaces");
     (KStr "ui_group", VStr "rgb");
     (KStr "description",
       VStr ("The gamut of Fujifilm's F-log space complies with ITU-R "
             ++ "BT.2020"));
     (KStr "illuminant", VStr "D65");
     (KStr "observer", VStr "CIE 1931 2 Degree Standard Observer");
     (KStr "labels", VList [VStr "Red"; VStr "Green"; VStr "Blue"]);
     (KStr "codes", VList [VStr "R"; VStr "G"; VStr "B"])].

Definition T_FilmLight_E_Gamut : pyval :=
  VDict
    [(KStr "name", VStr "FilmLight T-Log / E-Gamut");
     (KStr "section", VStr "RGB Color Spaces");
     (KStr "ui_group", VStr "rgb");
     (KStr "description",
       VStr ("The gamut of this working space is designed to cover "
             ++ "most colors produced by contemporary digital cinema "
             ++ "cameras"));
     (KStr "illuminant", VStr "D65");
     (KStr "observer", VStr "CIE 1931 2 Degree Standard Observer");
     (KStr "labels", VList [VStr "Red"; VStr "Green"; VStr "Blue"]);
     (KStr "codes", VList [VStr "R"; VStr "G"; VStr "B"])].

Definition T_ITU_R_BT_2020 : pyval :=
  VDict
    [(KStr "name", VStr "ITU-R BT.2020");
     (KStr "section", VStr "RGB Color Spaces");
     (KStr "ui_group", VStr "rgb");
     (KStr "description",
       VStr ("Often referred to simply as Rec.2020, this space "
             ++ "provides parameter values for ultra-high definition "
             ++ "television (UHDTV)"));
     (KStr "illuminant", VStr "D65");
     (KStr "observer", VStr "CIE 1931 2 Degree Standard Observer");
     (KStr "labels", VList [VStr "Red"; VStr "Green"; VStr "Blue"]);
     (KStr "codes", VList [VStr "R"; VStr "G"; VStr "B"])].

Definition T_ITU_R_BT_470_525 : pyval :=
  VDict
    [(KStr "name", VStr "ITU-R BT.470 - 525");
     (KStr "section", VStr "RGB Color Spaces");
     (KStr "ui_group", VStr "rgb");
     (KStr "description",
       VStr ("ITU-R BT.470 - 525 was recommended to define a standard "
             ++ "for conventional television signals"));
     (KStr "illuminant", VStr "C");
     (KStr "observer", VStr "CIE 1931 2 Degree Standard Observer");
     (KStr "labels", VList [VStr "Red"; VStr "Green"; VStr "Blue"]);
     (KStr "codes", VList [VStr "R"; VStr "G"; VStr "B"])].

Definition T_ITU_R_BT_470_625 : pyval :=
  VDict
    [(KStr "name", VStr "ITU-R BT.470 - 625");
     (KStr "section", VStr "RGB Color Spaces");
     (KStr "ui_group", VStr "rgb");
     (KStr "description",
       VStr ("ITU-R BT.470 - 525 was recommended to define a standard "
             ++ "for conventional television signals"));
     (KStr "illuminant", VStr "D65");
     (KStr "observer", VStr "CIE 1931 2 Degree Standard Observer");
     (KStr "labels", VList [VStr "Red"; VStr "Green"; VStr "Blue"]);
     (KStr "codes", VList [VStr "R"; VStr "G"; VStr "B"])].

Definition T_ITU_R_BT_709 : pyval :=
  VDict
    [(KStr "name", VStr "ITU-R BT.709");
     (KStr "section", VStr "RGB Color Spaces");
     (KStr "ui_group", VStr "rgb");
     (KStr "description",
       VStr ("Standard developed by the ITU for image encoding and "
             ++ "signal characteristics of high-definition television"));
     (KStr "illuminant", VStr "D65");
     (KStr "observer", VStr "CIE 1931 2 Degree Standard Observer");
     (KStr "labels", VList [VStr "Red"; VStr "Green"; VStr "Blue"]);
     (KStr "codes", VList [VStr "R"; VStr "G"; VStr "B"])].

Definition T_ITU_T_H_273_22_Unspecified : pyval :=
  VDict
    [(KStr "name", VStr "ITU-T H.273 - 22 Unspecified");
     (KStr "section", VStr "RGB Color Spaces");
     (KStr "ui_group", VStr "rgb");
     (KStr "description",
       VStr ("Recommendation ITU-T H.273 row 22 color space as given "
             ++ "in Table 2 - "
             ++ dquote
             ++ "Interpretation of colour primaries (ColourPrimaries)"
             ++ dquote
             ++ " value"));
     (KStr "illuminant", VStr "D65");
     (KStr "observer", VStr "CIE 1931 2 Degree Standard Observer");
     (KStr "labels", VList [VStr "Red"; VStr "Green"; VStr "Blue"]);
     (KStr "codes", VList [VStr "R"; VStr "G"; VStr "B"])].

Definition T_ITU_T_H_273_Generic_Film : pyval :=
  VDict
    [(KStr "name", VStr "ITU-T H.273 - Generic Film");
     (KStr "section", VStr "RGB Color Spaces");
     (KStr "ui_group", VStr "rgb");
     (KStr "description",
       VStr ("Recommendation ITU-T H.273 Generic Film (color filters "
             ++ "using illuminant C) color space"));
     (KStr "illuminant", VStr "C");
     (KStr "observer", VStr "CIE 1931 2 Degree Standard Observer");
     (KStr "labels", VList [VStr "Red"; VStr "Green"; VStr "Blue"]);
     (KStr "codes", VList [VStr "R"; VStr "G"; VStr "B"])].

Definition T_Max_RGB : pyval :=
  VDict
    [(KStr "name", VStr "Max RGB");
     (KStr "section", VStr "RGB Color Spaces");
     (KStr "ui_group", VStr "rgb");
     (KStr "description",
       VStr ("A wide gamut color space with colors outside the xyY "
             ++ "limits, created by Don Hutcheson at HutchColor"));
     (KStr "illuminant", VStr "D50");
     (KStr "observer", VStr "CIE 1931 2 Degree Standard Observer");
     (KStr "labels", VList [VStr "Red"; VStr "Green"; VStr "Blue"]);
     (KStr "codes", VList [VStr "R"; VStr "G"; VStr "B"])].

Definition T_N_Gamut : pyval :=
  VDict
    [(KStr "name", VStr "N-Gamut");
     (KStr "section", VStr "RGB Color Spaces");
     (KStr "ui_group", VStr "rgb");
     (KStr "description", VStr EmptyString);
     (KStr "illuminant", VStr "D65");
     (KStr "observer", VStr "CIE 1931 2 Degree Standard Observer");
     (KStr "labels", VList [VStr "Red"; VStr "Green"; VStr "Blue"]);
     (KStr "codes", VList [VStr "R"; VStr "G"; VStr "B"])].

Definition T_NTSC_1953 : pyval :=
  VDict
    [(KStr "name", VStr "NTSC (1953)");
     (KStr "section", VStr "RGB Color Spaces");
     (KStr "ui_group", VStr "rgb");
     (KStr "description",
       VStr ("The original 1953 color NTSC specification, still part "
             ++ "of the United States Code of Federal Regulations"));
     (KStr "illuminant", VStr "C");
     (KStr "observer", VStr "CIE 1931 2 Degree Standard Observer");
     (KStr "labels", VList [VStr "Red"; VStr "Green"; VStr "Blue"]);
     (KStr "codes", VList [VStr "R"; VStr "G"; VStr "B"])].

Definition T_NTSC_1987 : pyval :=
  VDict
    [(KStr "name", VStr "NTSC (1987)");
     (KStr "section", VStr "RGB Color Spaces");
     (KStr "ui_group", VStr "rgb");
     (KStr "description",
       VStr ("In 1987, SMPTE adopted the SMPTE C (Conrac) phosphors "
             ++ "for general use, defining this space"));
     (KStr "illuminant", VStr "D65");
     (KStr "observer", VStr "CIE 1931 2 Degree Standard Observer");
     (KStr "labels", VList [VStr "Red"; VStr "Green"; VStr "Blue"]);
     (KStr "codes", VList [VStr "R"; VStr "G"; VStr "B"])].

Definition T_P3_D65 : pyval :=
  VDict
    [(KStr "name", VStr "P3-D65");
     (KStr "section", VStr "RGB Color Spaces");
     (KStr "ui_group", VStr "rgb");
     (KStr "description", VStr EmptyString);
     (KStr "illuminant", VStr "D65");
     (KStr "observer", VStr "CIE 1931 2 Degree Standard Observer");
     (KStr "labels", VList [VStr "Red"; VStr "Green"; VStr "Blue"]);
     (KStr "codes", VList [VStr "R"; VStr "G"; VStr "B"])].

Definition T_Pal_Secam : pyval :=
  VDict
    [(KStr "name", VStr "PAL/SECAM");
     (KStr "section", VStr "RGB Color Spaces");
     (KStr "ui_group", VStr "rgb");
     (KStr "description", VStr "Defined in ITU-R BT.470-6, in 1998");
     (KStr "illuminant", VStr "D65");
     (KStr "observer", VStr "CIE 1931 2 Degree Standard Observer");
     (KStr "labels", VList [VStr "Red"; VStr "Green"; VStr "Blue"]);
     (KStr "codes", VList [VStr "R"; VStr "G"; VStr "B"])].

Definition T_PLASA_ANSI_E1_54 : pyval :=
  VDict
    [(KStr "name", VStr "PLASA ANSI E1.54");
     (KStr "section", VStr "RGB Color Spaces");
     (KStr "ui_group", VStr "rgb");
     (KStr "description",
       VStr ("A standard codified by the Professional Lighting & Sound "
             ++ "Association (PLASA) and ANSI for the purpose of "
             ++ "facilitating communication between lighting controllers "
             ++ "and color-changing luminaires in entertainment"));
     (KStr "illuminant", VStr "all");
     (KStr "observer", VStr "CIE 1931 2 Degree Standard Observer");
     (KStr "labels", VList [VStr "Red"; VStr "Green"; VStr "Blue"]);
     (KStr "codes", VList [VStr "R"; VStr "G"; VStr "B"])].

Definition T_ProPhoto_RGB : pyval :=
  VDict
    [(KStr "name", VStr "ProPhoto RGB");
     (KStr "section", VStr "RGB Color Spaces");
     (KStr "ui_group", VStr "rgb");
     (KStr "description",
       VStr ("This space, invented by Kodak, offers an especially "
             ++ "large gamut. 13% of its gamut is comprised of imaginary "
             ++ "colors. Also known as ROMM RGB"));
     (KStr "illuminant", VStr "D50");
     (KStr "observer", VStr "CIE 1931 2 Degree Standard Observer");
     (KStr "labels", VList [VStr "Red"; VStr "Green"; VStr "Blue"]);
     (KStr "codes", VList [VStr "R"; VStr "G"; VStr "B"])].

Definition T_Protune_Native : pyval :=
  VDict
    [(KStr "name", VStr "Protune Native");
     (KStr "section", VStr "RGB Color Spaces");
     (KStr "ui_group", VStr "rgb");
     (KStr "description",
       VStr "Native color space in GoPro Protune settings");
     (KStr "illuminant", VStr "D65");
     (KStr "observer", VStr "CIE 1931 2 Degree Standard Observer");
     (KStr "labels", VList [VStr "Red"; VStr "Green"; VStr "Blue"]);
     (KStr "codes", VList [VStr "R"; VStr "G"; VStr "B"])].

Definition T_REDWideGamutRGB : pyval :=
  VDict
    [(KStr "name", VStr "REDWideGamutRGB");
     (KStr "section", VStr "RGB Color Spaces");
     (KStr "ui_group", VStr "rgb");
     (KStr "description", VStr EmptyString);
     (KStr "illuminant", VStr "D65");
     (KStr "observer", VStr "CIE 1931 2 Degree Standard Observer");
     (KStr "labels", VList [VStr "Red"; VStr "Green"; VStr "Blue"]);
     (KStr "codes", VList [VStr "R"; VStr "G"; VStr "B"])].

Definition T_REDcolor : pyval :=
  VDict
    [(KStr "name", VStr "REDcolor");
     (KStr "section", VStr "RGB Color Spaces");
     (KStr "ui_group", VStr "rgb");
     (KStr "description", VStr EmptyString);
     (KStr "illuminant", VStr "D65");
     (KStr "observer", VStr "CIE 1931 2 Degree Standard Observer");
     (KStr "labels", VList [VStr "Red"; VStr "Green"; VStr "Blue"]);
     (KStr "codes", VList [VStr "R"; VStr "G"; VStr "B"])].

Definition T_REDcolor2 : pyval :=
  VDict
    [(KStr "name", VStr "REDcolor2");
     (KStr "section", VStr "RGB Color Spaces");
     (KStr "ui_group", VStr "rgb");
     (KStr "description", VStr EmptyString);
     (KStr "illuminant", VStr "D65");
     (KStr "observer", VStr "CIE 1931 2 Degree Standard Observer");
     (KStr "labels", VList [VStr "Red"; VStr "Green"; VStr "Blue"]);
     (KStr "codes", VList [VStr "R"; VStr "G"; VStr "B"])].

Definition T_REDcolor3 : pyval :=
  VDict
    [(KStr "name", VStr "REDcolor3");
     (KStr "section", VStr "RGB Color Spaces");
     (KStr "ui_group", VStr "rgb");
     (KStr "description", VStr EmptyString);
     (KStr "illuminant", VStr "D65");
     (KStr "observer", VStr "CIE 1931 2 Degree Standard Observer");
     (KStr "labels", VList [VStr "Red"; VStr "Green"; VStr "Blue"]);
     (KStr "codes", VList [VStr "R"; VStr "G"; VStr "B"])].

Definition T_REDcolor4 : pyval :=
  VDict
    [(KStr "name", VStr "REDcolor4");
     (KStr "section", VStr "RGB Color Spaces");
     (KStr "ui_group", VStr "rgb");
     (KStr "description", VStr EmptyString);
     (KStr "illuminant", VStr "D65");
     (KStr "observer", VStr "CIE 1931 2 Degree Standard Observer");
     (KStr "labels", VList [VStr "Red"; VStr "Green"; VStr "Blue"]);
     (KStr "codes", VList [VStr "R"; VStr "G"; VStr "B"])].

Definition T_RIMM_RGB : pyval :=
  VDict
    [(KStr "name", VStr "RIMM RGB");
     (KStr "section", VStr "RGB Color Spaces");
     (KStr "ui_group", VStr "rgb");
     (KStr "description",
       VStr ("Reference Input Medium Metric, intended to encode "
             ++ "standard dynamic range scene-referred images"));
     (KStr "illuminant", VStr "D50");
     (KStr "observer", VStr "CIE 1931 2 Degree Standard Observer");
     (KStr "labels", VList [VStr "Red"; VStr "Green"; VStr "Blue"]);
     (KStr "codes", VList [VStr "R"; VStr "G"; VStr "B"])].

Definition T_ROMM_RGB : pyval :=
  VDict
    [(KStr "name", VStr "ROMM RGB");
     (KStr "section", VStr "RGB Color Spaces");
     (KStr "ui_group", VStr "rgb");
     (KStr "description",
       VStr ("Reference Output Medium Metric RGB, invented by Kodak, "
             ++ "offers an especially large gamut. 13% of its gamut is "
             ++ "comprised of imaginary colors. Also known as ProPhoto RGB"));
     (KStr "illuminant", VStr "D50");
     (KStr "observer", VStr "CIE 1931 2 Degree Standard Observer");
     (KStr "labels", VList [VStr "Red"; VStr "Green"; VStr "Blue"]);
     (KStr "codes", VList [VStr "R"; VStr "G"; VStr "B"])].

Definition T_Russell_RGB : pyval :=
  VDict
    [(KStr "name", VStr "Russell RGB");
     (KStr "section", VStr "RGB Color Spaces");
     (KStr "ui_group", VStr "rgb");
     (KStr "description",
       VStr ("Russell Cottrell extended Beta RGB into the cyans and "
             ++ "blues to accommodate printers with many pigment inks, "
             ++ "such as the imagePROGRAF iPF6300 and PIXMA Pro9500 Mark "
             ++ "II"));
     (KStr "illuminant", VStr "D55");
     (KStr "observer", VStr "CIE 1931 2 Degree Standard Observer");
     (KStr "labels", VList [VStr "Red"; VStr "Green"; VStr "Blue"]);
     (KStr "codes", VList [VStr "R"; VStr "G"; VStr "B"])].

Definition T_S_Gamut : pyval :=
  VDict
    [(KStr "name", VStr "S-Gamut");
     (KStr "section", VStr "RGB Color Spaces");
     (KStr "ui_group", VStr "rgb");
     (KStr "description", VStr EmptyString);
     (KStr "illuminant", VStr "D65");
     (KStr "observer", VStr "CIE 1931 2 Degree Standard Observer");
     (KStr "labels", VList [VStr "Red"; VStr "Green"; VStr "Blue"]);
     (KStr "codes", VList [VStr "R"; VStr "G"; VStr "B"])].

Definition T_S_Gamut3 : pyval :=
  VDict
    [(KStr "name", VStr "S-Gamut3");
     (KStr "section", VStr "RGB Color Spaces");
     (KStr "ui_group", VStr "rgb");
     (KStr "description", VStr EmptyString);
     (KStr "illuminant", VStr "D65");
     (KStr "observer", VStr "CIE 1931 2 Degree Standard Observer");
     (KStr "labels", VList [VStr "Red"; VStr "Green"; VStr "Blue"]);
     (KStr "codes", VList [VStr "R"; VStr "G"; VStr "B"])].

Definition T_S_Gamut3_Cine : pyval :=
  VDict
    [(KStr "name", VStr "S-Gamut3.Cine");
     (KStr "section", VStr "RGB Color Spaces");
     (KStr "ui_group", VStr "rgb");
     (KStr "description", VStr EmptyString);
     (KStr "illuminant", VStr "D65");
     (KStr "observer", VStr "CIE 1931 2 Degree Standard Observer");
     (KStr "labels", VList [VStr "Red"; VStr "Green"; VStr "Blue"]);
     (KStr "codes", VList [VStr "R"; VStr "G"; VStr "B"])].

Definition T_SMPTE_240M : pyval :=
  VDict
    [(KStr "name", VStr "SMPTE 240M");
     (KStr "section", VStr "RGB Color Spaces");
     (KStr "ui_group", VStr "rgb");
     (KStr "description", VStr EmptyString);
     (KStr "illuminant", VStr "D65");
     (KStr "observer", VStr "CIE 1931 2 Degree Standard Observer");
     (KStr "labels", VList [VStr "Red"; VStr "Green"; VStr "Blue"]);
     (KStr "codes", VList [VStr "R"; VStr "G"; VStr "B"])].

Definition T_SMPTE_C : pyval :=
  VDict
    [(KStr "name", VStr "SMPTE C");
     (KStr "section", VStr "RGB Color Spaces");
     (KStr "ui_group", VStr "rgb");
     (KStr "description", VStr EmptyString);
     (KStr "illuminant", VStr "D65");
     (KStr "observer", VStr "CIE 1931 2 Degree Standard Observer");
     (KStr "labels", VList [VStr "Red"; VStr "Green"; VStr "Blue"]);
     (KStr "codes", VList [VStr "R"; VStr "G"; VStr "B"])].

Definition T_Sharp_RGB : pyval :=
  VDict
    [(KStr "name", VStr "Sharp RGB");
     (KStr "section", VStr "RGB Color Spaces");
     (KStr "ui_group", VStr "rgb");
     (KStr "description", VStr EmptyString);
     (KStr "illuminant", VStr "E");
     (KStr "observer", VStr "CIE 1931 2 Degree Standard Observer");
     (KStr "labels", VList [VStr "Red"; VStr "Green"; VStr "Blue"]);
     (KStr "codes", VList [VStr "R"; VStr "G"; VStr "B"])].

Definition T_V_Gamut : pyval :=
  VDict
    [(KStr "name", VStr "V-Gamut");
     (KStr "section", VStr "RGB Color Spaces");
     (KStr "ui_group", VStr "rgb");
     (KStr "description", VStr "Panasonic V-Gamut color space");
     (KStr "illuminant", VStr "D65");
     (KStr "observer", VStr "CIE 1931 2 Degree Standard Observer");
     (KStr "labels", VList [VStr "Red"; VStr "Green"; VStr "Blue"]);
     (KStr "codes", VList [VStr "R"; VStr "G"; VStr "B"])].

Definition T_Venice_S_Gamut3 : pyval :=
  VDict
    [(KStr "name", VStr "Venice S-Gamut3");
     (KStr "section", VStr "RGB Color Spaces");
     (KStr "ui_group", VStr "rgb");
     (KStr "description", VStr EmptyString);
     (KStr "illuminant", VStr "D65");
     (KStr "observer", VStr "CIE 1931 2 Degree Standard Observer");
     (KStr "labels", VList [VStr "Red"; VStr "Green"; VStr "Blue"]);
     (KStr "codes", VList [VStr "R"; VStr "G"; VStr "B"])].

Definition T_Venice_S_Gamut3_Cine : pyval :=
  VDict
    [(KStr "name", VStr "Venice S-Gamut3.Cine");
     (KStr "section", VStr "RGB Color Spaces");
     (KStr "ui_group", VStr "rgb");
     (KStr "description", VStr EmptyString);
     (KStr "illuminant", VStr "D65");
     (KStr "observer", VStr "CIE 1931 2 Degree Standard Observer");
     (KStr "labels", VList [VStr "Red"; VStr "Green"; VStr "Blue"]);
     (KStr "codes", VList [VStr "R"; VStr "G"; VStr "B"])].

Definition T_Xtreme_RGB : pyval :=
  VDict
    [(KStr "name", VStr "Xtreme RGB");
     (KStr "section", VStr "RGB Color Spaces");
     (KStr "ui_group", VStr "rgb");
     (KStr "description",
       VStr ("Largest possible Adobe Photoshop-legal, tri-coordinate "
             ++ "RGB space, from HutchColor"));
     (KStr "illuminant", VStr "D50");
     (KStr "observer", VStr "CIE 1931 2 Degree Standard Observer");
     (KStr "labels", VList [VStr "Red"; VStr "Green"; VStr "Blue"]);
     (KStr "codes", VList [VStr "R"; VStr "G"; VStr "B"])].

Definition T_sRGB : pyval :=
  VDict
    [(KStr "name", VStr "sRGB");
     (KStr "section", VStr "RGB Color Spaces");
     (KStr "ui_group", VStr "rgb");
     (KStr "description",
       VStr ("Microsoft and Hewlett-Packard designed sRGB in 1996 as a "
             ++ "color standard to use on monitors, printers, and the "
             ++ "Internet"));
     (KStr "illuminant", VStr "D65");
     (KStr "observer", VStr "CIE 1931 2 Degree Standard Observer");
     (KStr "labels", VList [VStr "Red"; VStr "Green"; VStr "Blue"]);
     (KStr "codes", VList [VStr "R"; VStr "G"; VStr "B"])].

Definition T_cmy : pyval :=
  VDict
    [(KStr "name", VStr "CMY");
     (KStr "section", VStr "Derived from RGB");
     (KStr "ui_group", VStr "rgb >");
     (KStr "description",
       VStr ("Subtractive counterpart to RGB, where higher values get "
             ++ "closer to black, and white is the absence of values"));
     (KStr "illuminant", VStr "none");
     (KStr "observer", VStr "CIE 1931 2 Degree Standard Observer");
     (KStr "labels", VList [VStr "Cyan"; VStr "Magenta"; VStr "Yellow"]);
     (KStr "codes", VList [VStr "C"; VStr "M"; VStr "Y"])].

Definition T_cmyk : pyval :=
  VDict
    [(KStr "name", VStr "CMYK");
     (KStr "section", VStr "Derived from RGB");
     (KStr "ui_group", VStr "rgb >");
     (KStr "description",
       VStr "Subtractive color model used in color printing");
     (KStr "illuminant", VStr "none");
     (KStr "observer", VStr "CIE 1931 2 Degree Standard Observer");
     (KStr "labels",
       VList [VStr "Cyan"; VStr "Magenta"; VStr "Yellow"; VStr "Black"]);
     (KStr "codes", VList [VStr "C"; VStr "M"; VStr "Y"; VStr "K"])].

Definition T_hcl : pyval :=
  VDict
    [(KStr "name", VStr "HCL");
     (KStr "section", VStr "Derived from RGB");
     (KStr "ui_group", VStr "rgb >");
     (KStr "description",
       VStr ("HCL (Hue-Chroma-Luminance) or LCh refers to any of the "
             ++ "cylindrical color space models that are designed to "
             ++ "accord with human perception of color"));
     (KStr "illuminant", VStr "none");
     (KStr "observer", VStr "CIE 1931 2 Degree Standard Observer");
     (KStr "labels", VList [VStr "Hue"; VStr "Chroma"; VStr "Luminance"]);
     (KStr "codes", VList [VStr "H"; VStr "C"; VStr "L"])].

Definition T_hexadecimal : pyval :=
  VDict
    [(KStr "name", VStr "Hexadecimal");
     (KStr "section", VStr "Derived from RGB");
     (KStr "ui_group", VStr "rgb >");
     (KStr "description",
       VStr "Conversion of RGB values into base-16 notation");
     (KStr "illuminant", VStr "D65");
     (KStr "observer", VStr "CIE 1931 2 Degree Standard Observer");
     (KStr "codes", VList [VStr "Hex"])].

Definition T_hsl : pyval :=
  VDict
    [(KStr "name", VStr "HSL");
     (KStr "section", VStr "Derived from RGB");
     (KStr "ui_group", VStr "rgb >");
     (KStr "description",
       VStr ("HSL models the way different paints mix together in the "
             ++ "real world, with Lightness resembling the varying "
             ++ "amounts of black or white paint in the mixture"));
     (KStr "illuminant", VStr "none");
     (KStr "observer", VStr "CIE 1931 2 Degree Standard Observer");
     (KStr "labels",
       VList [VStr "Hue"; VStr "Saturation"; VStr "Lightness"]);
     (KStr "codes", VList [VStr "H"; VStr "S"; VStr "L"])].

Definition T_hsv : pyval :=
  VDict
    [(KStr "name", VStr "HSV");
     (KStr "section", VStr "Derived from RGB");
     (KStr "ui_group", VStr "rgb >");
     (KStr "description",
       VStr ("Colors of each hue are arranged in a radial slice around "
             ++ "a central axis of neutral colors which range from black "
             ++ "at the bottom to white at the top"));
     (KStr "illuminant", VStr "none");
     (KStr "observer", VStr "CIE 1931 2 Degree Standard Observer");
     (KStr "labels", VList [VStr "Hue"; VStr "Saturation"; VStr "Value"]);
     (KStr "codes", VList [VStr "H"; VStr "S"; VStr "V"])].

Definition T_hwb : pyval :=
  VDict
    [(KStr "name", VStr "HWB");
     (KStr "section", VStr "Derived from RGB");
     (KStr "ui_group", VStr "rgb >");
     (KStr "description",
       VStr ("Hue angle followed by the percentage of whiteness and "
             ++ "percentage of blackness"));
     (KStr "illuminant", VStr "none");
     (KStr "observer", VStr "CIE 1931 2 Degree Standard Observer");
     (KStr "labels", VList [VStr "Hue"; VStr "Whiteness"; VStr "Blackness"]);
     (KStr "codes", VList [VStr "H"; VStr "W"; VStr "B"])].

Definition T_ihls : pyval :=
  VDict
    [(KStr "name", VStr "IHLS");
     (KStr "section", VStr "Derived from RGB");
     (KStr "ui_group", VStr "rgb >");
     (KStr "description", VStr "Improved HLS [Hanbury, 2003]");
     (KStr "illuminant", VStr "none");
     (KStr "observer", VStr "CIE 1931 2 Degree Standard Observer");
     (KStr "labels",
       VList [VStr "Hue"; VStr "Luminance"; VStr "Saturation"]);
     (KStr "codes", VList [VStr "H"; VStr "Y"; VStr "S"])].

Definition T_prismatic : pyval :=
  VDict
    [(KStr "name", VStr "Prismatic");
     (KStr "section", VStr "Derived from RGB");
     (KStr "ui_group", VStr "rgb >");
     (KStr "description",
       VStr ("A simple transform of the RGB color cube into a "
             ++ "light/dark dimension and a 2D hue"));
     (KStr "illuminant", VStr "none");
     (KStr "observer", VStr "CIE 1931 2 Degree Standard Observer");
     (KStr "labels",
       VList [VStr "Luminance"; VStr "&rho;"; VStr "&gamma;"; VStr "&beta;"]);
     (KStr "codes",
       VList [VStr "L"; VStr "&rho;"; VStr "&gamma;"; VStr "&beta;"])].

Definition T_rgbluminance : pyval :=
  VDict
    [(KStr "name", VStr "Luminance");
     (KStr "section", VStr "Derived from RGB");
     (KStr "ui_group", VStr "rgb >");
     (KStr "description",
       VStr ("A photometric measure of the luminous intensity per unit "
             ++ "area of light travelling in a given direction"));
     (KStr "illuminant", VStr "all");
     (KStr "observer", VStr "CIE 1931 2 Degree Standard Observer");
     (KStr "labels", VList [VStr "Luminance"]);
     (KStr "codes", VList [VStr "Y"])].

Definition T_ycbcr : pyval :=
  VDict
    [(KStr "name", VStr "YCbCr");
     (KStr "section", VStr "Derived from RGB");
     (KStr "ui_group", VStr "rgb >");
     (KStr "description",
       VStr ("Among a family of color spaces used as a part of the "
             ++ "color pipeline in video and digital photography systems"));
     (KStr "illuminant", VStr "none");
     (KStr "observer", VStr "CIE 1931 2 Degree Standard Observer");
     (KStr "labels",
       VList
         [VStr "Luma";
          VStr "Chroma (blue-difference)";
          VStr "Chroma (red-difference)"]);
     (KStr "codes",
       VList
         [VStr "Y&rsquo;";
          VStr "C&rsquo;<sub>B</sub>";
          VStr "C&rsquo;<sub>R</sub>"])].

Definition T_yccbccrc : pyval :=
  VDict
    [(KStr "name", VStr "YcCbcCrc");
     (KStr "section", VStr "Derived from RGB");
     (KStr "ui_group", VStr "rgb >");
     (KStr "description",
       VStr ("Specifically for use with ITU-R BT.2020 when adopting "
             ++ "the constant luminance signal format"));
     (KStr "illuminant", VStr "none");
     (KStr "observer", VStr "CIE 1931 2 Degree Standard Observer");
     (KStr "labels", VList [VStr "Luma"; VStr "Chroma 1"; VStr "Chroma 2"]);
     (KStr "codes",
       VList
         [VStr "Y&rsquo;";
          VStr "C&rsquo;<sub>BC</sub>";
          VStr "C&rsquo;<sub>RC</sub>"])].

Definition T_ycocg : pyval :=
  VDict
    [(KStr "name", VStr "YCoCg");
     (KStr "section", VStr "Derived from RGB");
     (KStr "ui_group", VStr "rgb >");
     (KStr "description",
       VStr ("Formed from a simple transformation of an RGB space into "
             ++ "a luma value (denoted as Y) and two chroma values called "
             ++ "chrominance green (Cg) and chrominance orange (Co)"));
     (KStr "illuminant", VStr "none");
     (KStr "observer", VStr "CIE 1931 2 Degree Standard Observer");
     (KStr "labels",
       VList
         [VStr "Luma";
          VStr "Chrominance Orange";
          VStr "Chrominance Green"]);
     (KStr "codes", VList [VStr "Y"; VStr "Co"; VStr "Cg"])].

Definition T_atd95 : pyval :=
  VDict
    [(KStr "name", VStr "ATD (1995)");
     (KStr "section", VStr "Color Appearance Models");
     (KStr "ui_group", VStr "cam");
     (KStr "description",
       VStr ("Achromatic (brightness), Tritanopic (redness-greenness), "
             ++ "and Deuteranopic (yellowishness-blueness). A model for "
             ++ "color perception and visual adaptation [Guth, 1995]"));
     (KStr "illuminant", VStr "all");
     (KStr "observer", VStr "CIE 1931 2 Degree Standard Observer");
     (KStr "defaults",
       VDict
         [(KStr "Y<sub>0</sub>", VFloat 0x1.3e4f5c28f5c29p+8%float);
          (KStr "k<sub>1</sub>", VFloat 0x0.0p+0%float);
          (KStr "k<sub>2</sub>", VFloat 0x1.9000000000000p+5%float)]);
     (KStr "labels",
       VList
         [VStr "Hue";
          VStr "Saturation";
          VStr "Correlate of Brightness";
          VStr "A<sub>1</sub>";
          VStr "T<sub>1</sub>";
          VStr "D<sub>1</sub>";
          VStr "A<sub>2</sub>";
          VStr "T<sub>2</sub>";
          VStr "D<sub>2</sub>"]);
     (KStr "codes",
       VList
         [VStr "h";
          VStr "C";
          VStr "Q";
          VStr "A<sub>1</sub>";
          VStr "T<sub>1</sub>";
          VStr "D<sub>1</sub>";
          VStr "A<sub>2</sub>";
          VStr "T<sub>2</sub>";
          VStr "D<sub>2</sub>"])].

Definition T_cam02lcd : pyval :=
  VDict
    [(KStr "name", VStr "CAM02-LCD");
     (KStr "section", VStr "Color Appearance Models");
     (KStr "ui_group", VStr "cam");
     (KStr "description",
       VStr ("CAM02-LCD is a version of CIECAM02 modified to fit Large "
             ++ "Color Difference (LCD) data [Luo, Chi and Li (2006)]"));
     (KStr "illuminant", VStr "all");
     (KStr "observer", VStr "CIE 1931 2 Degree Standard Observer");
     (KStr "defaults",
       VDict
         [(KStr "Ambient Illumination",
            VStr "80 cd/m<sup>2</sup>, including veiling glare");
          (KStr "Adapting Field Luminance",
            VStr "About 20% of a white object in the scene")]);
     (KStr "labels",
       VList
         [VStr "Lightness";
          VStr "Redness-greenness";
          VStr "Yellowness-blueness"]);
     (KStr "codes",
       VList [VStr "J&rsquo;"; VStr "a&rsquo;"; VStr "b&rsquo;"])].

Definition T_cam02scd : pyval :=
  VDict
    [(KStr "name", VStr "CAM02-SCD");
     (KStr "section", VStr "Color Appearance Models");
     (KStr "ui_group", VStr "cam");
     (KStr "description",
       VStr ("CAM02-SCD is a version of CIECAM02 modified to fit Small "
             ++ "Color Difference (SCD) data [Luo, Chi and Li (2006)]"));
     (KStr "illuminant", VStr "all");
     (KStr "observer", VStr "CIE 1931 2 Degree Standard Observer");
     (KStr "defaults",
       VDict
         [(KStr "Ambient Illumination",
            VStr "80 cd/m<sup>2</sup>, including veiling glare");
          (KStr "Adapting Field Luminance",
            VStr "About 20% of a white object in the scene")]);
     (KStr "labels",
       VList
         [VStr "Lightness";
          VStr "Redness-greenness";
          VStr "Yellowness-blueness"]);
     (KStr "codes",
       VList [VStr "J&rsquo;"; VStr "a&rsquo;"; VStr "b&rsquo;"])].

Definition T_cam02ucs : pyval :=
  VDict
    [(KStr "name", VStr "CAM02-UCS");
     (KStr "section", VStr "Color Appearance Models");
     (KStr "ui_group", VStr "cam");
     (KStr "description",
       VStr ("CAM02-UCS (Uniform Color Space) is a version of CIECAM02 "
             ++ "modified to fit combined large and small color "
             ++ "difference data sets [Luo, Chi and Li (2006)]"));
     (KStr "illuminant", VStr "all");
     (KStr "observer", VStr "CIE 1931 2 Degree Standard Observer");
     (KStr "defaults",
       VDict
         [(KStr "Ambient Illumination",
            VStr "80 cd/m<sup>2</sup>, including veiling glare");
          (KStr "Adapting Field Luminance",
            VStr "About 20% of a white object in the scene")]);
     (KStr "labels",
       VList
         [VStr "Lightness";
          VStr "Redness-greenness";
          VStr "Yellowness-blueness"]);
     (KStr "codes",
       VList [VStr "J&rsquo;"; VStr "a&rsquo;"; VStr "b&rsquo;"])].

Definition T_cam16 : pyval :=
  VDict
    [(KStr "name", VStr "CAM16");
     (KStr "section", VStr "Color Appearance Models");
     (KStr "ui_group", VStr "cam");
     (KStr "description",
       VStr ("CAM16 was created as a successor to CIECAM02 to address "
             ++ "CIECAM02's computational failures in certain cases [Li "
             ++ "et al (2017)]"));
     (KStr "illuminant", VStr "all");
     (KStr "observer", VStr "CIE 1931 2 Degree Standard Observer");
     (KStr "defaults",
       VDict
         [(KStr "L<sub>A</sub>", VFloat 0x1.3e4f5c28f5c29p+8%float);
          (KStr "Y<sub>b</sub>", VInt 20%Z);
          (KStr "Surround Viewing Conditions", VStr "average");
          (KStr "Discount Illuminant?", VStr "No")]);
     (KStr "labels",
       VList
         [VStr "Correlate of Lightness J";
          VStr "Correlate of chroma C";
          VStr "Hue angle h in degrees";
          VStr "Correlate of saturation s";
          VStr "Correlate of brightness Q";
          VStr "Correlate of colorfulness M";
          VStr "Hue h quadrature H"]);
     (KStr "codes",
       VList
         [VStr "J";
          VStr "C";
          VStr "h";
          VStr "s";
          VStr "Q";
          VStr "M";
          VStr "H"])].

Definition T_cam16lcd : pyval :=
  VDict
    [(KStr "name", VStr "CAM16-LCD");
     (KStr "section", VStr "Color Appearance Models");
     (KStr "ui_group", VStr "cam");
     (KStr "description",
       VStr ("CAM16-LCD is a version of CAM16 attuned to fit Large "
             ++ "Color Difference (LCD) data [Li et al (2017)]"));
     (KStr "illuminant", VStr "all");
     (KStr "observer", VStr "CIE 1931 2 Degree Standard Observer");
     (KStr "defaults",
       VDict
         [(KStr "Ambient Illumination",
            VStr "80 cd/m<sup>2</sup>, including veiling glare");
          (KStr "Adapting Field Luminance",
            VStr "About 20% of a white object in the scene")]);
     (KStr "labels",
       VList
         [VStr "Lightness";
          VStr "Redness-greenness";
          VStr "Yellowness-blueness"]);
     (KStr "codes",
       VList [VStr "J&rsquo;"; VStr "a&rsquo;"; VStr "b&rsquo;"])].

Definition T_cam16scd : pyval :=
  VDict
    [(KStr "name", VStr "CAM16-SCD");
     (KStr "section", VStr "Color Appearance Models");
     (KStr "ui_group", VStr "cam");
     (KStr "description",
       VStr ("CAM16-SCD is a version of CAM16 attuned to fit Small "
             ++ "Color Difference (SCD) data [Li et al (2017)]"));
     (KStr "illuminant", VStr "all");
     (KStr "observer", VStr "CIE 1931 2 Degree Standard Observer");
     (KStr "defaults",
       VDict
         [(KStr "Ambient Illumination",
            VStr "80 cd/m<sup>2</sup>, including veiling glare");
          (KStr "Adapting Field Luminance",
            VStr "About 20% of a white object in the scene")]);
     (KStr "labels",
       VList
         [VStr "Lightness";
          VStr "Redness-greenness";
          VStr "Yellowness-blueness"]);
     (KStr "codes",
       VList [VStr "J&rsquo;"; VStr "a&rsquo;"; VStr "b&rsquo;"])].

Definition T_cam16ucs : pyval :=
  VDict
    [(KStr "name", VStr "CAM16-UCS");
     (KStr "section", VStr "Color Appearance Models");
     (KStr "ui_group", VStr "cam");
     (KStr "description",
       VStr ("CAM16-UCS is a version of CAM16 attuned to fit combined "
             ++ "large and small color difference data sets [Li et al "
             ++ "(2017)]"));
     (KStr "illuminant", VStr "all");
     (KStr "observer", VStr "CIE 1931 2 Degree Standard Observer");
     (KStr "defaults",
       VDict
         [(KStr "Ambient Illumination",
            VStr "80 cd/m<sup>2</sup>, including veiling glare");
          (KStr "Adapting Field Luminance",
            VStr "About 20% of a white object in the scene")]);
     (KStr "labels",
       VList
         [VStr "Lightness";
          VStr "Redness-greenness";
          VStr "Yellowness-blueness"]);
     (KStr "codes",
       VList [VStr "J&rsquo;"; VStr "a&rsquo;"; VStr "b&rsquo;"])].

Definition T_cct : pyval :=
  VDict
    [(KStr "name", VStr "Correlated Color Temperature [CCT]");
     (KStr "section", VStr "Qualities");
     (KStr "ui_group", VStr "qua");
     (KStr "description",
       VStr ("CCT is defined by the CIE as 'the temperature of the "
             ++ "Planckian radiator whose perceived color most closely "
             ++ "resembles that of a given stimulus at the same "
             ++ "brightness and under specified viewing conditions' "
             ++ "[CIE/IEC 17.4:1987]'"));
     (KStr "illuminant", VStr "all");
     (KStr "observer", VStr "CIE 1931 2 Degree Standard Observer");
     (KStr "labels", VList [VStr "CCT"]);
     (KStr "codes", VList [VStr "T<sub>cp</sub>"])].

Definition T_mired : pyval :=
  VDict
    [(KStr "name", VStr "Mired");
     (KStr "section", VStr "Qualities");
     (KStr "ui_group", VStr "qua");
     (KStr "description",
       VStr ("A mired (Micro Reciprocal Degree) is a unit used in "
             ++ "photography and cinematography to measure color "
             ++ "temperature: 1,000,000 / Temperature in K = 1 Mired"));
     (KStr "illuminant", VStr "all");
     (KStr "observer", VStr "CIE 1931 2 Degree Standard Observer");
     (KStr "codes", VList [VStr "MK<sup>-1</sup>"])].

Definition T_ciecam02 : pyval :=
  VDict
    [(KStr "name", VStr "CIECAM02");
     (KStr "section", VStr "Color Appearance Models");
     (KStr "ui_group", VStr "cam");
     (KStr "description",
       VStr ("The CAM published in 2002 by the CIE, and the successor "
             ++ "of CIECAM97s"));
     (KStr "illuminant", VStr "all");
     (KStr "observer", VStr "CIE 1931 2 Degree Standard Observer");
     (KStr "defaults",
       VDict
         [(KStr "L<sub>A</sub>", VFloat 0x1.3e4f5c28f5c29p+8%float);
          (KStr "Y<sub>b</sub>", VInt 20%Z);
          (KStr "Surround Viewing Conditions", VStr "average");
          (KStr "Discount Illuminant?", VStr "No")]);
     (KStr "labels",
       VList
         [VStr "Correlate of Lightness J";
          VStr "Correlate of chroma C";
          VStr "Hue angle h in degrees";
          VStr "Correlate of saturation s";
          VStr "Correlate of brightness Q";
          VStr "Correlate of colorfulness M";
          VStr "Hue h quadrature H";
          VStr "Hue h composition H<sup>C</sup>";
          VStr "Hue h composition H<sup>C</sup>"]);
     (KStr "codes",
       VList
         [VStr "J";
          VStr "C";
          VStr "h";
          VStr "s";
          VStr "Q";
          VStr "M";
          VStr "H";
          VStr "HC"])].

Definition T_ciecam16 : pyval :=
  VDict
    [(KStr "name", VStr "CIECAM16");
     (KStr "section", VStr "Color Appearance Models");
     (KStr "ui_group", VStr "cam");
     (KStr "description", VStr EmptyString);
     (KStr "illuminant", VStr "all");
     (KStr "observer", VStr "CIE 1931 2 Degree Standard Observer");
     (KStr "defaults",
       VDict
         [(KStr "L<sub>A</sub>", VFloat 0x1.3e4f5c28f5c29p+8%float);
          (KStr "Y<sub>b</sub>", VInt 20%Z);
          (KStr "Surround Viewing Conditions", VStr "average");
          (KStr "Discount Illuminant?", VStr "No")]);
     (KStr "labels",
       VList
         [VStr "Correlate of Lightness J";
          VStr "Correlate of chroma C";
          VStr "Hue angle h in degrees";
          VStr "Correlate of saturation s";
          VStr "Correlate of brightness Q";
          VStr "Correlate of colorfulness M";
          VStr "Hue h quadrature H";
          VStr "Hue h composition H<sup>C</sup>";
          VStr "Hue h composition H<sup>C</sup>"]);
     (KStr "codes",
       VList
         [VStr "J";
          VStr "C";
          VStr "h";
          VStr "s";
          VStr "Q";
          VStr "M";
          VStr "H";
          VStr "HC"])].

Definition T_cielab : pyval :=
  VDict
    [(KStr "name", VStr "CIELAB");
     (KStr "section", VStr "CIE Fundamentals");
     (KStr "ui_group", VStr "cie");
     (KStr "description",
       VStr ("L* for perceptual lightness, a* for the magenta-green "
             ++ "axis, and b* for blue-yellow axis"));
     (KStr "illuminant", VStr "all");
     (KStr "observer", VStr "all");
     (KStr "labels",
       VList
         [VStr "Lightness";
          VStr "Redness-greenness";
          VStr "Yellowness-blueness"]);
     (KStr "codes", VList [VStr "L*"; VStr "a*"; VStr "b*"])].

Definition T_cielchab : pyval :=
  VDict
    [(KStr "name", VStr "CIE LCH<sub>ab</sub>");
     (KStr "section", VStr "CIE Fundamentals");
     (KStr "ui_group", VStr "cie");
     (KStr "description", VStr "CIELAB expressed in cylinderical form");
     (KStr "illuminant", VStr "all");
     (KStr "observer", VStr "all");
     (KStr "labels", VList [VStr "Lightness"; VStr "Chroma"; VStr "Hue"]);
     (KStr "codes", VList [VStr "L*"; VStr "C*"; VStr "H<sub>ab</sub>"])].

Definition T_cielchuv : pyval :=
  VDict
    [(KStr "name", VStr "CIE LCH<sub>uv</sub>");
     (KStr "section", VStr "CIE Fundamentals");
     (KStr "ui_group", VStr "cie");
     (KStr "description", VStr "CIELUV expressed in cylinderical form");
     (KStr "illuminant", VStr "all");
     (KStr "observer", VStr "all");
     (KStr "labels", VList [VStr "Lightness"; VStr "Chroma"; VStr "Hue"]);
     (KStr "codes", VList [VStr "L"; VStr "C"; VStr "H<sub>uv</sub>"])].

Definition T_cieluv : pyval :=
  VDict
    [(KStr "name", VStr "CIELUV");
     (KStr "section", VStr "CIE Fundamentals");
     (KStr "ui_group", VStr "cie");
     (KStr "description",
       VStr ("A modification of CIEXYZ to display color differences "
             ++ "more conveniently"));
     (KStr "illuminant", VStr "all");
     (KStr "observer", VStr "all");
     (KStr "labels",
       VList
         [VStr "Lightness";
          VStr "Redness-greenness";
          VStr "Yellowness-blueness"]);
     (KStr "codes", VList [VStr "L*"; VStr "u*"; VStr "v*"])].

Definition T_cieluvuv : pyval :=
  VDict
    [(KStr "name", VStr "CIELUV uv");
     (KStr "section", VStr "CIE Fundamentals");
     (KStr "ui_group", VStr "cie");
     (KStr "description", VStr EmptyString);
     (KStr "illuminant", VStr "all");
     (KStr "observer", VStr "CIE 1931 2 Degree Standard Observer");
     (KStr "labels", VList [VStr "Lightness"; VStr "Chroma"; VStr "Hue"]);
     (KStr "codes", VList [VStr "L*"; VStr "u*"; VStr "v*<sub>uv</sub>"])].

Definition T_cieucs : pyval :=
  VDict
    [(KStr "name", VStr "CIE 1960 UCS");
     (KStr "section", VStr "CIE Fundamentals");
     (KStr "ui_group", VStr "cie");
     (KStr "description", VStr EmptyString);
     (KStr "illuminant", VStr "all");
     (KStr "observer", VStr "CIE 1931 2 Degree Standard Observer");
     (KStr "codes", VList [VStr "U"; VStr "V"; VStr "W"])].

Definition T_cieucsuv : pyval :=
  VDict
    [(KStr "name", VStr "CIE 1960 UCS uv");
     (KStr "section", VStr "CIE Fundamentals");
     (KStr "ui_group", VStr "cie");
     (KStr "description", VStr EmptyString);
     (KStr "illuminant", VStr "all");
     (KStr "observer", VStr "CIE 1931 2 Degree Standard Observer");
     (KStr "codes", VList [VStr "u"; VStr "v"])].

Definition T_cieuvw : pyval :=
  VDict
    [(KStr "name", VStr "CIE 1964 UVW");
     (KStr "section", VStr "CIE Fundamentals");
     (KStr "ui_group", VStr "cie");
     (KStr "description",
       VStr ("CIE 1964 U*V*W* color spcace, invented in 1964 to "
             ++ "calculate color differences without having to hold the "
             ++ "luminance constant"));
     (KStr "illuminant", VStr "all");
     (KStr "observer", VStr "CIE 1931 2 Degree Standard Observer");
     (KStr "codes", VList [VStr "U*"; VStr "V*"; VStr "W*"])].

Definition T_ciexyz : pyval :=
  VDict
    [(KStr "name", VStr "CIEXYZ");
     (KStr "section", VStr "CIE Fundamentals");
     (KStr "ui_group", VStr "cie");
     (KStr "description",
       VStr ("First attempt of a color space based on measurements of "
             ++ "human perception, created in 1931"));
     (KStr "illuminant", VStr "all");
     (KStr "observer", VStr "all");
     (KStr "codes", VList [VStr "X"; VStr "Y"; VStr "Z"])].

Definition T_clrpurity : pyval :=
  VDict
    [(KStr "name", VStr "Colorimetric Purity");
     (KStr "section", VStr "Dominant Wavelength and Purity");
     (KStr "ui_group", VStr "dom");
     (KStr "description",
       VStr ("A color's dominant wavelength is the wavelength of "
             ++ "monochromatic spectral light that evokes an identical "
             ++ "perception of hue"));
     (KStr "illuminant", VStr "all");
     (KStr "observer", VStr "CIE 1931 2 Degree Standard Observer");
     (KStr "codes", VList [VStr "P<sub>c</sub>"])].

Definition T_compwave : pyval :=
  VDict
    [(KStr "name", VStr "Complementary Wavelength");
     (KStr "section", VStr "Dominant Wavelength and Purity");
     (KStr "ui_group", VStr "dom");
     (KStr "description", VStr EmptyString);
     (KStr "illuminant", VStr "all");
     (KStr "observer", VStr "CIE 1931 2 Degree Standard Observer");
     (KStr "labels",
       VList
         [VStr "Wavelength";
          VStr "1st Intersection Coordinates";
          VStr "2nd Intersection Coordinates"]);
     (KStr "codes",
       VList
         [VStr "&gamma;<sub>c</sub>";
          VStr "xy<sub>w</sub>l";
          VStr "xy<sub>cw</sub>"])].

Definition T_din99 : pyval :=
  VDict
    [(KStr "name", VStr "DIN99");
     (KStr "section", VStr "Similar to CIELAB");
     (KStr "ui_group", VStr "lab");
     (KStr "description", VStr EmptyString);
     (KStr "illuminant", VStr "D65");
     (KStr "observer", VStr "CIE 1931 2 Degree Standard Observer");
     (KStr "labels",
       VList
         [VStr "Lightness";
          VStr "Redness-greenness";
          VStr "Yellowness-blueness"]);
     (KStr "codes",
       VList
         [VStr "L<sub>99</sub>";
          VStr "a<sub>99</sub>";
          VStr "b<sub>99</sub>"])].

Definition T_din99b : pyval :=
  VDict
    [(KStr "name", VStr "DIN99b");
     (KStr "section", VStr "Similar to CIELAB");
     (KStr "ui_group", VStr "lab");
     (KStr "description", VStr EmptyString);
     (KStr "illuminant", VStr "D65");
     (KStr "observer", VStr "CIE 1931 2 Degree Standard Observer");
     (KStr "labels",
       VList
         [VStr "Lightness";
          VStr "Redness-greenness";
          VStr "Yellowness-blueness"]);
     (KStr "codes",
       VList
         [VStr "L<sub>99</sub>";
          VStr "a<sub>99b</sub>";
          VStr "b<sub>99b</sub>"])].

Definition T_din99c : pyval :=
  VDict
    [(KStr "name", VStr "DIN99c");
     (KStr "section", VStr "Similar to CIELAB");
     (KStr "ui_group", VStr "lab");
     (KStr "description", VStr EmptyString);
     (KStr "illuminant", VStr "D65");
     (KStr "observer", VStr "CIE 1931 2 Degree Standard Observer");
     (KStr "labels",
       VList
         [VStr "Lightness";
          VStr "Redness-greenness";
          VStr "Yellowness-blueness"]);
     (KStr "codes",
       VList
         [VStr "L<sub>99</sub>";
          VStr "a<sub>99c</sub>";
          VStr "b<sub>99c</sub>"])].

Definition T_din99d : pyval :=
  VDict
    [(KStr "name", VStr "DIN99d");
     (KStr "section", VStr "Similar to CIELAB");
     (KStr "ui_group", VStr "lab");
     (KStr "description", VStr EmptyString);
     (KStr "illuminant", VStr "D65");
     (KStr "observer", VStr "CIE 1931 2 Degree Standard Observer");
     (KStr "labels",
       VList
         [VStr "Lightness";
          VStr "Redness-greenness";
          VStr "Yellowness-blueness"]);
     (KStr "codes",
       VList
         [VStr "L<sub>99</sub>";
          VStr "a<sub>99d</sub>";
          VStr "b<sub>99d</sub>"])].

Definition T_domwave : pyval :=
  VDict
    [(KStr "name", VStr "Dominant Wavelength");
     (KStr "section", VStr "Dominant Wavelength and Purity");
     (KStr "ui_group", VStr "dom");
     (KStr "description", VStr EmptyString);
     (KStr "illuminant", VStr "all");
     (KStr "observer", VStr "CIE 1931 2 Degree Standard Observer");
     (KStr "labels",
       VList
         [VStr "Wavelength";
          VStr "1st Intersection Coordinates";
          VStr "2nd Intersection Coordinates"]);
     (KStr "codes",
       VList
         [VStr "&gamma;<sub>d</sub>";
          VStr "xy<sub>w</sub>l";
          VStr "xy<sub>cw</sub>"])].

Definition T_duv : pyval :=
  VDict
    [(KStr "name", VStr "&Delta;<sub>uv</sub>");
     (KStr "section", VStr "Light Source Quality");
     (KStr "ui_group", VStr "spd");
     (KStr "description", VStr EmptyString);
     (KStr "illuminant", VStr "all");
     (KStr "observer", VStr "CIE 1931 2 Degree Standard Observer");
     (KStr "labels", VList [VStr "Duv"]);
     (KStr "codes", VList [VStr "&Delta;<sub>uv</sub>"])].

Definition T_expurity : pyval :=
  VDict
    [(KStr "name", VStr "Excitation Purity");
     (KStr "section", VStr "Dominant Wavelength and Purity");
     (KStr "ui_group", VStr "dom");
     (KStr "description", VStr EmptyString);
     (KStr "illuminant", VStr "all");
     (KStr "observer", VStr "CIE 1931 2 Degree Standard Observer");
     (KStr "codes", VList [VStr "P<sub>e</sub>"])].

Definition T_hdrcielab : pyval :=
  VDict
    [(KStr "name", VStr "hdr-CIELAB");
     (KStr "section", VStr "Miscellaneous");
     (KStr "ui_group", VStr "misc");
     (KStr "description",
       VStr ("hdr-CIELAB was formulated by Fairchild and Chen (2011) "
             ++ "to extend the CIELAB color space to function across high "
             ++ "dynamic ranges"));
     (KStr "illuminant", VStr "all");
     (KStr "observer", VStr "all");
     (KStr "defaults",
       VDict
         [(KStr "Relative luminance of the surround Y<sub>s</sub>",
            VFloat 0x1.999999999999ap-3%float);
          (KStr ("Absolute luminance of the scene diffuse white "
                ++ "Y<sub>abs</sub>"),
            VStr "100 cd/m<sup>2</sup>")]);
     (KStr "labels",
       VList
         [VStr "Lightness";
          VStr "Redness-greenness";
          VStr "Yellowness-blueness"]);
     (KStr "codes",
       VList
         [VStr "L<sub>hdr</sub>";
          VStr "a<sub>hdr</sub>";
          VStr "b<sub>hdr</sub>"])].

Definition T_hdript : pyval :=
  VDict
    [(KStr "name", VStr "hdr-IPT");
     (KStr "section", VStr "Miscellaneous");
     (KStr "ui_group", VStr "misc");
     (KStr "description",
       VStr ("hdr-IPT was created by Fairchild et al. (2011) to extend "
             ++ "the IPT color space to function across high dynamic "
             ++ "ranges"));
     (KStr "illuminant", VStr "all");
     (KStr "observer", VStr "CIE 1931 2 Degree Standard Observer");
     (KStr "labels",
       VList
         [VStr "Intensity";
          VStr "Blue-yellow Chroma";
          VStr "Red-green Chroma"]);
     (KStr "codes",
       VList
         [VStr "I<sub>hdr</sub>";
          VStr "P<sub>hdr</sub>";
          VStr "T<sub>hdr</sub>"])].

Definition T_hellwig2022 : pyval :=
  VDict
    [(KStr "name", VStr "Hellwig and Fairchild (2022) CAM");
     (KStr "section", VStr "Color Appearance Models");
     (KStr "ui_group", VStr "cam");
     (KStr "description", VStr EmptyString);
     (KStr "illuminant", VStr "all");
     (KStr "observer", VStr "CIE 1931 2 Degree Standard Observer");
     (KStr "defaults",
       VDict
         [(KStr "L<sub>A</sub>", VFloat 0x1.3e4f5c28f5c29p+8%float);
          (KStr "Y<sub>b</sub>", VInt 20%Z);
          (KStr "Surround Viewing Conditions", VStr "average");
          (KStr "Discount Illuminant?", VStr "No")]);
     (KStr "labels",
       VList
         [VStr "Correlate of Lightness J";
          VStr "Correlate of chroma C";
          VStr "Hue angle h in degrees";
          VStr "Correlate of saturation s";
          VStr "Correlate of brightness Q";
          VStr "Correlate of colorfulness M";
          VStr "Hue h quadrature H";
          VStr "Hue h composition H<sup>C</sup>";
          VStr "Hue h composition H<sup>C</sup>";
          VStr ("Correlate of Lightness accounting for "
                ++ "Helmholtz-Kohlrausch effect");
          VStr ("Correlate of brightness accounting for "
                ++ "Helmholtz-Kohlrausch effect")]);
     (KStr "codes",
       VList
         [VStr "J";
          VStr "C";
          VStr "h";
          VStr "s";
          VStr "Q";
          VStr "M";
          VStr "H";
          VStr "HC";
          VStr "J<sub>HK</sub>";
          VStr "Q<sub>HK</sub>"])].

Definition T_hunt : pyval :=
  VDict
    [(KStr "name", VStr "Hunt");
     (KStr "section", VStr "Color Appearance Models");
     (KStr "ui_group", VStr "cam");
     (KStr "description", VStr EmptyString);
     (KStr "illuminant", VStr "all");
     (KStr "observer", VStr "CIE 1931 2 Degree Standard Observer");
     (KStr "defaults",
       VDict
         [(KStr "Viewing Conditions", VStr "Normal scenes");
          (KStr "L<sub>A</sub>", VFloat 0x1.3e4f5c28f5c29p+8%float);
          (KStr "T<sub>cp</sub>", VInt 6504%Z);
          (KStr "L<sub>AS</sub>", VStr "Approximated");
          (KStr "XYZ of Proximal Field", VStr "Equal to background");
          (KStr "Simultaneous Contrast / Assimilation Factor p",
            VStr "None");
          (KStr "Scotopic Response S",
            VStr ("Approximated using tristimulus values Y of the "
                  ++ "stimulus"));
          (KStr ("Scotopic Response for the Reference White "
                ++ "S<sub>W</sub>"),
            VStr ("Approximated using the tristimulus values "
                  ++ "Y<sub>W</sub> of the reference white"));
          (KStr "Account for the Helson-Judd Effect?", VStr "No");
          (KStr "Discount Illuminant?", VStr "Yes")]);
     (KStr "labels",
       VList
         [VStr "Correlate of Lightness J";
          VStr "Correlate of chroma C";
          VStr "Hue angle h in degrees";
          VStr "Correlate of saturation s";
          VStr "Correlate of brightness Q";
          VStr "Correlate of colorfulness M";
          VStr "Hue h quadrature H";
          VStr "Hue h composition H<sup>C</sup>";
          VStr "Hue h composition H<sup>C</sup>"]);
     (KStr "codes",
       VList
         [VStr "J";
          VStr "C";
          VStr "h";
          VStr "s";
          VStr "Q";
          VStr "M";
          VStr "H";
          VStr "HC"])].

Definition T_hunterkakb : pyval :=
  VDict
    [(KStr "name", VStr "Hunter L, a, b K<sub>a</sub> K<sub>b</sub>");
     (KStr "section", VStr "Similar to CIELAB");
     (KStr "ui_group", VStr "lab");
     (KStr "description",
       VStr "Chromaticity coordinates for the illuminant");
     (KStr "illuminant", VStr "all");
     (KStr "observer", VStr "all");
     (KStr "labels", VList [VStr "Coefficient a"; VStr "Coefficient b"]);
     (KStr "codes", VList [VStr "K<sub>a</sub>"; VStr "K<sub>b</sub>"])].

Definition T_hunterlab : pyval :=
  VDict
    [(KStr "name", VStr "Hunter L, a, b");
     (KStr "section", VStr "Similar to CIELAB");
     (KStr "ui_group", VStr "lab");
     (KStr "description", VStr EmptyString);
     (KStr "illuminant", VStr "all");
     (KStr "observer", VStr "CIE 1931 2 Degree Standard Observer");
     (KStr "labels",
       VList
         [VStr "Lightness";
          VStr "Redness-greenness";
          VStr "Yellowness-blueness"]);
     (KStr "codes", VList [VStr "L"; VStr "a"; VStr "b"])].

Definition T_hunterrdab : pyval :=
  VDict
    [(KStr "name", VStr "Hunter Rd, a, b");
     (KStr "section", VStr "Similar to CIELAB");
     (KStr "ui_group", VStr "lab");
     (KStr "description", VStr EmptyString);
     (KStr "illuminant", VStr "all");
     (KStr "observer", VStr "CIE 1931 2 Degree Standard Observer");
     (KStr "labels",
       VList
         [VStr "Lightness";
          VStr "Redness-greenness";
          VStr "Yellowness-blueness"]);
     (KStr "codes", VList [VStr "Rd"; VStr "a"; VStr "b"])].

Definition T_iab : pyval :=
  VDict
    [(KStr "name", VStr "Iab");
     (KStr "section", VStr EmptyString);
     (KStr "description", VStr "Similar to CIELAB");
     (KStr "illuminant", VStr "all");
     (KStr "observer", VStr "CIE 1931 2 Degree Standard Observer");
     (KStr "labels",
       VList
         [VStr "Lightness";
          VStr "Redness-greenness";
          VStr "Yellowness-blueness"]);
     (KStr "codes", VList [VStr "I"; VStr "a"; VStr "b"])].

Definition T_icacb : pyval :=
  VDict
    [(KStr "name", VStr "IC<sub>A</sub>C<sub>B</sub>");
     (KStr "section", VStr "Similar to CIELAB");
     (KStr "ui_group", VStr "lab");
     (KStr "description", VStr EmptyString);
     (KStr "illuminant", VStr "D65");
     (KStr "observer", VStr "CIE 1931 2 Degree Standard Observer");
     (KStr "labels",
       VList [VStr EmptyString; VStr EmptyString; VStr EmptyString]);
     (KStr "codes",
       VList [VStr "I"; VStr "C<sub>A</sub>"; VStr "C<sub>B</sub>"])].

Definition T_ictcp_2100_1_hlg : pyval :=
  VDict
    [(KStr "name", VStr "ITU-R BT.2100-1 HLG");
     (KStr "section", VStr "Miscellaneous");
     (KStr "ui_group", VStr "misc");
     (KStr "description",
       VStr ("Recommendation ITU-R BT.2100 HLG (Hybrid Log-Gamma); "
             ++ "IC<sub>T</sub>C<sub>P</sub> values for high dynamic "
             ++ "range television for use in production and international "
             ++ "program exchange"));
     (KStr "illuminant", VStr "all");
     (KStr "observer", VStr "CIE 1931 2 Degree Standard Observer");
     (KStr "labels",
       VList
         [VStr "Intensity";
          VStr "Blue-yellow Chroma";
          VStr "Red-green Chroma"]);
     (KStr "codes",
       VList [VStr "I"; VStr "C<sub>T</sub>"; VStr "C<sub>P</sub>"])].

Definition T_ictcp_2100_1_pq : pyval :=
  VDict
    [(KStr "name", VStr "ITU-R BT.2100-1 PQ");
     (KStr "section", VStr "Miscellaneous");
     (KStr "ui_group", VStr "misc");
     (KStr "description",
       VStr ("Recommendation ITU-R BT.2100 PQ (Perceptual Quantizer); "
             ++ "IC<sub>T</sub>C<sub>P</sub> values for high dynamic "
             ++ "range television for use in production and international "
             ++ "program exchange"));
     (KStr "illuminant", VStr "all");
     (KStr "observer", VStr "CIE 1931 2 Degree Standard Observer");
     (KStr "labels",
       VList
         [VStr "Intensity";
          VStr "Blue-yellow Chroma";
          VStr "Red-green Chroma"]);
     (KStr "codes",
       VList [VStr "I"; VStr "C<sub>T</sub>"; VStr "C<sub>P</sub>"])].

Definition T_ictcp_2100_2_hlg : pyval :=
  VDict
    [(KStr "name", VStr "ITU-R BT.2100-2 HLG");
     (KStr "section", VStr "Miscellaneous");
     (KStr "ui_group", VStr "misc");
     (KStr "description",
       VStr ("Recommendation ITU-R BT.2100 HLG (Hybrid Log-Gamma); "
             ++ "IC<sub>T</sub>C<sub>P</sub> values for high dynamic "
             ++ "range television for use in production and international "
             ++ "program exchange"));
     (KStr "illuminant", VStr "all");
     (KStr "observer", VStr "CIE 1931 2 Degree Standard Observer");
     (KStr "labels",
       VList
         [VStr "Intensity";
          VStr "Blue-yellow Chroma";
          VStr "Red-green Chroma"]);
     (KStr "codes",
       VList [VStr "I"; VStr "C<sub>T</sub>"; VStr "C<sub>P</sub>"])].

Definition T_ictcp_2100_2_pq : pyval :=
  VDict
    [(KStr "name", VStr "ITU-R BT.2100-2 PQ");
     (KStr "section", VStr "Miscellaneous");
     (KStr "ui_group", VStr "misc");
     (KStr "description",
       VStr ("Recommendation ITU-R BT.2100 PQ (Perceptual Quantizer); "
             ++ "IC<sub>T</sub>C<sub>P</sub> values for high dynamic "
             ++ "range television for use in production and international "
             ++ "program exchange"));
     (KStr "illuminant", VStr "all");
     (KStr "observer", VStr "CIE 1931 2 Degree Standard Observer");
     (KStr "labels",
       VList
         [VStr "Intensity";
          VStr "Blue-yellow Chroma";
          VStr "Red-green Chroma"]);
     (KStr "codes",
       VList [VStr "I"; VStr "C<sub>T</sub>"; VStr "C<sub>P</sub>"])].

Definition T_igpgtg : pyval :=
  VDict
    [(KStr "name", VStr "I<sub>G</sub>P<sub>G</sub>T<sub>G</sub>");
     (KStr "section", VStr "Similar to CIELAB");
     (KStr "ui_group", VStr "lab");
     (KStr "description", VStr EmptyString);
     (KStr "illuminant", VStr "D65");
     (KStr "observer", VStr "CIE 1931 2 Degree Standard Observer");
     (KStr "labels",
       VList
         [VStr "Intensity (using Gaussian spectra)";
          VStr "Blue-yellow Chroma (using Gaussian spectra)";
          VStr "Red-green Chroma (using Gaussian spectra)"]);
     (KStr "codes",
       VList
         [VStr "I<sub>G</sub>";
          VStr "P<sub>G</sub>";
          VStr "T<sub>G</sub>"])].

Definition T_ipt : pyval :=
  VDict
    [(KStr "name", VStr "IPT");
     (KStr "section", VStr "Similar to CIELAB");
     (KStr "ui_group", VStr "lab");
     (KStr "description", VStr "Image Processing Transform");
     (KStr "illuminant", VStr "D65");
     (KStr "observer", VStr "CIE 1931 2 Degree Standard Observer");
     (KStr "labels",
       VList
         [VStr "Intensity";
          VStr "Blue-yellow Chroma";
          VStr "Red-green Chroma"]);
     (KStr "codes", VList [VStr "I"; VStr "P"; VStr "T"])].

Definition T_ipt_hue : pyval :=
  VDict
    [(KStr "name", VStr "IPT Hue Angle");
     (KStr "section", VStr "Similar to CIELAB");
     (KStr "ui_group", VStr "lab");
     (KStr "description",
       VStr "Image Processing Transform hue angle in degrees");
     (KStr "illuminant", VStr "D65");
     (KStr "observer", VStr "CIE 1931 2 Degree Standard Observer");
     (KStr "labels", VList [VStr "Hue"]);
     (KStr "codes", VList [VStr "Hue"])].

Definition T_iptragoo : pyval :=
  VDict
    [(KStr "name", VStr "IPT - Ragoo and Farup (2021)");
     (KStr "section", VStr "Similar to CIELAB");
     (KStr "ui_group", VStr "lab");
     (KStr "description", VStr EmptyString);
     (KStr "illuminant", VStr "all");
     (KStr "observer", VStr "CIE 1931 2 Degree Standard Observer");
     (KStr "labels",
       VList
         [VStr "Intensity";
          VStr "Blue-yellow Chroma";
          VStr "Red-green Chroma"]);
     (KStr "codes", VList [VStr "I"; VStr "P"; VStr "T"])].

Definition T_jmhciecam02 : pyval :=
  VDict
    [(KStr "name", VStr "CIECAM02 JMh");
     (KStr "section", VStr "Color Appearance Models");
     (KStr "ui_group", VStr "cam");
     (KStr "description", VStr EmptyString);
     (KStr "illuminant", VStr "all");
     (KStr "observer", VStr "CIE 1931 2 Degree Standard Observer");
     (KStr "labels",
       VList [VStr "Lightness"; VStr "Colorfulness"; VStr "Hue"]);
     (KStr "codes", VList [VStr "J"; VStr "M"; VStr "h"])].

Definition T_jmhciecam16 : pyval :=
  VDict
    [(KStr "name", VStr "CIECAM16 JMh");
     (KStr "section", VStr "Color Appearance Models");
     (KStr "ui_group", VStr "cam");
     (KStr "description", VStr EmptyString);
     (KStr "illuminant", VStr "all");
     (KStr "observer", VStr "CIE 1931 2 Degree Standard Observer");
     (KStr "labels",
       VList [VStr "Lightness"; VStr "Colorfulness"; VStr "Hue"]);
     (KStr "codes", VList [VStr "J"; VStr "M"; VStr "h"])].

Definition T_jmhcam16 : pyval :=
  VDict
    [(KStr "name", VStr "CAM16 JMh");
     (KStr "section", VStr "Color Appearance Models");
     (KStr "ui_group", VStr "cam");
     (KStr "description", VStr EmptyString);
     (KStr "illuminant", VStr "all");
     (KStr "observer", VStr "CIE 1931 2 Degree Standard Observer");
     (KStr "labels",
       VList [VStr "Lightness"; VStr "Colorfulness"; VStr "Hue"]);
     (KStr "codes", VList [VStr "J"; VStr "M"; VStr "h"])].

Definition T_jmhhellwig2022 : pyval :=
  VDict
    [(KStr "name", VStr "Hellwig and Fairchild (2022) CAM JMh");
     (KStr "section", VStr "Color Appearance Models");
     (KStr "ui_group", VStr "cam");
     (KStr "description", VStr EmptyString);
     (KStr "illuminant", VStr "all");
     (KStr "observer", VStr "CIE 1931 2 Degree Standard Observer");
     (KStr "defaults", VStr "Viewing Conditions: average");
     (KStr "labels",
       VList [VStr "Lightness"; VStr "Colorfulness"; VStr "Hue"]);
     (KStr "codes", VList [VStr "J"; VStr "M"; VStr "h"])].

Definition T_izazbz : pyval :=
  VDict
    [(KStr "name", VStr "I<sub>Z</sub>a<sub>Z</sub>B<sub>Z</sub>");
     (KStr "section", VStr "Similar to CIELAB");
     (KStr "ui_group", VStr "lab");
     (KStr "description", VStr EmptyString);
     (KStr "illuminant", VStr "D65");
     (KStr "observer", VStr "CIE 1931 2 Degree Standard Observer");
     (KStr "labels",
       VList
         [VStr "Achromatic response";
          VStr "Redness-greenness";
          VStr "Yellowness-blueness"]);
     (KStr "codes",
       VList
         [VStr "I<sub>Z</sub>";
          VStr "a<sub>Z</sub>";
          VStr "b<sub>Z</sub>"])].

Definition T_jzazbz : pyval :=
  VDict
    [(KStr "name", VStr "J<sub>Z</sub>a<sub>Z</sub>B<sub>Z</sub>");
     (KStr "section", VStr "Similar to CIELAB");
     (KStr "ui_group", VStr "lab");
     (KStr "description", VStr EmptyString);
     (KStr "illuminant", VStr "D65");
     (KStr "observer", VStr "CIE 1931 2 Degree Standard Observer");
     (KStr "labels",
       VList
         [VStr "Lightness";
          VStr "Redness-greenness";
          VStr "Yellowness-blueness"]);
     (KStr "codes",
       VList
         [VStr "J<sub>Z</sub>";
          VStr "a<sub>Z</sub>";
          VStr "b<sub>Z</sub>"])].

Definition T_kim2009 : pyval :=
  VDict
    [(KStr "name", VStr "Kim, Weyrich and Kautz (2009)");
     (KStr "section", VStr "Color Appearance Models");
     (KStr "ui_group", VStr "cam");
     (KStr "description", VStr EmptyString);
     (KStr "illuminant", VStr "all");
     (KStr "observer", VStr "CIE 1931 2 Degree Standard Observer");
     (KStr "defaults",
       VDict
         [(KStr "L<sub>A</sub>", VFloat 0x1.3e4f5c28f5c29p+8%float);
          (KStr "Viewing Conditions", VStr "average");
          (KStr "Media Parameters", VStr "CRT displays");
          (KStr ("Cone Response Sigmoidal Curve Modulating Factor "
                ++ "n<sub>c</sub>"),
            VFloat 0x1.23d70a3d70a3dp-1%float)]);
     (KStr "labels",
       VList
         [VStr "Correlate of Lightness J";
          VStr "Correlate of chroma C";
          VStr "Hue angle h in degrees";
          VStr "Correlate of saturation s";
          VStr "Correlate of brightness Q";
          VStr "Correlate of colorfulness M";
          VStr "Hue h quadrature H";
          VStr "Hue h composition H<sup>C</sup>";
          VStr "Hue h composition H<sup>C</sup>"]);
     (KStr "codes",
       VList
         [VStr "J";
          VStr "C";
          VStr "h";
          VStr "s";
          VStr "Q";
          VStr "M";
          VStr "H";
          VStr "HC"])].

Definition T_lightness : pyval :=
  VDict
    [(KStr "name", VStr "Lightness");
     (KStr "section", VStr "Qualities");
     (KStr "ui_group", VStr "qua");
     (KStr "description", VStr EmptyString);
     (KStr "illuminant", VStr "all");
     (KStr "observer", VStr "CIE 1931 2 Degree Standard Observer");
     (KStr "labels", VList [VStr "Lightness"]);
     (KStr "codes", VList [VStr "L"])].

Definition T_llab : pyval :=
  VDict
    [(KStr "name", VStr "LLAB(l:c)");
     (KStr "section", VStr "Color Appearance Models");
     (KStr "ui_group", VStr "cam");
     (KStr "description", VStr EmptyString);
     (KStr "illuminant", VStr "all");
     (KStr "observer", VStr "CIE 1931 2 Degree Standard Observer");
     (KStr "defaults",
       VStr ("Viewing Conditions: Reference samples and images, "
             ++ "average surround, subtending < 4"));
     (KStr "labels",
       VList
         [VStr "Correlate of Lightness L<sub>L</sub>";
          VStr "Correlate of chroma Ch<sub>L</sub>";
          VStr "Hue angle h<sub>L</sub> in degrees";
          VStr "Correlate of saturation s<sub>L</sub>";
          VStr "Correlate of colorfulness C<sub>L</sub>";
          VStr "Hue h composition H<sup>C</sup>";
          VStr "Opponent signal A<sub>L</sub>";
          VStr "Opponent signal B<sub>L</sub>"]);
     (KStr "codes",
       VList
         [VStr "J";
          VStr "C";
          VStr "h";
          VStr "s";
          VStr "M";
          VStr "HC";
          VStr "a";
          VStr "b"])].

Definition T_luminance : pyval :=
  VDict
    [(KStr "name", VStr "Luminance");
     (KStr "section", VStr "Qualities");
     (KStr "ui_group", VStr "qua");
     (KStr "description", VStr EmptyString);
     (KStr "illuminant", VStr "none");
     (KStr "observer", VStr "CIE 1931 2 Degree Standard Observer");
     (KStr "labels", VList [VStr "Luminance"]);
     (KStr "codes", VList [VStr "Y"])].

Definition T_munsell_clr : pyval :=
  VDict
    [(KStr "name", VStr "Munsell Color");
     (KStr "section", VStr "Miscellaneous");
     (KStr "ui_group", VStr "misc");
     (KStr "description",
       VStr ("Devised in 1905 by Albert Munsell, the Munsell color "
             ++ "system specifies colors based on three properties: hue, "
             ++ "chroma, and value"));
     (KStr "illuminant", VStr "all");
     (KStr "observer", VStr "CIE 1931 2 Degree Standard Observer");
     (KStr "labels", VList [VStr "Hue Chroma/Value"]);
     (KStr "codes", VList [VStr "Color"])].

Definition T_munsell_value : pyval :=
  VDict
    [(KStr "name", VStr "Munsell Value");
     (KStr "section", VStr "Miscellaneous");
     (KStr "ui_group", VStr "misc");
     (KStr "description", VStr EmptyString);
     (KStr "illuminant", VStr "all");
     (KStr "observer", VStr "CIE 1931 2 Degree Standard Observer");
     (KStr "labels", VList [VStr "Value"]);
     (KStr "codes", VList [VStr "MV"])].

Definition T_nayatani95 : pyval :=
  VDict
    [(KStr "name", VStr "Nayatani (1995)");
     (KStr "section", VStr "Color Appearance Models");
     (KStr "ui_group", VStr "cam");
     (KStr "description", VStr EmptyString);
     (KStr "illuminant", VStr "all");
     (KStr "observer", VStr "CIE 1931 2 Degree Standard Observer");
     (KStr "defaults",
       VStr ("E<sub>O</sub>: 5000.0; E<sub>OR</sub>: 1000; "
             ++ "Y<sub>O</sub>: 20"));
     (KStr "labels",
       VList
         [VStr "Correlate of achromatic Lightness L*<sub>p&Star;</sub>";
          VStr "Correlate of chroma C";
          VStr "Hue angle &theta; in degrees";
          VStr "Correlate of saturation S";
          VStr "Correlate of brightness B<sub>r&Star;</sub>";
          VStr "Correlate of colorfulness M";
          VStr "Hue h quadrature H";
          VStr "Hue h composition H<sup>C</sup>";
          VStr "Hue h composition H<sup>C</sup>"]);
     (KStr "codes",
       VList
         [VStr "L*<sub>p&Star;</sub>";
          VStr "C";
          VStr "h";
          VStr "s";
          VStr "Q";
          VStr "M";
          VStr "H";
          VStr "HC";
          VStr "L*<sub>n&Star;</sub>"])].

Definition T_oklab : pyval :=
  VDict
    [(KStr "name", VStr "Oklab");
     (KStr "section", VStr "Similar to CIELAB");
     (KStr "ui_group", VStr "lab");
     (KStr "description", VStr EmptyString);
     (KStr "illuminant", VStr "D65");
     (KStr "observer", VStr "CIE 1931 2 Degree Standard Observer");
     (KStr "labels",
       VList
         [VStr "Lightness";
          VStr "Greenness-Redness";
          VStr "Blueness-yellowness"]);
     (KStr "codes", VList [VStr "L"; VStr "a"; VStr "b"])].

Definition T_osaucs : pyval :=
  VDict
    [(KStr "name", VStr "OSA UCS");
     (KStr "section", VStr "Similar to CIELAB");
     (KStr "ui_group", VStr "lab");
     (KStr "description", VStr EmptyString);
     (KStr "illuminant", VStr "all");
     (KStr "observer", VStr "CIE 1964 10 Degree Standard Observer");
     (KStr "labels",
       VList [VStr "Lightness"; VStr "jaune (yellowness)"; VStr "greenness"]);
     (KStr "codes", VList [VStr "L"; VStr "j"; VStr "g"])].

Definition T_prolab : pyval :=
  VDict
    [(KStr "name", VStr "ProLab");
     (KStr "section", VStr "Similar to CIELAB");
     (KStr "ui_group", VStr "lab");
     (KStr "description", VStr EmptyString);
     (KStr "illuminant", VStr "all");
     (KStr "observer", VStr "CIE 1931 2 Degree Standard Observer");
     (KStr "labels",
       VList
         [VStr "Lightness";
          VStr "Greenness-redness";
          VStr "Blueness-yellowness"]);
     (KStr "codes", VList [VStr "L"; VStr "a"; VStr "b"])].

Definition T_rlab : pyval :=
  VDict
    [(KStr "name", VStr "RLAB");
     (KStr "section", VStr "Color Appearance Models");
     (KStr "ui_group", VStr "cam");
     (KStr "description", VStr EmptyString);
     (KStr "illuminant", VStr "all");
     (KStr "observer", VStr "CIE 1931 2 Degree Standard Observer");
     (KStr "defaults",
       VStr ("Viewing Conditions: average; Discounting the Illuminant "
             ++ "Factor: hard copy images"));
     (KStr "labels",
       VList
         [VStr "Correlate of Lightness L<sup>R</sup>";
          VStr "Correlate of achromatic chroma C<sup>R</sup>";
          VStr "Hue angle h<sup>R</sup> in degrees";
          VStr "Correlate of saturation s<sup>R</sup>";
          VStr "Hue h composition H<sup>C</sup>";
          VStr "Red-green chromatic response a<sup>R</sup>";
          VStr "Yellow-blue chromatic response b<sup>R</sup>"]);
     (KStr "codes",
       VList
         [VStr "J";
          VStr "C";
          VStr "h";
          VStr "s";
          VStr "HC";
          VStr "a";
          VStr "b"])].

Definition T_wavelength : pyval :=
  VDict
    [(KStr "name", VStr "Wavelength");
     (KStr "section", VStr EmptyString);
     (KStr "description", VStr EmptyString);
     (KStr "illuminant", VStr "all");
     (KStr "observer", VStr "all");
     (KStr "labels", VList [VStr "Wavelength (nm)"]);
     (KStr "codes", VList [VStr "&gamma;"])].

Definition T_whiteness_stensby : pyval :=
  VDict
    [(KStr "name", VStr "Whiteness Index (Stensby)");
     (KStr "section", VStr "Qualities");
     (KStr "ui_group", VStr "qua");
     (KStr "description",
       VStr ("Values larger than 100 indicate a bluish-white and "
             ++ "values smaller than 100 indicate a yellowish-white"));
     (KStr "illuminant", VStr "all");
     (KStr "observer", VStr "all");
     (KStr "labels", VList [VStr "Whiteness Index"]);
     (KStr "codes", VList [VStr "WI"])].

Definition T_whiteness_berger : pyval :=
  VDict
    [(KStr "name", VStr "Whiteness Index (Berger)");
     (KStr "section", VStr "Qualities");
     (KStr "ui_group", VStr "qua");
     (KStr "description",
       VStr ("Indices larger than 33.33 indicate a bluish-white and "
             ++ "values smaller than 33.33 indicate a yellowish-white"));
     (KStr "illuminant", VStr "all");
     (KStr "observer", VStr "all");
     (KStr "labels", VList [VStr "Whiteness Index"]);
     (KStr "codes", VList [VStr "WI"])].

Definition T_whiteness_cie : pyval :=
  VDict
    [(KStr "name", VStr "Whiteness Index (CIE 2004)");
     (KStr "section", VStr "Qualities");
     (KStr "ui_group", VStr "qua");
     (KStr "description",
       VStr ("W increases with whiteness, reaching 100 for the perfect "
             ++ "diffuser. T is the tint index; a positive value "
             ++ "indicates a greener tint, while a negative value "
             ++ "indicates a redder tint"));
     (KStr "illuminant", VStr "D65");
     (KStr "observer", VStr "all");
     (KStr "labels", VList [VStr "Whiteness Index"]);
     (KStr "codes", VList [VStr "W"])].

Definition T_whiteness_e313 : pyval :=
  VDict
    [(KStr "name", VStr "Whiteness Index (E313)");
     (KStr "section", VStr "Qualities");
     (KStr "ui_group", VStr "qua");
     (KStr "description",
       VStr "Whiteness index of using the ASTM E313 method");
     (KStr "illuminant", VStr "all");
     (KStr "observer", VStr "all");
     (KStr "labels", VList [VStr "Whiteness Index"]);
     (KStr "codes", VList [VStr "WI"])].

Definition T_tintindex_cie : pyval :=
  VDict
    [(KStr "name", VStr "Tint Index");
     (KStr "section", VStr "Qualities");
     (KStr "ui_group", VStr "qua");
     (KStr "description",
       VStr ("A positive value indicates a greener tint, while a "
             ++ "negative value indicates a redder tint"));
     (KStr "illuminant", VStr "all");
     (KStr "observer", VStr "all");
     (KStr "labels", VList [VStr "Tint Index"]);
     (KStr "codes", VList [VStr "T"])].

Definition T_xy : pyval :=
  VDict
    [(KStr "name", VStr "xy");
     (KStr "section", VStr "CIE Fundamentals");
     (KStr "ui_group", VStr "cie");
     (KStr "description", VStr EmptyString);
     (KStr "illuminant", VStr "all");
     (KStr "observer", VStr "CIE 1931 2 Degree Standard Observer");
     (KStr "labels",
       VList [VStr EmptyString; VStr EmptyString; VStr EmptyString]);
     (KStr "codes", VList [VStr "x"; VStr "y"])].

Definition T_xyY : pyval :=
  VDict
    [(KStr "name", VStr "CIE xyY");
     (KStr "section", VStr "CIE Fundamentals");
     (KStr "ui_group", VStr "cie");
     (KStr "description", VStr EmptyString);
     (KStr "illuminant", VStr "all");
     (KStr "observer", VStr "CIE 1931 2 Degree Standard Observer");
     (KStr "labels",
       VList [VStr EmptyString; VStr EmptyString; VStr EmptyString]);
     (KStr "codes", VList [VStr "x"; VStr "y"; VStr "Y"])].

Definition T_yellowness_d1925 : pyval :=
  VDict
    [(KStr "name", VStr "Yellowness Index (D1925)");
     (KStr "section", VStr "Qualities");
     (KStr "ui_group", VStr "qua");
     (KStr "description",
       VStr ("ASTM D1925 was developed for the definition of the "
             ++ "yellowness of homogeneous, non-fluorescent, almost "
             ++ "neutral-transparent, white-scattering or opaque plastics "
             ++ "as reviewed under daylight conditions"));
     (KStr "illuminant", VStr "C");
     (KStr "observer", VStr "CIE 1931 2 Degree Standard Observer");
     (KStr "codes", VList [VStr "YI"])].

Definition T_yellowness_e313 : pyval :=
  VDict
    [(KStr "name", VStr "Yellowness Index (E313)");
     (KStr "section", VStr "Qualities");
     (KStr "ui_group", VStr "qua");
     (KStr "description",
       VStr ("ASTM E313 has successfully been used for a variety of "
             ++ "white or near white materials, including coatings, "
             ++ "plastics, and textiles"));
     (KStr "illuminant", VStr "all");
     (KStr "observer", VStr "CIE 1931 2 Degree Standard Observer");
     (KStr "codes", VList [VStr "YI"])].

Definition T_yrg : pyval :=
  VDict
    [(KStr "name", VStr "Yrg");
     (KStr "section", VStr "Miscellaneous");
     (KStr "ui_group", VStr "misc");
     (KStr "description",
       VStr ("A luminance-chroma space [Kirk, 2019] that fits well "
             ++ "with visual color contrasts as represented by the "
             ++ "Munsell color book for illuminants in the D50-D65 range"));
     (KStr "illuminant", VList [VStr "all"]);
     (KStr "observer", VStr "CIE 1931 2 Degree Standard Observer");
     (KStr "labels",
       VList [VStr "Luminance"; VStr "redness"; VStr "greenness"]);
     (KStr "codes", VList [VStr "Y"; VStr "r"; VStr "g"])].

Definition T_zcam : pyval :=
  VDict
    [(KStr "name", VStr "ZCAM");
     (KStr "section", VStr "Color Appearance Models");
     (KStr "ui_group", VStr "cam");
     (KStr "description", VStr EmptyString);
     (KStr "illuminant", VStr "all");
     (KStr "observer", VStr "CIE 1931 2 Degree Standard Observer");
     (KStr "defaults", VStr "Viewing Conditions: average");
     (KStr "labels",
       VList
         [VStr "Lightness";
          VStr "Chroma";
          VStr "Hue Angle";
          VStr "Saturation";
          VStr "Brightness";
          VStr "Colorfulness";
          VStr "Hue h quadrature H<sub>C</sub>";
          VStr "Hue h composition H<sup>C</sup>";
          VStr "Vividness";
          VStr "Blackness";
          VStr "Whiteness"]);
     (KStr "codes",
       VList
         [VStr "J";
          VStr "C";
          VStr "h";
          VStr "s";
          VStr "Q";
          VStr "M";
          VStr "H";
          VStr "HC";
          VStr "V";
          VStr "K";
          VStr "W"])].

Definition T_pointer : pyval :=
  VDict
    [(KStr "name", VStr "Within Pointer's Gamut?");
     (KStr "section", VStr "Miscellaneous");
     (KStr "ui_group", VStr "misc");
     (KStr "description",
       VStr ("States whether the associated CIEXYZ values are within "
             ++ "Pointer’s Gamut volume, the gamut of real world surface "
             ++ "colors with diffuse reflection [Pointer, 1980]"));
     (KStr "illuminant", VStr "none")].

Definition T_macadam : pyval :=
  VDict
    [(KStr "name", VStr "Within MacAdam Limits?");
     (KStr "section", VStr "Miscellaneous");
     (KStr "ui_group", VStr "misc");
     (KStr "description",
       VStr ("States whether the associated xyY values are within "
             ++ "MacAdam limits of the given illuminant (A, C, or D65)"));
     (KStr "illuminant", VList [VStr "A"; VStr "C"; VStr "D65"]);
     (KStr "observer", VStr "CIE 1931 2 Degree Standard Observer")].

Definition T_a98_rgb_css_color : pyval :=
  VDict
    [(KStr "name", VStr "a98 RGB CSS 4");
     (KStr "section", VStr "CSS Color Module Level 4 Styles");
     (KStr "ui_group", VStr "css");
     (KStr "description", VStr EmptyString);
     (KStr "illuminant", VStr "D65");
     (KStr "observer", VStr "CIE 1931 2 Degree Standard Observer")].

Definition T_cielab_css_color : pyval :=
  VDict
    [(KStr "name", VStr "CIELAB CSS 4");
     (KStr "section", VStr "CSS Color Module Level 4 Styles");
     (KStr "ui_group", VStr "css");
     (KStr "description", VStr EmptyString);
     (KStr "illuminant", VStr "D50");
     (KStr "observer", VStr "CIE 1931 2 Degree Standard Observer")].

Definition T_cielchab_css_color : pyval :=
  VDict
    [(KStr "name", VStr "CIELCHab CSS 4");
     (KStr "section", VStr "CSS Color Module Level 4 Styles");
     (KStr "ui_group", VStr "css");
     (KStr "description", VStr EmptyString);
     (KStr "illuminant", VStr "D50");
     (KStr "observer", VStr "CIE 1931 2 Degree Standard Observer")].

Definition T_ciexyz_css_color : pyval :=
  VDict
    [(KStr "name", VStr "CIEXYZ CSS 4");
     (KStr "section", VStr "CSS Color Module Level 4 Styles");
     (KStr "ui_group", VStr "css");
     (KStr "description", VStr EmptyString);
     (KStr "illuminant", VStr "D65");
     (KStr "observer", VStr "CIE 1931 2 Degree Standard Observer")].

Definition T_ciexyz_d50_css_color : pyval :=
  VDict
    [(KStr "name", VStr "CIEXYZ D50 CSS 4");
     (KStr "section", VStr "CSS Color Module Level 4 Styles");
     (KStr "ui_group", VStr "css");
     (KStr "description", VStr EmptyString);
     (KStr "illuminant", VStr "D50");
     (KStr "observer", VStr "CIE 1931 2 Degree Standard Observer")].

Definition T_ciexyz_d65_css_color : pyval :=
  VDict
    [(KStr "name", VStr "CIEXYZ D65 CSS 4 Color Module Level 4");
     (KStr "section", VStr "CSS Color Module Level 4 Styles");
     (KStr "ui_group", VStr "css");
     (KStr "description", VStr EmptyString);
     (KStr "illuminant", VStr "D65");
     (KStr "observer", VStr "CIE 1931 2 Degree Standard Observer")].

Definition T_display_p3_css_color : pyval :=
  VDict
    [(KStr "name", VStr "Display P3 CSS 4");
     (KStr "section", VStr "CSS Color Module Level 4 Styles");
     (KStr "ui_group", VStr "css");
     (KStr "description", VStr EmptyString);
     (KStr "illuminant", VStr "D65");
     (KStr "observer", VStr "CIE 1931 2 Degree Standard Observer")].

Definition T_hsl_css_color : pyval :=
  VDict
    [(KStr "name", VStr "Hue-Saturation-Lightness CSS 4");
     (KStr "section", VStr "CSS Color Module Level 4 Styles");
     (KStr "ui_group", VStr "css");
     (KStr "description", VStr EmptyString);
     (KStr "illuminant", VStr "D65");
     (KStr "observer", VStr "CIE 1931 2 Degree Standard Observer")].

Definition T_hwb_css_color : pyval :=
  VDict
    [(KStr "name", VStr "HWB CSS 4");
     (KStr "section", VStr "CSS Color Module Level 4 Styles");
     (KStr "ui_group", VStr "css");
     (KStr "description", VStr EmptyString);
     (KStr "illuminant", VStr "D65");
     (KStr "observer", VStr "CIE 1931 2 Degree Standard Observer")].

Definition T_linear_srgb_css_color : pyval :=
  VDict
    [(KStr "name", VStr "Linear sRGB CSS 4");
     (KStr "section", VStr "CSS Color Module Level 4 Styles");
     (KStr "ui_group", VStr "css");
     (KStr "description", VStr EmptyString);
     (KStr "illuminant", VStr "D65");
     (KStr "observer", VStr "CIE 1931 2 Degree Standard Observer")].

Definition T_oklab_css_color : pyval :=
  VDict
    [(KStr "name", VStr "Oklab CSS 4");
     (KStr "section", VStr "CSS Color Module Level 4 Styles");
     (KStr "ui_group", VStr "css");
     (KStr "description", VStr EmptyString);
     (KStr "illuminant", VStr "D65");
     (KStr "observer", VStr "CIE 1931 2 Degree Standard Observer")].

Definition T_prophoto_rgb_css_color : pyval :=
  VDict
    [(KStr "name", VStr "ProPhoto RGB CSS 4");
     (KStr "section", VStr "CSS Color Module Level 4 Styles");
     (KStr "ui_group", VStr "css");
     (KStr "description", VStr EmptyString);
     (KStr "illuminant", VStr "D50");
     (KStr "observer", VStr "CIE 1931 2 Degree Standard Observer")].

Definition T_rec_2020_css_color : pyval :=
  VDict
    [(KStr "name", VStr "ITU-R BT.2020 CSS 4");
     (KStr "section", VStr "CSS Color Module Level 4 Styles");
     (KStr "ui_group", VStr "css");
     (KStr "description", VStr EmptyString);
     (KStr "illuminant", VStr "D65");
     (KStr "observer", VStr "CIE 1931 2 Degree Standard Observer")].

Definition T_srgb_css_color : pyval :=
  VDict
    [(KStr "name", VStr "sRGB CSS 4");
     (KStr "section", VStr "CSS Color Module Level 4 Styles");
     (KStr "ui_group", VStr "css");
     (KStr "description", VStr EmptyString);
     (KStr "illuminant", VStr "D65");
     (KStr "observer", VStr "CIE 1931 2 Degree Standard Observer")].

Definition T_cri : pyval :=
  VDict
    [(KStr "name", VStr "CRI");
     (KStr "section", VStr "Light Source Quality");
     (KStr "ui_group", VStr "spd");
     (KStr "description",
       VStr ("Color Rendering Index is a quantitative measure of the "
             ++ "ability of a light source to reveal the colors of "
             ++ "various objects accurately in comparison with a natural "
             ++ "or standard light source; devised by the CIE"));
     (KStr "illuminant", VStr "all");
     (KStr "codes", VList [VStr "R<sub>a</sub>"])].

Definition T_cfi : pyval :=
  VDict
    [(KStr "name", VStr "CFI");
     (KStr "section", VStr "Light Source Quality");
     (KStr "ui_group", VStr "spd");
     (KStr "description",
       VStr ("The general Color Fidelity Index represents how closely "
             ++ "the color appearances of the entire sample set are "
             ++ "reproduced on average by a test light as compared to "
             ++ "those under a reference illuminant"));
     (KStr "illuminant", VStr "all");
     (KStr "codes", VList [VStr "R<sub>f</sub>"])].

Definition T_cqs : pyval :=
  VDict
    [(KStr "name", VStr "CQS");
     (KStr "section", VStr "Light Source Quality");
     (KStr "ui_group", VStr "spd");
     (KStr "description",
       VStr ("Color Quality Scale, a quantitative measure of the "
             ++ "ability of a light source to reproduce colors of "
             ++ "illuminated objects"));
     (KStr "illuminant", VStr "all");
     (KStr "codes", VList [VStr "Q<sub>a</sub>"])].

Definition T_lum_efficacy : pyval :=
  VDict
    [(KStr "name", VStr "Luminous Efficacy");
     (KStr "section", VStr "Light Source Quality");
     (KStr "ui_group", VStr "spd");
     (KStr "description",
       VStr ("The quotient of luminous flux divided by the total "
             ++ "radiant flux, using the efficiency function of the CIE "
             ++ "1924 Photopic Standard Observer"));
     (KStr "illuminant", VStr "all");
     (KStr "codes", VList [VStr "K"]);
     (KStr "units", VList [VStr "  lm⋅W<sup>−1</sup>"])].

Definition T_lum_efficiency : pyval :=
  VDict
    [(KStr "name", VStr "Luminous Efficiency");
     (KStr "section", VStr "Light Source Quality");
     (KStr "ui_group", VStr "spd");
     (KStr "description",
       VStr ("The ratio of the total luminous flux to the total "
             ++ "radiant flux of an emitting source, using the efficiency "
             ++ "function of the CIE 1924 Photopic Standard Observer"));
     (KStr "illuminant", VStr "all")].

Definition T_lum_flux : pyval :=
  VDict
    [(KStr "name", VStr "Luminous Flux");
     (KStr "section", VStr "Light Source Quality");
     (KStr "ui_group", VStr "spd");
     (KStr "description",
       VStr ("The time rate of flow of radiant energy, evaluated in "
             ++ "terms of standardized photopic vision"));
     (KStr "illuminant", VStr "all");
     (KStr "codes", VList [VStr "&Phi;<sub>v</sub>"]);
     (KStr "units", VList [VStr "lm"])].

Definition T_ssi : pyval :=
  VDict
    [(KStr "name", VStr "SSI");
     (KStr "section", VStr "Light Source Quality");
     (KStr "ui_group", VStr "spd");
     (KStr "description", VStr EmptyString);
     (KStr "illuminant", VStr "all");
     (KStr "codes", VList [VStr "SSI"])].

Definition T_sr_sd : pyval :=
  VDict
    [(KStr "name", VStr "Recovered Spectrum");
     (KStr "section", VStr "Spectral Power Distribution");
     (KStr "ui_group", VStr "spd");
     (KStr "description",
       VStr ("Recovered the spectral distribution and adapted to "
             ++ "CIEXYZ D65 values with the CIE 1931 2 Degree Standard "
             ++ "Observer, using the Jakob and Hanika (2019) method"));
     (KStr "illuminant", VStr "D65");
     (KStr "codes", VList [VStr "SPD"])].

Definition COLOR_MODELS_TEMPLATES : dict :=
  [(KStr "ACES2065-1", T_ACES2065_1);
   (KStr "ACEScc", T_ACEScc);
   (KStr "ACEScct", T_ACEScct);
   (KStr "ACEScg", T_ACEScg);
   (KStr "ACESproxy", T_ACESproxy);
   (KStr "ARRI Wide Gamut 3", T_ARRI_Wide_Gamut_3);
   (KStr "ARRI Wide Gamut 4", T_ARRI_Wide_Gamut_4);
   (KStr "Adobe RGB (1998)", T_Adobe_RGB_1998);
   (KStr "Adobe Wide Gamut RGB", T_Adobe_Wide_Gamut_RGB);
   (KStr "Apple RGB", T_Apple_RGB);
   (KStr "Best RGB", T_Best_RGB);
   (KStr "Beta RGB", T_Beta_RGB);
   (KStr "Blackmagic Wide Gamut", T_Blackmagic_Wide_Gamut);
   (KStr "CIE RGB", T_CIE_RGB);
   (KStr "Cinema Gamut", T_Cinema_Gamut);
   (KStr "ColorMatch RGB", T_ColorMatch_RGB);
   (KStr "DCDM XYZ", T_DCDM_XYZ);
   (KStr "DCI-P3", T_DCI_P3);
   (KStr "DCI-P3-P", T_DCI_P3_P);
   (KStr "DJI D-Gamut", T_DJI_D_Gamut);
   (KStr "DRAGONcolor", T_DRAGONcolor);
   (KStr "DRAGONcolor2", T_DRAGONcolor2);
   (KStr "DaVinci Wide Gamut", T_DaVinci_Wide_Gamut);
   (KStr "Display P3", T_Display_P3);
   (KStr "Don RGB 4", T_Don_RGB_4);
   (KStr "EBU Tech. 3213-E", T_EBU_Tech_3213_E);
   (KStr "ECI RGB v2", T_ECI_RGB_v2);
   (KStr "ERIMM RGB", T_ERIMM_RGB);
   (KStr "Ekta Space PS 5", T_Ekta_Space_PS_5);
   (KStr "F-Gamut", T_F_Gamut);
   (KStr "FilmLight E-Gamut", T_FilmLight_E_Gamut);
   (KStr "ITU-R BT.2020", T_ITU_R_BT_2020);
   (KStr "ITU-R BT.470 - 525", T_ITU_R_BT_470_525);
   (KStr "ITU-R BT.470 - 625", T_ITU_R_BT_470_625);
   (KStr "ITU-R BT.709", T_ITU_R_BT_709);
   (KStr "ITU-T H.273 - 22 Unspecified", T_ITU_T_H_273_22_Unspecified);
   (KStr "ITU-T H.273 - Generic Film", T_ITU_T_H_273_Generic_Film);
   (KStr "Max RGB", T_Max_RGB);
   (KStr "N-Gamut", T_N_Gamut);
   (KStr "NTSC (1953)", T_NTSC_1953);
   (KStr "NTSC (1987)", T_NTSC_1987);
   (KStr "P3-D65", T_P3_D65);
   (KStr "Pal/Secam", T_Pal_Secam);
   (KStr "PLASA ANSI E1.54", T_PLASA_ANSI_E1_54);
   (KStr "ProPhoto RGB", T_ProPhoto_RGB);
   (KStr "Protune Native", T_Protune_Native);
   (KStr "REDWideGamutRGB", T_REDWideGamutRGB);
   (KStr "REDcolor", T_REDcolor);
   (KStr "REDcolor2", T_REDcolor2);
   (KStr "REDcolor3", T_REDcolor3);
   (KStr "REDcolor4", T_REDcolor4);
   (KStr "RIMM RGB", T_RIMM_RGB);
   (KStr "ROMM RGB", T_ROMM_RGB);
   (KStr "Russell RGB", T_Russell_RGB);
   (KStr "S-Gamut", T_S_Gamut);
   (KStr "S-Gamut3", T_S_Gamut3);
   (KStr "S-Gamut3.Cine", T_S_Gamut3_Cine);
   (KStr "SMPTE 240M", T_SMPTE_240M);
   (KStr "SMPTE C", T_SMPTE_C);
   (KStr "Sharp RGB", T_Sharp_RGB);
   (KStr "V-Gamut", T_V_Gamut);
   (KStr "Venice S-Gamut3", T_Venice_S_Gamut3);
   (KStr "Venice S-Gamut3.Cine", T_Venice_S_Gamut3_Cine);
   (KStr "Xtreme RGB", T_Xtreme_RGB);
   (KStr "sRGB", T_sRGB);
   (KStr "cmy", T_cmy);
   (KStr "cmyk", T_cmyk);
   (KStr "hcl", T_hcl);
   (KStr "hexadecimal", T_hexadecimal);
   (KStr "hsl", T_hsl);
   (KStr "hsv", T_hsv);
   (KStr "hwb", T_hwb);
   (KStr "ihls", T_ihls);
   (KStr "prismatic", T_prismatic);
   (KStr "rgbluminance", T_rgbluminance);
   (KStr "ycbcr", T_ycbcr);
   (KStr "yccbccrc", T_yccbccrc);
   (KStr "ycocg", T_ycocg);
   (KStr "atd95", T_atd95);
   (KStr "cam02lcd", T_cam02lcd);
   (KStr "cam02scd", T_cam02scd);
   (KStr "cam02ucs", T_cam02ucs);
   (KStr "cam16", T_cam16);
   (KStr "cam16lcd", T_cam16lcd);
   (KStr "cam16scd", T_cam16scd);
   (KStr "cam16ucs", T_cam16ucs);
   (KStr "cct", T_cct);
   (KStr "mired", T_mired);
   (KStr "ciecam02", T_ciecam02);
   (KStr "ciecam16", T_ciecam16);
   (KStr "cielab", T_cielab);
   (KStr "cielchab", T_cielchab);
   (KStr "cielchuv", T_cielchuv);
   (KStr "cieluv", T_cieluv);
   (KStr "cieluvuv", T_cieluvuv);
   (KStr "cieucs", T_cieucs);
   (KStr "cieucsuv", T_cieucsuv);
   (KStr "cieuvw", T_cieuvw);
   (KStr "ciexyz", T_ciexyz);
   (KStr "clrpurity", T_clrpurity);
   (KStr "compwave", T_compwave);
   (KStr "din99", T_din99);
   (KStr "din99b", T_din99b);
   (KStr "din99c", T_din99c);
   (KStr "din99d", T_din99d);
   (KStr "domwave", T_domwave);
   (KStr "duv", T_duv);
   (KStr "expurity", T_expurity);
   (KStr "hdrcielab", T_hdrcielab);
   (KStr "hdript", T_hdript);
   (KStr "hellwig2022", T_hellwig2022);
   (KStr "hunt", T_hunt);
   (KStr "hunterkakb", T_hunterkakb);
   (KStr "hunterlab", T_hunterlab);
   (KStr "hunterrdab", T_hunterrdab);
   (KStr "iab", T_iab);
   (KStr "icacb", T_icacb);
   (KStr "ictcp_2100_1_hlg", T_ictcp_2100_1_hlg);
   (KStr "ictcp_2100_1_pq", T_ictcp_2100_1_pq);
   (KStr "ictcp_2100_2_hlg", T_ictcp_2100_2_hlg);
   (KStr "ictcp_2100_2_pq", T_ictcp_2100_2_pq);
   (KStr "igpgtg", T_igpgtg);
   (KStr "ipt", T_ipt);
   (KStr "ipt_hue", T_ipt_hue);
   (KStr "iptragoo", T_iptragoo);
   (KStr "jmhciecam02", T_jmhciecam02);
   (KStr "jmhciecam16", T_jmhciecam16);
   (KStr "jmhcam16", T_jmhcam16);
   (KStr "jmhhellwig2022", T_jmhhellwig2022);
   (KStr "izazbz", T_izazbz);
   (KStr "jzazbz", T_jzazbz);
   (KStr "kim2009", T_kim2009);
   (KStr "lightness", T_lightness);
   (KStr "llab", T_llab);
   (KStr "luminance", T_luminance);
   (KStr "munsell_clr", T_munsell_clr);
   (KStr "munsell_value", T_munsell_value);
   (KStr "nayatani95", T_nayatani95);
   (KStr "oklab", T_oklab);
   (KStr "osaucs", T_osaucs);
   (KStr "prolab", T_prolab);
   (KStr "rlab", T_rlab);
   (KStr "wavelength", T_wavelength);
   (KStr "whiteness_stensby", T_whiteness_stensby);
   (KStr "whiteness_berger", T_whiteness_berger);
   (KStr "whiteness_cie", T_whiteness_cie);
   (KStr "whiteness_e313", T_whiteness_e313);
   (KStr "tintindex_cie", T_tintindex_cie);
   (KStr "xy", T_xy);
   (KStr "xyY", T_xyY);
   (KStr "yellowness_d1925", T_yellowness_d1925);
   (KStr "yellowness_e313", T_yellowness_e313);
   (KStr "yrg", T_yrg);
   (KStr "zcam", T_zcam);
   (KStr "pointer", T_pointer);
   (KStr "macadam", T_macadam);
   (KStr "a98_rgb_css_color", T_a98_rgb_css_color);
   (KStr "cielab_css_color", T_cielab_css_color);
   (KStr "cielchab_css_color", T_cielchab_css_color);
   (KStr "ciexyz_css_color", T_ciexyz_css_color);
   (KStr "ciexyz_d50_css_color", T_ciexyz_d50_css_color);
   (KStr "ciexyz_d65_css_color", T_ciexyz_d65_css_color);
   (KStr "display_p3_css_color", T_display_p3_css_color);
   (KStr "hsl_css_color", T_hsl_css_color);
   (KStr "hwb_css_color", T_hwb_css_color);
   (KStr "linear_srgb_css_color", T_linear_srgb_css_color);
   (KStr "oklab_css_color", T_oklab_css_color);
   (KStr "prophoto_rgb_css_color", T_prophoto_rgb_css_color);
   (KStr "rec_2020_css_color", T_rec_2020_css_color);
   (KStr "srgb_css_color", T_srgb_css_color);
   (KStr "cri", T_cri);
   (KStr "cfi", T_cfi);
   (KStr "cqs", T_cqs);
   (KStr "lum_efficacy", T_lum_efficacy);
   (KStr "lum_efficiency", T_lum_efficiency);
   (KStr "lum_flux", T_lum_flux);
   (KStr "ssi", T_ssi);
   (KStr "sr_sd", T_sr_sd)].

(** ** The program state

    [result] and the conversion functions work on module-level names.
    The state keeps the dictionary [res], the conditionally assigned
    global names that are bound so far, and whether [ciexyz_c] holds
    [None].  Two ghost fields record the pairs the main loop has called
    [convert_with_xyz] on and the calls of [result], in order. *)

Record call : Type := {
  c_model : string;
  c_illuminant : ctxarg;
  c_observer : ctxarg;
  c_cat : option ctxarg
}.

Record pstate : Type := {
  g_res : dict;
  g_bound : list string;
  g_ciexyz_c_None : bool;
  g_attempted : list (string * string);
  g_calls : list call
}.

(** A statement: it runs in a state, leaves a state, and returns or
    raises.  What was done before an exception stays done. *)
Definition P (A : Type) : Type := pstate -> M A * pstate.

Definition pret {A : Type} (a : A) : P A := fun s => (ret a, s).
Definition praise {A : Type} (e : exn) : P A := fun s => (raise e, s).
Definition pbind {A B : Type} (c : P A) (k : A -> P B) : P B :=
  fun s =>
    match c s with
    | (inl e, s') => (inl e, s')
    | (inr a, s') => k a s'
    end.
Definition lift {A : Type} (c : M A) : P A := fun s => (c, s).

Notation "x <~ c ;; k" := (pbind c (fun x => k))
  (at level 100, c at next level, right associativity) : py_scope.
Notation "c ;;> k" := (pbind c (fun _ => k))
  (at level 100, right associativity) : py_scope.

Definition skip : P unit := pret tt.

(** [for x in l: body(x)] *)
Fixpoint for_each {A : Type} (l : list A) (body : A -> P unit) : P unit :=
  match l with
  | [] => skip
  | x :: l' => body x ;;> for_each l' body
  end.

(** Reading a global name. *)
Definition need (name : string) : P unit :=
  fun s => if str_in name (g_bound s)
           then (ret tt, s)
           else (raise (NameError name), s).

(** Assigning global names. *)
Definition assign (names : list string) : P unit :=
  fun s => (ret tt,
            {| g_res := g_res s; g_bound := (names ++ g_bound s)%list;
               g_ciexyz_c_None := g_ciexyz_c_None s;
               g_attempted := g_attempted s; g_calls := g_calls s |}).

Definition set_res (r : dict) : P unit :=
  fun s => (ret tt,
            {| g_res := r; g_bound := g_bound s;
               g_ciexyz_c_None := g_ciexyz_c_None s;
               g_attempted := g_attempted s; g_calls := g_calls s |}).

Definition set_ciexyz_c_None (b : bool) : P unit :=
  fun s => (ret tt,
            {| g_res := g_res s; g_bound := g_bound s;
               g_ciexyz_c_None := b;
               g_attempted := g_attempted s; g_calls := g_calls s |}).

Definition log_attempt (observer illuminant : string) : P unit :=
  fun s => (ret tt,
            {| g_res := g_res s; g_bound := g_bound s;
               g_ciexyz_c_None := g_ciexyz_c_None s;
               g_attempted := (g_attempted s ++ [(observer, illuminant)])%list;
               g_calls := g_calls s |}).

(** A call of [result] on the global [res]. *)
Definition call_result (model : string) (value : pyval)
  (illuminant observer : ctxarg) (cat : option ctxarg)
  (no_scientific_notation : bool) : P unit :=
  fun s =>
    let c := {| c_model := model; c_illuminant := illuminant;
                c_observer := observer; c_cat := cat |} in
    let calls := (g_calls s ++ [c])%list in
    match result (g_res s) model value illuminant observer cat false
                 no_scientific_notation with
    | inl e =>
        (inl e,
         {| g_res := g_res s; g_bound := g_bound s;
            g_ciexyz_c_None := g_ciexyz_c_None s;
            g_attempted := g_attempted s; g_calls := calls |})
    | inr r =>
        (ret tt,
         {| g_res := r; g_bound := g_bound s;
            g_ciexyz_c_None := g_ciexyz_c_None s;
            g_attempted := g_attempted s; g_calls := calls |})
    end.

(** [table[k]] on a table of the library, of which only the keys
    matter. *)
Definition lib_item (table : list string) (k : string) : P unit :=
  if str_in k table then skip else praise (KeyError k).

(** [table[k1][k2]] *)
Definition lib_item2 (table : list (string * list string)) (k1 k2 : string)
  : P unit :=
  match dict_get table k1 with
  | None => praise (KeyError k1)
  | Some inner => lib_item inner k2
  end.

Definition py_truth_str (o : option string) : bool :=
  match o with
  | Some s => negb (String.eqb s "")
  | None => false
  end.

Definition pyval_is_str (v : pyval) (s : string) : bool :=
  match v with VStr t => String.eqb t s | _ => false end.

(** The list [--illuminant_list] selects in the main loop. *)
Definition selected_illuminants (illuminant_list : string) : list string :=
  if String.eqb illuminant_list "All" then RGB_ILLUMINANTS_LIST
  else if String.eqb illuminant_list "CIE" then CIE_ILLUMINANTS_LIST
  else if String.eqb illuminant_list "ISO_7589" then ISO_7589_ILLUMINANTS_LIST
  else [].

(** The calls of [result] that close [convert_with_xyz], from
    [result("atd95", ...)] to [result("zcam", ...)]: the key and whether
    the call passes [illuminant, observer, cat]. *)
Definition xyz_result_keys : list (string * bool) :=
  [("atd95", true); ("cam02lcd", true); ("cam02scd", true);
   ("cam02ucs", true); ("cam16", true); ("cam16lcd", true);
   ("cam16scd", true); ("cam16ucs", true); ("cct", true);
   ("ciecam02", true); ("ciecam16", true); ("cielab", true);
   ("cielchab", true); ("cieluv", true); ("cielchuv", true);
   ("cieluvuv", true); ("cieucs", true); ("cieucsuv", true);
   ("cieuvw", true); ("ciexyz", true); ("clrpurity", true);
   ("compwave", true); ("din99", true); ("din99b", true);
   ("din99c", true); ("din99d", true); ("domwave", true); ("duv", true);
   ("expurity", true); ("hdrcielab", true); ("hdript", true);
   ("hellwig2022", true); ("hunt", true); ("hunterkakb", true);
   ("hunterlab", true); ("hunterrdab", true); ("iab", true);
   ("icacb", true); ("ictcp_2100_1_hlg", true); ("ictcp_2100_1_pq", true);
   ("ictcp_2100_2_hlg", true); ("ictcp_2100_2_pq", true);
   ("igpgtg", true); ("ipt", true); ("ipt_hue", true); ("iptragoo", true);
   ("izazbz", true); ("jmhcam16", true); ("jmhciecam02", true);
   ("jmhciecam16", true); ("jmhhellwig2022", true); ("jzazbz", true);
   ("kim2009", true); ("lightness", true); ("llab", true);
   ("luminance", true); ("mired", true); ("munsell_value", true);
   ("nayatani95", true); ("oklab", true); ("osaucs", true);
   ("pointer", false); ("prolab", true); ("rlab", true);
   ("tintindex_cie", true); ("wavelength", false);
   ("whiteness_cie", true); ("whiteness_e313", true);
   ("whiteness_berger", true); ("whiteness_stensby", true); ("xy", true);
   ("xyY", true); ("yellowness_d1925", true); ("yellowness_e313", true);
   ("yrg", false); ("zcam", true)].

(** The calls of [result] that close [convert_to_css]. *)
Definition css_result_keys : list (string * bool) :=
  [("a98_rgb_css_color", true); ("cielab_css_color", true);
   ("cielchab_css_color", true); ("ciexyz_css_color", true);
   ("ciexyz_d50_css_color", true); ("ciexyz_d65_css_color", true);
   ("display_p3_css_color", true); ("hexadecimal", false);
   ("linear_srgb_css_color", true); ("oklab_css_color", true);
   ("prophoto_rgb_css_color", true); ("rec_2020_css_color", true);
   ("srgb_css_color", true)].

(** The calls of [result] that close [convert_rgb_no_xyz]; each passes
    the illuminant only. *)
Definition rgb_no_xyz_result_keys : list string :=
  ["cmy"; "cmyk"; "hcl"; "hsl"; "hsl_css_color"; "hsv"; "hwb";
   "hwb_css_color"; "ihls"; "prismatic"; "rgbluminance"; "ycbcr";
   "yccbccrc"; "ycocg"].

(** ** The conversions and the main program *)

Definition get_res : P dict := fun s => (ret (g_res s), s).
Definition get_ciexyz_c_None : P bool := fun s => (ret (g_ciexyz_c_None s), s).

Definition no_sci (key : string) : bool :=
  String.eqb key "izazbz" || String.eqb key "jzazbz".

(** What the script takes from the colour library: the keys of its
    tables, the white point names of its RGB colour spaces, the parser
    of JSON text, and the values its conversions return, named by the key
    and the context they are stored under. *)
Record Library : Type := {
  RGB_COLOURSPACES : list string;
  whitepoint_name : string -> string;
  CCS_ILLUMINANTS : list (string * list string);
  TVS_ILLUMINANTS : list (string * list string);
  SDS_ILLUMINANTS : list string;
  MSDS_CMFS : list string;
  json_loads : string -> M pyval;
  computed : string -> ctxarg -> ctxarg -> option ctxarg -> pyval
}.

Section Library.
Variable lib : Library.

Section Run.
(** The globals [args] and [model] that [parse_arguments] returned. *)
Variable args : Args.
Variable model : ColorModel.

Definition use_cats : option (list string) := cat args.

Definition is_model (m : ColorModel) : bool := ColorModel_eqb model m.

(** [result(key, <value>, illuminant, observer, cat)] for a value
    the library computed. *)
Definition result_of (key : string) (illuminant observer : ctxarg)
  (cat : option ctxarg) : P unit :=
  call_result key (computed lib key illuminant observer cat)
              illuminant observer cat (no_sci key).

(** The loop [for cat in use_cats] of [convert_rgb_to_rgb]; it is
    left after one round when the white points agree. *)
Fixpoint convert_rgb_to_rgb_cats (colorspaceid : string)
  (cats : list string) : P unit :=
  match cats with
  | [] => skip
  | c :: cats' =>
      lib_item (RGB_COLOURSPACES lib) (input_colorspace args) ;;>
      lib_item (RGB_COLOURSPACES lib) colorspaceid ;;>
      let same :=
        String.eqb (whitepoint_name lib (input_colorspace args))
                   (whitepoint_name lib colorspaceid) in
      let cat := if same then None else Some (AStr c) in
      need "linear_rgb" ;;>
      need "factor" ;;>
      result_of colorspaceid (AStr (whitepoint_name lib colorspaceid))
                AFalse cat ;;>
      if same then skip else convert_rgb_to_rgb_cats colorspaceid cats'
  end.

(** [convert_rgb_to_rgb(colorspaceid)] *)
Definition convert_rgb_to_rgb (colorspaceid : string) : P unit :=
  if negb (str_in colorspaceid COLOR_MODELS_ALIASES) then
    match use_cats with
    | None => praise (TypeError "'NoneType' object is not iterable")
    | Some cats => convert_rgb_to_rgb_cats colorspaceid cats
    end
  else skip.

(** [convert_rgb_no_xyz(rgb_norm, p, wt, illuminant)] *)
Definition convert_rgb_no_xyz (illuminant : ctxarg) : P unit :=
  for_each rgb_no_xyz_result_keys
           (fun key => result_of key illuminant AFalse None).

(** The functions [model_functions] dispatches to.  Each returns
    whether the third component of its result is [None].
    [illuminant_xy_d65], [illuminant_xy_c], [illuminant_xyz_d65] and
    [illuminant_xyz_c] are locals of [convert_with_xyz]; read from
    these module-level functions they are global names, which
    nothing binds. *)
Definition process_cielchuv : P bool :=
  need "cielchuv" ;;> need "illuminant_in_xy" ;;>
  need "illuminant_xy_d65" ;;> need "illuminant_xy_c" ;;>
  pret false.

Definition process_cielab_or_cielchab : P bool :=
  need "cielab" ;;> need "illuminant_in_xy" ;;>
  need "illuminant_xy_d65" ;;> need "illuminant_xy_c" ;;>
  pret false.

Definition process_cieluv : P bool :=
  need "cieluv" ;;> need "illuminant_in_xy" ;;>
  need "illuminant_xy_d65" ;;> need "illuminant_xy_c" ;;>
  pret false.

Definition chromatic_adaptations_in_convert_with_xyz : P unit :=
  need "illuminant_xyz_c".

Definition process_ciexyz : P bool :=
  (match x_val args, y_val args, z_val args with
   | Some _, Some _, Some _ => skip
   | _, _, _ => praise (TypeError "float() argument must be a number")
   end) ;;>
  need "illuminant_xyz_d65" ;;> need "illuminant_in_xyz" ;;>
  chromatic_adaptations_in_convert_with_xyz ;;>
  pret true.

Definition process_spectrum (observer illuminant : string) : P bool :=
  lib_item (MSDS_CMFS lib) observer ;;>
  lib_item (SDS_ILLUMINANTS lib) illuminant ;;>
  need "sd" ;;> need "sd_shape" ;;>
  need "illuminant_xyz_d65" ;;> need "illuminant_in_xyz" ;;>
  chromatic_adaptations_in_convert_with_xyz ;;>
  pret true.

Definition process_wavelength (observer : string) : P bool :=
  lib_item (MSDS_CMFS lib) observer ;;>
  pret true.

Definition model_functions (observer illuminant : string) : P bool :=
  match model with
  | CIELCHuv => process_cielchuv
  | CIELAB | CIELCHab => process_cielab_or_cielchab
  | CIELUV => process_cieluv
  | CIEXYZ => process_ciexyz
  | Spectrum => process_spectrum observer illuminant
  | Wavelength => process_wavelength observer
  | RGB => praise (KeyError "RGB")
  end.

(** [convert_to_css(cielab, cielchab, oklab, illuminant, observer,
    cat)] *)
Definition convert_to_css (illuminant observer : ctxarg)
  (cat : option ctxarg) : P unit :=
  lib_item2 (CCS_ILLUMINANTS lib) "CIE 1931 2 Degree Standard Observer" "D65" ;;>
  lib_item2 (CCS_ILLUMINANTS lib) "CIE 1931 2 Degree Standard Observer" "D50" ;;>
  for_each RGB_CSS_COLORSPACES (lib_item (RGB_COLOURSPACES lib)) ;;>
  for_each css_result_keys
    (fun kc =>
       if snd kc then result_of (fst kc) illuminant observer cat
       else result_of (fst kc) AFalse AFalse None).

(** [convert_xyz_to_rgb(colorspaceid, observer, illuminant, cat)] *)
Definition convert_xyz_to_rgb (colorspaceid observer illuminant : string)
  (cat : option ctxarg) : P unit :=
  if str_in colorspaceid COLOR_MODELS_ALIASES then skip else
  res <~ get_res ;;
  entry <~ lift (dict_getitem res colorspaceid) ;;
  template <~ lift (as_dict entry) ;;
  ill <~ lift (dict_getitem template "illuminant") ;;
  if negb (pyval_is_str ill "all") && negb (pyval_is_str ill illuminant)
  then skip
  else
    lib_item (RGB_COLOURSPACES lib) colorspaceid ;;>
    need "illuminant_in_xy" ;;> need "ciexyz" ;;>
    need "illuminant_in_xyz" ;;> need "factor" ;;>
    result_of colorspaceid (AStr illuminant) (AStr observer) cat ;;>
    convert_rgb_no_xyz (AStr illuminant).

(** The body of the loop [for cat in cats] of [convert_with_xyz]. *)
Definition xyz_cat_round (cat : option ctxarg) : P unit :=
  if is_model RGB then
    need "linear_rgb" ;;>
    lib_item (RGB_COLOURSPACES lib) (input_colorspace args) ;;>
    assign ["ciexyz"; "ciexyz_d65"; "ciexyz_c"] ;;>
    set_ciexyz_c_None false
  else skip.

(** The transforms [convert_with_xyz] loops over. *)
Definition xyz_cats : P (list (option ctxarg)) :=
  if is_model RGB then
    match use_cats with
    | None => praise (TypeError "'NoneType' object is not iterable")
    | Some cats => pret (map (fun c => Some (AStr c)) cats)
    end
  else pret [None].

(** The value of [wavelen]. *)
Definition wavelen : P pyval :=
  if is_model Wavelength then
    need "wave" ;;>
    match wave args with
    | Some w => pret (VFloat w)
    | None => pret VNone
    end
  else pret (VStr "").

(** [convert_with_xyz(observer, illuminant)] *)
Definition convert_with_xyz (observer illuminant : string) : P unit :=
  if is_model Spectrum && negb (str_in illuminant (SDS_ILLUMINANTS lib))
  then skip
  else
    match dict_get (CCS_ILLUMINANTS lib) observer with
    | None => praise (KeyError observer)
    | Some ccs_observer =>
        if negb (str_in illuminant ccs_observer) then skip else
        assign ["illuminant_in_xy"; "illuminant_in_xyz"] ;;>
        lib_item2 (CCS_ILLUMINANTS lib) observer "C" ;;>
        lib_item2 (TVS_ILLUMINANTS lib) observer "C" ;;>
        lib_item2 (CCS_ILLUMINANTS lib) observer "D65" ;;>
        lib_item2 (TVS_ILLUMINANTS lib) observer "D65" ;;>
        (if negb (is_model RGB) then
           third_None <~ model_functions observer illuminant ;;
           assign ["ciexyz"; "ciexyz_d65"; "ciexyz_c"] ;;>
           set_ciexyz_c_None third_None
         else skip) ;;>
        cats <~ xyz_cats ;;
        for_each cats xyz_cat_round ;;>
        need "ciexyz" ;;>
        (if negb (is_model CIELAB) && negb (is_model CIELCHab)
         then assign ["cielab"; "cielchab"] else skip) ;;>
        need "cielab" ;;>
        (if is_model CIELUV then need "cieluv" ;;> assign ["cielchuv"]
         else if is_model CIELCHuv then assign ["cieluv"]
         else skip) ;;>
        lib_item (MSDS_CMFS lib) observer ;;>
        (if negb (is_model CIELUV) && negb (is_model CIELCHuv)
         then assign ["cieluv"; "cielchuv"] else skip) ;;>
        need "ciexyz_d65" ;;>
        (* [cat] is the loop variable, read after the loop *)
        cat <~ match rev cats with
               | [] => praise (NameError "cat")
               | c :: _ => pret c
               end ;;
        (* [ciexyz_c_x_100 = ciexyz_c * 100] *)
        need "ciexyz_c" ;;>
        third_None <~ get_ciexyz_c_None ;;
        (if (third_None : bool)
         then praise (TypeError
                "unsupported operand type(s) for *: 'NoneType' and 'int'")
         else skip) ;;>
        (if String.eqb illuminant "A" || String.eqb illuminant "C"
            || String.eqb illuminant "D65"
         then result_of "macadam" (AStr illuminant) AFalse None
         else skip) ;;>
        convert_to_css (AStr illuminant) (AStr observer) cat ;;>
        wavelen <~ wavelen ;;
        for_each xyz_result_keys
          (fun kc =>
             if String.eqb (fst kc) "wavelength"
             then call_result "wavelength" wavelen AFalse AFalse None false
             else if snd kc
             then result_of (fst kc) (AStr illuminant) (AStr observer) cat
             else result_of (fst kc) AFalse AFalse None) ;;>
        if negb (is_model RGB) then
          for_each (RGB_COLOURSPACES lib)
            (fun colorspaceid =>
               convert_xyz_to_rgb colorspaceid observer illuminant cat)
        else skip
    end.

(** The loop over observers and illuminants of the main program;
    each call of [convert_with_xyz] is noted as it is made. *)
Definition main_loop : P unit :=
  for_each STANDARD_OBSERVERS
    (fun observer =>
       for_each (selected_illuminants (illuminant_list args))
                (fun illuminant =>
                   log_attempt observer illuminant ;;>
                   convert_with_xyz observer illuminant)).

Definition three_floats (a b c : option float)
  : P (float * float * float) :=
  match a, b, c with
  | Some x, Some y, Some z => pret (x, y, z)
  | _, _, _ =>
      praise (TypeError "float() argument must be a string or a real number")
  end.

(** The branch [if model == "RGB":] of the main program. *)
Definition stage_rgb : P unit :=
  v <~ three_floats (red args) (green args) (blue args) ;;
  let '(r, g, b) := v in
  validated <~ lift (validate_rgb_values (bitdepth args) r g b) ;;
  assign ["factor"; "rgb_norm"] ;;>
  if str_in (input_colorspace args) (RGB_COLOURSPACES lib) then
    assign ["linear_rgb"] ;;>
    for_each (RGB_COLOURSPACES lib) convert_rgb_to_rgb
  else
    set_res [(KStr "error", VStr "RGB color space lookup failure")].

(** The branch of the main program for CIELAB and CIELCHab. *)
Definition stage_cielab : P unit :=
  if is_model CIELCHab then
    v <~ three_floats (lchab_l_val args) (lchab_ch_val args)
                      (lchab_ab_val args) ;;
    let '(l, c, h) := v in
    validated <~ lift (validate_cielchab_values (bitdepth args) l c h) ;;
    assign ["factor"; "cielchab"; "cielab"]
  else if is_model CIELAB then
    v <~ three_floats (lstar args) (astar args) (bstar args) ;;
    let '(l, a, b) := v in
    validated <~ lift (validate_cielab_values (bitdepth args) l a b) ;;
    assign ["factor"; "cielab"; "cielchab"]
  else skip.

(** The branch of the main program for CIELUV and CIELCHuv. *)
Definition stage_cieluv : P unit :=
  if is_model CIELCHuv then
    v <~ three_floats (lchuv_l_val args) (lchuv_ch_val args)
                      (lchuv_uv_val args) ;;
    let '(l, c, h) := v in
    validated <~ lift (validate_cielchuv_values (bitdepth args) l c h) ;;
    assign ["factor"; "cielchuv"]
  else if is_model CIELUV then
    v <~ three_floats (l_val args) (u_val args) (v_val args) ;;
    let '(l, u, w) := v in
    validated <~ lift (validate_cieluv_values (bitdepth args) l u w) ;;
    assign ["factor"; "cieluv"]
  else skip.

(** The branch of the main program for CIEXYZ. *)
Definition stage_ciexyz : P unit :=
  v <~ three_floats (x_val args) (y_val args) (z_val args) ;;
  let '(x, y, z) := v in
  validated <~ lift (validate_ciexyz_values (bitdepth args) x y z) ;;
  assign ["factor"; "ciexyz"].

(** The branch of the main program for a spectral distribution.
    Plots go to files. *)
Definition stage_spectrum : P unit :=
  match start args, stop args, interval args, data args with
  | Some start, Some stop, Some interval, Some data =>
      validated <~ lift (validate_spectrum_values start stop interval data) ;;
      let validated_interval := interval in
      assign ["FACTOR"; "sd_shape"; "sd"] ;;>
      (match intrpl_intrvl args with
       | Some i => if negb (i =? 0) then assign ["interpolated_sd"] else skip
       | None => skip
       end) ;;>
      (if py_truth_str (tm30path args) && (validated_interval <=? 5)
       then skip
       else if py_truth_str (tm30path args) && (5 <? validated_interval)
       then need "interpolated_sd"
       else skip) ;;>
      (if py_truth_str (plotpath args) then
         lib_item (SDS_ILLUMINANTS lib) (input_illuminant args) ;;>
         lib_item (MSDS_CMFS lib) (observer args)
       else skip) ;;>
      match spectype args with
      | Some "Emissive" =>
          (if validated_interval <=? 5
           then result_of "cfi" AFalse AFalse None else skip) ;;>
          result_of "cqs" AFalse AFalse None ;;>
          result_of "cri" AFalse AFalse None ;;>
          result_of "lum_efficacy" AFalse AFalse None ;;>
          result_of "lum_efficiency" AFalse AFalse None ;;>
          result_of "lum_flux" AFalse AFalse None ;;>
          for_each CIE_ILLUMINANTS_LIST
            (fun illuminant =>
               lib_item (SDS_ILLUMINANTS lib) illuminant ;;>
               result_of "ssi" (AStr illuminant) AFalse None)
      | _ => skip
      end
  | _, _, _, _ => praise (TypeError "'<=' not supported for 'NoneType'")
  end.

(** The branch of the main program for a wavelength. *)
Definition stage_wavelength : P unit :=
  match wave args with
  | Some w =>
      validated_wave <~ lift (validate_wave_value w) ;;
      assign ["wave"; "FACTOR"]
  | None => praise (TypeError "'<=' not supported for 'NoneType'")
  end.

(** The chain [if model == "RGB": ... elif ...] of the main
    program. *)
Definition model_stage : P unit :=
  if is_model RGB then stage_rgb
  else if is_model CIELAB && is_not_None (lstar args)
          && is_not_None (astar args) && is_not_None (bstar args)
          || is_model CIELCHab && is_not_None (lchab_l_val args)
             && is_not_None (lchab_ch_val args)
             && is_not_None (lchab_ab_val args)
  then stage_cielab
  else if is_model CIELUV && is_not_None (l_val args)
          && is_not_None (u_val args) && is_not_None (v_val args)
          || is_model CIELCHuv && is_not_None (lchuv_l_val args)
             && is_not_None (lchuv_ch_val args)
             && is_not_None (lchuv_uv_val args)
  then stage_cieluv
  else if is_model CIEXYZ && is_not_None (x_val args)
          && is_not_None (y_val args) && is_not_None (z_val args)
  then stage_ciexyz
  else if is_model Spectrum && is_not_None (start args)
          && is_not_None (stop args) && is_not_None (interval args)
          && is_not_None (data args)
  then stage_spectrum
  else if is_model Wavelength && is_not_None (wave args)
  then stage_wavelength
  else skip.

(** [res = COLOR_MODELS_TEMPLATES] and the precalculated items. *)
Definition init_res : P unit :=
  set_res COLOR_MODELS_TEMPLATES ;;>
  if negb (String.eqb (precalc args) "") then
    loaded <~ lift (json_loads lib (precalc args)) ;;
    match loaded with
    | VDict d => set_res (dict_merge COLOR_MODELS_TEMPLATES d)
    | _ => praise (TypeError "unsupported operand type(s) for |")
    end
  else skip.

(** Spectral recovery, for the input illuminant and the 2 degree
    observer. *)
Definition spectral_recovery : P unit :=
  if negb (is_model Spectrum) then
    lib_item (MSDS_CMFS lib) "CIE 1931 2 Degree Standard Observer" ;;>
    lib_item (SDS_ILLUMINANTS lib) (input_illuminant args) ;;>
    need "ciexyz_d65" ;;>
    result_of "sr_sd" (AStr (input_illuminant args))
              (AStr "CIE 1931 2 Degree Standard Observer") None ;;>
    if py_truth_str (plotpath args) then
      lib_item (SDS_ILLUMINANTS lib) "D65" ;;>
      lib_item (MSDS_CMFS lib) "CIE 1931 2 Degree Standard Observer"
    else skip
  else skip.

(** The main program from the return of [parse_arguments] up to the
    serialization. *)
Definition conversions : P unit :=
  init_res ;;> model_stage ;;> main_loop ;;> spectral_recovery.
End Run.

Definition initial_state : pstate :=
  {| g_res := []; g_bound := []; g_ciexyz_c_None := false;
     g_attempted := []; g_calls := [] |}.

(** What a run leaves behind: the documents on standard output, the
    exit status and the uncaught exception, if any. *)
Record outcome : Type := {
  stdout : list (stdout_item json);
  exit_status : Z;
  uncaught : option exn
}.

(** The main program.  An uncaught exception ends the process with
    status 1 and a traceback on standard error; [sys.exit(2)] ends it
    with status 2. *)
Definition main (parsed : Args) : outcome :=
  match parse_arguments parsed with
  | (out, _, inl (SystemExit code)) =>
      {| stdout := out; exit_status := code; uncaught := None |}
  | (out, _, inl e) =>
      {| stdout := out; exit_status := 1; uncaught := Some e |}
  | (out, _, inr (args, model)) =>
      match conversions args model initial_state with
      | (inl e, _) =>
          {| stdout := out; exit_status := 1; uncaught := Some e |}
      | (inr _, s) =>
          match json_dumps (VDict (g_res s)) with
          | inl e =>
              {| stdout := out; exit_status := 1; uncaught := Some e |}
          | inr dumped =>
              {| stdout := (out ++ [Printed dumped])%list;
                 exit_status := 0; uncaught := None |}
          end
      end
  end.
End Library.

(** ** Notions the statements use *)

(** [lo <= x <= hi] as a proposition. *)
Definition within (lo hi x : float) : Prop :=
  PrimFloat.leb lo x = true /\ PrimFloat.leb x hi = true.

(** The argument set is complete for a model. *)
Definition complete (args : Args) (m : ColorModel) : bool :=
  match m with
  | CIELAB =>
      is_not_None (lstar args) && is_not_None (astar args)
      && is_not_None (bstar args)
  | CIELCHab =>
      is_not_None (lchab_l_val args) && is_not_None (lchab_ch_val args)
      && is_not_None (lchab_ab_val args)
  | CIELUV =>
      is_not_None (l_val args) && is_not_None (u_val args)
      && is_not_None (v_val args)
  | CIELCHuv =>
      is_not_None (lchuv_l_val args) && is_not_None (lchuv_ch_val args)
      && is_not_None (lchuv_uv_val args)
  | CIEXYZ =>
      is_not_None (x_val args) && is_not_None (y_val args)
      && is_not_None (z_val args)
  | RGB =>
      is_not_None (red args) && is_not_None (green args)
      && is_not_None (blue args)
  | Spectrum =>
      is_not_None (start args) && is_not_None (stop args)
      && is_not_None (interval args) && is_not_None (data args)
  | Wavelength => is_not_None (wave args)
  end.

(** The order in which the models are tried. *)
Definition model_priority : list ColorModel :=
  [CIELAB; CIELCHab; CIELUV; CIELCHuv; CIEXYZ; RGB; Spectrum; Wavelength].

(** The bit depths [--bitdepth] accepts. *)
Definition bitdepth_choices : list string := ["8"; "15+1"; "16"; "32"].

(** The triples [validate_cielchab_values] accepts at a bit depth. *)
Definition cielchab_accepts (bitdepth : string) (l c h : float) : bool :=
  returns (validate_cielchab_values bitdepth l c h).

(** Two bit depths whose accepted CIELCHab triples differ. *)
Definition cielchab_sets_differ (bd1 bd2 : string) : Prop :=
  exists l c h, cielchab_accepts bd1 l c h <> cielchab_accepts bd2 l c h.

(** The dictionary path a call of [result] writes to. *)
Definition result_path (model : string) (illuminant observer : ctxarg)
  (cat : option ctxarg) : list pykey :=
  let under_cat :=
    match cat with
    | None => []
    | Some c => [key_of c]
    end in
  if truthy observer then
    KStr model :: key_of observer :: key_of illuminant :: under_cat
  else if truthy illuminant then
    KStr model :: key_of illuminant :: under_cat
  else [KStr model; KStr "None"].

(** The components of a value: the elements of a list or an array, the
    value itself otherwise. *)
Definition components (value : pyval) : list pyval :=
  match value with
  | VList l | VArray l => l
  | _ => [value]
  end.

(** The library has what [convert_with_xyz] needs for a pair: the
    chromaticity coordinates of the illuminant for the observer and, for
    spectral input, its spectral distribution. *)
Definition has_illuminant_data (lib : Library) (model : ColorModel)
  (observer illuminant : string) : bool :=
  (negb (ColorModel_eqb model Spectrum)
   || str_in illuminant (SDS_ILLUMINANTS lib))
  && match dict_get (CCS_ILLUMINANTS lib) observer with
     | Some ccs_observer => str_in illuminant ccs_observer
     | None => false
     end.

(** The transforms [convert_with_xyz] iterates. *)
Definition iterated_cats (args : Args) (model : ColorModel)
  : list (option ctxarg) :=
  if ColorModel_eqb model RGB then
    match cat args with
    | Some cats => map (fun c => Some (AStr c)) cats
    | None => []
    end
  else [None].

(** The full fan-out: a result for every observer, illuminant of the
    selected list and configured transform. *)
Definition full_fan_out (args : Args) (cats : list string) (s : pstate)
  : Prop :=
  forall o i t,
    In o STANDARD_OBSERVERS ->
    In i (selected_illuminants (illuminant_list args)) ->
    In t cats ->
    exists c, In c (g_calls s)
              /\ c_observer c = AStr o /\ c_illuminant c = AStr i
              /\ c_cat c = Some (AStr t).

(** ** A sample run

    A library instance, with the illuminants A, C, D50, D55, D65, D75
    and E for both observers, and a command line to run the program on:
    [--red 255 --green 0 --blue 0] with every other option at its
    default. *)

Definition observer_2 : string := "CIE 1931 2 Degree Standard Observer".
Definition observer_10 : string := "CIE 1964 10 Degree Standard Observer".

Definition sample_library : Library := {|
  RGB_COLOURSPACES :=
    ["sRGB"; "Adobe RGB (1998)"; "Display P3"; "ITU-R BT.2020";
     "ProPhoto RGB"; "aces"];
  whitepoint_name :=
    fun s => if String.eqb s "ProPhoto RGB" then "D50"
             else if String.eqb s "aces" then "ACES" else "D65";
  CCS_ILLUMINANTS :=
    [(observer_2, ["A"; "C"; "D50"; "D55"; "D65"; "D75"; "E"]);
     (observer_10, ["A"; "C"; "D50"; "D55"; "D65"; "D75"; "E"])];
  TVS_ILLUMINANTS :=
    [(observer_2, ["A"; "C"; "D50"; "D55"; "D65"; "D75"; "E"]);
     (observer_10, ["A"; "C"; "D50"; "D55"; "D65"; "D75"; "E"])];
  SDS_ILLUMINANTS := ["A"; "C"; "D50"; "D55"; "D65"; "D75"; "E"];
  MSDS_CMFS := [observer_2; observer_10];
  json_loads := fun _ => raise (ValueError "Expecting value");
  computed :=
    fun _ _ _ _ =>
      VArray [VFloat 0x1p-1%float; VFloat 0x1p-2%float; VFloat 0x1p-3%float]
|}.

(** A command line with no input values. *)
Definition no_args : Args := {|
  show_warnings := false; bitdepth := "8"; precalc := "";
  observer := observer_2; input_illuminant := "D65";
  cat := Some CHROMATIC_ADAPTATION_TRANSFORMS;
  illuminant_list := "All"; plotpath := None;
  lstar := None; astar := None; bstar := None;
  lchab_l_val := None; lchab_ch_val := None; lchab_ab_val := None;
  l_val := None; u_val := None; v_val := None;
  lchuv_l_val := None; lchuv_ch_val := None; lchuv_uv_val := None;
  x_val := None; y_val := None; z_val := None;
  red := None; green := None; blue := None;
  input_colorspace := "sRGB";
  start := None; stop := None; interval := None; spectype := None;
  data := None; intrpl_intrvl := None; tm30path := None;
  tm30format := None; wave := None
|}.

(** [--red r --green g --blue b] *)
Definition rgb_args (r g b : float) : Args := {|
  show_warnings := false; bitdepth := "8"; precalc := "";
  observer := observer_2; input_illuminant := "D65";
  cat := Some CHROMATIC_ADAPTATION_TRANSFORMS;
  illuminant_list := "All"; plotpath := None;
  lstar := None; astar := None; bstar := None;
  lchab_l_val := None; lchab_ch_val := None; lchab_ab_val := None;
  l_val := None; u_val := None; v_val := None;
  lchuv_l_val := None; lchuv_ch_val := None; lchuv_uv_val := None;
  x_val := None; y_val := None; z_val := None;
  red := Some r; green := Some g; blue := Some b;
  input_colorspace := "sRGB";
  start := None; stop := None; interval := None; spectype := None;
  data := None; intrpl_intrvl := None; tm30path := None;
  tm30format := None; wave := None
|}.

(** [--lstar l --astar a --bstar b] *)
Definition cielab_args (l a b : float) : Args := {|
  show_warnings := false; bitdepth := "8"; precalc := "";
  observer := observer_2; input_illuminant := "D65";
  cat := Some CHROMATIC_ADAPTATION_TRANSFORMS;
  illuminant_list := "All"; plotpath := None;
  lstar := Some l; astar := Some a; bstar := Some b;
  lchab_l_val := None; lchab_ch_val := None; lchab_ab_val := None;
  l_val := None; u_val := None; v_val := None;
  lchuv_l_val := None; lchuv_ch_val := None; lchuv_uv_val := None;
  x_val := None; y_val := None; z_val := None;
  red := None; green := None; blue := None;
  input_colorspace := "sRGB";
  start := None; stop := None; interval := None; spectype := None;
  data := None; intrpl_intrvl := None; tm30path := None;
  tm30format := None; wave := None
|}.

Definition sample_args : Args := rgb_args 255 0 0.

(** The state the sample run reaches before serialization. *)
Definition sample_final : M unit * pstate :=
  conversions sample_library sample_args RGB initial_state.

(** What [MyParser.error] writes on standard error when no model is
    complete. *)
Definition parse_error_message : string :=
  "Error: Full set of input values for one of the color models is required".

(** A statement that leaves every state it runs in related by [R] to the
    state it leaves. *)
Definition respects (R : pstate -> pstate -> Prop) {A : Type} (c : P A)
  : Prop :=
  forall s, R s (snd (c s)).

(** The noted pairs are the same. *)
Definition same_attempted (s s' : pstate) : Prop :=
  g_attempted s' = g_attempted s.

(** The calls of [result] made so far are still there. *)
Definition calls_grow (s s' : pstate) : Prop :=
  exists new, g_calls s' = (g_calls s ++ new)%list.

(** A statement that notes a leading part of [pairs], and all of them
    when it returns. *)
Definition attempts (pairs : list (string * string)) (c : P unit) : Prop :=
  forall s,
    exists tried rest,
      pairs = (tried ++ rest)%list
      /\ g_attempted (snd (c s)) = (g_attempted s ++ tried)%list
      /\ (returns (fst (c s)) = true -> rest = []).

(** The pair is one [convert_with_xyz] returns on at once. *)
Definition skipped (lib : Library) (model : ColorModel)
  (observer illuminant : string) : Prop :=
  (model = Spectrum /\ str_in illuminant (SDS_ILLUMINANTS lib) = false)
  \/ (exists ccs_observer,
         dict_get (CCS_ILLUMINANTS lib) observer = Some ccs_observer
         /\ str_in illuminant ccs_observer = false).

(** The state of the sample run when it enters the main loop. *)
Definition sample_before_loop : pstate :=
  snd ((init_res sample_library sample_args ;;>
        model_stage sample_library sample_args RGB) initial_state).

(** A call of [result] for the given observer, illuminant and
    transform. *)
Definition call_for (o i t : string) (c : call) : bool :=
  match c_observer c, c_illuminant c, c_cat c with
  | AStr o', AStr i', Some (AStr t') =>
      String.eqb o' o && String.eqb i' i && String.eqb t' t
  | _, _, _ => false
  end.

(** The state of the sample run when it leaves the main loop. *)
Definition sample_after_loop : pstate :=
  snd (main_loop sample_library sample_args RGB sample_before_loop).

(** The locals of [convert_with_xyz] that the functions of
    [model_functions] read as globals are not bound. *)
Definition unbound_locals (s : pstate) : Prop :=
  str_in "illuminant_xy_d65" (g_bound s) = false
  /\ str_in "illuminant_xyz_d65" (g_bound s) = false.

(** A place where [result] can write through: nothing there yet, or a
    dictionary. *)
Definition free_or_dict (o : option pyval) : Prop :=
  match o with
  | None => True
  | Some (VDict _) => True
  | Some _ => False
  end.

(** ** The action of [--cat] *)

(** [SetToNone.__call__(parser, namespace, values)]: what the action
    stores under its destination. *)
Definition SetToNone (values : list string) : option (list string) :=
  match values with
  | ["None"] => None
  | _ => Some values
  end.

(** ** Notions of the further properties *)

(** The validators of three values at a bit depth. *)
Definition range_validators
  : list (string -> float -> float -> float -> M (float * float * float * Z)) :=
  [validate_rgb_values; validate_cielab_values; validate_cielchab_values;
   validate_cieluv_values; validate_cielchuv_values; validate_ciexyz_values].

(** The message of the [ValueError] a validator raises for a bit depth
    it has no entry for. *)
Definition invalid_bit_depth_error (bitdepth : string) : exn :=
  ValueError ("Invalid bit depth specified: " ++ bitdepth).

(** None of the names is bound. *)
Definition unbound (names : list string) (s : pstate) : Prop :=
  forall n, In n names -> str_in n (g_bound s) = false.

(** The names that are unbound stay unbound. *)
Definition keeps_unbound (names : list string) (s s' : pstate) : Prop :=
  unbound names s -> unbound names s'.

(** The states differ in the noted pairs only. *)
Definition same_but_attempted (s s' : pstate) : Prop :=
  g_res s' = g_res s /\ g_bound s' = g_bound s
  /\ g_ciexyz_c_None s' = g_ciexyz_c_None s /\ g_calls s' = g_calls s.

(** The pairs of the main loop. *)
Definition loop_pairs (args : Args) : list (string * string) :=
  list_prod STANDARD_OBSERVERS (selected_illuminants (illuminant_list args)).

(** The library has the illuminant data of one of the pairs of the main
    loop. *)
Definition some_pair_has_data (lib : Library) (args : Args)
  (model : ColorModel) : bool :=
  existsb (fun p => has_illuminant_data lib model (fst p) (snd p))
          (loop_pairs args).

(** A key that is a string or [False]. *)
Definition plain_key (k : pykey) : Prop :=
  match k with KNum _ => False | _ => True end.

(** Two paths that part at some key: they share a prefix, after which
    the first goes on with a key that differs from the key of the
    second. *)
Definition parts_from (p w : list pykey) : Prop :=
  exists q a b p' w',
    p = (q ++ a :: p')%list /\ w = (q ++ b :: w')%list
    /\ plain_key a /\ key_eqb a b = false.

(** [d[k1][k2]...[kn] = v], where a dictionary is created at each key
    that is missing on the way; [None] when a value on the way is not a
    dictionary. *)
Fixpoint write_path (d : dict) (w : list pykey) (v : pyval) : option dict :=
  match w with
  | [] => None
  | [k] => Some (dict_set d k v)
  | k :: w' =>
      match dict_lookup d k with
      | None =>
          match write_path [] w' v with
          | Some d' => Some (dict_set d k (VDict d'))
          | None => None
          end
      | Some (VDict inner) =>
          match write_path inner w' v with
          | Some d' => Some (dict_set d k (VDict d'))
          | None => None
          end
      | Some _ => None
      end
  end.

(** The models of [res], in order, are the same. *)
Definition same_models (s s' : pstate) : Prop :=
  map fst (g_res s') = map fst (g_res s).

(** The entry of [res] under a key is the same. *)
Definition same_entry (k : string) (s s' : pstate) : Prop :=
  dict_lookup (g_res s') (KStr k) = dict_lookup (g_res s) (KStr k).

(** The calls of [result] [convert_rgb_to_rgb] is written to make for a
    colour space: none for an alias, one without transform when the
    white point is that of the input colour space (and there is a
    transform to start the loop with), one per configured transform
    otherwise. *)
Definition rgb_to_rgb_calls (lib : Library) (args : Args)
  (colorspaceid : string) (cats : list string) : list call :=
  let whitepoint := AStr (whitepoint_name lib colorspaceid) in
  if str_in colorspaceid COLOR_MODELS_ALIASES then []
  else if String.eqb (whitepoint_name lib (input_colorspace args))
                     (whitepoint_name lib colorspaceid)
  then match cats with
       | [] => []
       | _ :: _ =>
           [{| c_model := colorspaceid; c_illuminant := whitepoint;
               c_observer := AFalse; c_cat := None |}]
       end
  else map (fun c => {| c_model := colorspaceid; c_illuminant := whitepoint;
                        c_observer := AFalse; c_cat := Some (AStr c) |})
           cats.

(** A call of [result] made for a pair under the transform [t], or one
    made without any context. *)
Definition under_transform (t : string) (c : call) : Prop :=
  c_cat c = Some (AStr t)
  \/ (c_cat c = None /\ c_observer c = AFalse).

(** The calls made from one state to the other all satisfy [Pc]. *)
Definition calls_satisfy (Pc : call -> Prop) (s s' : pstate) : Prop :=
  exists new, g_calls s' = (g_calls s ++ new)%list /\ Forall Pc new.

(** A value [json.dumps] can render with [NumpyEncoder]: no object
    other than the NumPy scalars and arrays occurs in it. *)
Fixpoint serializable (v : pyval) : bool :=
  match v with
  | VObject _ => false
  | VList l | VArray l => forallb serializable l
  | VDict d => forallb (fun kv => serializable (snd kv)) d
  | _ => true
  end.

(** The keys are strings, as the keys of a parsed JSON object are. *)
Definition string_keys (d : dict) : Prop :=
  Forall (fun kv => exists s, fst kv = KStr s) d.

(** [--start 380 --stop 400 --interval 10 --data 0.5 0.5 0.5
    --tm30path report] *)
Definition spectrum_args : Args := {|
  show_warnings := false; bitdepth := "8"; precalc := "";
  observer := observer_2; input_illuminant := "D65";
  cat := Some CHROMATIC_ADAPTATION_TRANSFORMS;
  illuminant_list := "All"; plotpath := None;
  lstar := None; astar := None; bstar := None;
  lchab_l_val := None; lchab_ch_val := None; lchab_ab_val := None;
  l_val := None; u_val := None; v_val := None;
  lchuv_l_val := None; lchuv_ch_val := None; lchuv_uv_val := None;
  x_val := None; y_val := None; z_val := None;
  red := None; green := None; blue := None;
  input_colorspace := "sRGB";
  start := Some 380; stop := Some 400; interval := Some 10;
  spectype := None;
  data := Some [0x1p-1; 0x1p-1; 0x1p-1]%float;
  intrpl_intrvl := None; tm30path := Some "report";
  tm30format := None; wave := None
|}.

(** The keys the script passes to [result] as literals. *)
Definition literal_result_keys : list string :=
  (map fst xyz_result_keys ++ map fst css_result_keys
   ++ rgb_no_xyz_result_keys
   ++ ["macadam"; "sr_sd"; "cfi"; "cqs"; "cri"; "lum_efficacy";
       "lum_efficiency"; "lum_flux"; "ssi"])%list.

(** The call of [result] for a key of [xyz_result_keys] or
    [css_result_keys]: with the pair and the transform when the key
    takes a context, without any otherwise. *)
Definition pair_call (observer illuminant : string) (cat : option ctxarg)
  (kc : string * bool) : call :=
  if snd kc
  then {| c_model := fst kc; c_illuminant := AStr illuminant;
          c_observer := AStr observer; c_cat := cat |}
  else {| c_model := fst kc; c_illuminant := AFalse;
          c_observer := AFalse; c_cat := None |}.

(** A call of [result] without context. *)
Definition plain_call (key : string) : call :=
  {| c_model := key; c_illuminant := AFalse; c_observer := AFalse;
     c_cat := None |}.

(** The calls of [result] of the branch for an emissive spectrum, in
    order. *)
Definition emissive_calls (interval : Z) : list call :=
  ((if interval <=? 5 then [plain_call "cfi"] else [])
   ++ map plain_call
          ["cqs"; "cri"; "lum_efficacy"; "lum_efficiency"; "lum_flux"]
   ++ map (fun illuminant =>
             {| c_model := "ssi"; c_illuminant := AStr illuminant;
                c_observer := AFalse; c_cat := None |})
          CIE_ILLUMINANTS_LIST)%list.

(** [--start 380 --stop 400 --interval 10 --data 0.5 0.5 0.5
    --spectype Emissive] *)
Definition emissive_args : Args := {|
  show_warnings := false; bitdepth := "8"; precalc := "";
  observer := observer_2; input_illuminant := "D65";
  cat := Some CHROMATIC_ADAPTATION_TRANSFORMS;
  illuminant_list := "All"; plotpath := None;
  lstar := None; astar := None; bstar := None;
  lchab_l_val := None; lchab_ch_val := None; lchab_ab_val := None;
  l_val := None; u_val := None; v_val := None;
  lchuv_l_val := None; lchuv_ch_val := None; lchuv_uv_val := None;
  x_val := None; y_val := None; z_val := None;
  red := None; green := None; blue := None;
  input_colorspace := "sRGB";
  start := Some 380; stop := Some 400; interval := Some 10;
  spectype := Some "Emissive";
  data := Some [0x1p-1; 0x1p-1; 0x1p-1]%float;
  intrpl_intrvl := None; tm30path := None;
  tm30format := None; wave := None
|}.

(** A library with the spectral distributions of all the illuminants
    of [CIE_ILLUMINANTS_LIST]. *)
Definition emissive_library : Library := {|
  RGB_COLOURSPACES := RGB_COLOURSPACES sample_library;
  whitepoint_name := whitepoint_name sample_library;
  CCS_ILLUMINANTS := CCS_ILLUMINANTS sample_library;
  TVS_ILLUMINANTS := TVS_ILLUMINANTS sample_library;
  SDS_ILLUMINANTS := CIE_ILLUMINANTS_LIST;
  MSDS_CMFS := MSDS_CMFS sample_library;
  json_loads := json_loads sample_library;
  computed := fun _ _ _ _ => VNpFloat 0x1p-1%float
|}.

(** [--red 255 --green 0 --blue 0 --input_colorspace NoSuchSpace] *)
Definition unknown_space_args : Args := {|
  show_warnings := false; bitdepth := "8"; precalc := "";
  observer := observer_2; input_illuminant := "D65";
  cat := Some CHROMATIC_ADAPTATION_TRANSFORMS;
  illuminant_list := "All"; plotpath := None;
  lstar := None; astar := None; bstar := None;
  lchab_l_val := None; lchab_ch_val := None; lchab_ab_val := None;
  l_val := None; u_val := None; v_val := None;
  lchuv_l_val := None; lchuv_ch_val := None; lchuv_uv_val := None;
  x_val := None; y_val := None; z_val := None;
  red := Some 255%float; green := Some 0%float; blue := Some 0%float;
  input_colorspace := "NoSuchSpace";
  start := None; stop := None; interval := None; spectype := None;
  data := None; intrpl_intrvl := None; tm30path := None;
  tm30format := None; wave := None
|}.

(** The calls of [result] of [convert_xyz_to_rgb] for a colour space it
    does not pass over: the one for the colour space, then those of
    [convert_rgb_no_xyz]. *)
Definition xyz_to_rgb_calls (colorspaceid observer illuminant : string)
  (cat : option ctxarg) : list call :=
  {| c_model := colorspaceid; c_illuminant := AStr illuminant;
     c_observer := AStr observer; c_cat := cat |}
  :: map (fun key => {| c_model := key; c_illuminant := AStr illuminant;
                        c_observer := AFalse; c_cat := None |})
         rgb_no_xyz_result_keys.

(** [convert_xyz_to_rgb] passes over the colour space: it is an alias,
    or its template names an illuminant that is neither "all" nor the
    illuminant of the pair. *)
Definition passed_over (res : dict) (colorspaceid illuminant : string)
  : bool :=
  str_in colorspaceid COLOR_MODELS_ALIASES
  || match lookup_path (VDict res) [KStr colorspaceid; KStr "illuminant"] with
     | Some ill =>
         negb (pyval_is_str ill "all") && negb (pyval_is_str ill illuminant)
     | None => false
     end.

(** A state in which [convert_with_xyz] has computed [ciexyz] for a
    pair, before it stores any result. *)
Definition computed_state : pstate :=
  {| g_res := COLOR_MODELS_TEMPLATES;
     g_bound := ["illuminant_in_xy"; "illuminant_in_xyz"; "ciexyz";
                 "ciexyz_d65"; "ciexyz_c"; "factor"];
     g_ciexyz_c_None := false; g_attempted := []; g_calls := [] |}.

(** ** Sample inputs for the other properties *)

(** The state of an RGB run once the input is decoded and before any
    conversion: the templates, and the names the RGB branch has
    bound. *)
Definition decoded_state : pstate :=
  {| g_res := COLOR_MODELS_TEMPLATES;
     g_bound := ["linear_rgb"; "factor"; "rgb_norm"];
     g_ciexyz_c_None := false; g_attempted := []; g_calls := [] |}.

(** [res] after one call of [result] on the templates. *)
Definition sample_stored : dict :=
  match result COLOR_MODELS_TEMPLATES "ciexyz"
               (VArray [VFloat 0x1p-1; VFloat 0x1p-2; VFloat 0x1p-3]%float)
               (AStr "D65") (AStr observer_2) (Some (AStr "Bradford"))
               false false with
  | inr r => r
  | inl _ => []
  end.

(** [--red 255 --green 0 --blue 0 --cat <values>] *)
Definition rgb_cat_args (values : list string) : Args := {|
  show_warnings := false; bitdepth := "8"; precalc := "";
  observer := observer_2; input_illuminant := "D65";
  cat := SetToNone values;
  illuminant_list := "All"; plotpath := None;
  lstar := None; astar := None; bstar := None;
  lchab_l_val := None; lchab_ch_val := None; lchab_ab_val := None;
  l_val := None; u_val := None; v_val := None;
  lchuv_l_val := None; lchuv_ch_val := None; lchuv_uv_val := None;
  x_val := None; y_val := None; z_val := None;
  red := Some 255%float; green := Some 0%float; blue := Some 0%float;
  input_colorspace := "sRGB";
  start := None; stop := None; interval := None; spectype := None;
  data := None; intrpl_intrvl := None; tm30path := None;
  tm30format := None; wave := None
|}.

(** The text of a JSON object with one precalculated item, what it
    parses to, and a library that parses it. *)
Definition precalc_text : string :=
  "{" ++ dquote ++ "hsl" ++ dquote ++ ": {" ++ dquote ++ "None" ++ dquote
  ++ ": " ++ dquote ++ "hsl(0deg 100% 50%);" ++ dquote ++ "}}".

Definition precalc_items : dict :=
  [(KStr "hsl", VDict [(KStr "None", VStr "hsl(0deg 100% 50%);")])].

Definition precalc_library : Library := {|
  RGB_COLOURSPACES := RGB_COLOURSPACES sample_library;
  whitepoint_name := whitepoint_name sample_library;
  CCS_ILLUMINANTS := CCS_ILLUMINANTS sample_library;
  TVS_ILLUMINANTS := TVS_ILLUMINANTS sample_library;
  SDS_ILLUMINANTS := SDS_ILLUMINANTS sample_library;
  MSDS_CMFS := MSDS_CMFS sample_library;
  json_loads :=
    fun text => if String.eqb text precalc_text
                then ret (VDict precalc_items)
                else raise (ValueError "Expecting value");
  computed := computed sample_library
|}.

(** [--red 255 --green 0 --blue 0 --precalc <precalc_text>] *)
Definition precalc_args : Args := {|
  show_warnings := false; bitdepth := "8"; precalc := precalc_text;
  observer := observer_2; input_illuminant := "D65";
  cat := Some CHROMATIC_ADAPTATION_TRANSFORMS;
  illuminant_list := "All"; plotpath := None;
  lstar := None; astar := None; bstar := None;
  lchab_l_val := None; lchab_ch_val := None; lchab_ab_val := None;
  l_val := None; u_val := None; v_val := None;
  lchuv_l_val := None; lchuv_ch_val := None; lchuv_uv_val := None;
  x_val := None; y_val := None; z_val := None;
  red := Some 255%float; green := Some 0%float; blue := Some 0%float;
  input_colorspace := "sRGB";
  start := None; stop := None; interval := None; spectype := None;
  data := None; intrpl_intrvl := None; tm30path := None;
  tm30format := None; wave := None
|}.

(** A library without the illuminant A: the first pair of the main
    loop that it has the data for is the 2 degree observer with C. *)
Definition daylight_library : Library := {|
  RGB_COLOURSPACES := RGB_COLOURSPACES sample_library;
  whitepoint_name := whitepoint_name sample_library;
  CCS_ILLUMINANTS :=
    [(observer_2, ["C"; "D50"; "D55"; "D65"; "D75"]);
     (observer_10, ["C"; "D50"; "D55"; "D65"; "D75"])];
  TVS_ILLUMINANTS :=
    [(observer_2, ["C"; "D50"; "D55"; "D65"; "D75"]);
     (observer_10, ["C"; "D50"; "D55"; "D65"; "D75"])];
  SDS_ILLUMINANTS := ["C"; "D50"; "D55"; "D65"; "D75"];
  MSDS_CMFS := MSDS_CMFS sample_library;
  json_loads := json_loads sample_library;
  computed := computed sample_library
|}.

(** * Properties *)

(** ** General facts *)

Lemma between_within (lo hi x : float) :
  between lo hi x = true <-> within lo hi x.
Proof. unfold between, within. apply andb_true_iff. Qed.

Lemma between_not_within (lo hi x : float) :
  between lo hi x = false <-> ~ within lo hi x.
Proof.
  rewrite <- between_within. destruct (between lo hi x); split; congruence.
Qed.

Lemma bind_inr {A B : Type} (c : M A) (k : A -> M B) (b : B) :
  bind c k = inr b -> exists a, c = inr a /\ k a = inr b.
Proof. destruct c as [e | a]; simpl; [discriminate | eauto]. Qed.

(** ** Choice of the input model *)

Lemma determine_color_model_set_plotpath (args : Args) (p : option string) :
  determine_color_model (set_plotpath args p) = determine_color_model args.
Proof. reflexivity. Qed.

Lemma determine_color_model_find (args : Args) :
  determine_color_model args = find (complete args) model_priority.
Proof. reflexivity. Qed.

Lemma all_models_listed (m : ColorModel) : In m model_priority.
Proof. destruct m; simpl; tauto. Qed.

Lemma determine_None_iff (args : Args) :
  determine_color_model args = None <-> forall m, complete args m = false.
Proof.
  rewrite determine_color_model_find. split.
  - intros Hnone m. apply (find_none _ _ Hnone), all_models_listed.
  - intros Hall. destruct (find (complete args) model_priority) as [m |] eqn:E.
    + apply find_some in E. destruct E as [_ E]. rewrite Hall in E. discriminate.
    + reflexivity.
Qed.

Lemma parse_arguments_error (args : Args) :
  determine_color_model args = None ->
  @parse_arguments json args
  = ([HelpText], [parse_error_message], inl (SystemExit 2)).
Proof.
  intros Hnone. unfold parse_arguments.
  destruct (plotpath args) as [p |];
    [destruct (negb (last4 p =? ".svg")%string) |];
    rewrite ?determine_color_model_set_plotpath, Hnone; reflexivity.
Qed.

Lemma parse_arguments_ok (args : Args) (m : ColorModel) :
  determine_color_model args = Some m ->
  exists args', @parse_arguments json args = ([], [], inr (args', m)).
Proof.
  intros Hsome. unfold parse_arguments.
  destruct (plotpath args) as [p |];
    [destruct (negb (last4 p =? ".svg")%string) |];
    rewrite ?determine_color_model_set_plotpath, Hsome; eauto.
Qed.

(** C2.  [determine_color_model] returns the first model, in the order
    CIELAB, CIELCHab, CIELUV, CIELCHuv, CIEXYZ, RGB, Spectrum,
    Wavelength, whose value set is complete in the arguments; it returns
    a model exactly when some value set is complete.  When none is,
    [parse_arguments] prints the help, reports the error on standard
    error and the program exits with status 2; status 2 has no other
    cause. *)
Theorem determine_color_model_complete_set :
  forall args : Args,
    determine_color_model args = find (complete args) model_priority
    /\ ((exists m, determine_color_model args = Some m)
        <-> (exists m, complete args m = true))
    /\ ((forall m, complete args m = false)
        <-> @parse_arguments json args
            = ([HelpText], [parse_error_message], inl (SystemExit 2)))
    /\ (forall lib : Library,
          (forall m, complete args m = false)
          <-> exit_status (main lib args) = 2).
Proof.
  intros args. split; [reflexivity |]. split; [| split].
  - split.
    + intros [m Hm]. exists m. rewrite determine_color_model_find in Hm.
      apply find_some in Hm. tauto.
    + intros [m Hm].
      destruct (determine_color_model args) as [m' |] eqn:E; [eauto |].
      rewrite determine_None_iff in E. rewrite E in Hm. discriminate.
  - rewrite <- determine_None_iff. split.
    + apply parse_arguments_error.
    + intros Hparse.
      destruct (determine_color_model args) as [m |] eqn:E; [| reflexivity].
      destruct (parse_arguments_ok args m E) as [args' Hok].
      rewrite Hok in Hparse. discriminate.
  - intros lib. rewrite <- determine_None_iff. unfold main. split.
    + intros Hnone. rewrite (parse_arguments_error args Hnone). reflexivity.
    + intros Hexit.
      destruct (determine_color_model args) as [m |] eqn:E; [| reflexivity].
      destruct (parse_arguments_ok args m E) as [args' Hok].
      rewrite Hok in Hexit.
      destruct (conversions lib args' m initial_state) as [[e | u] s];
        [discriminate |].
      destruct (json_dumps (VDict (g_res s))); discriminate.
Qed.

(** A command line without input values: help on standard output,
    status 2. *)
Lemma no_args_run_exits_2 :
  let run := main sample_library no_args in
  stdout run = [HelpText] /\ exit_status run = 2 /\ uncaught run = None.
Proof. vm_compute. auto. Qed.

(** ** Range checks *)

Lemma validate_rgb_values_spec (bitdepth : string) (M : Z)
  (red green blue : float) :
  dict_get BITDEPTH_FACTOR bitdepth = Some M ->
  validate_rgb_values bitdepth red green blue
  = if between 0 (Z2F M) red && between 0 (Z2F M) green
       && between 0 (Z2F M) blue
    then inr (red, green, blue, M)
    else inl (ValueError
                ("RGB values are out of range for the specified bit depth: "
                 ++ bitdepth)).
Proof.
  intros HM. unfold validate_rgb_values. rewrite HM.
  destruct (between 0 (Z2F M) red && between 0 (Z2F M) green
            && between 0 (Z2F M) blue); reflexivity.
Qed.

Lemma BITDEPTH_FACTOR_table (bitdepth : string) (M : Z) :
  In (bitdepth, M) [("8", 255); ("15+1", 32768); ("16", 65535); ("32", 1)] ->
  dict_get BITDEPTH_FACTOR bitdepth = Some M.
Proof.
  simpl. intros [H | [H | [H | [H | []]]]]; inversion H; reflexivity.
Qed.

(** C4.  For the bit depths "8", "15+1", "16" and "32", with [M] equal
    to 255, 32768, 65535 and 1, [validate_rgb_values] raises
    [ValueError] exactly when one of red, green, blue is not in
    [[0, M]]; otherwise it returns the three values as they are,
    together with [M]. *)
Theorem validate_rgb_values_range :
  forall (bitdepth : string) (M : Z) (red green blue : float),
    In (bitdepth, M) [("8", 255); ("15+1", 32768); ("16", 65535); ("32", 1)] ->
    ((exists msg,
         validate_rgb_values bitdepth red green blue = inl (ValueError msg))
     <-> (~ within 0 (Z2F M) red \/ ~ within 0 (Z2F M) green
          \/ ~ within 0 (Z2F M) blue))
    /\ (within 0 (Z2F M) red /\ within 0 (Z2F M) green
        /\ within 0 (Z2F M) blue ->
        validate_rgb_values bitdepth red green blue
        = inr (red, green, blue, M)).
Proof.
  intros bitdepth M red green blue Hin.
  rewrite (validate_rgb_values_spec _ _ _ _ _ (BITDEPTH_FACTOR_table _ _ Hin)).
  rewrite <- !between_not_within, <- !between_within.
  destruct (between 0 (Z2F M) red), (between 0 (Z2F M) green),
    (between 0 (Z2F M) blue); simpl; split;
    try (split; [intros [msg H]; discriminate H | intros [H | [H | H]]; discriminate H]);
    try (split; [intros _; auto | intros _; eexists; reflexivity]);
    try reflexivity; intros [H1 [H2 H3]]; discriminate.
Qed.

Lemma validate_rgb_values_range_witness :
  validate_rgb_values "8" 255 0 0x1p-1
  = inr (255%float, 0%float, 0x1p-1%float, 255).
Proof.
  apply (validate_rgb_values_range "8" 255 255 0 0x1p-1).
  - simpl. auto.
  - unfold within. vm_compute. auto.
Defined.

Lemma check_value_ranges_cielchab (l c h : float) :
  check_value_ranges
    [("lchab_l_val", (0, 100)); ("lchab_ch_val", (0, 230));
     ("lchab_ab_val", (0, 360))]%float
    [("lchab_l_val", l); ("lchab_ch_val", c); ("lchab_ab_val", h)]
  = if negb (between 0 100 l) then
      inl (ValueError "lchab_l_val is out of range")
    else if negb (between 0 230 c) then
      inl (ValueError "lchab_ch_val is out of range")
    else if negb (between 0 360 h) then
      inl (ValueError "lchab_ab_val is out of range")
    else inr tt.
Proof.
  simpl.
  destruct (between 0 100 l), (between 0 230 c), (between 0 360 h);
    reflexivity.
Qed.

Lemma cielchab_accepts_fixed (bitdepth : string) (l c h : float) :
  In bitdepth bitdepth_choices ->
  cielchab_accepts bitdepth l c h
  = between 0 100 l && between 0 230 c && between 0 360 h.
Proof.
  intros Hin. unfold cielchab_accepts, validate_cielchab_values.
  assert (exists factor, dict_get BITDEPTH_FACTOR bitdepth = Some factor)
    as [factor Hf].
  { simpl in Hin. destruct Hin as [H | [H | [H | [H | []]]]]; subst;
      eexists; reflexivity. }
  rewrite Hf, check_value_ranges_cielchab.
  destruct (between 0 100 l), (between 0 230 c), (between 0 360 h);
    reflexivity.
Qed.

(** C5, as the code has it.  At every bit depth
    [validate_cielchab_values] accepts exactly the triples with L in
    [[0, 100]], C in [[0, 230]] and h in [[0, 360]], so the accepted
    triples are the same at all bit depths; an accepted triple is
    returned unchanged with the factor of the bit depth, which is the
    only part of the result that depends on it. *)
Theorem validate_cielchab_values_same_range :
  forall (bitdepth : string) (factor : Z) (l c h : float),
    In (bitdepth, factor)
       [("8", 255); ("15+1", 32768); ("16", 65535); ("32", 1)] ->
    (within 0 100 l /\ within 0 230 c /\ within 0 360 h ->
     validate_cielchab_values bitdepth l c h = inr (l, c, h, factor))
    /\ (~ (within 0 100 l /\ within 0 230 c /\ within 0 360 h) ->
        exists msg,
          validate_cielchab_values bitdepth l c h = inl (ValueError msg))
    /\ (forall bitdepth',
          In bitdepth' bitdepth_choices ->
          cielchab_accepts bitdepth' l c h = cielchab_accepts bitdepth l c h).
Proof.
  intros bitdepth factor l c h Hin.
  pose proof (BITDEPTH_FACTOR_table _ _ Hin) as Hf.
  assert (In bitdepth bitdepth_choices) as Hchoice.
  { simpl in Hin |- *.
    destruct Hin as [H | [H | [H | [H | []]]]]; inversion H; auto. }
  rewrite <- !between_within.
  unfold validate_cielchab_values. rewrite Hf, check_value_ranges_cielchab.
  split; [| split].
  - intros [H1 [H2 H3]]. rewrite H1, H2, H3. reflexivity.
  - intros Hnot.
    destruct (between 0 100 l); [| eexists; reflexivity].
    destruct (between 0 230 c); [| eexists; reflexivity].
    destruct (between 0 360 h); [| eexists; reflexivity].
    exfalso. apply Hnot. auto.
  - intros bitdepth' Hin'.
    rewrite !cielchab_accepts_fixed by assumption. reflexivity.
Qed.

Lemma validate_cielchab_values_same_range_witness :
  validate_cielchab_values "16" 50 200 300
  = inr (50%float, 200%float, 300%float, 65535).
Proof.
  apply (validate_cielchab_values_same_range "16" 65535 50 200 300).
  - simpl. auto.
  - unfold within. vm_compute. auto.
Defined.

(** C5, as stated, fails: the triples accepted at 8 bits and at 16 bits
    do not differ. *)
Lemma cielchab_sets_do_not_differ : ~ cielchab_sets_differ "8" "16".
Proof.
  intros [l [c [h Hdiff]]]. apply Hdiff.
  rewrite !cielchab_accepts_fixed by (simpl; auto). reflexivity.
Qed.

(** The float quotient, truncated, is the integer quotient on every
    pair the guards of [validate_spectrum_values] let through; checked
    on each of them. *)
Lemma py_int_truediv_table :
  forallb (fun d =>
             forallb (fun i => py_int (py_truediv d i) =? d / i)
                     (map Z.of_nat (seq 1 20)))
          (map Z.of_nat (seq 1 400)) = true.
Proof. vm_compute. reflexivity. Qed.

Lemma in_Z_range (n : nat) (z : Z) :
  1 <= z <= Z.of_nat n -> In z (map Z.of_nat (seq 1 n)).
Proof.
  intros Hz. apply in_map_iff. exists (Z.to_nat z). split.
  - lia.
  - apply in_seq. lia.
Qed.

Lemma py_int_truediv_floor (d i : Z) :
  1 <= d <= 400 -> 1 <= i <= 20 -> py_int (py_truediv d i) = d / i.
Proof.
  intros Hd Hi. pose proof py_int_truediv_table as Htable.
  rewrite forallb_forall in Htable.
  specialize (Htable d (in_Z_range 400 d Hd)).
  rewrite forallb_forall in Htable.
  specialize (Htable i (in_Z_range 20 i Hi)).
  apply Z.eqb_eq. exact Htable.
Qed.

Lemma expected_data_length_floor (start stop interval : Z) :
  380 <= start <= 750 -> 400 <= stop <= 780 -> 1 <= interval <= 20 ->
  start < stop ->
  expected_data_length start stop interval = (stop - start) / interval + 1.
Proof.
  intros Hstart Hstop Hi Hlt. unfold expected_data_length.
  rewrite py_int_truediv_floor by lia. reflexivity.
Qed.

Lemma existsb_float (p : float -> bool) (data : list float) :
  existsb p data = true <-> exists x, In x data /\ p x = true.
Proof. apply existsb_exists. Qed.


(** ** Normalization round trip *)

(** With the single factor it was given, [denormalize] multiplies each
    quotient of [normalize] by the factor and rounds the product. *)
Lemma denormalize_normalize_single {num : Type} {A : Arith num}
  (a b c f : num) :
  denormalize (normalize a b c f) [f]
  = inr [np_round 3 (amul (adiv a f) f); np_round 3 (amul (adiv b f) f);
         np_round 3 (amul (adiv c f) f)].
Proof. reflexivity. Qed.

(** C10, as the code has it.  On binary64, the arithmetic of the
    script, [denormalize] applied to [normalize(a, b, c, f)] with the
    single factor [f] returns [(a / f) * f], [(b / f) * f] and
    [(c / f) * f], each rounded to 3 decimal places, for every [a], [b],
    [c] and [f]; this is [a], [b], [c] rounded to 3 decimal places
    whenever dividing each of them by [f] and multiplying the quotient by
    [f] gives the number back. *)
Theorem denormalize_normalize_round_trip :
  forall a b c f : float,
    denormalize (normalize a b c f) [f]
    = inr [np_round 3 (a / f * f)%float; np_round 3 (b / f * f)%float;
           np_round 3 (c / f * f)%float]
    /\ ((a / f * f)%float = a -> (b / f * f)%float = b ->
        (c / f * f)%float = c ->
        denormalize (normalize a b c f) [f]
        = inr [np_round 3 a; np_round 3 b; np_round 3 c]).
Proof.
  intros a b c f.
  pose proof (denormalize_normalize_single a b c f) as Hsingle.
  split; [exact Hsingle |].
  intros Ha Hb Hc. rewrite Hsingle.
  change (@amul float float_arith) with PrimFloat.mul.
  change (@adiv float float_arith) with PrimFloat.div.
  rewrite Ha, Hb, Hc. reflexivity.
Qed.

(** [--red 128 --green 64 --blue 200] at 8 bits: each of the three
    values comes back from the division by 255 and the multiplication. *)
Lemma denormalize_normalize_round_trip_witness :
  denormalize (normalize 128 64 200 255)%float [255%float]
  = inr [np_round 3 128%float; np_round 3 64%float; np_round 3 200%float].
Proof.
  apply (denormalize_normalize_round_trip 128 64 200 255);
    vm_compute; reflexivity.
Defined.

(** In an arithmetic where dividing by a nonzero factor and multiplying
    by it again gives the number back, as over the rationals, the round
    trip returns [a], [b], [c] rounded to 3 decimal places for every
    nonzero factor. *)
Theorem denormalize_normalize_exact :
  forall (num : Type) (A : Arith num),
    (forall x f : num, f <> of_int 0 -> amul (adiv x f) f = x) ->
    forall a b c f : num,
      f <> of_int 0 ->
      denormalize (normalize a b c f) [f]
      = inr [np_round 3 a; np_round 3 b; np_round 3 c].
Proof.
  intros num A Hcancel a b c f Hf.
  unfold denormalize, normalize, np_mul. simpl.
  rewrite !Hcancel by assumption. reflexivity.
Qed.

Lemma Qc_div_mul_cancel (x f : Qc) :
  f <> Q2Qc (inject_Z 0) -> (x / f * f)%Qc = x.
Proof. intros Hf. field. exact Hf. Qed.

Lemma denormalize_normalize_exact_witness :
  denormalize (normalize (Q2Qc (4985 # 10000)) (Q2Qc 0) (Q2Qc 0) (Q2Qc 255))
              [Q2Qc 255]
  = inr [np_round 3 (Q2Qc (4985 # 10000)); np_round 3 (Q2Qc 0);
         np_round 3 (Q2Qc 0)].
Proof.
  apply (denormalize_normalize_exact Qc Qc_arith).
  - exact Qc_div_mul_cancel.
  - intros H. apply (f_equal (fun q => Qnum (this q))) in H.
    vm_compute in H. discriminate.
Defined.

(** C10, as stated, fails on the arithmetic of the script.  With
    [--red 0.4985] at 8 bits the factor is 255; [0.4985 / 255 * 255] is
    the next double above [0.4985], and rounds to [0.499], while
    [0.4985] rounds to [0.498]. *)
Lemma denormalize_normalize_binary64 :
  denormalize (normalize 0x1.fe76c8b439581p-2 0 0 255)%float [255%float]
  <> inr [np_round 3 0x1.fe76c8b439581p-2%float; np_round 3 0%float;
          np_round 3 0%float].
Proof.
  intros H.
  apply (f_equal (fun r => match r with
                           | inr (x :: _) =>
                               PrimFloat.ltb x 0x1.fe76c8b439581p-2
                           | _ => false
                           end)) in H.
  vm_compute in H. discriminate.
Qed.

(** ** Dictionaries *)

Lemma key_eqb_refl_key_of (a : ctxarg) : key_eqb (key_of a) (key_of a) = true.
Proof. destruct a; simpl; [reflexivity | apply String.eqb_refl]. Qed.

Lemma key_eqb_refl_KStr (s : string) : key_eqb (KStr s) (KStr s) = true.
Proof. apply String.eqb_refl. Qed.

Lemma dict_lookup_set_same (d : dict) (k : pykey) (v : pyval) :
  key_eqb k k = true -> dict_lookup (dict_set d k v) k = Some v.
Proof.
  intros Hrefl. induction d as [| [k' v'] d IH]; simpl.
  - rewrite Hrefl. reflexivity.
  - destruct (key_eqb k k') eqn:E; simpl; rewrite E; [reflexivity | exact IH].
Qed.

Lemma ensure_model_present (res : dict) (model : string) (entry : pyval) :
  dict_lookup res (KStr model) = Some entry -> ensure_model res model = res.
Proof.
  intros Hentry. unfold ensure_model, dict_mem. rewrite Hentry. reflexivity.
Qed.

Lemma setdefault_empty_lookup (d : dict) (k : pykey) :
  key_eqb k k = true ->
  exists v, dict_lookup (setdefault_empty d k) k = Some v
            /\ (dict_lookup d k = None -> v = VDict [])
            /\ (forall v', dict_lookup d k = Some v' -> v = v').
Proof.
  intros Hrefl. unfold setdefault_empty, dict_mem.
  destruct (dict_lookup d k) as [v |] eqn:E; simpl.
  - exists v. rewrite E. repeat split; congruence.
  - exists (VDict []). rewrite dict_lookup_set_same by assumption.
    repeat split; congruence.
Qed.

(** ** [result] *)

Lemma result_use_space_separated (res : dict) (model : string) (value : pyval)
  (illuminant observer : ctxarg) (cat : option ctxarg) (nosci : bool) :
  result res model value illuminant observer cat true nosci
  = inl (TypeError "isinstance expected 2 arguments, got 1").
Proof. reflexivity. Qed.

(** C9.  A call of [result] with a model key that [res] does not hold
    raises [KeyError]: the lookup [res[model]] for "codes" comes first.
    Whenever that lookup succeeds the key is present, so the statement
    that would create [res[model]] changes nothing. *)
Theorem result_unknown_model_KeyError :
  forall (res : dict) (model : string) (value : pyval)
         (illuminant observer : ctxarg) (cat : option ctxarg) (nosci : bool),
    dict_lookup res (KStr model) = None ->
    result res model value illuminant observer cat false nosci
    = inl (KeyError model)
    /\ (forall (res0 : dict) (entry : pyval),
          dict_getitem res0 model = inr entry ->
          ensure_model res0 model = res0).
Proof.
  intros res model value illuminant observer cat nosci Hnone. split.
  - unfold result, dict_getitem. simpl. rewrite Hnone. reflexivity.
  - intros res0 entry Hget. unfold dict_getitem in Hget.
    destruct (dict_lookup res0 (KStr model)) as [v |] eqn:E; [| discriminate].
    exact (ensure_model_present res0 model v E).
Qed.

Lemma result_unknown_model_KeyError_witness :
  result COLOR_MODELS_TEMPLATES "oklch" (VFloat 1) AFalse AFalse None false false
  = inl (KeyError "oklch").
Proof.
  apply (result_unknown_model_KeyError COLOR_MODELS_TEMPLATES "oklch").
  vm_compute. reflexivity.
Defined.

Lemma dict_set_fresh (d : dict) (k : pykey) (v : pyval) :
  (forall k' v', In (k', v') d -> key_eqb k k' = false) ->
  dict_set d k v = (d ++ [(k, v)])%list.
Proof.
  induction d as [| [k' v'] d IH]; intros Hfresh; simpl.
  - reflexivity.
  - rewrite (Hfresh k' v') by (left; reflexivity).
    rewrite IH; [reflexivity |].
    intros k2 v2 Hin. apply (Hfresh k2 v2). right. exact Hin.
Qed.

Lemma py_dict_combine_fresh (cs : list string) :
  forall (vs : list pyval) (acc : dict),
    NoDup cs ->
    (forall c k v, In c cs -> In (k, v) acc -> key_eqb (KStr c) k = false) ->
    fold_left (fun d kv => dict_set d (fst kv) (snd kv))
              (combine (map KStr cs) vs) acc
    = (acc ++ combine (map KStr cs) vs)%list.
Proof.
  induction cs as [| c cs IH]; intros vs acc Hnodup Hfresh; simpl.
  - rewrite app_nil_r. reflexivity.
  - destruct vs as [| v vs]; simpl.
    + rewrite app_nil_r. reflexivity.
    + inversion Hnodup as [| c' cs' Hnotin Hnodup']; subst.
      rewrite dict_set_fresh
        by (intros k' v' Hin; apply (Hfresh c k' v'); [left; reflexivity | exact Hin]).
      rewrite IH.
      * rewrite <- app_assoc. reflexivity.
      * exact Hnodup'.
      * intros c2 k2 v2 Hc2 Hin. apply in_app_or in Hin.
        destruct Hin as [Hin | [Heq | []]].
        -- apply (Hfresh c2 k2 v2); [right; exact Hc2 | exact Hin].
        -- inversion Heq; subst. simpl. apply String.eqb_neq.
           intros ->. contradiction.
Qed.

Lemma py_dict_combine (cs : list string) (vs : list pyval) :
  NoDup cs -> py_dict (combine (map KStr cs) vs) = combine (map KStr cs) vs.
Proof.
  intros Hnodup. unfold py_dict.
  rewrite py_dict_combine_fresh; [reflexivity | exact Hnodup |].
  intros c k v _ [].
Qed.

Lemma code_keys_strings (cs : list string) :
  code_keys (map VStr cs) = inr (map KStr cs).
Proof.
  induction cs as [| c cs IH]; simpl; [reflexivity |].
  rewrite IH. reflexivity.
Qed.

Lemma code_value_codes (template : dict) (value : pyval) (cs : list string) :
  dict_lookup template (KStr "codes") = Some (VList (map VStr cs)) ->
  NoDup cs ->
  code_value template value
  = inr (VDict (combine (map KStr cs) (components value))).
Proof.
  intros Hcodes Hnodup. unfold code_value. rewrite Hcodes.
  rewrite code_keys_strings. simpl.
  fold (components value). rewrite py_dict_combine by assumption. reflexivity.
Qed.

Lemma code_value_no_codes (template : dict) (value : pyval) :
  dict_lookup template (KStr "codes") = None ->
  code_value template value = inr value.
Proof. intros Hnone. unfold code_value. rewrite Hnone. reflexivity. Qed.

Lemma store_under_lookup (d d' : dict) (k : pykey) (cat : option ctxarg)
  (value : pyval) :
  key_eqb k k = true ->
  store_under d k cat value = inr d' ->
  lookup_path (VDict d')
              (k :: match cat with None => [] | Some c => [key_of c] end)
  = Some value.
Proof.
  intros Hrefl Hstore. unfold store_under in Hstore.
  destruct cat as [c |].
  - destruct (dict_lookup d k) as [inner |]; [| discriminate].
    destruct inner; try discriminate. simpl in Hstore.
    inversion Hstore; subst. simpl.
    rewrite dict_lookup_set_same by assumption.
    rewrite dict_lookup_set_same by apply key_eqb_refl_key_of. reflexivity.
  - inversion Hstore; subst. simpl.
    rewrite dict_lookup_set_same by assumption. reflexivity.
Qed.

Lemma as_dict_inr (v : pyval) (d : dict) : as_dict v = inr d -> v = VDict d.
Proof. destruct v; simpl; intros H; inversion H; reflexivity. Qed.

(** Where a call of [result] that returns has stored its value. *)
Lemma result_inr (res res' : dict) (model : string) (value : pyval)
  (illuminant observer : ctxarg) (cat : option ctxarg) (nosci : bool) :
  result res model value illuminant observer cat false nosci = inr res' ->
  exists template stored,
    dict_lookup res (KStr model) = Some (VDict template)
    /\ code_value template value = inr stored
    /\ lookup_path (VDict res') (result_path model illuminant observer cat)
       = Some stored.
Proof.
  unfold result. simpl. intros H.
  apply bind_inr in H. destruct H as [entry [Hentry H]].
  unfold dict_getitem in Hentry.
  destruct (dict_lookup res (KStr model)) as [entry' |] eqn:Hlookup;
    [| discriminate].
  inversion Hentry; subst entry'. clear Hentry.
  apply bind_inr in H. destruct H as [template [Htemplate H]].
  apply as_dict_inr in Htemplate. subst entry.
  apply bind_inr in H. destruct H as [stored [Hstored H]].
  exists template, stored. split; [reflexivity |]. split; [exact Hstored |].
  rewrite (ensure_model_present res model _ Hlookup) in H.
  unfold dict_getitem in H. rewrite Hlookup in H. simpl in H.
  unfold result_path.
  destruct (truthy observer).
  - destruct (setdefault_empty_lookup template (key_of observer)
                (key_eqb_refl_key_of observer)) as [o [Ho _]].
    rewrite Ho in H.
    apply bind_inr in H. destruct H as [od [Hod H]].
    apply bind_inr in H. destruct H as [od' [Hstore H]].
    inversion H; subst res'. cbn [lookup_path].
    rewrite dict_lookup_set_same by apply key_eqb_refl_KStr.
    rewrite dict_lookup_set_same by apply key_eqb_refl_key_of.
    exact (store_under_lookup _ _ _ _ _ (key_eqb_refl_key_of illuminant) Hstore).
  - destruct (truthy illuminant).
    + apply bind_inr in H. destruct H as [m' [Hstore H]].
      inversion H; subst res'. cbn [lookup_path].
      rewrite dict_lookup_set_same by apply key_eqb_refl_KStr.
      exact (store_under_lookup _ _ _ _ _ (key_eqb_refl_key_of illuminant) Hstore).
    + inversion H; subst res'. cbn [lookup_path].
      rewrite dict_lookup_set_same by apply key_eqb_refl_KStr.
      rewrite dict_lookup_set_same by apply key_eqb_refl_KStr.
      reflexivity.
Qed.

Lemma setdefault_empty_dict (d : dict) (k : pykey) :
  key_eqb k k = true ->
  free_or_dict (dict_lookup d k) ->
  exists inner,
    dict_lookup (setdefault_empty d k) k = Some (VDict inner)
    /\ (dict_lookup d k = None -> inner = [])
    /\ (forall d', dict_lookup d k = Some (VDict d') -> inner = d').
Proof.
  intros Hrefl Hfree. unfold setdefault_empty, dict_mem.
  destruct (dict_lookup d k) as [v |] eqn:E; simpl in *.
  - destruct v; try contradiction. exists d0. rewrite E.
    repeat split; congruence.
  - exists []. rewrite dict_lookup_set_same by assumption.
    repeat split; congruence.
Qed.

Lemma store_under_returns (d : dict) (k : pykey) (cat : option ctxarg)
  (value : pyval) (inner : dict) :
  (cat <> None -> dict_lookup d k = Some (VDict inner)) ->
  exists d', store_under d k cat value = inr d'.
Proof.
  intros Hinner. unfold store_under. destruct cat as [c |].
  - rewrite Hinner by discriminate. simpl. eauto.
  - eauto.
Qed.

(** [result] returns whenever the template is a dictionary whose codes,
    if any, can be paired with the value, and the places on the way to
    the value are free or hold dictionaries. *)
Lemma result_returns (res : dict) (model : string) (template : dict)
  (value stored : pyval) (illuminant observer : ctxarg)
  (cat : option ctxarg) (nosci : bool) :
  dict_lookup res (KStr model) = Some (VDict template) ->
  code_value template value = inr stored ->
  (truthy observer = true ->
   free_or_dict (dict_lookup template (key_of observer))
   /\ (forall o, dict_lookup template (key_of observer) = Some (VDict o) ->
                 cat <> None ->
                 free_or_dict (dict_lookup o (key_of illuminant)))) ->
  (truthy observer = false -> cat <> None ->
   free_or_dict (dict_lookup template (key_of illuminant))) ->
  exists res', result res model value illuminant observer cat false nosci
               = inr res'.
Proof.
  intros Hlookup Hcode Hobs Hill. unfold result, dict_getitem. simpl.
  rewrite Hlookup. simpl. rewrite Hcode. simpl.
  rewrite (ensure_model_present res model _ Hlookup), Hlookup. simpl.
  destruct (truthy observer) eqn:Eobs.
  - destruct (Hobs eq_refl) as [Hfree Hnext].
    destruct (setdefault_empty_dict template (key_of observer)
                (key_eqb_refl_key_of observer) Hfree)
      as [o [Ho [Hnew Hold]]].
    rewrite Ho. simpl.
    assert (free_or_dict (dict_lookup o (key_of illuminant)) \/ cat = None)
      as Hnode.
    { destruct cat as [c |]; [left | right; reflexivity].
      destruct (dict_lookup template (key_of observer)) as [v |] eqn:E.
      - destruct v; try contradiction.
        rewrite (Hold d eq_refl). apply (Hnext d eq_refl). discriminate.
      - rewrite (Hnew eq_refl). exact I. }
    destruct Hnode as [Hnode | ->].
    + destruct (setdefault_empty_dict o (key_of illuminant)
                  (key_eqb_refl_key_of illuminant) Hnode)
        as [inner [Hinner _]].
      destruct (store_under_returns _ (key_of illuminant) cat stored inner
                  (fun _ => Hinner)) as [o' Ho'].
      rewrite Ho'. simpl. eauto.
    + simpl. eauto.
  - destruct (truthy illuminant); [| eauto].
    destruct cat as [c |]; [| simpl; eauto].
    destruct (setdefault_empty_dict template (key_of illuminant)
                (key_eqb_refl_key_of illuminant)
                (Hill eq_refl ltac:(discriminate)))
      as [inner [Hinner _]].
    unfold store_under. rewrite Hinner. simpl. eauto.
Qed.

(** C3.  A call [result(model, value, illuminant, observer, cat)] that
    returns has stored its value under
    [res[model][observer][illuminant][cat]] when an observer is given
    and [cat] is not [None], under [res[model][observer][illuminant]]
    when an observer is given and [cat] is [None], under
    [res[model][illuminant][cat]] or [res[model][illuminant]] when only
    an illuminant is given, and under [res[model]["None"]] when neither
    is.  When the template of the model has a list of codes, what is
    stored is the dictionary pairing the codes with the components of
    the value; when it has none, the value itself. *)
Theorem result_stores_value :
  forall (res res' : dict) (model : string) (value : pyval)
         (illuminant observer : ctxarg) (cat : option ctxarg) (nosci : bool),
    result res model value illuminant observer cat false nosci = inr res' ->
    exists template stored,
      dict_lookup res (KStr model) = Some (VDict template)
      /\ lookup_path (VDict res')
           (KStr model
            :: (if truthy observer
                then [key_of observer; key_of illuminant]
                else if truthy illuminant then [key_of illuminant]
                else [KStr "None"])
            ++ (if truthy observer || truthy illuminant
                then match cat with None => [] | Some c => [key_of c] end
                else []))%list
         = Some stored
      /\ (forall codes : list string,
            dict_lookup template (KStr "codes") = Some (VList (map VStr codes)) ->
            NoDup codes ->
            stored = VDict (combine (map KStr codes) (components value)))
      /\ (dict_lookup template (KStr "codes") = None -> stored = value).
Proof.
  intros res res' model value illuminant observer cat nosci Hresult.
  destruct (result_inr _ _ _ _ _ _ _ _ Hresult)
    as [template [stored [Htemplate [Hstored Hpath]]]].
  exists template, stored. split; [exact Htemplate |]. split; [| split].
  - unfold result_path in Hpath.
    destruct (truthy observer); [exact Hpath |].
    destruct (truthy illuminant); exact Hpath.
  - intros codes Hcodes Hnodup.
    rewrite (code_value_codes _ _ _ Hcodes Hnodup) in Hstored.
    inversion Hstored. reflexivity.
  - intros Hnone. rewrite (code_value_no_codes _ _ Hnone) in Hstored.
    inversion Hstored. reflexivity.
Qed.

Lemma result_stores_value_witness :
  exists res',
    result COLOR_MODELS_TEMPLATES "sRGB"
           (VArray [VFloat 255; VFloat 0; VFloat 0])
           (AStr "D65") (AStr observer_2) (Some (AStr "Bradford")) false false
    = inr res'
    /\ lookup_path (VDict res')
         [KStr "sRGB"; KStr observer_2; KStr "D65"; KStr "Bradford"]
       = Some (VDict [(KStr "R", VFloat 255); (KStr "G", VFloat 0);
                      (KStr "B", VFloat 0)]).
Proof.
  destruct (result COLOR_MODELS_TEMPLATES "sRGB"
              (VArray [VFloat 255; VFloat 0; VFloat 0])
              (AStr "D65") (AStr observer_2) (Some (AStr "Bradford"))
              false false) as [e | res'] eqn:Hrun.
  - vm_compute in Hrun. discriminate.
  - exists res'. split; [reflexivity |].
    destruct (result_stores_value _ _ _ _ _ _ _ _ Hrun)
      as [template [stored [Htemplate [Hpath [Hcodes _]]]]].
    vm_compute in Htemplate. inversion Htemplate; subst template.
    rewrite (Hcodes ["R"; "G"; "B"]) in Hpath.
    + exact Hpath.
    + reflexivity.
    + repeat constructor; simpl; intuition discriminate.
Defined.

(** ** Serialization *)

Section pyval_induction.
Variable Q : pyval -> Prop.
Hypothesis HNone : Q VNone.
Hypothesis HBool : forall b, Q (VBool b).
Hypothesis HInt : forall z, Q (VInt z).
Hypothesis HFloat : forall f, Q (VFloat f).
Hypothesis HStr : forall s, Q (VStr s).
Hypothesis HList : forall l, Forall Q l -> Q (VList l).
Hypothesis HDict : forall d, Forall (fun kv => Q (snd kv)) d -> Q (VDict d).
Hypothesis HNpInt : forall z, Q (VNpInt z).
Hypothesis HNpFloat : forall f, Q (VNpFloat f).
Hypothesis HArray : forall l, Forall Q l -> Q (VArray l).
Hypothesis HObject : forall cls, Q (VObject cls).

Fixpoint pyval_nested_ind (v : pyval) : Q v :=
  match v with
  | VNone => HNone
  | VBool b => HBool b
  | VInt z => HInt z
  | VFloat f => HFloat f
  | VStr s => HStr s
  | VList l =>
      HList l ((fix all (l : list pyval) : Forall Q l :=
                  match l with
                  | [] => Forall_nil Q
                  | x :: l' => Forall_cons x (pyval_nested_ind x) (all l')
                  end) l)
  | VDict d =>
      HDict d ((fix all (d : list (pykey * pyval))
                  : Forall (fun kv => Q (snd kv)) d :=
                  match d with
                  | [] => Forall_nil _
                  | kv :: d' =>
                      Forall_cons kv (pyval_nested_ind (snd kv)) (all d')
                  end) d)
  | VNpInt z => HNpInt z
  | VNpFloat f => HNpFloat f
  | VArray l =>
      HArray l ((fix all (l : list pyval) : Forall Q l :=
                   match l with
                   | [] => Forall_nil Q
                   | x :: l' => Forall_cons x (pyval_nested_ind x) (all l')
                   end) l)
  | VObject cls => HObject cls
  end.
End pyval_induction.

Lemma mapM_ext_in {A B : Type} (f g : A -> M B) (l : list A) :
  (forall x, In x l -> f x = g x) -> mapM f l = mapM g l.
Proof.
  induction l as [| x l IH]; intros Hext; simpl; [reflexivity |].
  rewrite (Hext x) by (left; reflexivity).
  rewrite IH by (intros y Hy; apply Hext; right; exact Hy).
  reflexivity.
Qed.

Lemma mapM_map {A B C : Type} (f : B -> M C) (g : A -> B) (l : list A) :
  mapM f (map g l) = mapM (fun x => f (g x)) l.
Proof.
  induction l as [| x l IH]; simpl; [reflexivity |].
  rewrite IH. reflexivity.
Qed.

Lemma np_to_py_tolist_item (v : pyval) : np_to_py (tolist_item v) = np_to_py v.
Proof.
  induction v as [| | | | | | | | | l IH |] using pyval_nested_ind;
    try reflexivity.
  simpl. f_equal. rewrite map_map. apply map_ext_in.
  intros x Hx. rewrite Forall_forall in IH. exact (IH x Hx).
Qed.

Lemma height_tolist_item (v : pyval) : (height (tolist_item v) <= height v)%nat.
Proof.
  induction v as [| | | | | | | | | l IH |] using pyval_nested_ind;
    try (simpl; lia).
  simpl. apply le_n_S.
  induction l as [| x l IHl]; simpl; [lia |].
  inversion IH as [| x' l' Hx Hl]; subst.
  specialize (IHl Hl). lia.
Qed.

Lemma height_element (x : pyval) (l : list pyval) :
  In x l ->
  (height x <= fold_right (fun y n => Nat.max (height y) n) O l)%nat.
Proof.
  induction l as [| y l IH]; simpl; [intros [] |].
  intros [-> | Hin]; [lia |]. specialize (IH Hin). lia.
Qed.

Lemma height_item (kv : pykey * pyval) (d : dict) :
  In kv d ->
  (height (snd kv)
   <= fold_right (fun kv n => Nat.max (height (snd kv)) n) O d)%nat.
Proof.
  induction d as [| y d IH]; simpl; [intros [] |].
  intros [-> | Hin]; [lia |]. specialize (IH Hin). lia.
Qed.

Lemma encode_list (default : pyval -> M pyval) (n : nat) (l : list pyval) :
  encode default (S n) (VList l)
  = (js <- mapM (encode default n) l ;; ret (JArr js)).
Proof. reflexivity. Qed.

Lemma encode_dict (default : pyval -> M pyval) (n : nat) (d : dict) :
  encode default (S n) (VDict d)
  = (items <- mapM (fun kv => j <- encode default n (snd kv) ;;
                              ret (fst kv, j)) d ;;
     ret (JObj items)).
Proof. reflexivity. Qed.

Lemma encode_array (n : nat) (l : list pyval) :
  encode NumpyEncoder_default (S (S n)) (VArray l)
  = (js <- mapM (encode NumpyEncoder_default n) (tolist l) ;; ret (JArr js)).
Proof. reflexivity. Qed.

(** With fuel for the nesting of the value, the encoder with
    [NumpyEncoder.default] does what the standard encoder does on the
    converted value. *)
Lemma encode_NumpyEncoder (h : nat) :
  forall (v : pyval) (n : nat),
    (height v <= h)%nat -> (2 * h <= n)%nat ->
    encode NumpyEncoder_default n v = std_encode (np_to_py v).
Proof.
  induction h as [| h IH]; intros v n Hv Hn.
  - destruct v; simpl in Hv; lia.
  - destruct n as [| [| n]]; try lia.
    destruct v; try reflexivity.
    + (* list *)
      rewrite encode_list. cbn [np_to_py std_encode].
      rewrite mapM_map. f_equal.
      apply mapM_ext_in. intros x Hx. apply IH; [| lia].
      pose proof (height_element x l Hx). simpl in Hv. lia.
    + (* dict *)
      rewrite encode_dict. cbn [np_to_py std_encode].
      rewrite mapM_map. f_equal.
      apply mapM_ext_in. intros kv Hkv. cbn [fst snd].
      rewrite IH; [reflexivity | | lia].
      pose proof (height_item kv d Hkv). simpl in Hv. lia.
    + (* array *)
      rewrite encode_array. cbn [np_to_py std_encode].
      unfold tolist. rewrite !mapM_map. f_equal.
      apply mapM_ext_in. intros x Hx.
      rewrite IH; [apply f_equal, np_to_py_tolist_item | | lia].
      pose proof (height_element x l Hx).
      pose proof (height_tolist_item x). simpl in Hv. lia.
Qed.

(** [json.dumps] with [NumpyEncoder] never runs out of fuel: it is the
    standard encoder after NumPy integers have become [int], NumPy
    floats [float], and arrays lists. *)
Lemma json_dumps_np_to_py (v : pyval) :
  json_dumps v = std_encode (np_to_py v).
Proof. unfold json_dumps. apply (encode_NumpyEncoder (height v)); lia. Qed.

(** C8.  A run that ends with status 0 has written exactly one document
    to standard output: the serialization of the dictionary [res] the
    conversions assembled, in which NumPy integers are rendered as
    [int], NumPy floats as [float] and arrays as lists. *)
Theorem main_prints_one_document :
  forall (lib : Library) (parsed : Args),
    exit_status (main lib parsed) = 0 ->
    exists (args : Args) (model : ColorModel) (s : pstate) (dumped : json),
      @parse_arguments json parsed = ([], [], inr (args, model))
      /\ conversions lib args model initial_state = (inr tt, s)
      /\ json_dumps (VDict (g_res s)) = inr dumped
      /\ std_encode (np_to_py (VDict (g_res s))) = inr dumped
      /\ stdout (main lib parsed) = [Printed dumped].
Proof.
  intros lib parsed Hexit. unfold main in *.
  destruct (determine_color_model parsed) as [model |] eqn:Hmodel.
  - destruct (parse_arguments_ok parsed model Hmodel) as [args Hparse].
    rewrite Hparse in *.
    destruct (conversions lib args model initial_state) as [[e | []] s] eqn:Hrun;
      [discriminate |].
    destruct (json_dumps (VDict (g_res s))) as [e | dumped] eqn:Hdumps;
      [discriminate |].
    exists args, model, s, dumped.
    split; [first [exact Hparse | reflexivity] |].
    split; [first [exact Hrun | reflexivity] |].
    split; [exact Hdumps |].
    split; [rewrite <- json_dumps_np_to_py; exact Hdumps |].
    rewrite ?Hparse, ?Hrun, ?Hdumps. reflexivity.
  - rewrite (parse_arguments_error parsed Hmodel) in Hexit. discriminate.
Qed.

Lemma main_prints_one_document_witness :
  exists dumped : json,
    stdout (main sample_library sample_args) = [Printed dumped].
Proof.
  destruct (main_prints_one_document sample_library sample_args)
    as [args [model [s [dumped [_ [_ [_ [_ Hout]]]]]]]].
  - vm_compute. reflexivity.
  - exists dumped. exact Hout.
Defined.

(** ** The fan-out *)

Lemma pbind_inr {A B : Type} (c : P A) (k : A -> P B) (s s' : pstate) (b : B) :
  pbind c k s = (inr b, s') ->
  exists a s1, c s = (inr a, s1) /\ k a s1 = (inr b, s').
Proof.
  unfold pbind. destruct (c s) as [[e | a] s1]; intros H.
  - discriminate.
  - eauto.
Qed.

Section Respects.
Variable R : pstate -> pstate -> Prop.
Hypothesis R_refl : forall s, R s s.
Hypothesis R_trans : forall a b c, R a b -> R b c -> R a c.

Lemma respects_pret {A : Type} (a : A) : respects R (pret a).
Proof. intros s. apply R_refl. Qed.

Lemma respects_praise {A : Type} (e : exn) : respects R (@praise A e).
Proof. intros s. apply R_refl. Qed.

Lemma respects_lift {A : Type} (c : M A) : respects R (lift c).
Proof. intros s. apply R_refl. Qed.

Lemma respects_need (name : string) : respects R (need name).
Proof.
  intros s. unfold need. destruct (str_in name (g_bound s)); apply R_refl.
Qed.

Lemma respects_get_res : respects R get_res.
Proof. intros s. apply R_refl. Qed.

Lemma respects_get_ciexyz_c_None : respects R get_ciexyz_c_None.
Proof. intros s. apply R_refl. Qed.

Lemma respects_pbind {A B : Type} (c : P A) (k : A -> P B) :
  respects R c -> (forall a, respects R (k a)) -> respects R (pbind c k).
Proof.
  intros Hc Hk s. unfold pbind. specialize (Hc s).
  destruct (c s) as [[e | a] s1]; simpl in *.
  - exact Hc.
  - exact (R_trans _ _ _ Hc (Hk a s1)).
Qed.

Lemma respects_for_each {A : Type} (l : list A) (body : A -> P unit) :
  (forall x, respects R (body x)) -> respects R (for_each l body).
Proof.
  intros Hbody. induction l as [| x l IH]; simpl.
  - apply respects_pret.
  - apply respects_pbind; [apply Hbody | intros _; exact IH].
Qed.

Lemma respects_lib_item (table : list string) (k : string) :
  respects R (lib_item table k).
Proof.
  unfold lib_item. destruct (str_in k table);
    [apply respects_pret | apply respects_praise].
Qed.

Lemma respects_lib_item2 (table : list (string * list string))
  (k1 k2 : string) : respects R (lib_item2 table k1 k2).
Proof.
  unfold lib_item2. destruct (dict_get table k1);
    [apply respects_lib_item | apply respects_praise].
Qed.

(** A loop that returns has run its body on every element. *)
Lemma for_each_inr_In {A : Type} (l : list A) (body : A -> P unit) (x : A) :
  (forall y, respects R (body y)) ->
  In x l ->
  forall s s',
    for_each l body s = (inr tt, s') ->
    exists s1 s2, R s s1 /\ body x s1 = (inr tt, s2) /\ R s2 s'.
Proof.
  intros Hbody. induction l as [| y l IH]; intros Hin s s' Hrun.
  - destruct Hin.
  - simpl in Hrun. apply pbind_inr in Hrun.
    destruct Hrun as [[] [s1 [Hy Hrest]]].
    destruct Hin as [-> | Hin].
    + exists s, s1. split; [apply R_refl |]. split; [exact Hy |].
      pose proof (respects_for_each l body Hbody s1) as Hr.
      rewrite Hrest in Hr. exact Hr.
    + destruct (IH Hin s1 s' Hrest) as [sa [sb [Ha [Hx Hb]]]].
      exists sa, sb. split; [| split; assumption].
      pose proof (Hbody y s) as Hr. rewrite Hy in Hr.
      exact (R_trans _ _ _ Hr Ha).
Qed.
End Respects.

Lemma same_attempted_refl (s : pstate) : same_attempted s s.
Proof. reflexivity. Qed.

Lemma same_attempted_trans (a b c : pstate) :
  same_attempted a b -> same_attempted b c -> same_attempted a c.
Proof. unfold same_attempted. congruence. Qed.

Lemma calls_grow_refl (s : pstate) : calls_grow s s.
Proof. exists []. rewrite app_nil_r. reflexivity. Qed.

Lemma calls_grow_trans (a b c : pstate) :
  calls_grow a b -> calls_grow b c -> calls_grow a c.
Proof.
  intros [n1 H1] [n2 H2]. exists (n1 ++ n2)%list.
  rewrite H2, H1, app_assoc. reflexivity.
Qed.

Lemma calls_grow_In (s s' : pstate) (c : call) :
  calls_grow s s' -> In c (g_calls s) -> In c (g_calls s').
Proof. intros [new Hnew] Hin. rewrite Hnew. apply in_or_app. auto. Qed.

Lemma assign_attempted (names : list string) :
  respects same_attempted (assign names).
Proof. intros s. reflexivity. Qed.

Lemma set_res_attempted (r : dict) : respects same_attempted (set_res r).
Proof. intros s. reflexivity. Qed.

Lemma set_ciexyz_c_None_attempted (b : bool) :
  respects same_attempted (set_ciexyz_c_None b).
Proof. intros s. reflexivity. Qed.

Lemma call_result_attempted (model : string) (value : pyval)
  (illuminant observer : ctxarg) (cat : option ctxarg) (nosci : bool) :
  respects same_attempted
           (call_result model value illuminant observer cat nosci).
Proof.
  intros s. unfold call_result.
  destruct (result (g_res s) model value illuminant observer cat false nosci);
    reflexivity.
Qed.

Lemma assign_calls (names : list string) : respects calls_grow (assign names).
Proof. intros s. exists []. simpl. rewrite app_nil_r. reflexivity. Qed.

Lemma set_res_calls (r : dict) : respects calls_grow (set_res r).
Proof. intros s. exists []. simpl. rewrite app_nil_r. reflexivity. Qed.

Lemma set_ciexyz_c_None_calls (b : bool) :
  respects calls_grow (set_ciexyz_c_None b).
Proof. intros s. exists []. simpl. rewrite app_nil_r. reflexivity. Qed.

Lemma log_attempt_calls (observer illuminant : string) :
  respects calls_grow (log_attempt observer illuminant).
Proof. intros s. exists []. simpl. rewrite app_nil_r. reflexivity. Qed.

Lemma call_result_calls (model : string) (value : pyval)
  (illuminant observer : ctxarg) (cat : option ctxarg) (nosci : bool) :
  respects calls_grow (call_result model value illuminant observer cat nosci).
Proof.
  intros s. unfold call_result.
  destruct (result (g_res s) model value illuminant observer cat false nosci);
    eexists; reflexivity.
Qed.

Create HintDb attempted_db.
Create HintDb calls_db.

#[local] Hint Resolve assign_attempted set_res_attempted
  set_ciexyz_c_None_attempted call_result_attempted : attempted_db.
#[local] Hint Resolve assign_calls set_res_calls set_ciexyz_c_None_calls
  log_attempt_calls call_result_calls : calls_db.

(** Decomposes a goal [respects R c] along the structure of [c]. *)
Ltac respects_tac refl trans known :=
  repeat match goal with
    | |- respects _ (pbind _ _) => apply (respects_pbind _ trans); [| intros ?]
    | |- respects _ (for_each _ _) =>
        apply (respects_for_each _ refl trans); intros ?
    | |- respects _ (if ?b then _ else _) => destruct b
    | |- respects _ (match ?x with _ => _ end) => destruct x
    | |- respects _ (pret _) => apply (respects_pret _ refl)
    | |- respects _ skip => apply (respects_pret _ refl)
    | |- respects _ (praise _) => apply (respects_praise _ refl)
    | |- respects _ (lift _) => apply (respects_lift _ refl)
    | |- respects _ (need _) => apply (respects_need _ refl)
    | |- respects _ get_res => apply (respects_get_res _ refl)
    | |- respects _ get_ciexyz_c_None =>
        apply (respects_get_ciexyz_c_None _ refl)
    | |- respects _ (lib_item _ _) => apply (respects_lib_item _ refl)
    | |- respects _ (lib_item2 _ _ _) => apply (respects_lib_item2 _ refl)
    | |- respects _ _ => solve [known]
    end.

Ltac attempted_tac :=
  respects_tac same_attempted_refl same_attempted_trans
               ltac:(auto with attempted_db).

Ltac calls_tac :=
  respects_tac calls_grow_refl calls_grow_trans ltac:(auto with calls_db).

Section Conversions.
Variable lib : Library.
Variable args : Args.
Variable model : ColorModel.

Lemma result_of_attempted key illuminant observer cat :
  respects same_attempted (result_of lib key illuminant observer cat).
Proof. unfold result_of. attempted_tac. Qed.

Lemma result_of_calls key illuminant observer cat :
  respects calls_grow (result_of lib key illuminant observer cat).
Proof. unfold result_of. calls_tac. Qed.

Hint Resolve result_of_attempted : attempted_db.
Hint Resolve result_of_calls : calls_db.

Lemma convert_rgb_no_xyz_attempted illuminant :
  respects same_attempted (convert_rgb_no_xyz lib illuminant).
Proof. unfold convert_rgb_no_xyz. attempted_tac. Qed.

Lemma convert_rgb_no_xyz_calls illuminant :
  respects calls_grow (convert_rgb_no_xyz lib illuminant).
Proof. unfold convert_rgb_no_xyz. calls_tac. Qed.

Hint Resolve convert_rgb_no_xyz_attempted : attempted_db.
Hint Resolve convert_rgb_no_xyz_calls : calls_db.

Lemma convert_xyz_to_rgb_attempted colorspaceid observer illuminant cat :
  respects same_attempted
           (convert_xyz_to_rgb lib colorspaceid observer illuminant cat).
Proof. unfold convert_xyz_to_rgb. attempted_tac. Qed.

Lemma convert_xyz_to_rgb_calls colorspaceid observer illuminant cat :
  respects calls_grow
           (convert_xyz_to_rgb lib colorspaceid observer illuminant cat).
Proof. unfold convert_xyz_to_rgb. calls_tac. Qed.

Lemma convert_to_css_attempted illuminant observer cat :
  respects same_attempted (convert_to_css lib illuminant observer cat).
Proof. unfold convert_to_css. attempted_tac. Qed.

Lemma convert_to_css_calls illuminant observer cat :
  respects calls_grow (convert_to_css lib illuminant observer cat).
Proof. unfold convert_to_css. calls_tac. Qed.

Lemma model_functions_attempted observer illuminant :
  respects same_attempted (model_functions lib args model observer illuminant).
Proof.
  unfold model_functions, process_cielchuv, process_cielab_or_cielchab,
    process_cieluv, process_ciexyz, process_spectrum, process_wavelength,
    chromatic_adaptations_in_convert_with_xyz.
  attempted_tac.
Qed.

Lemma model_functions_calls observer illuminant :
  respects calls_grow (model_functions lib args model observer illuminant).
Proof.
  unfold model_functions, process_cielchuv, process_cielab_or_cielchab,
    process_cieluv, process_ciexyz, process_spectrum, process_wavelength,
    chromatic_adaptations_in_convert_with_xyz.
  calls_tac.
Qed.

Hint Resolve convert_xyz_to_rgb_attempted convert_to_css_attempted
  model_functions_attempted : attempted_db.
Hint Resolve convert_xyz_to_rgb_calls convert_to_css_calls
  model_functions_calls : calls_db.

Lemma convert_with_xyz_attempted observer illuminant :
  respects same_attempted
           (convert_with_xyz lib args model observer illuminant).
Proof.
  unfold convert_with_xyz, xyz_cats, xyz_cat_round, wavelen, use_cats.
  attempted_tac.
Qed.

Lemma convert_with_xyz_calls observer illuminant :
  respects calls_grow (convert_with_xyz lib args model observer illuminant).
Proof.
  unfold convert_with_xyz, xyz_cats, xyz_cat_round, wavelen, use_cats.
  calls_tac.
Qed.
End Conversions.

Section MainLoop.
Variable lib : Library.
Variable args : Args.
Variable model : ColorModel.

Lemma attempts_for_each {A : Type} (g : A -> list (string * string))
  (body : A -> P unit) (l : list A) :
  (forall x, attempts (g x) (body x)) ->
  attempts (flat_map g l) (for_each l body).
Proof.
  intros Hbody. induction l as [| x l IH]; intros s.
  - exists [], []. simpl. rewrite app_nil_r. auto.
  - simpl. unfold pbind.
    destruct (Hbody x s) as [tried [rest [Hg [Hatt Hret]]]].
    destruct (body x s) as [[e | []] s1]; simpl in *.
    + exists tried, (rest ++ flat_map g l)%list.
      rewrite Hg, app_assoc. split; [reflexivity |].
      split; [exact Hatt | discriminate].
    + rewrite (Hret eq_refl) in Hg. rewrite app_nil_r in Hg.
      destruct (IH s1) as [tried' [rest' [Hl [Hatt' Hret']]]].
      exists (tried ++ tried')%list, rest'.
      rewrite Hg, Hl, Hatt', Hatt, !app_assoc. auto.
Qed.

Lemma attempts_convert_with_xyz (observer illuminant : string) :
  attempts [(observer, illuminant)]
           (log_attempt observer illuminant ;;>
            convert_with_xyz lib args model observer illuminant).
Proof.
  intros s. exists [(observer, illuminant)], [].
  split; [reflexivity |]. split; [| reflexivity].
  unfold pbind. simpl.
  rewrite (convert_with_xyz_attempted lib args model observer illuminant).
  reflexivity.
Qed.

Lemma list_prod_flat_map {A B : Type} (l : list A) (l' : list B) :
  list_prod l l' = flat_map (fun x => flat_map (fun y => [(x, y)]) l') l.
Proof.
  induction l as [| x l IH]; simpl; [reflexivity |].
  rewrite IH.
  assert (map (fun y => (x, y)) l' = flat_map (fun y => [(x, y)]) l') as ->
    by (clear; induction l' as [| y l' IH']; simpl; congruence).
  reflexivity.
Qed.

Lemma attempts_main_loop :
  attempts (list_prod STANDARD_OBSERVERS
                      (selected_illuminants (illuminant_list args)))
           (main_loop lib args model).
Proof.
  rewrite list_prod_flat_map. unfold main_loop.
  apply attempts_for_each. intros observer.
  apply attempts_for_each. intros illuminant.
  apply attempts_convert_with_xyz.
Qed.

Lemma convert_with_xyz_skipped (observer illuminant : string) (s : pstate) :
  skipped lib model observer illuminant ->
  convert_with_xyz lib args model observer illuminant s = (inr tt, s).
Proof.
  unfold convert_with_xyz, is_model.
  intros [[-> Hsds] | [ccs [Hccs Hin]]].
  - simpl. rewrite Hsds. reflexivity.
  - destruct (ColorModel_eqb model Spectrum
              && negb (str_in illuminant (SDS_ILLUMINANTS lib)));
      [reflexivity |].
    rewrite Hccs, Hin. reflexivity.
Qed.
End MainLoop.

(** X29.  Whatever the model, the main loop calls [convert_with_xyz] on
    the pairs of the two standard observers with the illuminants of the
    selected list, in order, until a call raises; when the loop returns
    it has called it on exactly these pairs.  "All" selects the 57
    entries of [RGB_ILLUMINANTS_LIST], "CIE" the list
    [CIE_ILLUMINANTS_LIST], "ISO_7589" the four ISO 7589 illuminants.  On a
    pair whose illuminant has no chromaticity coordinates for the
    observer or, for spectral input, no spectral distribution,
    [convert_with_xyz] returns at once and leaves [res], as the whole
    state, unchanged. *)
Theorem main_loop_pairs :
  forall (lib : Library) (args : Args) (model : ColorModel),
    (forall s : pstate,
        exists tried rest,
          list_prod STANDARD_OBSERVERS
                    (selected_illuminants (illuminant_list args))
          = (tried ++ rest)%list
          /\ g_attempted (snd (main_loop lib args model s))
             = (g_attempted s ++ tried)%list
          /\ (returns (fst (main_loop lib args model s)) = true -> rest = []))
    /\ (selected_illuminants "All" = RGB_ILLUMINANTS_LIST
        /\ List.length RGB_ILLUMINANTS_LIST = 57%nat
        /\ selected_illuminants "CIE" = CIE_ILLUMINANTS_LIST
        /\ selected_illuminants "ISO_7589" = ISO_7589_ILLUMINANTS_LIST
        /\ List.length ISO_7589_ILLUMINANTS_LIST = 4%nat
        /\ List.length STANDARD_OBSERVERS = 2%nat)
    /\ (forall (observer illuminant : string) (s : pstate),
          skipped lib model observer illuminant ->
          convert_with_xyz lib args model observer illuminant s = (inr tt, s)).
Proof.
  intros lib args model. split; [| split].
  - exact (attempts_main_loop lib args model).
  - repeat split.
  - intros observer illuminant s.
    apply convert_with_xyz_skipped.
Qed.

(** C7, at a CIELAB input.  The command line
    [--lstar 50 --astar 0 --bstar 0] selects the model CIELAB and leaves
    the illuminant list at "All": 114 pairs.  The run calls
    [convert_with_xyz] for the first of them, the 2 degree observer with
    A, where [process_cielab_or_cielchab] reads [illuminant_xy_d65], a
    local of [convert_with_xyz], and raises [NameError].  No other pair
    is attempted, though the library has the data of the next one, and
    the program ends with status 1. *)
Theorem cielab_run_attempts_one_pair :
  let args := cielab_args 50 0 0 in
  let run := conversions sample_library args CIELAB initial_state in
  @parse_arguments json args = ([], [], inr (args, CIELAB))
  /\ List.length
       (list_prod STANDARD_OBSERVERS
                  (selected_illuminants (illuminant_list args))) = 114%nat
  /\ fst run = inl (NameError "illuminant_xy_d65")
  /\ g_attempted (snd run) = [(observer_2, "A")]
  /\ has_illuminant_data sample_library CIELAB observer_2 "C" = true
  /\ exit_status (main sample_library args) = 1.
Proof. vm_compute. repeat split; reflexivity. Qed.

Section FanOut.
Variable lib : Library.
Variable args : Args.
Variable model : ColorModel.

Lemma xyz_cats_inr (cats : list (option ctxarg)) (s s' : pstate) :
  xyz_cats args model s = (inr cats, s') ->
  cats = iterated_cats args model /\ s' = s.
Proof.
  unfold xyz_cats, iterated_cats, is_model, use_cats.
  destruct (ColorModel_eqb model RGB).
  - destruct (cat args) as [l |]; intros H; inversion H; auto.
  - intros H. inversion H. auto.
Qed.

Lemma last_cat_In (cats : list (option ctxarg)) (c : option ctxarg)
  (s s' : pstate) :
  match rev cats with
  | [] => praise (NameError "cat")
  | c :: _ => pret c
  end s = (inr c, s') ->
  In c cats /\ s' = s.
Proof.
  destruct (rev cats) as [| c' l] eqn:Hrev; intros H; inversion H; subst.
  split; [| reflexivity].
  apply in_rev. rewrite Hrev. left. reflexivity.
Qed.

Lemma xyz_results_calls (observer illuminant : string)
  (cat : option ctxarg) (w : pyval) (kc : string * bool) :
  respects calls_grow
    (if String.eqb (fst kc) "wavelength"
     then call_result "wavelength" w AFalse AFalse None false
     else if snd kc
     then result_of lib (fst kc) (AStr illuminant) (AStr observer) cat
     else result_of lib (fst kc) AFalse AFalse None).
Proof.
  destruct (String.eqb (fst kc) "wavelength"); [calls_tac |].
  destruct (snd kc); apply result_of_calls.
Qed.

Lemma result_of_logged (key : string) (illuminant observer : ctxarg)
  (cat : option ctxarg) (s s' : pstate) :
  result_of lib key illuminant observer cat s = (inr tt, s') ->
  In {| c_model := key; c_illuminant := illuminant;
        c_observer := observer; c_cat := cat |} (g_calls s').
Proof.
  unfold result_of, call_result.
  destruct (result (g_res s) key _ illuminant observer cat false (no_sci key));
    intros H; inversion H; subst; simpl.
  apply in_or_app. right. left. reflexivity.
Qed.

(** A call of [convert_with_xyz] that returns, on a pair the library
    has the data for, has called [result("ciexyz", ...)] for the pair
    with one of the transforms it iterates. *)
Lemma convert_with_xyz_ciexyz (observer illuminant : string)
  (s s' : pstate) :
  has_illuminant_data lib model observer illuminant = true ->
  convert_with_xyz lib args model observer illuminant s = (inr tt, s') ->
  exists cat,
    In cat (iterated_cats args model)
    /\ In {| c_model := "ciexyz"; c_illuminant := AStr illuminant;
             c_observer := AStr observer; c_cat := cat |} (g_calls s').
Proof.
  unfold has_illuminant_data, convert_with_xyz, is_model.
  intros Hdata Hrun. apply andb_true_iff in Hdata.
  destruct Hdata as [Hsds Hccs].
  destruct (dict_get (CCS_ILLUMINANTS lib) observer) as [ccs |];
    [| discriminate].
  rewrite Hccs in Hrun.
  replace (ColorModel_eqb model Spectrum
           && negb (str_in illuminant (SDS_ILLUMINANTS lib)))
    with false in Hrun
    by (destruct (ColorModel_eqb model Spectrum),
          (str_in illuminant (SDS_ILLUMINANTS lib)); simpl in *; congruence).
  simpl negb in Hrun. cbv iota in Hrun.
  do 6 (apply pbind_inr in Hrun; destruct Hrun as [? [? [_ Hrun]]]).
  apply pbind_inr in Hrun. destruct Hrun as [cats [? [Hcats Hrun]]].
  apply xyz_cats_inr in Hcats. destruct Hcats as [-> _].
  do 8 (apply pbind_inr in Hrun; destruct Hrun as [? [? [_ Hrun]]]).
  apply pbind_inr in Hrun. destruct Hrun as [cat [? [Hcat Hrun]]].
  apply last_cat_In in Hcat. destruct Hcat as [Hcat _].
  exists cat. split; [exact Hcat |].
  do 5 (apply pbind_inr in Hrun; destruct Hrun as [? [? [_ Hrun]]]).
  apply pbind_inr in Hrun. destruct Hrun as [w [? [_ Hrun]]].
  apply pbind_inr in Hrun. destruct Hrun as [[] [s_results [Hresults Hrest]]].
  assert (calls_grow s_results s') as Hgrow.
  { match type of Hrest with
    | ?c s_results = _ =>
        assert (respects calls_grow c) as Hc
          by (destruct (negb (ColorModel_eqb model RGB));
              [apply (respects_for_each _ calls_grow_refl calls_grow_trans);
               intros ?; apply convert_xyz_to_rgb_calls
              | apply (respects_pret _ calls_grow_refl)]);
        pose proof (Hc s_results) as Hc'; rewrite Hrest in Hc'; exact Hc'
    end. }
  apply (calls_grow_In _ _ _ Hgrow).
  destruct (for_each_inr_In calls_grow calls_grow_refl calls_grow_trans
              xyz_result_keys _ ("ciexyz", true)
              (xyz_results_calls observer illuminant cat w)
              ltac:(unfold xyz_result_keys;
                    repeat (first [left; reflexivity | right]))
              _ _ Hresults)
    as [s1 [s2 [_ [Hcall Hgrow2]]]].
  apply (calls_grow_In _ _ _ Hgrow2).
  simpl in Hcall. exact (result_of_logged _ _ _ _ _ _ Hcall).
Qed.
End FanOut.


Lemma pair_of_fst {A B : Type} (p : A * B) (a : A) :
  fst p = a -> p = (a, snd p).
Proof. destruct p. simpl. intros ->. reflexivity. Qed.

Lemma sample_main_loop_returns :
  main_loop sample_library sample_args RGB sample_before_loop
  = (inr tt, sample_after_loop).
Proof.
  refine (pair_of_fst
            (main_loop sample_library sample_args RGB sample_before_loop)
            (inr tt) _).
  vm_compute. reflexivity.
Qed.



Lemma pbind_raises_now {A B : Type} (c : P A) (k : A -> P B) (s : pstate) :
  returns (fst (c s)) = false -> returns (fst (pbind c k s)) = false.
Proof.
  unfold pbind. destruct (c s) as [[e | a] s1]; simpl; [reflexivity | discriminate].
Qed.

Lemma pbind_raises_later {A B : Type} (c : P A) (k : A -> P B) (s : pstate)
  (Q : pstate -> Prop) :
  (forall a s1, c s = (inr a, s1) -> Q s1) ->
  (forall a s1, Q s1 -> returns (fst (k a s1)) = false) ->
  returns (fst (pbind c k s)) = false.
Proof.
  intros Hc Hk. unfold pbind. destruct (c s) as [[e | a] s1] eqn:E; simpl.
  - reflexivity.
  - apply Hk. exact (Hc a s1 eq_refl).
Qed.

Lemma need_unbound (name : string) (s : pstate) :
  str_in name (g_bound s) = false -> returns (fst (need name s)) = false.
Proof. intros H. unfold need. rewrite H. reflexivity. Qed.

Lemma need_inr (name : string) (s s1 : pstate) (a : unit) :
  need name s = (inr a, s1) -> s1 = s.
Proof.
  unfold need. destruct (str_in name (g_bound s)); intros H; inversion H; reflexivity.
Qed.

Lemma lib_item_inr (table : list string) (k : string) (s s1 : pstate) (a : unit) :
  lib_item table k s = (inr a, s1) -> s1 = s.
Proof.
  unfold lib_item. destruct (str_in k table); intros H; inversion H; reflexivity.
Qed.

Lemma lib_item2_inr (table : list (string * list string)) (k1 k2 : string)
  (s s1 : pstate) (a : unit) :
  lib_item2 table k1 k2 s = (inr a, s1) -> s1 = s.
Proof.
  unfold lib_item2. destruct (dict_get table k1).
  - apply lib_item_inr.
  - intros H; inversion H.
Qed.

(** One case split on the next test of a run that ends in an
    exception. *)
Ltac raise_step :=
  match goal with
  | |- returns (fst (inl _, _)) = false => reflexivity
  | |- context [match ?x with Some _ => _ | None => _ end] =>
      match type of x with
      | option _ => destruct x eqn:?
      end
  | |- context [if ?b then _ else _] => destruct b eqn:?
  end.

(** For an input model other than RGB, [convert_with_xyz] raises on
    every pair the library has the data for: the function
    [model_functions] dispatches to reads a name that nothing binds, and
    for a wavelength [ciexyz_c] is [None] when it is multiplied. *)
Lemma convert_with_xyz_other_models_raise (lib : Library) (args : Args)
  (model : ColorModel) (observer illuminant : string) (s : pstate) :
  model <> RGB ->
  has_illuminant_data lib model observer illuminant = true ->
  unbound_locals s ->
  returns (fst (convert_with_xyz lib args model observer illuminant s)) = false.
Proof.
  intros Hmodel Hdata [Hxy Hxyz].
  unfold has_illuminant_data in Hdata. apply andb_true_iff in Hdata.
  destruct Hdata as [Hsds Hccs].
  unfold convert_with_xyz, is_model.
  destruct (dict_get (CCS_ILLUMINANTS lib) observer) as [ccs |] eqn:Eccs;
    [| discriminate].
  rewrite Hccs.
  replace (ColorModel_eqb model Spectrum
           && negb (str_in illuminant (SDS_ILLUMINANTS lib)))
    with false
    by (destruct (ColorModel_eqb model Spectrum),
          (str_in illuminant (SDS_ILLUMINANTS lib)); simpl in *; congruence).
  destruct model; try congruence; clear Hmodel;
    unfold model_functions, process_cielchuv, process_cielab_or_cielchab,
      process_cieluv, process_ciexyz, process_spectrum, process_wavelength,
      chromatic_adaptations_in_convert_with_xyz, xyz_cats, xyz_cat_round,
      is_model, pbind, assign, lib_item2, lib_item, need, skip, pret, praise,
      set_ciexyz_c_None, get_ciexyz_c_None;
    cbn -[str_in String.eqb dict_get xyz_result_keys convert_to_css];
    rewrite ?Eccs.
  all: repeat (raise_step; cbn -[str_in String.eqb dict_get xyz_result_keys convert_to_css] in *; try congruence).
  all: try (simpl in *; congruence).
Qed.

(** On the sample library a CIELAB input ends at the first pair, with
    the [NameError] of [process_cielab_or_cielchab]; nothing is
    printed. *)
Lemma sample_cielab_run_raises :
  let run := main sample_library (cielab_args 50 0 0) in
  uncaught run = Some (NameError "illuminant_xy_d65")
  /\ stdout run = [] /\ exit_status run = 1.
Proof. vm_compute. auto. Qed.

(** * Further properties *)

(** ** The other range checks *)

Lemma bitdepth_cases (bitdepth : string) :
  bitdepth = "8" \/ bitdepth = "15+1" \/ bitdepth = "16" \/ bitdepth = "32"
  \/ str_in bitdepth bitdepth_choices = false.
Proof.
  unfold str_in, bitdepth_choices. simpl.
  destruct (String.eqb_spec bitdepth "8"); [auto |].
  destruct (String.eqb_spec bitdepth "15+1"); [auto |].
  destruct (String.eqb_spec bitdepth "16"); [auto |].
  destruct (String.eqb_spec bitdepth "32"); [auto |].
  repeat right. reflexivity.
Qed.

Lemma dict_get_not_choice {V : Type} (a b c d : V) (bitdepth : string) :
  str_in bitdepth bitdepth_choices = false ->
  dict_get [("8", a); ("15+1", b); ("16", c); ("32", d)] bitdepth = None.
Proof.
  unfold str_in, bitdepth_choices. simpl. intros H.
  destruct (String.eqb bitdepth "8"); [discriminate H |].
  destruct (String.eqb bitdepth "15+1"); [discriminate H |].
  destruct (String.eqb bitdepth "16"); [discriminate H |].
  destruct (String.eqb bitdepth "32"); [discriminate H |].
  reflexivity.
Qed.

(** X1.  A bit depth other than "8", "15+1", "16" and "32" makes each
    of the six validators of three values raise [ValueError] with the
    message "Invalid bit depth specified: <bitdepth>", whatever the
    values are. *)
Theorem validators_invalid_bit_depth :
  forall (bitdepth : string) (a b c : float) validate,
    str_in bitdepth bitdepth_choices = false ->
    In validate range_validators ->
    validate bitdepth a b c = inl (invalid_bit_depth_error bitdepth).
Proof.
  intros bitdepth a b c validate Hbd Hin.
  unfold range_validators in Hin. simpl in Hin.
  destruct Hin as [<- | [<- | [<- | [<- | [<- | [<- | []]]]]]];
    unfold validate_rgb_values, validate_cielab_values,
      validate_cielchab_values, validate_cieluv_values,
      validate_cielchuv_values, validate_ciexyz_values,
      BITDEPTH_FACTOR, CIELAB_DEPTH_VALUES, CIELCHUV_DEPTH_VALUES,
      CIEXYZ_DEPTH_VALUES;
    rewrite (dict_get_not_choice _ _ _ _ bitdepth Hbd); reflexivity.
Qed.

Lemma validators_invalid_bit_depth_witness :
  validate_cielab_values "10" 50 0 0 = inl (invalid_bit_depth_error "10").
Proof.
  apply (validators_invalid_bit_depth "10" 50 0 0 validate_cielab_values)%float.
  - reflexivity.
  - simpl. auto.
Defined.

Ltac unfold_validators :=
  unfold validate_rgb_values, validate_cielab_values,
    validate_cielchab_values, validate_cieluv_values,
    validate_cielchuv_values, validate_ciexyz_values,
    BITDEPTH_FACTOR, CIELAB_DEPTH_VALUES, CIELCHUV_DEPTH_VALUES,
    CIEXYZ_DEPTH_VALUES.

(** X2.  When one of the six validators returns, the bit depth is one
    of the four supported ones and the result is the three values as
    they were given, followed by [BITDEPTH_FACTOR[bitdepth]]: validation
    never changes a value. *)
Theorem validators_return_inputs :
  forall (bitdepth : string) (a b c : float) validate r,
    In validate range_validators ->
    validate bitdepth a b c = inr r ->
    exists factor,
      dict_get BITDEPTH_FACTOR bitdepth = Some factor
      /\ r = (a, b, c, factor)
      /\ str_in bitdepth bitdepth_choices = true.
Proof.
  intros bitdepth a b c validate r Hin Hr.
  unfold range_validators in Hin. simpl in Hin.
  destruct (bitdepth_cases bitdepth) as [-> | [-> | [-> | [-> | Hbad]]]];
    destruct Hin as [<- | [<- | [<- | [<- | [<- | [<- | []]]]]]];
    revert Hr; unfold_validators;
    rewrite ?(dict_get_not_choice _ _ _ _ bitdepth Hbad);
    try (intros Hr; discriminate Hr);
    cbn -[between PrimFloat.mul];
    repeat match goal with
      | |- context [between ?lo ?hi ?x] => destruct (between lo hi x)
      end;
    cbn; intros Hr; try discriminate Hr;
    inversion Hr; subst; eexists; repeat split.
Qed.

Lemma validators_return_inputs_witness :
  exists factor,
    dict_get BITDEPTH_FACTOR "16" = Some factor
    /\ (4096%float, 8192%float, 16384%float, 65535)
       = (4096%float, 8192%float, 16384%float, factor)
    /\ str_in "16" bitdepth_choices = true.
Proof.
  apply (validators_return_inputs "16" 4096%float 8192%float 16384%float
           validate_cieluv_values).
  - simpl. auto.
  - reflexivity.
Defined.

Lemma three_between (p q r : bool) (A B C : Prop) :
  (p = true <-> A) -> (q = true <-> B) -> (r = true <-> C) ->
  (p && q && r = true <-> A /\ B /\ C).
Proof.
  intros Hp Hq Hr. rewrite !andb_true_iff, Hp, Hq, Hr. tauto.
Qed.

(** X3.  [validate_cielab_values] and [validate_cieluv_values] check
    the same ranges: at the bit depths "8", "15+1", "16" and "32", with
    [(Lmax, m)] equal to (100, 200), (32768, 25600), (65535, 51200) and
    (1, 1), each returns its three values with the factor of the bit
    depth exactly when the first is in [[0, Lmax]] and the other two are
    in [[-m, m]], and raises [ValueError] otherwise; so the two
    functions return the same result on the same values, and raise
    together. *)
Theorem validate_cielab_cieluv_values_range :
  forall (bitdepth : string) (Lmax m : float) (factor : Z) (x y z : float),
    In (bitdepth, (Lmax, m, factor))
       [("8", (100, 200, 255%Z)); ("15+1", (32768, 25600, 32768%Z));
        ("16", (65535, 51200, 65535%Z)); ("32", (1, 1, 1%Z))]%float ->
    let ok := within 0 Lmax x /\ within (- m) m y /\ within (- m) m z in
    (ok -> validate_cielab_values bitdepth x y z = inr (x, y, z, factor)
           /\ validate_cieluv_values bitdepth x y z = inr (x, y, z, factor))
    /\ (~ ok ->
        validate_cielab_values bitdepth x y z
        = inl (ValueError
                 ("CIELAB values are out of range for the specified bit depth: "
                  ++ bitdepth))
        /\ validate_cieluv_values bitdepth x y z
           = inl (ValueError
                    ("CIELUV values are out of range for the specified bit depth: "
                     ++ bitdepth))).
Proof.
  intros bitdepth Lmax m factor x y z Hin ok. subst ok.
  rewrite <- !between_within.
  rewrite <- (three_between _ _ _ _ _ _
                (iff_refl _) (iff_refl _) (iff_refl _)).
  simpl in Hin.
  destruct Hin as [H | [H | [H | [H | []]]]]; inversion H; subst; clear H;
    unfold validate_cielab_values, validate_cieluv_values,
      CIELAB_DEPTH_VALUES, BITDEPTH_FACTOR;
    cbn -[between];
    match goal with
    | |- context [negb ?b] => destruct b
    end; simpl; split; intros H; try (split; reflexivity);
    try discriminate H; exfalso; apply H; reflexivity.
Qed.

Lemma validate_cielab_cieluv_values_range_witness :
  validate_cielab_values "8" 50 (-128) 127
  = inr (50%float, (-128)%float, 127%float, 255)
  /\ validate_cieluv_values "8" 50 (-128) 127
     = inr (50%float, (-128)%float, 127%float, 255).
Proof.
  apply (validate_cielab_cieluv_values_range "8" 100 200 255 50 (-128) 127).
  - simpl. auto.
  - unfold within. vm_compute. auto.
Defined.

(** X4.  [validate_ciexyz_values] checks the same range at each of the
    four bit depths: it returns the three values with the factor of the
    bit depth exactly when each of them is in [[0, 1]], and raises
    [ValueError] otherwise; the bit depth changes the factor only. *)
Theorem validate_ciexyz_values_unit_range :
  forall (bitdepth : string) (factor : Z) (x y z : float),
    In (bitdepth, factor)
       [("8", 255); ("15+1", 32768); ("16", 65535); ("32", 1)] ->
    let ok := within 0 1 x /\ within 0 1 y /\ within 0 1 z in
    (ok -> validate_ciexyz_values bitdepth x y z = inr (x, y, z, factor))
    /\ (~ ok ->
        validate_ciexyz_values bitdepth x y z
        = inl (ValueError
                 ("CIEXYZ values are out of range for the specified bit depth: "
                  ++ bitdepth))).
Proof.
  intros bitdepth factor x y z Hin ok. subst ok.
  rewrite <- !between_within.
  rewrite <- (three_between _ _ _ _ _ _
                (iff_refl _) (iff_refl _) (iff_refl _)).
  simpl in Hin.
  destruct Hin as [H | [H | [H | [H | []]]]]; inversion H; subst; clear H;
    unfold validate_ciexyz_values, CIEXYZ_DEPTH_VALUES, BITDEPTH_FACTOR;
    cbn -[between];
    match goal with
    | |- context [negb ?b] => destruct b
    end; simpl; split; intros H; try reflexivity;
    try discriminate H; exfalso; apply H; reflexivity.
Qed.

Lemma validate_ciexyz_values_unit_range_witness :
  validate_ciexyz_values "16" 0x1p-1 1 0
  = inr (0x1p-1%float, 1%float, 0%float, 65535).
Proof.
  apply (validate_ciexyz_values_unit_range "16" 65535 0x1p-1 1 0).
  - simpl. auto.
  - unfold within. vm_compute. auto.
Defined.

(** X5.  [validate_cielchuv_values], unlike [validate_cielchab_values],
    scales its ranges with the bit depth: with [(Lmax, Cmax, hmax)]
    equal to (100, 230, 360) at "8", (32768, 230 * 327.68,
    360 * 327.68) at "15+1", (65535, 230 * 655.35, 360 * 655.35) at "16"
    and (1, 230, 360) at "32", it returns its three values with the
    factor of the bit depth exactly when they are in [[0, Lmax]],
    [[0, Cmax]] and [[0, hmax]], and raises [ValueError] otherwise. *)
Theorem validate_cielchuv_values_range :
  forall (bitdepth : string) (Lmax Cmax hmax : float) (factor : Z)
         (l c h : float),
    In (bitdepth, (Lmax, Cmax, hmax, factor))
       [("8", (100, 230, 360, 255%Z));
        ("15+1", (32768, 230 * lit_327_68, 360 * lit_327_68, 32768%Z));
        ("16", (65535, 230 * lit_655_35, 360 * lit_655_35, 65535%Z));
        ("32", (1, 230, 360, 1%Z))]%float ->
    let ok := within 0 Lmax l /\ within 0 Cmax c /\ within 0 hmax h in
    (ok -> validate_cielchuv_values bitdepth l c h = inr (l, c, h, factor))
    /\ (~ ok ->
        validate_cielchuv_values bitdepth l c h
        = inl (ValueError
                 ("CIELCHuv values are out of range for the specified bit depth: "
                  ++ bitdepth))).
Proof.
  intros bitdepth Lmax Cmax hmax factor l c h Hin ok. subst ok.
  rewrite <- !between_within.
  rewrite <- (three_between _ _ _ _ _ _
                (iff_refl _) (iff_refl _) (iff_refl _)).
  destruct Hin as [H | [H | [H | [H | []]]]];
    injection H as <- <- <- <- <-;
    unfold validate_cielchuv_values, CIELCHUV_DEPTH_VALUES, BITDEPTH_FACTOR;
    cbn -[between];
    match goal with
    | |- context [negb ?b] => destruct b
    end; cbn -[between]; split; intros H; try reflexivity;
    try discriminate H; exfalso; apply H; reflexivity.
Qed.

Lemma validate_cielchuv_values_range_witness :
  validate_cielchuv_values "16" 50000 100000 200000
  = inr (50000%float, 100000%float, 200000%float, 65535).
Proof.
  apply (validate_cielchuv_values_range "16" 65535 (230 * lit_655_35)
           (360 * lit_655_35) 65535%Z 50000 100000 200000)%float.
  - simpl. auto.
  - unfold within. vm_compute. auto.
Defined.

(** X6.  A spectrum [validate_spectrum_values] accepts has between 1
    and 401 samples, one for each wavelength [start], [start + interval],
    ... that does not exceed [stop], and each sample passes both
    comparisons of the range check. *)
Theorem validate_spectrum_values_grid :
  forall (start stop interval : Z) (data : list float) r,
    validate_spectrum_values start stop interval data = inr r ->
    let n := Z.of_nat (List.length data) in
    1 <= n <= 401
    /\ start + (n - 1) * interval <= stop < start + n * interval
    /\ Forall (fun x => PrimFloat.ltb x 0 = false /\ PrimFloat.ltb 1 x = false)
              data.
Proof.
  intros start stop interval data r. unfold validate_spectrum_values.
  destruct ((380 <=? start) && (start <=? 750)
            && ((400 <=? stop) && (stop <=? 780))
            && ((1 <=? interval) && (interval <=? 20))) eqn:Hrange; simpl;
    [| intros H; discriminate H].
  rewrite !andb_true_iff, !Z.leb_le in Hrange.
  destruct (stop <=? start) eqn:Hss; [intros H; discriminate H |].
  apply Z.leb_gt in Hss.
  rewrite expected_data_length_floor by lia.
  destruct (Z.of_nat (Datatypes.length data) =? (stop - start) / interval + 1)
    eqn:Hlen; simpl; [| intros H; discriminate H].
  apply Z.eqb_eq in Hlen.
  destruct (existsb (fun x => PrimFloat.ltb x 0) data
            || existsb (fun x => PrimFloat.ltb 1 x) data) eqn:Hdata;
    [intros H; discriminate H |].
  intros _. apply orb_false_iff in Hdata. destruct Hdata as [H0 H1].
  assert (0 < interval) as Hpos by lia.
  pose proof (Z.div_pos (stop - start) interval ltac:(lia) Hpos) as Hq.
  pose proof (Z.mul_div_le (stop - start) interval Hpos) as Hle.
  pose proof (Z.mul_succ_div_gt (stop - start) interval Hpos) as Hgt.
  assert ((stop - start) / interval <= 400) as Hmax.
  { apply Z.div_le_upper_bound; lia. }
  rewrite Hlen. split; [lia |]. split; [nia |].
  apply Forall_forall. intros x Hx. split.
  - destruct (PrimFloat.ltb x 0) eqn:E; [| reflexivity].
    assert (existsb (fun x => PrimFloat.ltb x 0) data = true) as Hex
      by (apply existsb_exists; eauto).
    congruence.
  - destruct (PrimFloat.ltb 1 x) eqn:E; [| reflexivity].
    assert (existsb (fun x => PrimFloat.ltb 1 x) data = true) as Hex
      by (apply existsb_exists; eauto).
    congruence.
Qed.

Lemma validate_spectrum_values_grid_witness :
  let n := Z.of_nat (List.length [0; 0x1p-1; 1]%float) in
  1 <= n <= 401
  /\ 380 + (n - 1) * 10 <= 405 < 380 + n * 10
  /\ Forall (fun x => PrimFloat.ltb x 0 = false /\ PrimFloat.ltb 1 x = false)
            [0; 0x1p-1; 1]%float.
Proof.
  apply (validate_spectrum_values_grid 380 405 10 [0; 0x1p-1; 1]%float
           (380, 405, 10, [0; 0x1p-1; 1]%float)).
  vm_compute. reflexivity.
Defined.

(** ** The plot path *)

Lemma substring_all (s : string) : substring 0 (String.length s) s = s.
Proof. induction s as [| c s IH]; simpl; congruence. Qed.

Lemma substring_skip (p s : string) :
  substring (String.length p) (String.length s) (p ++ s) = s.
Proof.
  induction p as [| c p IH]; simpl; [apply substring_all | exact IH].
Qed.

Lemma length_append (p s : string) :
  String.length (p ++ s) = (String.length p + String.length s)%nat.
Proof. induction p as [| c p IH]; simpl; congruence. Qed.

Lemma substring_suffix (p s : string) :
  substring (String.length (p ++ s) - String.length s) (String.length s)
            (p ++ s) = s.
Proof.
  rewrite length_append, Nat.add_sub. apply substring_skip.
Qed.

Lemma last4_svg (p : string) : last4 (p ++ ".svg") = ".svg".
Proof. exact (substring_suffix p ".svg"). Qed.

(** X7.  The plot path [parse_arguments] returns ends in ".svg": a
    path given with that suffix is returned as it is, any other path
    with ".svg" appended; no path given stays no path.  Nothing else of
    the parsed arguments is changed. *)
Theorem parse_arguments_plotpath_svg :
  forall (J : Type) (parsed args : Args) (model : ColorModel),
    snd (@parse_arguments J parsed) = inr (args, model) ->
    args = set_plotpath parsed (plotpath args)
    /\ match plotpath parsed with
       | None => plotpath args = None
       | Some p =>
           exists p',
             plotpath args = Some p'
             /\ last4 p' = ".svg"
             /\ p' = (if String.eqb (last4 p) ".svg" then p else p ++ ".svg")
       end.
Proof.
  intros J parsed args model. unfold parse_arguments.
  destruct (plotpath parsed) as [p |] eqn:Hp.
  - destruct (String.eqb (last4 p) ".svg") eqn:Hsuffix; simpl.
    + destruct (determine_color_model parsed); simpl; intros H;
        inversion H; subst.
      split; [destruct args; reflexivity |].
      exists p. rewrite Hp. split; [reflexivity |].
      split; [apply String.eqb_eq; exact Hsuffix | reflexivity].
    + rewrite determine_color_model_set_plotpath.
      destruct (determine_color_model parsed); simpl; intros H;
        inversion H; subst.
      split; [reflexivity |].
      exists (p ++ ".svg"). simpl. split; [reflexivity |].
      split; [apply last4_svg | reflexivity].
  - destruct (determine_color_model parsed); simpl; intros H;
      inversion H; subst.
    split; [destruct args; reflexivity |]. exact Hp.
Qed.

Lemma parse_arguments_plotpath_svg_witness :
  set_plotpath (rgb_args 255 0 0) (Some "plot.svg")
  = set_plotpath (set_plotpath (rgb_args 255 0 0) (Some "plot"))
                 (plotpath (set_plotpath (rgb_args 255 0 0) (Some "plot.svg")))
  /\ exists p',
      plotpath (set_plotpath (rgb_args 255 0 0) (Some "plot.svg")) = Some p'
      /\ last4 p' = ".svg"
      /\ p' = (if String.eqb (last4 "plot") ".svg" then "plot"
               else "plot" ++ ".svg").
Proof.
  apply (parse_arguments_plotpath_svg unit
           (set_plotpath (rgb_args 255 0 0) (Some "plot"))
           (set_plotpath (rgb_args 255 0 0) (Some "plot.svg")) RGB).
  reflexivity.
Defined.

(** ** Runs that end with status 0 *)

Lemma convert_with_xyz_no_data (lib : Library) (args : Args)
  (model : ColorModel) (observer illuminant : string) (s s' : pstate) :
  has_illuminant_data lib model observer illuminant = false ->
  convert_with_xyz lib args model observer illuminant s = (inr tt, s') ->
  s' = s.
Proof.
  unfold has_illuminant_data, convert_with_xyz, is_model.
  intros Hdata.
  destruct (ColorModel_eqb model Spectrum); simpl in *.
  - destruct (str_in illuminant (SDS_ILLUMINANTS lib)); simpl in *.
    + destruct (dict_get (CCS_ILLUMINANTS lib) observer) as [ccs |];
        [| intros H; discriminate H].
      rewrite Hdata. simpl. intros H; inversion H; reflexivity.
    + intros H; inversion H; reflexivity.
  - destruct (dict_get (CCS_ILLUMINANTS lib) observer) as [ccs |];
      [| intros H; discriminate H].
    rewrite Hdata. simpl. intros H; inversion H; reflexivity.
Qed.

Lemma unbound_same_bound (names : list string) (s s' : pstate) :
  g_bound s' = g_bound s -> unbound names s -> unbound names s'.
Proof. intros Hb Hu n Hn. rewrite Hb. exact (Hu n Hn). Qed.

Lemma same_but_attempted_refl (s : pstate) : same_but_attempted s s.
Proof. repeat split. Qed.

Lemma same_but_attempted_trans (a b c : pstate) :
  same_but_attempted a b -> same_but_attempted b c -> same_but_attempted a c.
Proof. unfold same_but_attempted. intuition congruence. Qed.

(** A loop of calls of [convert_with_xyz] that each raise on a pair the
    library has the data for: when the loop returns, it has skipped
    every pair. *)
Lemma pairs_all_skipped (lib : Library) (args : Args) (model : ColorModel)
  (Inv : list string -> Prop) (observer : string) (l : list string)
  (s s' : pstate) :
  (forall o i s0,
      Inv (g_bound s0) -> has_illuminant_data lib model o i = true ->
      returns (fst (convert_with_xyz lib args model o i s0)) = false) ->
  Inv (g_bound s) ->
  for_each l (fun illuminant =>
                log_attempt observer illuminant ;;>
                convert_with_xyz lib args model observer illuminant) s
  = (inr tt, s') ->
  (forall i, In i l -> has_illuminant_data lib model observer i = false)
  /\ same_but_attempted s s'.
Proof.
  intros Hraise. revert s. induction l as [| i l IH]; intros s Hinv Hrun.
  - inversion Hrun; subst. split; [intros i [] | apply same_but_attempted_refl].
  - simpl in Hrun. apply pbind_inr in Hrun.
    destruct Hrun as [[] [s1 [Hi Hrest]]].
    apply pbind_inr in Hi. destruct Hi as [[] [s0 [Hlog Hcall]]].
    assert (s0 = {| g_res := g_res s; g_bound := g_bound s;
                    g_ciexyz_c_None := g_ciexyz_c_None s;
                    g_attempted := (g_attempted s ++ [(observer, i)])%list;
                    g_calls := g_calls s |}) as Hs0
      by (inversion Hlog; reflexivity).
    assert (has_illuminant_data lib model observer i = false) as Hdata.
    { destruct (has_illuminant_data lib model observer i) eqn:E;
        [| reflexivity].
      assert (Inv (g_bound s0)) as Hinv0 by (rewrite Hs0; exact Hinv).
      pose proof (Hraise observer i s0 Hinv0 E) as Hr.
      rewrite Hcall in Hr. discriminate Hr. }
    apply (convert_with_xyz_no_data _ _ _ _ _ _ _ Hdata) in Hcall.
    subst s1.
    assert (same_but_attempted s s0) as Hsame
      by (rewrite Hs0; repeat split).
    assert (Inv (g_bound s0)) as Hinv0 by (rewrite Hs0; exact Hinv).
    destruct (IH s0 Hinv0 Hrest) as [Hl Hsame'].
    split.
    + intros j [<- | Hj]; [exact Hdata | exact (Hl j Hj)].
    + exact (same_but_attempted_trans _ _ _ Hsame Hsame').
Qed.

Lemma main_loop_all_skipped (lib : Library) (args : Args) (model : ColorModel)
  (Inv : list string -> Prop) (s s' : pstate) :
  (forall o i s0,
      Inv (g_bound s0) -> has_illuminant_data lib model o i = true ->
      returns (fst (convert_with_xyz lib args model o i s0)) = false) ->
  Inv (g_bound s) ->
  main_loop lib args model s = (inr tt, s') ->
  some_pair_has_data lib args model = false /\ same_but_attempted s s'.
Proof.
  intros Hraise. unfold main_loop, some_pair_has_data, loop_pairs.
  generalize (selected_illuminants (illuminant_list args)) as ills.
  intros ills. revert s.
  induction STANDARD_OBSERVERS as [| o obs IH]; intros s Hinv Hrun.
  - inversion Hrun; subst. split; [reflexivity | apply same_but_attempted_refl].
  - simpl in Hrun. apply pbind_inr in Hrun.
    destruct Hrun as [[] [s1 [Ho Hrest]]].
    destruct (pairs_all_skipped lib args model Inv o ills s s1 Hraise Hinv Ho)
      as [Hnone Hsame].
    assert (Inv (g_bound s1)) as Hinv1.
    { destruct Hsame as [_ [Hb _]]. rewrite Hb. exact Hinv. }
    destruct (IH s1 Hinv1 Hrest) as [Hrestnone Hsame'].
    split; [| exact (same_but_attempted_trans _ _ _ Hsame Hsame')].
    simpl. rewrite existsb_app, Hrestnone, orb_false_r.
    clear - Hnone. induction ills as [| i ills IHi]; simpl; [reflexivity |].
    rewrite (Hnone i (or_introl eq_refl)). simpl.
    apply IHi. intros j Hj. apply Hnone. right. exact Hj.
Qed.

Lemma loop_pairs_no_data (lib : Library) (args : Args) (model : ColorModel)
  (o i : string) :
  some_pair_has_data lib args model = false ->
  In o STANDARD_OBSERVERS ->
  In i (selected_illuminants (illuminant_list args)) ->
  has_illuminant_data lib model o i = false.
Proof.
  unfold some_pair_has_data, loop_pairs. intros Hnone Ho Hi.
  destruct (has_illuminant_data lib model o i) eqn:E; [| reflexivity].
  assert (existsb (fun p => has_illuminant_data lib model (fst p) (snd p))
            (list_prod STANDARD_OBSERVERS
                       (selected_illuminants (illuminant_list args))) = true)
    as Hex.
  { apply existsb_exists. exists (o, i). split; [| exact E].
    apply in_prod; assumption. }
  rewrite Hnone in Hex. discriminate Hex.
Qed.

(** With no data for any pair, the main loop changes nothing but the
    noted pairs. *)
Lemma main_loop_no_data (lib : Library) (args : Args) (model : ColorModel)
  (s s' : pstate) :
  some_pair_has_data lib args model = false ->
  main_loop lib args model s = (inr tt, s') ->
  same_but_attempted s s'.
Proof.
  intros Hnone.
  pose proof (fun o i => loop_pairs_no_data lib args model o i Hnone) as Hall.
  clear Hnone. unfold main_loop. revert Hall.
  generalize (selected_illuminants (illuminant_list args)) as ills.
  intros ills. revert s.
  induction STANDARD_OBSERVERS as [| o obs IH]; intros s Hall Hrun.
  - inversion Hrun; subst. apply same_but_attempted_refl.
  - simpl in Hrun. apply pbind_inr in Hrun.
    destruct Hrun as [[] [s1 [Ho Hrest]]].
    assert (same_but_attempted s s1) as Hsame.
    { assert (forall i, In i ills ->
                        has_illuminant_data lib model o i = false) as Hrow
        by (intros i Hi; apply Hall; [left; reflexivity | exact Hi]).
      clear - Ho Hrow. revert s Ho.
      induction ills as [| i ills IHi]; intros s Ho.
      - inversion Ho; subst. apply same_but_attempted_refl.
      - simpl in Ho. apply pbind_inr in Ho.
        destruct Ho as [[] [s2 [Hi Hrest]]].
        apply pbind_inr in Hi. destruct Hi as [[] [s0 [Hlog Hcall]]].
        apply (convert_with_xyz_no_data _ _ _ _ _ _ _
                 (Hrow i (or_introl eq_refl))) in Hcall.
        subst s2.
        assert (same_but_attempted s s0) as Hsame
          by (inversion Hlog; repeat split).
        apply (same_but_attempted_trans _ _ _ Hsame).
        apply IHi; [| exact Hrest].
        intros j Hj. apply Hrow. right. exact Hj. }
    apply (same_but_attempted_trans _ _ _ Hsame).
    apply IH; [| exact Hrest].
    intros o' i Ho' Hi. apply Hall; [right; exact Ho' | exact Hi].
Qed.

(** Spectral recovery reads [ciexyz_d65]. *)
Lemma spectral_recovery_unbound (lib : Library) (args : Args)
  (model : ColorModel) (s : pstate) :
  model <> Spectrum ->
  str_in "ciexyz_d65" (g_bound s) = false ->
  returns (fst (spectral_recovery lib args model s)) = false.
Proof.
  intros Hmodel Hunbound. unfold spectral_recovery, is_model.
  replace (ColorModel_eqb model Spectrum) with false
    by (destruct model; try reflexivity; congruence).
  simpl negb. cbv iota.
  unfold pbind, lib_item, skip, pret, praise, need.
  destruct (str_in "CIE 1931 2 Degree Standard Observer" (MSDS_CMFS lib));
    [| reflexivity].
  destruct (str_in (input_illuminant args) (SDS_ILLUMINANTS lib));
    [| reflexivity].
  cbn -[str_in]. rewrite Hunbound. reflexivity.
Qed.

(** With RGB input, [convert_with_xyz] raises on a pair the library has
    the data for when it cannot compute [ciexyz] in its loop over the
    transforms: [use_cats] is [None] or empty, or [linear_rgb] is not
    bound. *)
Lemma convert_with_xyz_rgb_raises (lib : Library) (args : Args)
  (observer illuminant : string) (s : pstate) :
  has_illuminant_data lib RGB observer illuminant = true ->
  str_in "ciexyz" (g_bound s) = false ->
  (cat args = None \/ cat args = Some []
   \/ str_in "linear_rgb" (g_bound s) = false) ->
  returns (fst (convert_with_xyz lib args RGB observer illuminant s)) = false.
Proof.
  intros Hdata Hxyz Hbad.
  unfold has_illuminant_data in Hdata. simpl in Hdata.
  unfold convert_with_xyz, is_model. simpl ColorModel_eqb. simpl andb.
  cbv iota.
  destruct (dict_get (CCS_ILLUMINANTS lib) observer) as [ccs |] eqn:Eccs;
    [| discriminate Hdata].
  rewrite Hdata. simpl negb. cbv iota.
  set (Q := fun s0 : pstate =>
              str_in "ciexyz" (g_bound s0) = false
              /\ (cat args = None \/ cat args = Some []
                  \/ str_in "linear_rgb" (g_bound s0) = false)).
  assert (Q s) as HQ by (split; assumption).
  clear Hxyz Hbad.
  apply (pbind_raises_later _ _ _ Q).
  { intros a s1 H. inversion H; subst. destruct HQ as [H1 H2].
    split; [exact H1 |]. simpl.
    destruct H2 as [H2 | [H2 | H2]]; auto. }
  clear s HQ. intros _ s HQ.
  do 4 (apply (pbind_raises_later _ _ _ Q);
        [intros a s1 H; apply lib_item2_inr in H; subst; exact HQ |];
        clear s HQ; intros _ s HQ).
  apply (pbind_raises_later _ _ _ Q);
    [intros a s1 H; inversion H; subst; exact HQ |].
  clear s HQ. intros _ s HQ.
  unfold xyz_cats, is_model, use_cats. simpl ColorModel_eqb. cbv iota.
  destruct HQ as [Hxyz Hbad].
  destruct (cat args) as [[| c cats] |] eqn:Ecat; [| | reflexivity].
  - unfold pbind at 1. simpl map. cbv beta iota. simpl for_each.
    unfold pbind at 1, skip, pret. cbv beta iota.
    apply pbind_raises_now. apply need_unbound. exact Hxyz.
  - destruct Hbad as [Hbad | [Hbad | Hbad]]; try discriminate Hbad.
    unfold pbind at 1. simpl map. cbv beta iota.
    apply pbind_raises_now. simpl for_each.
    apply pbind_raises_now. unfold xyz_cat_round, is_model.
    simpl ColorModel_eqb. cbv iota.
    apply pbind_raises_now. apply need_unbound. exact Hbad.
Qed.

Lemma keeps_unbound_refl (names : list string) (s : pstate) :
  keeps_unbound names s s.
Proof. intros H. exact H. Qed.

Lemma keeps_unbound_trans (names : list string) (a b c : pstate) :
  keeps_unbound names a b -> keeps_unbound names b c ->
  keeps_unbound names a c.
Proof. unfold keeps_unbound. auto. Qed.

Lemma str_in_app (n : string) (l l' : list string) :
  str_in n (l ++ l') = str_in n l || str_in n l'.
Proof. apply existsb_app. Qed.

Lemma assign_keeps_unbound (names assigned : list string) :
  forallb (fun n => negb (str_in n assigned)) names = true ->
  respects (keeps_unbound names) (assign assigned).
Proof.
  intros Hfresh s Hu n Hn. simpl. rewrite str_in_app, (Hu n Hn), orb_false_r.
  rewrite forallb_forall in Hfresh. apply negb_true_iff. exact (Hfresh n Hn).
Qed.

Lemma set_res_keeps_unbound (names : list string) (r : dict) :
  respects (keeps_unbound names) (set_res r).
Proof. intros s Hu. exact Hu. Qed.

Lemma set_ciexyz_c_None_keeps_unbound (names : list string) (b : bool) :
  respects (keeps_unbound names) (set_ciexyz_c_None b).
Proof. intros s Hu. exact Hu. Qed.

Lemma call_result_keeps_unbound (names : list string) (model : string)
  (value : pyval) (illuminant observer : ctxarg) (cat : option ctxarg)
  (nosci : bool) :
  respects (keeps_unbound names)
           (call_result model value illuminant observer cat nosci).
Proof.
  intros s Hu. unfold call_result.
  destruct (result (g_res s) model value illuminant observer cat false nosci);
    exact Hu.
Qed.

Ltac keeps_known :=
  first [ apply assign_keeps_unbound; reflexivity
        | apply set_res_keeps_unbound
        | apply set_ciexyz_c_None_keeps_unbound
        | apply call_result_keeps_unbound
        | assumption ].

Ltac keeps_tac names :=
  respects_tac (keeps_unbound_refl names) (keeps_unbound_trans names)
               ltac:(keeps_known).

Lemma init_res_keeps_unbound (names : list string) (lib : Library)
  (args : Args) :
  respects (keeps_unbound names) (init_res lib args).
Proof. unfold init_res. keeps_tac names. Qed.

Lemma result_of_keeps_unbound (names : list string) (lib : Library)
  (key : string) (illuminant observer : ctxarg) (cat : option ctxarg) :
  respects (keeps_unbound names) (result_of lib key illuminant observer cat).
Proof. unfold result_of. keeps_tac names. Qed.

Lemma convert_rgb_to_rgb_keeps_unbound (names : list string) (lib : Library)
  (args : Args) (colorspaceid : string) :
  respects (keeps_unbound names) (convert_rgb_to_rgb lib args colorspaceid).
Proof.
  unfold convert_rgb_to_rgb, use_cats.
  destruct (negb (str_in colorspaceid COLOR_MODELS_ALIASES));
    [| apply (respects_pret _ (keeps_unbound_refl names))].
  destruct (cat args) as [cats |];
    [| apply (respects_praise _ (keeps_unbound_refl names))].
  induction cats as [| c cats IH]; simpl;
    [apply (respects_pret _ (keeps_unbound_refl names)) |].
  unfold result_of. keeps_tac names.
Qed.

Ltac stage_keeps_tac names :=
  respects_tac (keeps_unbound_refl names) (keeps_unbound_trans names)
               ltac:(first [ keeps_known
                           | apply convert_rgb_to_rgb_keeps_unbound
                           | apply result_of_keeps_unbound ]).

(** The stage of the input model binds none of the names that
    [convert_with_xyz] and the spectral recovery depend on. *)
Lemma model_stage_keeps_unbound (lib : Library) (args : Args)
  (model : ColorModel) :
  respects (keeps_unbound
              ["illuminant_xy_d65"; "illuminant_xyz_d65"; "ciexyz_d65"])
           (model_stage lib args model).
Proof.
  unfold model_stage, stage_rgb, stage_cielab, stage_cieluv, stage_ciexyz,
    stage_spectrum, stage_wavelength, three_floats.
  stage_keeps_tac ["illuminant_xy_d65"; "illuminant_xyz_d65"; "ciexyz_d65"].
Qed.

Lemma stage_rgb_keeps_unbound (lib : Library) (args : Args) :
  respects (keeps_unbound ["ciexyz"; "ciexyz_d65"])
           (model_stage lib args RGB).
Proof.
  unfold model_stage, is_model. simpl ColorModel_eqb. cbv iota.
  unfold stage_rgb, three_floats.
  stage_keeps_tac ["ciexyz"; "ciexyz_d65"].
Qed.

Lemma stage_rgb_lookup_failure (lib : Library) (args : Args) :
  str_in (input_colorspace args) (RGB_COLOURSPACES lib) = false ->
  respects (keeps_unbound ["linear_rgb"]) (model_stage lib args RGB).
Proof.
  intros Hcs. unfold model_stage, is_model. simpl ColorModel_eqb. cbv iota.
  unfold stage_rgb, three_floats. rewrite Hcs.
  stage_keeps_tac ["linear_rgb"].
Qed.

Lemma unbound_initial_state (names : list string) :
  unbound names initial_state.
Proof. intros n _. reflexivity. Qed.

Lemma unbound_In (names : list string) (n : string) (s : pstate) :
  unbound names s -> In n names -> str_in n (g_bound s) = false.
Proof. intros Hu Hn. exact (Hu n Hn). Qed.

Lemma respects_run (R : pstate -> pstate -> Prop) {A : Type} (c : P A)
  (s s' : pstate) (r : M A) :
  respects R c -> c s = (r, s') -> R s s'.
Proof. intros Hc Hrun. pose proof (Hc s) as H. rewrite Hrun in H. exact H. Qed.

(** What a run of the conversions that returns went through. *)
Lemma conversions_inr (lib : Library) (args : Args) (model : ColorModel)
  (s : pstate) :
  conversions lib args model initial_state = (inr tt, s) ->
  exists s0 s1 s2,
    init_res lib args initial_state = (inr tt, s0)
    /\ model_stage lib args model s0 = (inr tt, s1)
    /\ main_loop lib args model s1 = (inr tt, s2)
    /\ spectral_recovery lib args model s2 = (inr tt, s).
Proof.
  unfold conversions. intros H.
  apply pbind_inr in H. destruct H as [[] [s0 [H0 H]]].
  apply pbind_inr in H. destruct H as [[] [s1 [H1 H]]].
  apply pbind_inr in H. destruct H as [[] [s2 [H2 H]]].
  eauto 8.
Qed.

(** The conversions return for RGB input only when the input colour
    space is known, at least one transform is configured and the library
    has the data of some pair of the main loop; for spectral input only
    when it has the data of no pair; for no other input. *)
Lemma conversions_returns_only (lib : Library) (args : Args)
  (model : ColorModel) (s : pstate) :
  conversions lib args model initial_state = (inr tt, s) ->
  match model with
  | RGB =>
      str_in (input_colorspace args) (RGB_COLOURSPACES lib) = true
      /\ (exists c cats, cat args = Some (c :: cats))
      /\ some_pair_has_data lib args RGB = true
  | Spectrum => some_pair_has_data lib args Spectrum = false
  | _ => False
  end.
Proof.
  intros Hrun.
  destruct (conversions_inr _ _ _ _ Hrun) as [s0 [s1 [s2 [H0 [H1 [H2 H3]]]]]].
  set (N := ["illuminant_xy_d65"; "illuminant_xyz_d65"; "ciexyz_d65"]).
  assert (forall names, unbound names s0) as Hs0.
  { intros names.
    apply (respects_run _ _ _ _ _ (init_res_keeps_unbound names lib args) H0).
    apply unbound_initial_state. }
  assert (unbound N s1) as Hs1
    by (apply (respects_run _ _ _ _ _ (model_stage_keeps_unbound lib args model)
                 H1), Hs0).
  (* the loop of a model other than RGB *)
  assert (model <> RGB ->
          some_pair_has_data lib args model = false
          /\ same_but_attempted s1 s2) as Hother.
  { intros Hmodel.
    apply (main_loop_all_skipped lib args model
             (fun b => str_in "illuminant_xy_d65" b = false
                       /\ str_in "illuminant_xyz_d65" b = false) s1 s2);
      [| split; apply Hs1; simpl; auto | exact H2].
    intros o i sx Hinv Hdata.
    apply convert_with_xyz_other_models_raise; assumption. }
  (* spectral recovery after a loop that skipped every pair *)
  assert (model <> Spectrum -> same_but_attempted s1 s2 -> False) as Hrec.
  { intros Hmodel [_ [Hb _]].
    pose proof (spectral_recovery_unbound lib args model s2 Hmodel) as Hr.
    rewrite H3, Hb in Hr.
    specialize (Hr (Hs1 "ciexyz_d65" ltac:(simpl; auto))). discriminate Hr. }
  destruct model;
    try (destruct Hother as [_ Hsame]; [discriminate |];
         apply Hrec; [discriminate | exact Hsame]).
  - (* RGB *)
    assert (unbound ["ciexyz"; "ciexyz_d65"] s1) as Hxyz
      by (apply (respects_run _ _ _ _ _ (stage_rgb_keeps_unbound lib args) H1),
            Hs0).
    destruct (some_pair_has_data lib args RGB) eqn:Hsome.
    2:{ exfalso. apply Hrec; [discriminate |].
        exact (main_loop_no_data lib args RGB s1 s2 Hsome H2). }
    assert (forall Inv : list string -> Prop,
               Inv (g_bound s1) ->
               (forall b, Inv b ->
                          str_in "ciexyz" b = false
                          /\ (cat args = None \/ cat args = Some []
                              \/ str_in "linear_rgb" b = false)) ->
               False) as Hbad.
    { intros Inv Hinv Himp.
      destruct (main_loop_all_skipped lib args RGB Inv s1 s2) as [Hnone _];
        [| exact Hinv | exact H2 | congruence].
      intros o i sx Hsx Hdata. destruct (Himp _ Hsx) as [Hc Hb].
      apply convert_with_xyz_rgb_raises; assumption. }
    pose proof (Hxyz "ciexyz" ltac:(simpl; auto)) as Hciexyz.
    split; [| split; [| reflexivity]].
    + destruct (str_in (input_colorspace args) (RGB_COLOURSPACES lib)) eqn:Hcs;
        [reflexivity | exfalso].
      assert (unbound ["linear_rgb"] s1) as Hlin
        by (apply (respects_run _ _ _ _ _
                     (stage_rgb_lookup_failure lib args Hcs) H1), Hs0).
      apply (Hbad (fun b => str_in "ciexyz" b = false
                            /\ str_in "linear_rgb" b = false)).
      * split; [exact Hciexyz | apply Hlin; simpl; auto].
      * intros b [Hb1 Hb2]. auto.
    + destruct (cat args) as [[| c cats] |] eqn:Hcat;
        [exfalso | eauto | exfalso].
      * apply (Hbad (fun b => str_in "ciexyz" b = false));
          [exact Hciexyz | auto].
      * apply (Hbad (fun b => str_in "ciexyz" b = false));
          [exact Hciexyz | auto].
  - (* Spectrum *)
    apply Hother. discriminate.
Qed.

Lemma parse_arguments_inr {J : Type} (parsed args : Args)
  (model : ColorModel) :
  snd (@parse_arguments J parsed) = inr (args, model) ->
  determine_color_model parsed = Some model
  /\ exists p, args = set_plotpath parsed p.
Proof.
  unfold parse_arguments.
  destruct (plotpath parsed) as [p |] eqn:Hp.
  - destruct (negb (last4 p =? ".svg")%string).
    + rewrite determine_color_model_set_plotpath.
      destruct (determine_color_model parsed); simpl; intros H;
        inversion H; subst. eauto.
    + destruct (determine_color_model parsed); simpl; intros H;
        inversion H; subst.
      split; [reflexivity |]. exists (plotpath args).
      destruct args; reflexivity.
  - destruct (determine_color_model parsed); simpl; intros H;
      inversion H; subst.
    split; [reflexivity |]. exists (plotpath args).
    destruct args; reflexivity.
Qed.

(** A run that ends with status 0. *)
Lemma main_exit_0 (lib : Library) (parsed : Args) :
  exit_status (main lib parsed) = 0 ->
  exists (model : ColorModel) (p : option string) (s : pstate) (dumped : json),
    determine_color_model parsed = Some model
    /\ conversions lib (set_plotpath parsed p) model initial_state = (inr tt, s)
    /\ json_dumps (VDict (g_res s)) = inr dumped
    /\ stdout (main lib parsed) = [Printed dumped].
Proof.
  unfold main.
  destruct (@parse_arguments json parsed) as [[out err] [e | [args model]]]
    eqn:Hparse.
  - destruct (determine_color_model parsed) as [m |] eqn:Hm.
    + destruct (parse_arguments_ok parsed m Hm) as [args' Hok].
      rewrite Hok in Hparse. discriminate Hparse.
    + rewrite (parse_arguments_error parsed Hm) in Hparse.
      inversion Hparse; subst. simpl. intros H; discriminate H.
  - assert (snd (@parse_arguments json parsed) = inr (args, model)) as Hsnd
      by (rewrite Hparse; reflexivity).
    destruct (parse_arguments_inr _ _ _ Hsnd) as [Hmodel [p ->]].
    assert (out = []) as ->.
    { destruct (parse_arguments_ok parsed model Hmodel) as [args' Hok].
      rewrite Hok in Hparse. inversion Hparse. reflexivity. }
    destruct (conversions lib (set_plotpath parsed p) model initial_state)
      as [[e | []] s] eqn:Hrun; [simpl; intros H; discriminate H |].
    destruct (json_dumps (VDict (g_res s))) as [e | dumped] eqn:Hdumps;
      [simpl; intros H; discriminate H |].
    intros _. exists model, p, s, dumped. auto.
Qed.

(** X8.  A run ends with status 0 only for RGB input or for spectral
    input, and for spectral input only when the library has the
    illuminant data of none of the pairs of the main loop: for every
    other input the program ends with an uncaught exception or with
    status 2. *)
Theorem main_exit_0_models :
  forall (lib : Library) (parsed : Args),
    exit_status (main lib parsed) = 0 ->
    determine_color_model parsed = Some RGB
    \/ (determine_color_model parsed = Some Spectrum
        /\ some_pair_has_data lib parsed Spectrum = false).
Proof.
  intros lib parsed Hexit.
  destruct (main_exit_0 lib parsed Hexit)
    as [model [p [s [dumped [Hmodel [Hrun _]]]]]].
  pose proof (conversions_returns_only _ _ _ _ Hrun) as Honly.
  destruct model; try contradiction; auto.
Qed.

(** X9.  A run on RGB input ends with status 0 only when the input
    colour space is one of the library, at least one chromatic
    adaptation transform is configured, and the library has the
    illuminant data of at least one pair of the main loop. *)
Theorem main_exit_0_rgb :
  forall (lib : Library) (parsed : Args),
    exit_status (main lib parsed) = 0 ->
    determine_color_model parsed = Some RGB ->
    str_in (input_colorspace parsed) (RGB_COLOURSPACES lib) = true
    /\ (exists c cats, cat parsed = Some (c :: cats))
    /\ some_pair_has_data lib parsed RGB = true.
Proof.
  intros lib parsed Hexit Hrgb.
  destruct (main_exit_0 lib parsed Hexit)
    as [model [p [s [dumped [Hmodel [Hrun _]]]]]].
  rewrite Hrgb in Hmodel. inversion Hmodel; subst model.
  exact (conversions_returns_only _ _ _ _ Hrun).
Qed.

Lemma sample_run_exits_0 : exit_status (main sample_library sample_args) = 0.
Proof. vm_compute. reflexivity. Qed.

Lemma main_exit_0_models_witness :
  determine_color_model sample_args = Some RGB
  \/ (determine_color_model sample_args = Some Spectrum
      /\ some_pair_has_data sample_library sample_args Spectrum = false).
Proof.
  apply (main_exit_0_models sample_library sample_args).
  exact sample_run_exits_0.
Defined.

Lemma main_exit_0_rgb_witness :
  str_in (input_colorspace sample_args) (RGB_COLOURSPACES sample_library)
  = true
  /\ (exists c cats, cat sample_args = Some (c :: cats))
  /\ some_pair_has_data sample_library sample_args RGB = true.
Proof.
  apply (main_exit_0_rgb sample_library sample_args).
  - exact sample_run_exits_0.
  - reflexivity.
Defined.

(** ** What [result] leaves in place *)

Lemma plain_key_of (a : ctxarg) : plain_key (key_of a).
Proof. destruct a; exact I. Qed.

Lemma key_eqb_plain_refl (k : pykey) : plain_key k -> key_eqb k k = true.
Proof.
  destruct k; simpl;
    [intros _; apply String.eqb_refl | reflexivity | tauto].
Qed.

Lemma dict_lookup_set_other (d : dict) (a b : pykey) (v : pyval) :
  plain_key a -> plain_key b -> key_eqb a b = false ->
  dict_lookup (dict_set d b v) a = dict_lookup d a.
Proof.
  intros Ha Hb Hab. induction d as [| [k' v'] d IH]; simpl.
  - rewrite Hab. reflexivity.
  - destruct (key_eqb b k') eqn:Ebk; simpl.
    + assert (key_eqb a k' = false) as ->.
      { destruct a, b, k'; simpl in *; try reflexivity; try contradiction;
          try discriminate.
        apply String.eqb_eq in Ebk. subst. exact Hab. }
      reflexivity.
    + destruct (key_eqb a k'); [reflexivity | exact IH].
Qed.

Lemma dict_set_set (d : dict) (k : pykey) (x v : pyval) :
  key_eqb k k = true -> dict_set (dict_set d k x) k v = dict_set d k v.
Proof.
  intros Hrefl. induction d as [| [k' v'] d IH]; simpl.
  - rewrite Hrefl. reflexivity.
  - destruct (key_eqb k k') eqn:E; simpl; rewrite E; [reflexivity |].
    rewrite IH. reflexivity.
Qed.

Lemma dict_set_keys (d : dict) (k : pykey) (v v0 : pyval) :
  dict_lookup d k = Some v0 -> map fst (dict_set d k v) = map fst d.
Proof.
  induction d as [| [k' v'] d IH]; simpl; [discriminate |].
  destruct (key_eqb k k'); simpl; [reflexivity |].
  intros H. rewrite (IH H). reflexivity.
Qed.

Lemma setdefault_empty_set (d : dict) (k : pykey) (v : pyval) :
  key_eqb k k = true ->
  dict_set (setdefault_empty d k) k v = dict_set d k v.
Proof.
  intros Hrefl. unfold setdefault_empty.
  destruct (negb (dict_mem d k));
    [apply dict_set_set; exact Hrefl | reflexivity].
Qed.

Lemma write_path_cons (d : dict) (k k2 : pykey) (w : list pykey) (v : pyval) :
  write_path d (k :: k2 :: w) v
  = match dict_lookup d k with
    | None =>
        match write_path [] (k2 :: w) v with
        | Some d' => Some (dict_set d k (VDict d'))
        | None => None
        end
    | Some (VDict inner) =>
        match write_path inner (k2 :: w) v with
        | Some d' => Some (dict_set d k (VDict d'))
        | None => None
        end
    | Some _ => None
    end.
Proof. reflexivity. Qed.

(** The value gets to its place through [write_path]. *)
Lemma store_under_write (d d' : dict) (k : pykey) (cat : option ctxarg)
  (value : pyval) :
  key_eqb k k = true ->
  store_under (setdefault_empty d k) k cat value = inr d' ->
  write_path d (k :: match cat with None => [] | Some c => [key_of c] end)
             value = Some d'.
Proof.
  intros Hrefl. unfold store_under. destruct cat as [c |]; simpl.
  - unfold setdefault_empty, dict_mem.
    destruct (dict_lookup d k) as [inner |] eqn:E; simpl.
    + rewrite E. destruct inner; simpl; intros H; try discriminate H.
      inversion H. reflexivity.
    + rewrite dict_lookup_set_same by exact Hrefl. simpl.
      rewrite dict_set_set by exact Hrefl. intros H; inversion H. reflexivity.
  - rewrite setdefault_empty_set by exact Hrefl.
    intros H; inversion H. reflexivity.
Qed.

Lemma write_path_under (d d' : dict) (k : pykey) (w : list pykey)
  (v : pyval) (inner : dict) :
  w <> [] ->
  match dict_lookup d k with
  | None => inner = []
  | Some x => x = VDict inner
  end ->
  write_path inner w v = Some d' ->
  write_path d (k :: w) v = Some (dict_set d k (VDict d')).
Proof.
  intros Hw Hinner Hwrite. destruct w as [| k2 w]; [congruence |].
  rewrite write_path_cons.
  destruct (dict_lookup d k) as [x |]; subst; rewrite Hwrite; reflexivity.
Qed.

Lemma result_write_path (res res' : dict) (model : string) (value : pyval)
  (illuminant observer : ctxarg) (cat : option ctxarg) (nosci : bool) :
  result res model value illuminant observer cat false nosci = inr res' ->
  exists stored,
    write_path res (result_path model illuminant observer cat) stored
    = Some res'.
Proof.
  unfold result. simpl. intros H.
  apply bind_inr in H. destruct H as [entry [Hentry H]].
  unfold dict_getitem in Hentry.
  destruct (dict_lookup res (KStr model)) as [entry' |] eqn:Hlookup;
    [| discriminate].
  inversion Hentry; subst entry'. clear Hentry.
  apply bind_inr in H. destruct H as [template [Htemplate H]].
  apply as_dict_inr in Htemplate. subst entry.
  apply bind_inr in H. destruct H as [stored [Hstored H]].
  exists stored.
  rewrite (ensure_model_present res model _ Hlookup) in H.
  unfold dict_getitem in H. rewrite Hlookup in H. simpl in H.
  unfold result_path.
  destruct (truthy observer).
  - destruct (setdefault_empty_lookup template (key_of observer)
                (key_eqb_refl_key_of observer)) as [o [Ho [Hnew Hold]]].
    rewrite Ho in H.
    apply bind_inr in H. destruct H as [od [Hod H]].
    apply as_dict_inr in Hod. subst o.
    apply bind_inr in H. destruct H as [od' [Hstore H]].
    inversion H; subst res'. clear H.
    rewrite setdefault_empty_set by apply key_eqb_refl_key_of.
    apply store_under_write in Hstore; [| apply key_eqb_refl_key_of].
    apply (write_path_under res _ (KStr model) _ _ template);
      [discriminate | rewrite Hlookup; reflexivity |].
    apply (write_path_under template _ (key_of observer) _ _ od);
      [discriminate | | exact Hstore].
    destruct (dict_lookup template (key_of observer)) as [x |] eqn:E.
    + symmetry. apply Hold. reflexivity.
    + specialize (Hnew eq_refl). inversion Hnew. reflexivity.
  - destruct (truthy illuminant).
    + apply bind_inr in H. destruct H as [m' [Hstore H]].
      inversion H; subst res'. clear H.
      apply store_under_write in Hstore; [| apply key_eqb_refl_key_of].
      apply (write_path_under res _ (KStr model) _ _ template);
        [destruct cat; discriminate | rewrite Hlookup; reflexivity |].
      exact Hstore.
    + inversion H; subst res'. clear H.
      apply (write_path_under res _ (KStr model) _ _ template);
        [discriminate | rewrite Hlookup; reflexivity |].
      reflexivity.
Qed.

Lemma lookup_path_set_other (d : dict) (a b : pykey) (v : pyval)
  (p : list pykey) :
  plain_key a -> plain_key b -> key_eqb a b = false ->
  lookup_path (VDict (dict_set d b v)) (a :: p)
  = lookup_path (VDict d) (a :: p).
Proof.
  intros Ha Hb Hab. cbn [lookup_path].
  rewrite dict_lookup_set_other by assumption. reflexivity.
Qed.

Lemma write_path_plain (d d' : dict) (w : list pykey) (v : pyval) :
  Forall plain_key w ->
  write_path d w v = Some d' ->
  forall p, parts_from p w ->
            lookup_path (VDict d') p = lookup_path (VDict d) p.
Proof.
  intros Hplain. revert d d'.
  induction w as [| k w IH]; intros d d' Hwrite p Hparts.
  - discriminate Hwrite.
  - inversion Hplain as [| ? ? Hk Hw]; subst.
    destruct Hparts as [q [a [b [p' [w' [Hp [Hwq [Ha Hab]]]]]]]].
    assert (exists x, d' = dict_set d k x
                      /\ (w <> [] ->
                          exists inner dn,
                            x = VDict dn
                            /\ write_path inner w v = Some dn
                            /\ match dict_lookup d k with
                               | None => inner = []
                               | Some y => y = VDict inner
                               end)) as [x [Hd' Hx]].
    { destruct w as [| k2 w2].
      - cbn [write_path] in Hwrite. inversion Hwrite. eexists.
        split; [reflexivity |]. congruence.
      - rewrite write_path_cons in Hwrite.
        destruct (dict_lookup d k) as [y |] eqn:E.
        + destruct y; try discriminate Hwrite.
          destruct (write_path d0 (k2 :: w2) v) as [dn |] eqn:En;
            [| discriminate Hwrite].
          inversion Hwrite. eexists. split; [reflexivity |].
          intros _. exists d0, dn. auto.
        + destruct (write_path [] (k2 :: w2) v) as [dn |] eqn:En;
            [| discriminate Hwrite].
          inversion Hwrite. eexists. split; [reflexivity |].
          intros _. exists [], dn. auto. }
    subst d'. destruct q as [| k0 q]; simpl in Hp, Hwq; subst p.
    + (* the paths part here *)
      inversion Hwq; subst. apply lookup_path_set_other; assumption.
    + inversion Hwq; subst k0 w. clear Hwq.
      destruct Hx as [inner [dn [-> [Hn Hinner]]]];
        [destruct q; discriminate |].
      cbn [lookup_path].
      rewrite dict_lookup_set_same by (apply key_eqb_plain_refl; exact Hk).
      assert (lookup_path (VDict dn) (q ++ a :: p')
              = lookup_path (VDict inner) (q ++ a :: p')) as Hrec.
      { apply (IH Hw inner dn Hn). exists q, a, b, p', w'. auto. }
      rewrite Hrec.
      destruct (dict_lookup d k) as [y |]; subst; [reflexivity |].
      destruct q; reflexivity.
Qed.

Lemma result_path_plain (model : string) (illuminant observer : ctxarg)
  (cat : option ctxarg) :
  Forall plain_key (result_path model illuminant observer cat).
Proof.
  unfold result_path.
  destruct (truthy observer); [| destruct (truthy illuminant)];
    destruct cat; repeat constructor; apply plain_key_of.
Qed.

(** X10.  A call of [result] that returns changes [res] only at and
    below the place it writes to.  Whatever is stored on a path that
    parts from the written path at some key is left as it was: the other
    models, the name, description and codes of the template of the
    model, the results for other observers, for other illuminants of
    the same observer and for other transforms of the same pair. *)
Theorem result_frame :
  forall (res res' : dict) (model : string) (value : pyval)
         (illuminant observer : ctxarg) (cat : option ctxarg) (nosci : bool)
         (p : list pykey),
    result res model value illuminant observer cat false nosci = inr res' ->
    parts_from p (result_path model illuminant observer cat) ->
    lookup_path (VDict res') p = lookup_path (VDict res) p.
Proof.
  intros res res' model value illuminant observer cat nosci p Hres Hparts.
  destruct (result_write_path _ _ _ _ _ _ _ _ Hres) as [stored Hwrite].
  exact (write_path_plain _ _ _ _ (result_path_plain _ _ _ _) Hwrite p Hparts).
Qed.

Lemma sample_stored_returned :
  result COLOR_MODELS_TEMPLATES "ciexyz"
         (VArray [VFloat 0x1p-1; VFloat 0x1p-2; VFloat 0x1p-3]%float)
         (AStr "D65") (AStr observer_2) (Some (AStr "Bradford")) false false
  = inr sample_stored.
Proof. vm_compute. reflexivity. Qed.

Lemma result_frame_witness :
  lookup_path (VDict sample_stored) [KStr "ciexyz"; KStr "name"]
  = lookup_path (VDict COLOR_MODELS_TEMPLATES) [KStr "ciexyz"; KStr "name"].
Proof.
  apply (result_frame COLOR_MODELS_TEMPLATES sample_stored "ciexyz"
           (VArray [VFloat 0x1p-1; VFloat 0x1p-2; VFloat 0x1p-3]%float)
           (AStr "D65") (AStr observer_2) (Some (AStr "Bradford")) false).
  - exact sample_stored_returned.
  - exists [KStr "ciexyz"], (KStr "name"), (KStr observer_2), [],
      [KStr "D65"; KStr "Bradford"].
    repeat split.
Defined.

(** ** The models of [res] and the printed document *)

Lemma write_path_head (d d' : dict) (k : pykey) (w : list pykey) (v : pyval) :
  write_path d (k :: w) v = Some d' -> exists x, d' = dict_set d k x.
Proof.
  destruct w as [| k2 w].
  - simpl. intros H; inversion H. eauto.
  - rewrite write_path_cons.
    destruct (dict_lookup d k) as [[] |];
      try (intros H; discriminate H);
      match goal with
      | |- context [write_path ?i ?p ?x] => destruct (write_path i p x)
      end; intros H; inversion H; eauto.
Qed.

Lemma result_path_head (model : string) (illuminant observer : ctxarg)
  (cat : option ctxarg) :
  exists w, result_path model illuminant observer cat = KStr model :: w.
Proof.
  unfold result_path.
  destruct (truthy observer); [| destruct (truthy illuminant)]; eauto.
Qed.

(** A call of [result] that returns has replaced the entry of the
    model. *)
Lemma result_dict_set (res res' : dict) (model : string) (value : pyval)
  (illuminant observer : ctxarg) (cat : option ctxarg) (nosci : bool) :
  result res model value illuminant observer cat false nosci = inr res' ->
  exists entry x,
    dict_lookup res (KStr model) = Some entry
    /\ res' = dict_set res (KStr model) x.
Proof.
  intros Hres.
  destruct (result_inr _ _ _ _ _ _ _ _ Hres) as [template [_ [Hentry _]]].
  destruct (result_write_path _ _ _ _ _ _ _ _ Hres) as [stored Hwrite].
  destruct (result_path_head model illuminant observer cat) as [w Hw].
  rewrite Hw in Hwrite.
  destruct (write_path_head _ _ _ _ _ Hwrite) as [x Hx].
  eauto.
Qed.

(** X11.  A call of [result] that returns leaves the models of [res]
    and their order as they are: it adds no model, removes none and
    moves none. *)
Theorem result_keeps_models :
  forall (res res' : dict) (model : string) (value : pyval)
         (illuminant observer : ctxarg) (cat : option ctxarg) (nosci : bool),
    result res model value illuminant observer cat false nosci = inr res' ->
    map fst res' = map fst res.
Proof.
  intros res res' model value illuminant observer cat nosci Hres.
  destruct (result_dict_set _ _ _ _ _ _ _ _ Hres) as [entry [x [Hentry ->]]].
  exact (dict_set_keys _ _ _ _ Hentry).
Qed.

Lemma result_keeps_models_witness :
  map fst sample_stored = map fst COLOR_MODELS_TEMPLATES.
Proof.
  apply (result_keeps_models COLOR_MODELS_TEMPLATES sample_stored "ciexyz"
           (VArray [VFloat 0x1p-1; VFloat 0x1p-2; VFloat 0x1p-3]%float)
           (AStr "D65") (AStr observer_2) (Some (AStr "Bradford")) false).
  exact sample_stored_returned.
Defined.

Lemma same_models_refl (s : pstate) : same_models s s.
Proof. reflexivity. Qed.

Lemma same_models_trans (a b c : pstate) :
  same_models a b -> same_models b c -> same_models a c.
Proof. unfold same_models. congruence. Qed.

Lemma same_entry_refl (k : string) (s : pstate) : same_entry k s s.
Proof. reflexivity. Qed.

Lemma same_entry_trans (k : string) (a b c : pstate) :
  same_entry k a b -> same_entry k b c -> same_entry k a c.
Proof. unfold same_entry. congruence. Qed.

Lemma call_result_same_models (model : string) (value : pyval)
  (illuminant observer : ctxarg) (cat : option ctxarg) (nosci : bool) :
  respects same_models
           (call_result model value illuminant observer cat nosci).
Proof.
  intros s. unfold call_result.
  destruct (result (g_res s) model value illuminant observer cat false nosci)
    as [e | r] eqn:Hres; [reflexivity |].
  destruct (result_dict_set _ _ _ _ _ _ _ _ Hres) as [entry [x [Hentry ->]]].
  exact (dict_set_keys _ _ _ _ Hentry).
Qed.

Lemma call_result_same_entry (k model : string) (value : pyval)
  (illuminant observer : ctxarg) (cat : option ctxarg) (nosci : bool) :
  model <> k ->
  respects (same_entry k)
           (call_result model value illuminant observer cat nosci).
Proof.
  intros Hk s. unfold call_result.
  destruct (result (g_res s) model value illuminant observer cat false nosci)
    as [e | r] eqn:Hres; [reflexivity |].
  destruct (result_dict_set _ _ _ _ _ _ _ _ Hres) as [entry [x [Hentry ->]]].
  unfold same_entry. simpl.
  apply dict_lookup_set_other; try exact I.
  simpl. apply String.eqb_neq. congruence.
Qed.

Lemma assign_same_models (names : list string) :
  respects same_models (assign names).
Proof. intros s. reflexivity. Qed.

Lemma set_ciexyz_c_None_same_models (b : bool) :
  respects same_models (set_ciexyz_c_None b).
Proof. intros s. reflexivity. Qed.

Lemma log_attempt_same_models (o i : string) :
  respects same_models (log_attempt o i).
Proof. intros s. reflexivity. Qed.

Lemma assign_same_entry (k : string) (names : list string) :
  respects (same_entry k) (assign names).
Proof. intros s. reflexivity. Qed.

Lemma set_ciexyz_c_None_same_entry (k : string) (b : bool) :
  respects (same_entry k) (set_ciexyz_c_None b).
Proof. intros s. reflexivity. Qed.

Lemma log_attempt_same_entry (k o i : string) :
  respects (same_entry k) (log_attempt o i).
Proof. intros s. reflexivity. Qed.

Ltac models_known :=
  first [ apply assign_same_models
        | apply set_ciexyz_c_None_same_models
        | apply log_attempt_same_models
        | apply call_result_same_models ].

Ltac models_tac :=
  respects_tac same_models_refl same_models_trans ltac:(models_known).

Lemma convert_rgb_to_rgb_same_models (lib : Library) (args : Args)
  (colorspaceid : string) :
  respects same_models (convert_rgb_to_rgb lib args colorspaceid).
Proof.
  unfold convert_rgb_to_rgb, use_cats.
  destruct (negb (str_in colorspaceid COLOR_MODELS_ALIASES));
    [| apply (respects_pret _ same_models_refl)].
  destruct (cat args) as [cats |];
    [| apply (respects_praise _ same_models_refl)].
  induction cats as [| c cats IH]; simpl;
    [apply (respects_pret _ same_models_refl) |].
  unfold result_of. models_tac. exact IH.
Qed.

Lemma model_stage_same_models (lib : Library) (args : Args)
  (model : ColorModel) :
  (model = RGB ->
   str_in (input_colorspace args) (RGB_COLOURSPACES lib) = true) ->
  respects same_models (model_stage lib args model).
Proof.
  intros Hcs.
  unfold model_stage, stage_rgb, stage_cielab, stage_cieluv, stage_ciexyz,
    stage_spectrum, stage_wavelength, three_floats, is_model, result_of.
  destruct model; simpl ColorModel_eqb; cbv iota; try rewrite (Hcs eq_refl);
    respects_tac same_models_refl same_models_trans
      ltac:(first [models_known | apply convert_rgb_to_rgb_same_models]).
Qed.

Lemma main_loop_same_models (lib : Library) (args : Args)
  (model : ColorModel) :
  respects same_models (main_loop lib args model).
Proof.
  unfold main_loop, convert_with_xyz, xyz_cats, xyz_cat_round, wavelen,
    use_cats, model_functions, process_cielchuv, process_cielab_or_cielchab,
    process_cieluv, process_ciexyz, process_spectrum, process_wavelength,
    chromatic_adaptations_in_convert_with_xyz, convert_to_css,
    convert_xyz_to_rgb, convert_rgb_no_xyz, result_of.
  models_tac.
Qed.

Lemma spectral_recovery_same_models (lib : Library) (args : Args)
  (model : ColorModel) :
  respects same_models (spectral_recovery lib args model).
Proof. unfold spectral_recovery, result_of. models_tac. Qed.

Lemma mapM_items_keys {A B : Type} (f : A -> M B) (l : list (pykey * A))
  (items : list (pykey * B)) :
  mapM (fun kv => j <- f (snd kv) ;; ret (fst kv, j)) l = inr items ->
  map fst items = map fst l.
Proof.
  revert items. induction l as [| [k v] l IH]; intros items; simpl.
  - intros H; inversion H. reflexivity.
  - destruct (f v) as [e | j]; simpl; [intros H; discriminate H |].
    destruct (mapM (fun kv => j0 <- f (snd kv) ;; ret (fst kv, j0)) l)
      as [e | js]; simpl; [intros H; discriminate H |].
    intros H; inversion H; subst. simpl. rewrite (IH js eq_refl). reflexivity.
Qed.

(** The document of a dictionary is an object with the keys of the
    dictionary, in order. *)
Lemma json_dumps_dict_keys (d : dict) (dumped : json) :
  json_dumps (VDict d) = inr dumped ->
  exists items, dumped = JObj items /\ map fst items = map fst d.
Proof.
  rewrite json_dumps_np_to_py. simpl. intros H.
  apply bind_inr in H. destruct H as [items [Hitems H]].
  inversion H; subst. exists items. split; [reflexivity |].
  rewrite (mapM_items_keys _ _ _ Hitems), map_map. reflexivity.
Qed.

Lemma init_res_set_plotpath (lib : Library) (args : Args) (p : option string) :
  init_res lib (set_plotpath args p) = init_res lib args.
Proof. reflexivity. Qed.

Lemma init_res_no_precalc (lib : Library) (args : Args) (s s0 : pstate) :
  precalc args = "" ->
  init_res lib args s = (inr tt, s0) ->
  g_res s0 = COLOR_MODELS_TEMPLATES.
Proof.
  intros Hpre. unfold init_res. rewrite Hpre. simpl.
  intros H; inversion H. reflexivity.
Qed.

(** X12.  The document a run with status 0 prints is a JSON object
    with exactly the keys [res] had once the templates and the
    precalculated items were put in, in that order: one entry per
    template when no precalculated items are given, whatever was
    converted. *)
Theorem main_document_keys :
  forall (lib : Library) (parsed : Args),
    exit_status (main lib parsed) = 0 ->
    exists items,
      stdout (main lib parsed) = [Printed (JObj items)]
      /\ map fst items
         = map fst (g_res (snd (init_res lib parsed initial_state)))
      /\ (precalc parsed = "" ->
          map fst items = map fst COLOR_MODELS_TEMPLATES).
Proof.
  intros lib parsed Hexit.
  destruct (main_exit_0 lib parsed Hexit)
    as [model [p [s [dumped [Hmodel [Hrun [Hdumps Hout]]]]]]].
  destruct (json_dumps_dict_keys _ _ Hdumps) as [items [-> Hkeys]].
  exists items. split; [exact Hout |].
  pose proof (conversions_returns_only _ _ _ _ Hrun) as Honly.
  destruct (conversions_inr _ _ _ _ Hrun) as [s0 [s1 [s2 [H0 [H1 [H2 H3]]]]]].
  rewrite init_res_set_plotpath in H0.
  assert (map fst (g_res s) = map fst (g_res s0)) as Hsame.
  { assert (same_models s0 s1) as H01.
    { apply (respects_run _ _ _ _ _
               (model_stage_same_models lib (set_plotpath parsed p) model
                  ltac:(intros ->; apply Honly)) H1). }
    pose proof (respects_run _ _ _ _ _ (main_loop_same_models _ _ _) H2) as H12.
    pose proof (respects_run _ _ _ _ _ (spectral_recovery_same_models _ _ _) H3)
      as H23.
    exact (same_models_trans _ _ _ (same_models_trans _ _ _ H01 H12) H23). }
  rewrite H0. simpl. split; [rewrite Hkeys; exact Hsame |].
  intros Hpre. rewrite Hkeys, Hsame.
  rewrite (init_res_no_precalc _ _ _ _ Hpre H0). reflexivity.
Qed.

Lemma main_document_keys_witness :
  exists items,
    stdout (main sample_library sample_args) = [Printed (JObj items)]
    /\ map fst items
       = map fst (g_res (snd (init_res sample_library sample_args
                                       initial_state)))
    /\ (precalc sample_args = "" ->
        map fst items = map fst COLOR_MODELS_TEMPLATES).
Proof.
  apply (main_document_keys sample_library sample_args).
  exact sample_run_exits_0.
Defined.

Lemma respects_for_each_In (R : pstate -> pstate -> Prop)
  (R_refl : forall s, R s s)
  (R_trans : forall a b c, R a b -> R b c -> R a c)
  {A : Type} (l : list A) (body : A -> P unit) :
  (forall x, In x l -> respects R (body x)) -> respects R (for_each l body).
Proof.
  induction l as [| x l IH]; intros Hbody; simpl.
  - apply (respects_pret _ R_refl).
  - apply (respects_pbind _ R_trans).
    + apply Hbody. left. reflexivity.
    + intros _. apply IH. intros y Hy. apply Hbody. right. exact Hy.
Qed.

(** As [respects_tac], keeping for the body of a loop that its
    argument is an element of the list. *)
Ltac respects_in_tac refl trans known :=
  repeat match goal with
    | |- respects _ (pbind _ _) => apply (respects_pbind _ trans); [| intros ?]
    | |- respects _ (for_each _ _) =>
        apply (respects_for_each_In _ refl trans); intros ? ?
    | |- respects _ (if ?b then _ else _) => destruct b
    | |- respects _ (match ?x with _ => _ end) => destruct x
    | |- respects _ (pret _) => apply (respects_pret _ refl)
    | |- respects _ skip => apply (respects_pret _ refl)
    | |- respects _ (praise _) => apply (respects_praise _ refl)
    | |- respects _ (lift _) => apply (respects_lift _ refl)
    | |- respects _ (need _) => apply (respects_need _ refl)
    | |- respects _ get_res => apply (respects_get_res _ refl)
    | |- respects _ get_ciexyz_c_None =>
        apply (respects_get_ciexyz_c_None _ refl)
    | |- respects _ (lib_item _ _) => apply (respects_lib_item _ refl)
    | |- respects _ (lib_item2 _ _ _) => apply (respects_lib_item2 _ refl)
    | |- respects _ _ => solve [known]
    end.

Lemma not_rgb_only_key (key k : string) :
  str_in key rgb_no_xyz_result_keys = false ->
  In k rgb_no_xyz_result_keys -> key <> k.
Proof.
  intros Hkey Hk ->.
  assert (str_in k rgb_no_xyz_result_keys = true) as Hin.
  { apply existsb_exists. exists k.
    split; [exact Hk | apply String.eqb_refl]. }
  rewrite Hin in Hkey. discriminate Hkey.
Qed.

Lemma xyz_result_keys_not_rgb_only (kc : string * bool) :
  In kc xyz_result_keys -> str_in (fst kc) rgb_no_xyz_result_keys = false.
Proof.
  assert (forallb (fun kc => negb (str_in (fst kc) rgb_no_xyz_result_keys))
                  xyz_result_keys = true) as Hall by reflexivity.
  rewrite forallb_forall in Hall. intros Hin.
  apply negb_true_iff. exact (Hall kc Hin).
Qed.

Lemma css_result_keys_not_rgb_only (kc : string * bool) :
  In kc css_result_keys -> str_in (fst kc) rgb_no_xyz_result_keys = false.
Proof.
  assert (forallb (fun kc => negb (str_in (fst kc) rgb_no_xyz_result_keys))
                  css_result_keys = true) as Hall by reflexivity.
  rewrite forallb_forall in Hall. intros Hin.
  apply negb_true_iff. exact (Hall kc Hin).
Qed.

Lemma not_library_key (lib : Library) (cs k : string) :
  str_in k (RGB_COLOURSPACES lib) = false ->
  In cs (RGB_COLOURSPACES lib) -> cs <> k.
Proof.
  intros Hk Hcs ->.
  assert (str_in k (RGB_COLOURSPACES lib) = true) as Hin.
  { apply existsb_exists. exists k.
    split; [exact Hcs | apply String.eqb_refl]. }
  rewrite Hin in Hk. discriminate Hk.
Qed.

Section RgbOnlyResults.
Variable lib : Library.
Variable args : Args.
Variable k : string.
Hypothesis Hk : In k rgb_no_xyz_result_keys.
Hypothesis Hlib : str_in k (RGB_COLOURSPACES lib) = false.

Ltac other_key :=
  first [ apply not_rgb_only_key;
          [ first [ reflexivity
                  | apply xyz_result_keys_not_rgb_only; assumption
                  | apply css_result_keys_not_rgb_only; assumption ]
          | exact Hk ]
        | apply (not_library_key lib _ _ Hlib); assumption ].

Ltac entry_known :=
  first [ apply assign_same_entry
        | apply set_ciexyz_c_None_same_entry
        | apply log_attempt_same_entry
        | apply call_result_same_entry; other_key ].

Ltac entry_tac :=
  respects_in_tac (same_entry_refl k) (same_entry_trans k) ltac:(entry_known).

Lemma convert_rgb_to_rgb_same_entry (colorspaceid : string) :
  In colorspaceid (RGB_COLOURSPACES lib) ->
  respects (same_entry k) (convert_rgb_to_rgb lib args colorspaceid).
Proof.
  intros Hcs. unfold convert_rgb_to_rgb, use_cats.
  destruct (negb (str_in colorspaceid COLOR_MODELS_ALIASES));
    [| apply (respects_pret _ (same_entry_refl k))].
  destruct (cat args) as [cats |];
    [| apply (respects_praise _ (same_entry_refl k))].
  induction cats as [| c cats IH]; simpl;
    [apply (respects_pret _ (same_entry_refl k)) |].
  unfold result_of. entry_tac. exact IH.
Qed.

Lemma stage_rgb_same_entry :
  str_in (input_colorspace args) (RGB_COLOURSPACES lib) = true ->
  respects (same_entry k) (model_stage lib args RGB).
Proof.
  intros Hcs. unfold model_stage, is_model. simpl ColorModel_eqb. cbv iota.
  unfold stage_rgb, three_floats. rewrite Hcs.
  respects_in_tac (same_entry_refl k) (same_entry_trans k)
    ltac:(first [ entry_known
                | apply convert_rgb_to_rgb_same_entry; assumption ]).
Qed.

Lemma stage_spectrum_same_entry :
  respects (same_entry k) (model_stage lib args Spectrum).
Proof.
  unfold model_stage, is_model. simpl ColorModel_eqb. simpl andb. simpl orb.
  cbv iota. unfold stage_spectrum, result_of.
  entry_tac.
Qed.

Lemma main_loop_rgb_same_entry :
  respects (same_entry k) (main_loop lib args RGB).
Proof.
  unfold main_loop, convert_with_xyz, xyz_cats, xyz_cat_round, wavelen,
    use_cats, convert_to_css, result_of, is_model.
  simpl ColorModel_eqb. simpl negb. simpl andb. cbv iota.
  entry_tac.
Qed.

Lemma spectral_recovery_same_entry (model : ColorModel) :
  respects (same_entry k) (spectral_recovery lib args model).
Proof. unfold spectral_recovery, result_of. entry_tac. Qed.
End RgbOnlyResults.

(** X13.  No run whose conversions return has stored a result of
    [convert_rgb_no_xyz]: the entries of [res] under "cmy", "cmyk",
    "hcl", "hsl", "hsl_css_color", "hsv", "hwb", "hwb_css_color",
    "ihls", "prismatic", "rgbluminance", "ycbcr", "yccbccrc" and "ycocg"
    are then what they were after the templates and the precalculated
    items were put in (for a key that does not also name an RGB colour
    space of the library).  These results are computed on the way from
    XYZ to RGB only, which RGB input does not take and which no other
    input gets to. *)
Theorem conversions_skip_rgb_only_results :
  forall (lib : Library) (args : Args) (model : ColorModel) (s : pstate)
         (k : string),
    conversions lib args model initial_state = (inr tt, s) ->
    In k rgb_no_xyz_result_keys ->
    str_in k (RGB_COLOURSPACES lib) = false ->
    dict_lookup (g_res s) (KStr k)
    = dict_lookup (g_res (snd (init_res lib args initial_state))) (KStr k).
Proof.
  intros lib args model s k Hrun Hk Hlib.
  pose proof (conversions_returns_only _ _ _ _ Hrun) as Honly.
  destruct (conversions_inr _ _ _ _ Hrun) as [s0 [s1 [s2 [H0 [H1 [H2 H3]]]]]].
  rewrite H0. simpl.
  pose proof (respects_run _ _ _ _ _
                (spectral_recovery_same_entry lib args k Hk model) H3) as H23.
  unfold same_entry in H23. rewrite H23.
  destruct model; try contradiction.
  - destruct Honly as [Hcs _].
    pose proof (respects_run _ _ _ _ _
                  (stage_rgb_same_entry lib args k Hlib Hcs) H1) as H01.
    pose proof (respects_run _ _ _ _ _
                  (main_loop_rgb_same_entry lib args k Hk) H2) as H12.
    unfold same_entry in *. congruence.
  - pose proof (respects_run _ _ _ _ _
                  (stage_spectrum_same_entry lib args k Hk) H1) as H01.
    destruct (main_loop_no_data lib args Spectrum s1 s2 Honly H2) as [Hres _].
    unfold same_entry in *. congruence.
Qed.

Lemma sample_conversions_return :
  conversions sample_library sample_args RGB initial_state
  = (inr tt, snd sample_final).
Proof.
  refine (pair_of_fst
            (conversions sample_library sample_args RGB initial_state)
            (inr tt) _).
  vm_compute. reflexivity.
Qed.

Lemma conversions_skip_rgb_only_results_witness :
  dict_lookup (g_res (snd sample_final)) (KStr "hsl")
  = dict_lookup (g_res (snd (init_res sample_library sample_args
                                      initial_state))) (KStr "hsl").
Proof.
  apply (conversions_skip_rgb_only_results sample_library sample_args RGB
           (snd sample_final) "hsl").
  - exact sample_conversions_return.
  - unfold rgb_no_xyz_result_keys. simpl. tauto.
  - reflexivity.
Defined.

(** ** The calls of [result] *)

Lemma result_of_call (lib : Library) (key : string)
  (illuminant observer : ctxarg) (cat : option ctxarg) (s s' : pstate)
  (r : M unit) :
  result_of lib key illuminant observer cat s = (r, s') ->
  g_calls s'
  = (g_calls s ++ [{| c_model := key; c_illuminant := illuminant;
                      c_observer := observer; c_cat := cat |}])%list.
Proof.
  unfold result_of, call_result.
  destruct (result (g_res s) key _ illuminant observer cat false (no_sci key));
    intros H; inversion H; reflexivity.
Qed.

Lemma convert_rgb_to_rgb_cats_calls (lib : Library) (args : Args)
  (colorspaceid : string) (cats : list string) (s s' : pstate) :
  convert_rgb_to_rgb_cats lib args colorspaceid cats s = (inr tt, s') ->
  g_calls s'
  = (g_calls s
     ++ if String.eqb (whitepoint_name lib (input_colorspace args))
                      (whitepoint_name lib colorspaceid)
        then match cats with
             | [] => []
             | _ :: _ =>
                 [{| c_model := colorspaceid;
                     c_illuminant := AStr (whitepoint_name lib colorspaceid);
                     c_observer := AFalse; c_cat := None |}]
             end
        else map (fun c =>
                    {| c_model := colorspaceid;
                       c_illuminant := AStr (whitepoint_name lib colorspaceid);
                       c_observer := AFalse; c_cat := Some (AStr c) |})
                 cats)%list.
Proof.
  revert s. induction cats as [| c cats IH]; intros s Hrun.
  - inversion Hrun; subst.
    destruct (String.eqb _ _); simpl; rewrite app_nil_r; reflexivity.
  - simpl in Hrun.
    apply pbind_inr in Hrun. destruct Hrun as [[] [s1 [H1 Hrun]]].
    apply lib_item_inr in H1. subst s1.
    apply pbind_inr in Hrun. destruct Hrun as [[] [s1 [H1 Hrun]]].
    apply lib_item_inr in H1. subst s1.
    apply pbind_inr in Hrun. destruct Hrun as [[] [s1 [H1 Hrun]]].
    apply need_inr in H1. subst s1.
    apply pbind_inr in Hrun. destruct Hrun as [[] [s1 [H1 Hrun]]].
    apply need_inr in H1. subst s1.
    apply pbind_inr in Hrun. destruct Hrun as [[] [s1 [H1 Hrun]]].
    apply result_of_call in H1.
    destruct (String.eqb (whitepoint_name lib (input_colorspace args))
                         (whitepoint_name lib colorspaceid)) eqn:Esame.
    + inversion Hrun; subst. exact H1.
    + rewrite (IH s1 Hrun), H1, <- app_assoc. reflexivity.
Qed.

Lemma convert_rgb_to_rgb_calls_made (lib : Library) (args : Args)
  (colorspaceid : string) (cats : list string) (s s' : pstate) :
  cat args = Some cats ->
  convert_rgb_to_rgb lib args colorspaceid s = (inr tt, s') ->
  g_calls s'
  = (g_calls s ++ rgb_to_rgb_calls lib args colorspaceid cats)%list.
Proof.
  intros Hcats.
  unfold convert_rgb_to_rgb, rgb_to_rgb_calls, use_cats. rewrite Hcats.
  destruct (str_in colorspaceid COLOR_MODELS_ALIASES); simpl.
  - intros H; inversion H. rewrite app_nil_r. reflexivity.
  - apply convert_rgb_to_rgb_cats_calls.
Qed.

(** X14.  [convert_rgb_to_rgb], when it returns, has called [result]
    for the colour space with the white point of the colour space as
    illuminant: never for an alias; once, without transform, when the
    white point is that of the input colour space; otherwise once for
    each configured transform, in the configured order. *)
Theorem convert_rgb_to_rgb_fan_out :
  forall (lib : Library) (args : Args) (colorspaceid : string)
         (cats : list string) (s s' : pstate),
    cat args = Some cats ->
    convert_rgb_to_rgb lib args colorspaceid s = (inr tt, s') ->
    g_calls s'
    = (g_calls s ++ rgb_to_rgb_calls lib args colorspaceid cats)%list.
Proof.
  intros lib args colorspaceid cats s s' Hcats Hrun.
  exact (convert_rgb_to_rgb_calls_made lib args colorspaceid cats s s'
           Hcats Hrun).
Qed.

Lemma sample_convert_rgb_to_rgb_returns :
  convert_rgb_to_rgb sample_library sample_args "ProPhoto RGB" decoded_state
  = (inr tt,
     snd (convert_rgb_to_rgb sample_library sample_args "ProPhoto RGB"
                             decoded_state)).
Proof.
  refine (pair_of_fst
            (convert_rgb_to_rgb sample_library sample_args "ProPhoto RGB"
                                decoded_state)
            (inr tt) _).
  vm_compute. reflexivity.
Qed.

Lemma convert_rgb_to_rgb_fan_out_witness :
  g_calls (snd (convert_rgb_to_rgb sample_library sample_args "ProPhoto RGB"
                                   decoded_state))
  = (g_calls decoded_state
     ++ rgb_to_rgb_calls sample_library sample_args "ProPhoto RGB"
                         CHROMATIC_ADAPTATION_TRANSFORMS)%list.
Proof.
  apply (convert_rgb_to_rgb_fan_out sample_library sample_args "ProPhoto RGB"
           CHROMATIC_ADAPTATION_TRANSFORMS decoded_state).
  - reflexivity.
  - exact sample_convert_rgb_to_rgb_returns.
Defined.

Section CallsSatisfy.
Variable Pc : call -> Prop.

Lemma calls_satisfy_refl (s : pstate) : calls_satisfy Pc s s.
Proof. exists []. rewrite app_nil_r. split; [reflexivity | constructor]. Qed.

Lemma calls_satisfy_trans (a b c : pstate) :
  calls_satisfy Pc a b -> calls_satisfy Pc b c -> calls_satisfy Pc a c.
Proof.
  intros [n1 [H1 F1]] [n2 [H2 F2]]. exists (n1 ++ n2)%list.
  rewrite H2, H1, app_assoc. split; [reflexivity |].
  apply Forall_app. split; assumption.
Qed.

Lemma assign_calls_satisfy (names : list string) :
  respects (calls_satisfy Pc) (assign names).
Proof.
  intros s. exists []. simpl. rewrite app_nil_r.
  split; [reflexivity | constructor].
Qed.

Lemma set_ciexyz_c_None_calls_satisfy (b : bool) :
  respects (calls_satisfy Pc) (set_ciexyz_c_None b).
Proof.
  intros s. exists []. simpl. rewrite app_nil_r.
  split; [reflexivity | constructor].
Qed.

Lemma call_result_calls_satisfy (model : string) (value : pyval)
  (illuminant observer : ctxarg) (cat : option ctxarg) (nosci : bool) :
  Pc {| c_model := model; c_illuminant := illuminant;
        c_observer := observer; c_cat := cat |} ->
  respects (calls_satisfy Pc)
           (call_result model value illuminant observer cat nosci).
Proof.
  intros Hc s. unfold call_result.
  destruct (result (g_res s) model value illuminant observer cat false nosci);
    (eexists; split; [reflexivity | repeat constructor; exact Hc]).
Qed.

End CallsSatisfy.

(** A continuation need only be followed for the values the first
    statement can return. *)
Lemma respects_pbind_returned {A B : Type} (R : pstate -> pstate -> Prop)
  (R_trans : forall a b c, R a b -> R b c -> R a c)
  (c : P A) (k : A -> P B) :
  respects R c ->
  (forall a s s1, c s = (inr a, s1) -> respects R (k a)) ->
  respects R (pbind c k).
Proof.
  intros Hc Hk s. unfold pbind. pose proof (Hc s) as Hcs.
  destruct (c s) as [[e | a] s1] eqn:E; simpl in *.
  - exact Hcs.
  - exact (R_trans _ _ _ Hcs (Hk a s s1 E s1)).
Qed.

Lemma last_rev_head {A : Type} (l : list A) (x d : A) (l' : list A) :
  rev l = x :: l' -> last l d = x.
Proof.
  intros H. assert (l = rev l' ++ [x])%list as ->.
  { rewrite <- (rev_involutive l), H. reflexivity. }
  apply last_last.
Qed.

(** X15.  With RGB input, every result [convert_with_xyz] stores for
    a pair of observer and illuminant is stored under the last of the
    configured transforms: each call of [result] it makes either passes
    that transform, or passes no observer and no transform at all.  The
    loop over the transforms only computes; the calls come after it. *)
Theorem convert_with_xyz_rgb_last_transform :
  forall (lib : Library) (args : Args) (cats : list string)
         (observer illuminant : string) (s : pstate),
    cat args = Some cats ->
    calls_satisfy (under_transform (last cats ""))
      s (snd (convert_with_xyz lib args RGB observer illuminant s)).
Proof.
  intros lib args cats observer illuminant s Hcats.
  set (Pc := under_transform (last cats "")).
  assert (respects (calls_satisfy Pc)
            (convert_with_xyz lib args RGB observer illuminant)) as Hall;
    [| exact (Hall s)].
  assert (forall key i, respects (calls_satisfy Pc)
                          (result_of lib key i AFalse None)) as Hplain.
  { intros key i. unfold result_of.
    apply call_result_calls_satisfy. right. split; reflexivity. }
  assert (forall key i o, respects (calls_satisfy Pc)
                            (result_of lib key i o
                               (Some (AStr (last cats ""))))) as Hlast.
  { intros key i o. unfold result_of.
    apply call_result_calls_satisfy. left. reflexivity. }
  unfold convert_with_xyz, xyz_cats, xyz_cat_round, wavelen, use_cats,
    is_model.
  simpl ColorModel_eqb. simpl negb. simpl andb. cbv iota. rewrite Hcats.
  destruct (dict_get (CCS_ILLUMINANTS lib) observer) as [ccs |];
    [| apply (respects_praise _ (calls_satisfy_refl Pc))].
  destruct (str_in illuminant ccs); simpl negb; cbv iota;
    [| apply (respects_pret _ (calls_satisfy_refl Pc))].
  do 6 (apply (respects_pbind _ (calls_satisfy_trans Pc));
        [respects_tac (calls_satisfy_refl Pc) (calls_satisfy_trans Pc)
           ltac:(apply assign_calls_satisfy)
        | intros _]).
  apply (respects_pbind_returned (calls_satisfy Pc) (calls_satisfy_trans Pc));
    [apply (respects_pret _ (calls_satisfy_refl Pc)) |].
  intros cs s0 s1 Hcs. inversion Hcs; subst cs. clear Hcs.
  do 8 (apply (respects_pbind _ (calls_satisfy_trans Pc));
        [respects_tac (calls_satisfy_refl Pc) (calls_satisfy_trans Pc)
           ltac:(first [ apply assign_calls_satisfy
                       | apply set_ciexyz_c_None_calls_satisfy ])
        | intros _]).
  apply (respects_pbind_returned (calls_satisfy Pc) (calls_satisfy_trans Pc));
    [respects_tac (calls_satisfy_refl Pc) (calls_satisfy_trans Pc) fail |].
  intros t s2 s3 Ht.
  assert (t = Some (AStr (last cats ""))) as ->.
  { destruct (rev (map (fun c => Some (AStr c)) cats)) as [| t' l'] eqn:Hrev;
      [discriminate Ht |].
    inversion Ht; subst t'. clear Ht.
    rewrite <- map_rev in Hrev.
    destruct (rev cats) as [| c l] eqn:Hc; [discriminate Hrev |].
    simpl in Hrev. inversion Hrev.
    rewrite (last_rev_head cats c "" l Hc). reflexivity. }
  unfold convert_to_css.
  respects_tac (calls_satisfy_refl Pc) (calls_satisfy_trans Pc)
    ltac:(idtac;
          match goal with
          | |- respects _ (result_of _ _ _ AFalse None) => apply Hplain
          | |- respects _ (result_of _ _ _ _ (Some _)) => apply Hlast
          | |- respects _ (call_result _ _ _ _ _ _) =>
              apply call_result_calls_satisfy; right; split; reflexivity
          end).
Qed.

Lemma convert_with_xyz_rgb_last_transform_witness :
  calls_satisfy
    (under_transform (last CHROMATIC_ADAPTATION_TRANSFORMS ""))
    decoded_state
    (snd (convert_with_xyz sample_library sample_args RGB observer_2 "D65"
                           decoded_state)).
Proof.
  apply (convert_with_xyz_rgb_last_transform sample_library sample_args
           CHROMATIC_ADAPTATION_TRANSFORMS observer_2 "D65" decoded_state).
  reflexivity.
Defined.

(** ** Precalculated items *)

Lemma dict_lookup_not_key (d : dict) (k : string) :
  string_keys d -> ~ In (KStr k) (map fst d) ->
  dict_lookup d (KStr k) = None.
Proof.
  intros Hkeys. induction Hkeys as [| [k' v] d [s Hs] Hd IH]; simpl;
    [reflexivity |].
  simpl in Hs. subst k'. intros Hnot.
  destruct (String.eqb_spec k s) as [-> | Hne].
  - exfalso. apply Hnot. left. reflexivity.
  - apply IH. intros Hin. apply Hnot. right. exact Hin.
Qed.

Lemma dict_merge_lookup (b a : dict) (k : string) :
  string_keys b -> NoDup (map fst b) ->
  dict_lookup (dict_merge a b) (KStr k)
  = match dict_lookup b (KStr k) with
    | Some v => Some v
    | None => dict_lookup a (KStr k)
    end.
Proof.
  unfold dict_merge. intros Hkeys. revert a.
  induction Hkeys as [| [k' v] b [s Hs] Hb IH]; intros a Hnodup; simpl;
    [reflexivity |].
  simpl in Hs. subst k'. inversion Hnodup as [| ? ? Hnot Hnodup']; subst.
  rewrite (IH _ Hnodup').
  destruct (String.eqb_spec k s) as [-> | Hne].
  - rewrite (dict_lookup_not_key b s Hb Hnot).
    apply dict_lookup_set_same, key_eqb_refl_KStr.
  - destruct (dict_lookup b (KStr k)); [reflexivity |].
    apply dict_lookup_set_other; try exact I.
    simpl. apply String.eqb_neq. exact Hne.
Qed.

(** X16.  Precalculated items replace templates whole.  When
    [--precalc] holds a JSON object, [res] starts, for each key of the
    object, with the value the object gives it, in place of the template
    of that key if there is one, and with the template for every other
    key.  When it holds JSON that is not an object, the program stops
    with a [TypeError]. *)
Theorem init_res_precalc :
  forall (lib : Library) (args : Args) (loaded : pyval) (s : pstate),
    precalc args <> "" ->
    json_loads lib (precalc args) = inr loaded ->
    match loaded with
    | VDict d =>
        string_keys d -> NoDup (map fst d) ->
        exists s0,
          init_res lib args s = (inr tt, s0)
          /\ forall k,
              dict_lookup (g_res s0) (KStr k)
              = match dict_lookup d (KStr k) with
                | Some v => Some v
                | None => dict_lookup COLOR_MODELS_TEMPLATES (KStr k)
                end
    | _ => exists msg, fst (init_res lib args s) = inl (TypeError msg)
    end.
Proof.
  intros lib args loaded s Hpre Hload.
  assert (negb (String.eqb (precalc args) "") = true) as Hne
    by (apply negb_true_iff, String.eqb_neq; exact Hpre).
  unfold init_res. rewrite Hne. unfold pbind, set_res, lift. simpl.
  rewrite Hload.
  destruct loaded; try (eexists; reflexivity).
  intros Hkeys Hnodup. eexists. split; [reflexivity |].
  intros k. simpl. apply dict_merge_lookup; assumption.
Qed.

Lemma init_res_precalc_witness :
  exists s0,
    init_res precalc_library precalc_args initial_state = (inr tt, s0)
    /\ forall k,
        dict_lookup (g_res s0) (KStr k)
        = match dict_lookup precalc_items (KStr k) with
          | Some v => Some v
          | None => dict_lookup COLOR_MODELS_TEMPLATES (KStr k)
          end.
Proof.
  apply (init_res_precalc precalc_library precalc_args (VDict precalc_items)
           initial_state).
  - intros H. discriminate H.
  - reflexivity.
  - repeat constructor. exists "hsl". reflexivity.
  - repeat constructor. simpl. tauto.
Defined.

(** ** Serialization errors *)

Lemma mapM_all_or_error {A B : Type} (f : A -> M B) (p : A -> bool)
  (e : exn) (l : list A) :
  Forall (fun x => (p x = true -> exists y, f x = inr y)
                   /\ (p x = false -> f x = inl e)) l ->
  (forallb p l = true -> exists ys, mapM f l = inr ys)
  /\ (forallb p l = false -> mapM f l = inl e).
Proof.
  intros Hall. induction Hall as [| x l [Hok Hbad] Hl [IHok IHbad]]; simpl.
  - split; [eauto | discriminate].
  - destruct (p x); simpl.
    + destruct (Hok eq_refl) as [y ->]. simpl. split; intros H.
      * destruct (IHok H) as [ys ->]. simpl. eauto.
      * rewrite (IHbad H). reflexivity.
    + rewrite (Hbad eq_refl). split; [discriminate | reflexivity].
Qed.

Lemma std_encode_serializable (v : pyval) :
  (serializable v = true -> exists j, std_encode (np_to_py v) = inr j)
  /\ (serializable v = false ->
      std_encode (np_to_py v)
      = inl (TypeError "Object is not JSON serializable")).
Proof.
  induction v as [| | | | | l IH | d IH | | | l IH |] using pyval_nested_ind;
    try (split; [intros _; eexists; reflexivity | discriminate]);
    try (split; [discriminate | reflexivity]);
    cbn [serializable np_to_py std_encode]; rewrite mapM_map.
  - (* list *)
    destruct (mapM_all_or_error (fun x => std_encode (np_to_py x))
                serializable _ l IH) as [Hok Hbad].
    split; intros Hs;
      [destruct (Hok Hs) as [js ->]; simpl; eauto
      | rewrite (Hbad Hs); reflexivity].
  - (* dict *)
    cbn [fst snd].
    destruct (mapM_all_or_error
                (fun kv => j <- std_encode (np_to_py (snd kv)) ;;
                           ret (fst kv, j))
                (fun kv => serializable (snd kv))
                (TypeError "Object is not JSON serializable") d)
      as [Hok Hbad].
    { apply Forall_forall. intros kv Hkv. rewrite Forall_forall in IH.
      destruct (IH kv Hkv) as [Hkvok Hkvbad]. split; intros Hs.
      - destruct (Hkvok Hs) as [j ->]. simpl. eauto.
      - rewrite (Hkvbad Hs). reflexivity. }
    split; intros Hs;
      [destruct (Hok Hs) as [js ->]; simpl; eauto
      | rewrite (Hbad Hs); reflexivity].
  - (* array *)
    destruct (mapM_all_or_error (fun x => std_encode (np_to_py x))
                serializable _ l IH) as [Hok Hbad].
    split; intros Hs;
      [destruct (Hok Hs) as [js ->]; simpl; eauto
      | rewrite (Hbad Hs); reflexivity].
Qed.

(** X17.  [json.dumps] with [NumpyEncoder] returns a document for
    every value built from [None], booleans, numbers, strings, lists,
    dictionaries, NumPy integers, NumPy floats and arrays, however
    these are nested; as soon as any other object occurs in the value,
    also inside an array, it raises the [TypeError] of the standard
    encoder. *)
Theorem json_dumps_serializable :
  forall v : pyval,
    if serializable v
    then exists j, json_dumps v = inr j
    else json_dumps v = inl (TypeError "Object is not JSON serializable").
Proof.
  intros v. rewrite json_dumps_np_to_py.
  destruct (std_encode_serializable v) as [Hok Hbad].
  destruct (serializable v); [exact (Hok eq_refl) | exact (Hbad eq_refl)].
Qed.

(** ** [denormalize] *)

Section Denormalize.
Context {num : Type} `{Arith num}.

Lemma mul_pairwise_length (a factors : list num) :
  List.length a = List.length factors ->
  List.length (mul_pairwise a factors) = List.length a.
Proof.
  revert factors. induction a as [| x a IH]; intros [| f factors] Hlen;
    simpl in *; try discriminate Hlen; [reflexivity |].
  rewrite IH by congruence. reflexivity.
Qed.

Lemma mul_pairwise_nth (a factors : list num) (i : nat) (d e : num) :
  List.length a = List.length factors ->
  (i < List.length a)%nat ->
  nth i (mul_pairwise a factors) d = amul (nth i a d) (nth i factors e).
Proof.
  revert factors i. induction a as [| x a IH]; intros [| f factors] i Hlen Hi;
    simpl in *; try discriminate Hlen; [lia |].
  destruct i as [| i]; [reflexivity |].
  apply IH; [congruence | lia].
Qed.

Lemma np_mul_same_length (a factors : list num) :
  List.length a = List.length factors ->
  np_mul a factors = inr (mul_pairwise a factors).
Proof.
  intros Hlen. unfold np_mul. rewrite Hlen, Nat.eqb_refl. reflexivity.
Qed.

Lemma nth_app_repeat (l : list num) (x d : num) (n i : nat) :
  (i < List.length l + n)%nat ->
  nth i (l ++ repeat x n) d = nth i l x.
Proof.
  intros Hi. destruct (Nat.lt_ge_cases i (List.length l)) as [Hlt | Hge].
  - rewrite app_nth1 by exact Hlt. apply nth_indep. exact Hlt.
  - rewrite app_nth2 by exact Hge.
    rewrite (nth_overflow l x) by exact Hge.
    apply nth_repeat_lt. lia.
Qed.

End Denormalize.

(** X18.  [denormalize(a, *factors)] with no more factors than
    values returns one value per element of [a]: element [i] times
    factor [i], rounded to 3 decimals, where a missing factor is
    replaced by the first factor, and by 1 when no factor is given.
    With more factors than values, and at least two values, the
    multiplication cannot broadcast and raises [ValueError]. *)
Theorem denormalize_elementwise :
  forall (num : Type) (A : Arith num) (a factors : list num),
    ((List.length factors <= List.length a)%nat ->
     exists r,
       denormalize a factors = inr r
       /\ List.length r = List.length a
       /\ forall i d,
           (i < List.length a)%nat ->
           nth i r d
           = np_round 3 (amul (nth i a d)
                              (nth i factors (hd (of_int 1) factors))))
    /\ ((2 <= List.length a < List.length factors)%nat ->
        denormalize a factors
        = inl (ValueError "operands could not be broadcast together")).
Proof.
  intros num A a factors. split.
  - intros Hlen. unfold denormalize.
    set (fs := match factors with [] => [of_int 1] | _ :: _ => factors end).
    destruct a as [| x a].
    + (* no values *)
      destruct factors as [| f factors]; [| simpl in Hlen; lia].
      exists []. simpl. split; [reflexivity |]. split; [reflexivity |].
      intros i d Hi. simpl in Hi. lia.
    + assert (1 <= List.length (x :: a))%nat as Hpos by (simpl; lia).
      remember (x :: a) as a' eqn:Ea'. clear Ea' x a.
      assert (List.length fs <= List.length a')%nat as Hfs.
      { subst fs. destruct factors; simpl in *; lia. }
      assert (hd (of_int 1) fs = hd (of_int 1) factors) as Hhd
        by (subst fs; destruct factors; reflexivity).
      assert (forall i, nth i fs (hd (of_int 1) fs)
                        = nth i factors (hd (of_int 1) factors)) as Hnth.
      { intros i. subst fs. destruct factors as [| f factors]; [| reflexivity].
        destruct i as [| [| i]]; reflexivity. }
      assert (List.length a'
              = List.length
                  (fs ++ repeat (hd (of_int 1) fs)
                                (List.length a' - List.length fs)))
        as Heq.
      { rewrite length_app, repeat_length. lia. }
      rewrite (np_mul_same_length _ _ Heq). unfold bind.
      eexists. split; [reflexivity |].
      split; [rewrite length_map; apply mul_pairwise_length; exact Heq |].
      intros i d Hi.
      rewrite (nth_indep _ d (np_round 3 d))
        by (rewrite length_map, mul_pairwise_length; [exact Hi | exact Heq]).
      rewrite map_nth.
      rewrite (mul_pairwise_nth _ _ i d (hd (of_int 1) fs) Heq Hi).
      rewrite nth_app_repeat by lia.
      rewrite Hnth. reflexivity.
  - intros [Ha Hlt]. unfold denormalize.
    destruct factors as [| f factors]; [simpl in Hlt; lia |].
    assert ((List.length a - List.length (f :: factors))%nat = 0%nat) as ->
      by lia.
    simpl repeat. rewrite app_nil_r. unfold np_mul.
    assert (Nat.eqb (List.length a) (List.length (f :: factors)) = false) as ->
      by (apply Nat.eqb_neq; lia).
    destruct a as [| x [| y a]]; simpl in Ha; try lia.
    destruct factors as [| g factors]; [simpl in Hlt; lia |].
    reflexivity.
Qed.

(** ** The TM-30 report of a spectrum *)


Lemma determine_Spectrum_inv (args : Args) :
  determine_color_model args = Some Spectrum ->
  complete args Spectrum = true
  /\ forall m, In m [CIELAB; CIELCHab; CIELUV; CIELCHuv; CIEXYZ; RGB] ->
               complete args m = false.
Proof.
  unfold determine_color_model, complete.
  destruct (is_not_None (lstar args) && is_not_None (astar args)
            && is_not_None (bstar args)); [discriminate |].
  destruct (is_not_None (lchab_l_val args) && is_not_None (lchab_ch_val args)
            && is_not_None (lchab_ab_val args)); [discriminate |].
  destruct (is_not_None (l_val args) && is_not_None (u_val args)
            && is_not_None (v_val args)); [discriminate |].
  destruct (is_not_None (lchuv_l_val args) && is_not_None (lchuv_ch_val args)
            && is_not_None (lchuv_uv_val args)); [discriminate |].
  destruct (is_not_None (x_val args) && is_not_None (y_val args)
            && is_not_None (z_val args)); [discriminate |].
  destruct (is_not_None (red args) && is_not_None (green args)
            && is_not_None (blue args)); [discriminate |].
  destruct (is_not_None (start args) && is_not_None (stop args)
            && is_not_None (interval args) && is_not_None (data args));
    [| destruct (is_not_None (wave args)); discriminate].
  intros _. split; [reflexivity |].
  intros m Hm. simpl in Hm.
  destruct Hm as [<- | [<- | [<- | [<- | [<- | [<- | []]]]]]]; reflexivity.
Qed.

Lemma conversions_tm30 (lib : Library) (args : Args) (lo hi step : Z)
  (samples : list float) :
  precalc args = "" ->
  start args = Some lo -> stop args = Some hi ->
  interval args = Some step -> data args = Some samples ->
  returns (validate_spectrum_values lo hi step samples) = true ->
  py_truth_str (tm30path args) = true ->
  5 < step ->
  intrpl_intrvl args = None \/ intrpl_intrvl args = Some 0 ->
  fst (conversions lib args Spectrum initial_state)
  = inl (NameError "interpolated_sd").
Proof.
  intros Hpre Hstart Hstop Hstep Hdata Hvalid Htm30 Hgt Hintrpl.
  unfold conversions, init_res. rewrite Hpre. simpl negb. cbv iota.
  unfold model_stage, is_model. simpl ColorModel_eqb. simpl andb. simpl orb.
  cbv iota. rewrite Hstart, Hstop, Hstep, Hdata. simpl is_not_None.
  simpl andb. cbv iota.
  unfold stage_spectrum. rewrite Hstart, Hstop, Hstep, Hdata.
  destruct (validate_spectrum_values lo hi step samples) as [e | v];
    [discriminate Hvalid |].
  rewrite Htm30.
  assert ((step <=? 5) = false) as -> by (apply Z.leb_gt; exact Hgt).
  assert ((5 <? step) = true) as -> by (apply Z.ltb_lt; exact Hgt).
  destruct Hintrpl as [-> | ->]; reflexivity.
Qed.

(** X19.  A spectral input with [--tm30path] and an interval above 5
    needs [--intrpl_intrvl]: without it, or with 0, the report is to be
    drawn from the interpolated distribution, which was not computed,
    and the run ends with an uncaught [NameError] for
    [interpolated_sd], nothing printed. *)
Theorem spectrum_tm30_report_needs_interpolation :
  forall (lib : Library) (parsed : Args) (lo hi step : Z)
         (samples : list float),
    determine_color_model parsed = Some Spectrum ->
    precalc parsed = "" ->
    start parsed = Some lo -> stop parsed = Some hi ->
    interval parsed = Some step -> data parsed = Some samples ->
    returns (validate_spectrum_values lo hi step samples) = true ->
    py_truth_str (tm30path parsed) = true ->
    5 < step ->
    intrpl_intrvl parsed = None \/ intrpl_intrvl parsed = Some 0 ->
    uncaught (main lib parsed) = Some (NameError "interpolated_sd")
    /\ exit_status (main lib parsed) = 1
    /\ stdout (main lib parsed) = [].
Proof.
  intros lib parsed lo hi step samples Hmodel Hpre Hstart Hstop Hstep
    Hdata Hvalid Htm30 Hgt Hintrpl.
  unfold main.
  destruct (parse_arguments_ok parsed Spectrum Hmodel) as [args Hparse].
  rewrite Hparse.
  assert (snd (@parse_arguments json parsed) = inr (args, Spectrum)) as Hsnd
    by (rewrite Hparse; reflexivity).
  destruct (parse_arguments_inr _ _ _ Hsnd) as [_ [p ->]].
  pose proof (conversions_tm30 lib (set_plotpath parsed p) lo hi step
                samples Hpre Hstart Hstop Hstep Hdata Hvalid Htm30 Hgt
                Hintrpl) as Hrun.
  destruct (conversions lib (set_plotpath parsed p) Spectrum initial_state)
    as [r s].
  simpl in Hrun. subst r. auto.
Qed.

Lemma spectrum_tm30_report_needs_interpolation_witness :
  uncaught (main sample_library spectrum_args)
  = Some (NameError "interpolated_sd")
  /\ exit_status (main sample_library spectrum_args) = 1
  /\ stdout (main sample_library spectrum_args) = [].
Proof.
  apply (spectrum_tm30_report_needs_interpolation sample_library
           spectrum_args 380 400 10 [0x1p-1; 0x1p-1; 0x1p-1]%float);
    try reflexivity.
  left. reflexivity.
Defined.

(** ** The [KeyError] of [result] *)

Lemma code_keys_error (cs : list pyval) (e : exn) :
  code_keys cs = inl e -> exists msg, e = TypeError msg.
Proof.
  induction cs as [| c cs IH]; simpl; [discriminate |].
  destruct c;
    try solve [unfold unsupported, raise; intros H; inversion H; eauto].
  destruct (code_keys cs) as [e' | ks]; simpl.
  - intros H; inversion H; subst. apply IH. reflexivity.
  - discriminate.
Qed.

Lemma code_value_error (template : dict) (value : pyval) (e : exn) :
  code_value template value = inl e -> exists msg, e = TypeError msg.
Proof.
  unfold code_value.
  destruct (dict_lookup template (KStr "codes")) as [codes |];
    [| discriminate].
  destruct codes;
    try solve [unfold unsupported, raise; intros H; inversion H; eauto].
  destruct (code_keys l) as [e' | ks] eqn:E; simpl.
  - intros H; inversion H; subst. exact (code_keys_error _ _ E).
  - discriminate.
Qed.

Lemma as_dict_error (v : pyval) (e : exn) :
  as_dict v = inl e -> exists msg, e = TypeError msg.
Proof.
  destruct v; simpl; unfold unsupported, raise; intros H; inversion H; eauto.
Qed.

Lemma store_under_error (d : dict) (k : pykey) (cat : option ctxarg)
  (value : pyval) (e : exn) :
  key_eqb k k = true ->
  store_under (setdefault_empty d k) k cat value = inl e ->
  exists msg, e = TypeError msg.
Proof.
  intros Hrefl. unfold store_under. destruct cat as [c |]; [| discriminate].
  destruct (setdefault_empty_lookup d k Hrefl) as [v [-> _]].
  destruct (as_dict v) as [e' | inner] eqn:E; simpl.
  - intros H; inversion H; subst. exact (as_dict_error _ _ E).
  - discriminate.
Qed.

(** What [result] raises: the [KeyError] of a model that [res] does
    not hold, or a [TypeError]. *)
Lemma result_error (res : dict) (model : string) (value : pyval)
  (illuminant observer : ctxarg) (cat : option ctxarg)
  (use_space_separated nosci : bool) (e : exn) :
    result res model value illuminant observer cat use_space_separated nosci
    = inl e ->
    (e = KeyError model /\ dict_lookup res (KStr model) = None
     /\ use_space_separated = false)
    \/ exists msg, e = TypeError msg.
Proof.
  rename use_space_separated into sp.
  unfold result. destruct sp; simpl;
    [intros H; inversion H; right; eauto |].
  unfold dict_getitem.
  destruct (dict_lookup res (KStr model)) as [entry |] eqn:Hlookup; simpl.
  2:{ intros H; inversion H. left. auto. }
  intros H. right.
  destruct (as_dict entry) as [e' | template] eqn:Et; simpl in H.
  { inversion H; subst. exact (as_dict_error _ _ Et). }
  destruct (code_value template value) as [e' | stored] eqn:Ec; simpl in H.
  { inversion H; subst. exact (code_value_error _ _ _ Ec). }
  rewrite (ensure_model_present res model _ Hlookup), Hlookup in H.
  simpl in H. rewrite Et in H. simpl in H.
  destruct (truthy observer).
  - destruct (setdefault_empty_lookup template (key_of observer)
                (key_eqb_refl_key_of observer)) as [o [Ho _]].
    rewrite Ho in H.
    destruct (as_dict o) as [e' | od] eqn:Eo; simpl in H.
    { inversion H; subst. exact (as_dict_error _ _ Eo). }
    destruct (store_under (setdefault_empty od (key_of illuminant))
                (key_of illuminant) cat stored) as [e' | od'] eqn:Es;
      simpl in H; [| discriminate H].
    inversion H; subst.
    exact (store_under_error _ _ _ _ _ (key_eqb_refl_key_of illuminant) Es).
  - destruct (truthy illuminant); [| discriminate H].
    destruct (store_under (setdefault_empty template (key_of illuminant))
                (key_of illuminant) cat stored) as [e' | m'] eqn:Es;
      simpl in H; [| discriminate H].
    inversion H; subst.
    exact (store_under_error _ _ _ _ _ (key_eqb_refl_key_of illuminant) Es).
Qed.

(** X20.  The only [KeyError] [result] raises is the one for a model
    that [res] does not hold: a call that raises [KeyError] was given a
    model that is missing from [res], and the error names that
    model. *)
Theorem result_KeyError_only_missing_model :
  forall (res : dict) (model : string) (value : pyval)
         (illuminant observer : ctxarg) (cat : option ctxarg)
         (use_space_separated nosci : bool) (k : string),
    result res model value illuminant observer cat use_space_separated nosci
    = inl (KeyError k) ->
    k = model /\ dict_lookup res (KStr model) = None.
Proof.
  intros res model value illuminant observer cat sp nosci k Hres.
  destruct (result_error _ _ _ _ _ _ _ _ _ Hres) as [[Hk [Hnone _]] | [msg Hm]].
  - inversion Hk. auto.
  - discriminate Hm.
Qed.

Lemma result_KeyError_only_missing_model_witness :
  "rgb" = "rgb" /\ dict_lookup [] (KStr "rgb") = None.
Proof.
  apply (result_KeyError_only_missing_model [] "rgb" (VFloat 0) AFalse AFalse
           None false false "rgb").
  reflexivity.
Defined.

Lemma dict_lookup_keys (d d' : dict) (k : pykey) :
  map fst d = map fst d' ->
  dict_lookup d k = None -> dict_lookup d' k = None.
Proof.
  revert d'. induction d as [| [k1 v1] d IH]; intros [| [k2 v2] d'] Hkeys;
    simpl in *; try discriminate Hkeys; [reflexivity |].
  inversion Hkeys; subst.
  destruct (key_eqb k k2); [discriminate |].
  apply IH. assumption.
Qed.

Lemma literal_result_keys_templates :
  forallb (fun key => dict_mem COLOR_MODELS_TEMPLATES (KStr key))
          literal_result_keys = true.
Proof. vm_compute. reflexivity. Qed.

(** X21.  Every key the script passes to [result] as a literal has a
    template: as long as [res] has the models of
    [COLOR_MODELS_TEMPLATES], as it has in a run without precalculated
    items, no call of [result] with one of these keys raises
    [KeyError]. *)
Theorem result_literal_key_no_KeyError :
  forall (res : dict) (key : string) (value : pyval)
         (illuminant observer : ctxarg) (cat : option ctxarg)
         (use_space_separated nosci : bool) (k : string),
    map fst res = map fst COLOR_MODELS_TEMPLATES ->
    In key literal_result_keys ->
    result res key value illuminant observer cat use_space_separated nosci
    <> inl (KeyError k).
Proof.
  intros res key value illuminant observer cat sp nosci k Hkeys Hkey Hres.
  destruct (result_error _ _ _ _ _ _ _ _ _ Hres) as [[_ [Hnone _]] | [msg Hm]];
    [| discriminate Hm].
  apply (dict_lookup_keys _ _ _ Hkeys) in Hnone.
  pose proof literal_result_keys_templates as Hall.
  rewrite forallb_forall in Hall. specialize (Hall key Hkey).
  unfold dict_mem in Hall. rewrite Hnone in Hall. discriminate Hall.
Qed.

Lemma result_literal_key_no_KeyError_witness :
  result COLOR_MODELS_TEMPLATES "hsl" (VStr "hsl(0deg 100% 50%);")
         (AStr "D65") AFalse None false false
  <> inl (KeyError "hsl").
Proof.
  apply result_literal_key_no_KeyError.
  - reflexivity.
  - vm_compute. tauto.
Defined.

(** ** The transforms and the results of a pair *)

(** X22.  [--cat] stores the list of transforms it is given, and
    [None] for the single word "None".  With RGB input, neither
    [--cat None] nor [--cat] without a transform can lead to status 0:
    the loops over the transforms need a list with an element. *)
Theorem cat_None_or_empty_fails :
  forall (lib : Library) (parsed : Args) (values : list string),
    cat parsed = SetToNone values ->
    determine_color_model parsed = Some RGB ->
    values = ["None"] \/ values = [] ->
    exit_status (main lib parsed) <> 0.
Proof.
  intros lib parsed values Hcat Hrgb Hvalues Hexit.
  destruct (main_exit_0 lib parsed Hexit)
    as [model [p [s [dumped [Hmodel [Hrun _]]]]]].
  rewrite Hrgb in Hmodel. inversion Hmodel; subst model.
  destruct (conversions_returns_only _ _ _ _ Hrun) as [_ [[c [cats Hc]] _]].
  simpl in Hc. rewrite Hcat in Hc.
  destruct Hvalues as [-> | ->]; discriminate Hc.
Qed.

Lemma cat_None_or_empty_fails_witness :
  exit_status (main sample_library (rgb_cat_args ["None"])) <> 0.
Proof.
  apply (cat_None_or_empty_fails sample_library (rgb_cat_args ["None"])
           ["None"]).
  - reflexivity.
  - reflexivity.
  - left. reflexivity.
Defined.

Section PairResults.
Variable lib : Library.

Lemma call_result_logged (key : string) (value : pyval)
  (illuminant observer : ctxarg) (cat : option ctxarg) (nosci : bool)
  (s s' : pstate) :
  call_result key value illuminant observer cat nosci s = (inr tt, s') ->
  In {| c_model := key; c_illuminant := illuminant;
        c_observer := observer; c_cat := cat |} (g_calls s').
Proof.
  unfold call_result.
  destruct (result (g_res s) key value illuminant observer cat false nosci);
    intros H; inversion H; subst; simpl.
  apply in_or_app. right. left. reflexivity.
Qed.

Lemma css_results_calls (observer illuminant : string)
  (cat : option ctxarg) (kc : string * bool) :
  respects calls_grow
    (if snd kc
     then result_of lib (fst kc) (AStr illuminant) (AStr observer) cat
     else result_of lib (fst kc) AFalse AFalse None).
Proof. destruct (snd kc); apply result_of_calls. Qed.

Lemma convert_to_css_results (observer illuminant : string)
  (cat : option ctxarg) (s s' : pstate) (kc : string * bool) :
  convert_to_css lib (AStr illuminant) (AStr observer) cat s = (inr tt, s') ->
  In kc css_result_keys ->
  In (pair_call observer illuminant cat kc) (g_calls s').
Proof.
  unfold convert_to_css. intros Hrun Hkc.
  do 3 (apply pbind_inr in Hrun; destruct Hrun as [? [? [_ Hrun]]]).
  destruct (for_each_inr_In calls_grow calls_grow_refl calls_grow_trans
              css_result_keys _ kc
              (css_results_calls observer illuminant cat) Hkc _ _ Hrun)
    as [s1 [s2 [_ [Hcall Hgrow]]]].
  apply (calls_grow_In _ _ _ Hgrow).
  unfold pair_call. destruct (snd kc);
    exact (result_of_logged _ _ _ _ _ _ _ Hcall).
Qed.

Lemma xyz_results (observer illuminant : string) (cat : option ctxarg)
  (w : pyval) (s s' : pstate) (kc : string * bool) :
  for_each xyz_result_keys
    (fun kc =>
       if String.eqb (fst kc) "wavelength"
       then call_result "wavelength" w AFalse AFalse None false
       else if snd kc
       then result_of lib (fst kc) (AStr illuminant) (AStr observer) cat
       else result_of lib (fst kc) AFalse AFalse None) s = (inr tt, s') ->
  In kc xyz_result_keys ->
  In (pair_call observer illuminant cat kc) (g_calls s').
Proof.
  intros Hrun Hkc.
  destruct (for_each_inr_In calls_grow calls_grow_refl calls_grow_trans
              xyz_result_keys _ kc
              (xyz_results_calls lib observer illuminant cat w) Hkc _ _ Hrun)
    as [s1 [s2 [_ [Hcall Hgrow]]]].
  apply (calls_grow_In _ _ _ Hgrow).
  cbv beta in Hcall. unfold pair_call.
  destruct (String.eqb_spec (fst kc) "wavelength") as [Hw | Hw].
  - assert (snd kc = false) as ->.
    { revert Hw. clear - Hkc. unfold xyz_result_keys in Hkc. simpl in Hkc.
      repeat (destruct Hkc as [<- | Hkc];
              [simpl; first [reflexivity | intros Hw; discriminate Hw] |]).
      destruct Hkc. }
    rewrite Hw. exact (call_result_logged _ _ _ _ _ _ _ _ Hcall).
  - destruct (snd kc); exact (result_of_logged _ _ _ _ _ _ _ Hcall).
Qed.

End PairResults.

(** A call of [convert_with_xyz] that returns on a pair the library
    has the data for has called [result] for all the keys, under the
    last element of the list of transforms it iterates. *)
Lemma convert_with_xyz_pair_results :
  forall (lib : Library) (args : Args) (model : ColorModel)
         (observer illuminant : string) (s s' : pstate),
    has_illuminant_data lib model observer illuminant = true ->
    convert_with_xyz lib args model observer illuminant s = (inr tt, s') ->
    exists transform rest,
      rev (iterated_cats args model) = transform :: rest
      /\ forall kc,
          In kc (xyz_result_keys ++ css_result_keys) ->
          In (pair_call observer illuminant transform kc) (g_calls s').
Proof.
  intros lib args model observer illuminant s s'.
  unfold has_illuminant_data, convert_with_xyz, is_model.
  intros Hdata Hrun. apply andb_true_iff in Hdata.
  destruct Hdata as [Hsds Hccs].
  destruct (dict_get (CCS_ILLUMINANTS lib) observer) as [ccs |];
    [| discriminate].
  rewrite Hccs in Hrun.
  replace (ColorModel_eqb model Spectrum
           && negb (str_in illuminant (SDS_ILLUMINANTS lib)))
    with false in Hrun
    by (destruct (ColorModel_eqb model Spectrum),
          (str_in illuminant (SDS_ILLUMINANTS lib)); simpl in *; congruence).
  simpl negb in Hrun. cbv iota in Hrun.
  do 6 (apply pbind_inr in Hrun; destruct Hrun as [? [? [_ Hrun]]]).
  apply pbind_inr in Hrun. destruct Hrun as [cats [? [Hcats Hrun]]].
  apply xyz_cats_inr in Hcats. destruct Hcats as [-> _].
  do 8 (apply pbind_inr in Hrun; destruct Hrun as [? [? [_ Hrun]]]).
  apply pbind_inr in Hrun. destruct Hrun as [t [? [Ht Hrun]]].
  destruct (rev (iterated_cats args model)) as [| t' rest] eqn:Hrev;
    [discriminate Ht |].
  assert (t' = t) as -> by (inversion Ht; reflexivity).
  clear Ht.
  exists t, rest. split; [reflexivity |].
  do 4 (apply pbind_inr in Hrun; destruct Hrun as [? [? [_ Hrun]]]).
  apply pbind_inr in Hrun. destruct Hrun as [[] [s_css [Hcss Hrun]]].
  apply pbind_inr in Hrun. destruct Hrun as [w [s_w [Hw Hrun]]].
  assert (s_w = s_css) as ->.
  { revert Hw. unfold wavelen, is_model.
    destruct (ColorModel_eqb model Wavelength).
    - intros Hw. apply pbind_inr in Hw. destruct Hw as [[] [s1 [Hn Hw]]].
      apply need_inr in Hn. subst s1.
      destruct (wave args); inversion Hw; reflexivity.
    - intros Hw; inversion Hw; reflexivity. }
  apply pbind_inr in Hrun. destruct Hrun as [[] [s_results [Hresults Hrest]]].
  assert (calls_grow s_results s') as Hgrow.
  { match type of Hrest with
    | ?c s_results = _ =>
        assert (respects calls_grow c) as Hc
          by (destruct (negb (ColorModel_eqb model RGB));
              [apply (respects_for_each _ calls_grow_refl calls_grow_trans);
               intros ?; apply convert_xyz_to_rgb_calls
              | apply (respects_pret _ calls_grow_refl)]);
        pose proof (Hc s_results) as Hc'; rewrite Hrest in Hc'; exact Hc'
    end. }
  assert (calls_grow s_css s_results) as Hgrow'.
  { match type of Hresults with
    | ?c s_css = _ =>
        assert (respects calls_grow c) as Hc
          by (apply (respects_for_each _ calls_grow_refl calls_grow_trans);
              intros ?; apply xyz_results_calls);
        pose proof (Hc s_css) as Hc'; rewrite Hresults in Hc'; exact Hc'
    end. }
  intros kc Hkc. apply in_app_or in Hkc. destruct Hkc as [Hkc | Hkc].
  - apply (calls_grow_In _ _ _ Hgrow).
    exact (xyz_results lib observer illuminant t w _ _ kc Hresults Hkc).
  - apply (calls_grow_In _ _ _ Hgrow), (calls_grow_In _ _ _ Hgrow').
    exact (convert_to_css_results lib observer illuminant t _ _ kc Hcss Hkc).
Qed.

(** X23.  A call of [convert_with_xyz] that returns, on a pair the
    library has the data for, has called [result] for every key of
    [xyz_result_keys] and of [css_result_keys], all under one and the
    same transform of the list it iterates: a pair has all of its
    results or the call has raised. *)
Theorem convert_with_xyz_results_complete :
  forall (lib : Library) (args : Args) (model : ColorModel)
         (observer illuminant : string) (s s' : pstate),
    has_illuminant_data lib model observer illuminant = true ->
    convert_with_xyz lib args model observer illuminant s = (inr tt, s') ->
    exists transform,
      In transform (iterated_cats args model)
      /\ forall kc,
          In kc (xyz_result_keys ++ css_result_keys) ->
          In (pair_call observer illuminant transform kc) (g_calls s').
Proof.
  intros lib args model observer illuminant s s' Hdata Hrun.
  destruct (convert_with_xyz_pair_results lib args model observer illuminant
              s s' Hdata Hrun) as [transform [rest [Hrev Hall]]].
  exists transform. split; [| exact Hall].
  apply in_rev. rewrite Hrev. left. reflexivity.
Qed.

Lemma sample_convert_with_xyz_returns :
  convert_with_xyz sample_library sample_args RGB observer_2 "D65"
                   decoded_state
  = (inr tt,
     snd (convert_with_xyz sample_library sample_args RGB observer_2 "D65"
                           decoded_state)).
Proof.
  refine (pair_of_fst
            (convert_with_xyz sample_library sample_args RGB observer_2 "D65"
                              decoded_state)
            (inr tt) _).
  vm_compute. reflexivity.
Qed.

Lemma convert_with_xyz_results_complete_witness :
  exists transform,
    In transform (iterated_cats sample_args RGB)
    /\ forall kc,
        In kc (xyz_result_keys ++ css_result_keys) ->
        In (pair_call observer_2 "D65" transform kc)
           (g_calls (snd (convert_with_xyz sample_library sample_args RGB
                                           observer_2 "D65" decoded_state))).
Proof.
  apply (convert_with_xyz_results_complete sample_library sample_args RGB
           observer_2 "D65" decoded_state).
  - reflexivity.
  - exact sample_convert_with_xyz_returns.
Defined.

(** ** The stages of the input models *)

(** A run whose model is determined ends with status 0 or with an
    uncaught exception; in the latter case nothing is printed. *)
Lemma main_not_0 (lib : Library) (parsed : Args) (model : ColorModel) :
  determine_color_model parsed = Some model ->
  exit_status (main lib parsed) <> 0 ->
  exit_status (main lib parsed) = 1
  /\ stdout (main lib parsed) = []
  /\ exists e, uncaught (main lib parsed) = Some e.
Proof.
  intros Hmodel. unfold main.
  destruct (parse_arguments_ok parsed model Hmodel) as [args ->].
  destruct (conversions lib args model initial_state) as [[e | []] s];
    [simpl; eauto |].
  destruct (json_dumps (VDict (g_res s))) as [e | dumped]; simpl; [eauto |].
  intros H. exfalso. apply H. reflexivity.
Qed.

(** X24.  The message for an unknown input colour space is never
    printed.  With RGB input and an [--input_colorspace] that is not a
    key of [RGB_COLOURSPACES], the program replaces [res] by
    [{"error": "RGB color space lookup failure"}] and goes on to the
    conversions, which need [linear_rgb]: the run ends with an uncaught
    exception, status 1 and nothing on standard output. *)
Theorem rgb_lookup_failure_not_reported :
  forall (lib : Library) (parsed : Args),
    determine_color_model parsed = Some RGB ->
    str_in (input_colorspace parsed) (RGB_COLOURSPACES lib) = false ->
    exit_status (main lib parsed) = 1
    /\ stdout (main lib parsed) = []
    /\ exists e, uncaught (main lib parsed) = Some e.
Proof.
  intros lib parsed Hrgb Hcs.
  apply (main_not_0 lib parsed RGB Hrgb). intros Hexit.
  destruct (main_exit_0 lib parsed Hexit)
    as [model [p [s [dumped [Hmodel [Hrun _]]]]]].
  rewrite Hrgb in Hmodel. inversion Hmodel; subst model.
  destruct (conversions_returns_only _ _ _ _ Hrun) as [Hknown _].
  simpl in Hknown. rewrite Hcs in Hknown. discriminate Hknown.
Qed.

Lemma rgb_lookup_failure_not_reported_witness :
  exit_status (main sample_library unknown_space_args) = 1
  /\ stdout (main sample_library unknown_space_args) = []
  /\ exists e, uncaught (main sample_library unknown_space_args) = Some e.
Proof.
  apply (rgb_lookup_failure_not_reported sample_library unknown_space_args);
    reflexivity.
Defined.

Lemma for_each_calls_made {A : Type} (g : A -> list call)
  (body : A -> P unit) (l : list A) :
  (forall x s s', body x s = (inr tt, s') ->
                  g_calls s' = (g_calls s ++ g x)%list) ->
  forall s s',
    for_each l body s = (inr tt, s') ->
    g_calls s' = (g_calls s ++ flat_map g l)%list.
Proof.
  intros Hbody. induction l as [| x l IH]; intros s s' Hrun.
  - inversion Hrun. simpl. rewrite app_nil_r. reflexivity.
  - simpl in Hrun. apply pbind_inr in Hrun.
    destruct Hrun as [[] [s1 [Hx Hrest]]].
    rewrite (IH _ _ Hrest), (Hbody _ _ _ Hx). simpl.
    rewrite app_assoc. reflexivity.
Qed.

Lemma three_floats_inr (a b c : option float) (v : float * float * float)
  (s s' : pstate) :
  three_floats a b c s = (inr v, s') -> s' = s.
Proof.
  unfold three_floats. destruct a, b, c; intros H; inversion H; reflexivity.
Qed.

Lemma lift_inr {A : Type} (c : M A) (a : A) (s s' : pstate) :
  lift c s = (inr a, s') -> s' = s.
Proof. intros H; inversion H; reflexivity. Qed.

Lemma assign_inr (names : list string) (s s' : pstate) (u : unit) :
  assign names s = (inr u, s') -> g_calls s' = g_calls s.
Proof. intros H; inversion H; reflexivity. Qed.

(** X25.  The branch of the main program for RGB input, when it
    returns for a known input colour space, has called [result] for the
    colour spaces of the library in the order of [RGB_COLOURSPACES], and
    for each of them as [convert_rgb_to_rgb] does: no call for an alias,
    one without transform for a colour space with the white point of the
    input colour space, one per configured transform for any other. *)
Theorem stage_rgb_fan_out :
  forall (lib : Library) (args : Args) (cats : list string)
         (s s' : pstate),
    cat args = Some cats ->
    str_in (input_colorspace args) (RGB_COLOURSPACES lib) = true ->
    model_stage lib args RGB s = (inr tt, s') ->
    g_calls s'
    = (g_calls s
       ++ flat_map (fun colorspaceid =>
                      rgb_to_rgb_calls lib args colorspaceid cats)
                   (RGB_COLOURSPACES lib))%list.
Proof.
  intros lib args cats s s' Hcats Hcs.
  unfold model_stage, is_model. simpl ColorModel_eqb. cbv iota.
  unfold stage_rgb. rewrite Hcs. intros Hrun.
  apply pbind_inr in Hrun. destruct Hrun as [[[r g] b] [s1 [H1 Hrun]]].
  apply three_floats_inr in H1. subst s1.
  apply pbind_inr in Hrun. destruct Hrun as [v [s1 [H1 Hrun]]].
  apply lift_inr in H1. subst s1.
  apply pbind_inr in Hrun. destruct Hrun as [[] [s1 [H1 Hrun]]].
  apply assign_inr in H1.
  apply pbind_inr in Hrun. destruct Hrun as [[] [s2 [H2 Hrun]]].
  apply assign_inr in H2.
  rewrite (for_each_calls_made
             (fun colorspaceid => rgb_to_rgb_calls lib args colorspaceid cats)
             _ _
             (fun x sa sb => convert_rgb_to_rgb_calls_made lib args x cats
                               sa sb Hcats)
             _ _ Hrun).
  rewrite H2, H1. reflexivity.
Qed.

Lemma sample_stage_rgb_returns :
  model_stage sample_library sample_args RGB
              (snd (init_res sample_library sample_args initial_state))
  = (inr tt, sample_before_loop).
Proof.
  refine (pair_of_fst
            (model_stage sample_library sample_args RGB
               (snd (init_res sample_library sample_args initial_state)))
            (inr tt) _).
  vm_compute. reflexivity.
Qed.

Lemma stage_rgb_fan_out_witness :
  g_calls sample_before_loop
  = (g_calls (snd (init_res sample_library sample_args initial_state))
     ++ flat_map (fun colorspaceid =>
                    rgb_to_rgb_calls sample_library sample_args colorspaceid
                                     CHROMATIC_ADAPTATION_TRANSFORMS)
                 (RGB_COLOURSPACES sample_library))%list.
Proof.
  apply (stage_rgb_fan_out sample_library sample_args
           CHROMATIC_ADAPTATION_TRANSFORMS
           (snd (init_res sample_library sample_args initial_state))
           sample_before_loop).
  - reflexivity.
  - reflexivity.
  - exact sample_stage_rgb_returns.
Defined.

Lemma match_Emissive {A : Type} (sp : option string) (x y : A) :
  match sp with
  | Some "Emissive" => x
  | _ => y
  end
  = if match sp with
       | Some t => String.eqb t "Emissive"
       | None => false
       end
    then x else y.
Proof.
  destruct sp as [t |]; [| reflexivity].
  do 8 (destruct t as [| [[] [] [] [] [] [] [] []] t]; try reflexivity).
  destruct t; reflexivity.
Qed.

Lemma result_of_plain_call (lib : Library) (key : string) (s s' : pstate)
  (r : M unit) :
  result_of lib key AFalse AFalse None s = (r, s') ->
  g_calls s' = (g_calls s ++ [plain_call key])%list.
Proof. apply result_of_call. Qed.

(** X26.  The branch of the main program for a spectrum stores
    results only for [--spectype Emissive].  When it returns, it has
    then called [result], in this order, for "cfi" if the interval is at
    most 5, for "cqs", "cri", "lum_efficacy", "lum_efficiency" and
    "lum_flux", and for "ssi" once with each illuminant of
    [CIE_ILLUMINANTS_LIST]; for any other spectrum type, or none, it
    has called [result] not at all. *)
Theorem stage_spectrum_emissive_results :
  forall (lib : Library) (args : Args) (step : Z) (s s' : pstate),
    complete args Spectrum = true ->
    interval args = Some step ->
    model_stage lib args Spectrum s = (inr tt, s') ->
    g_calls s'
    = (g_calls s
       ++ if match spectype args with
             | Some t => String.eqb t "Emissive"
             | None => false
             end
          then emissive_calls step
          else [])%list.
Proof.
  intros lib args step s s' Hcomplete Hstep.
  unfold model_stage, is_model. cbn [ColorModel_eqb andb orb].
  unfold complete in Hcomplete. rewrite Hcomplete.
  unfold stage_spectrum. rewrite Hstep.
  rewrite Hstep in Hcomplete.
  destruct (start args) as [lo |]; [| discriminate Hcomplete].
  destruct (stop args) as [hi |]; [| discriminate Hcomplete].
  destruct (data args) as [samples |]; [| discriminate Hcomplete].
  rewrite match_Emissive. intros Hrun.
  apply pbind_inr in Hrun. destruct Hrun as [v [s1 [H1 Hrun]]].
  apply lift_inr in H1. subst s1.
  apply pbind_inr in Hrun. destruct Hrun as [[] [s1 [H1 Hrun]]].
  apply assign_inr in H1.
  apply pbind_inr in Hrun. destruct Hrun as [[] [s2 [H2 Hrun]]].
  assert (g_calls s2 = g_calls s1) as H2'.
  { revert H2. destruct (intrpl_intrvl args) as [i |];
      [destruct (negb (i =? 0)) |]; intros H2; inversion H2; reflexivity. }
  clear H2.
  apply pbind_inr in Hrun. destruct Hrun as [[] [s3 [H3 Hrun]]].
  assert (s3 = s2) as ->.
  { revert H3.
    destruct (py_truth_str (tm30path args) && (step <=? 5));
      [intros H3; inversion H3; reflexivity |].
    destruct (py_truth_str (tm30path args) && (5 <? step));
      [apply need_inr | intros H3; inversion H3; reflexivity]. }
  clear H3.
  apply pbind_inr in Hrun. destruct Hrun as [[] [s4 [H4 Hrun]]].
  assert (s4 = s2) as ->.
  { revert H4. destruct (py_truth_str (plotpath args));
      [| intros H4; inversion H4; reflexivity].
    intros H4. apply pbind_inr in H4. destruct H4 as [[] [sa [Ha Hb]]].
    apply lib_item_inr in Ha. apply lib_item_inr in Hb. congruence. }
  clear H4. rewrite <- H1, <- H2'.
  destruct (match spectype args with
            | Some t => String.eqb t "Emissive"
            | None => false
            end).
  2:{ inversion Hrun. rewrite app_nil_r. reflexivity. }
  unfold emissive_calls.
  apply pbind_inr in Hrun. destruct Hrun as [[] [s5 [H5 Hrun]]].
  assert (g_calls s5
          = (g_calls s2 ++ if step <=? 5 then [plain_call "cfi"] else [])%list)
    as H5'.
  { revert H5. destruct (step <=? 5).
    - apply result_of_plain_call.
    - intros H5; inversion H5. rewrite app_nil_r. reflexivity. }
  clear H5.
  apply pbind_inr in Hrun. destruct Hrun as [[] [s6 [H6 Hrun]]].
  apply result_of_plain_call in H6.
  apply pbind_inr in Hrun. destruct Hrun as [[] [s7 [H7 Hrun]]].
  apply result_of_plain_call in H7.
  apply pbind_inr in Hrun. destruct Hrun as [[] [s8 [H8 Hrun]]].
  apply result_of_plain_call in H8.
  apply pbind_inr in Hrun. destruct Hrun as [[] [s9 [H9 Hrun]]].
  apply result_of_plain_call in H9.
  apply pbind_inr in Hrun. destruct Hrun as [[] [s10 [H10 Hrun]]].
  apply result_of_plain_call in H10.
  assert (g_calls s'
          = (g_calls s10
             ++ flat_map
                  (fun illuminant =>
                     [{| c_model := "ssi"; c_illuminant := AStr illuminant;
                         c_observer := AFalse; c_cat := None |}])
                  CIE_ILLUMINANTS_LIST)%list) as Hssi.
  { refine (for_each_calls_made _ _ _ _ _ _ Hrun).
    intros x sa sb Hx.
    apply pbind_inr in Hx. destruct Hx as [[] [sc [Hc Hx]]].
    apply lib_item_inr in Hc. subst sc.
    exact (result_of_call _ _ _ _ _ _ _ _ Hx). }
  rewrite Hssi, H10, H9, H8, H7, H6, H5'.
  rewrite <- !app_assoc. reflexivity.
Qed.

Lemma emissive_stage_returns :
  model_stage emissive_library emissive_args Spectrum
              (snd (init_res emissive_library emissive_args initial_state))
  = (inr tt,
     snd (model_stage emissive_library emissive_args Spectrum
            (snd (init_res emissive_library emissive_args initial_state)))).
Proof.
  refine (pair_of_fst
            (model_stage emissive_library emissive_args Spectrum
               (snd (init_res emissive_library emissive_args initial_state)))
            (inr tt) _).
  vm_compute. reflexivity.
Qed.

Lemma stage_spectrum_emissive_results_witness :
  g_calls (snd (model_stage emissive_library emissive_args Spectrum
                  (snd (init_res emissive_library emissive_args
                                 initial_state))))
  = (g_calls (snd (init_res emissive_library emissive_args initial_state))
     ++ if match spectype emissive_args with
           | Some t => String.eqb t "Emissive"
           | None => false
           end
        then emissive_calls 10
        else [])%list.
Proof.
  apply (stage_spectrum_emissive_results emissive_library emissive_args 10
           (snd (init_res emissive_library emissive_args initial_state))).
  - reflexivity.
  - reflexivity.
  - exact emissive_stage_returns.
Defined.

(** ** From XYZ to the RGB colour spaces *)

(** X27.  [convert_xyz_to_rgb] stores nothing for an alias, nor for a
    colour space whose template names an illuminant other than "all"
    and other than the illuminant of the pair.  For any other colour
    space, when it returns, it has called [result] once for the colour
    space, with the pair and the transform, and then once for each of
    the 14 keys of [convert_rgb_no_xyz], with the illuminant only. *)
Theorem convert_xyz_to_rgb_calls_made :
  forall (lib : Library) (colorspaceid observer illuminant : string)
         (cat : option ctxarg) (s s' : pstate),
    convert_xyz_to_rgb lib colorspaceid observer illuminant cat s
    = (inr tt, s') ->
    if passed_over (g_res s) colorspaceid illuminant
    then s' = s
    else g_calls s'
         = (g_calls s
            ++ xyz_to_rgb_calls colorspaceid observer illuminant cat)%list.
Proof.
  intros lib colorspaceid observer illuminant cat s s'.
  unfold convert_xyz_to_rgb, passed_over.
  destruct (str_in colorspaceid COLOR_MODELS_ALIASES); simpl orb.
  { intros H; inversion H. reflexivity. }
  intros Hrun.
  apply pbind_inr in Hrun. destruct Hrun as [res [s1 [H1 Hrun]]].
  assert (res = g_res s /\ s1 = s) as [-> ->]
    by (inversion H1; auto).
  clear H1.
  apply pbind_inr in Hrun. destruct Hrun as [entry [s1 [H1 Hrun]]].
  pose proof (lift_inr _ _ _ _ H1) as ->.
  assert (dict_getitem (g_res s) colorspaceid = inr entry) as Hentry
    by (inversion H1; reflexivity).
  clear H1.
  apply pbind_inr in Hrun. destruct Hrun as [template [s1 [H1 Hrun]]].
  pose proof (lift_inr _ _ _ _ H1) as ->.
  assert (as_dict entry = inr template) as Htemplate
    by (inversion H1; reflexivity).
  clear H1. apply as_dict_inr in Htemplate. subst entry.
  apply pbind_inr in Hrun. destruct Hrun as [ill [s1 [H1 Hrun]]].
  pose proof (lift_inr _ _ _ _ H1) as ->.
  assert (dict_getitem template "illuminant" = inr ill) as Hill
    by (inversion H1; reflexivity).
  clear H1.
  unfold dict_getitem in Hentry, Hill.
  cbn [lookup_path].
  destruct (dict_lookup (g_res s) (KStr colorspaceid)) as [e |];
    [| discriminate Hentry].
  inversion Hentry; subst e.
  destruct (dict_lookup template (KStr "illuminant")) as [i |];
    [| discriminate Hill].
  inversion Hill; subst i.
  destruct (negb (pyval_is_str ill "all")
            && negb (pyval_is_str ill illuminant)).
  { inversion Hrun. reflexivity. }
  apply pbind_inr in Hrun. destruct Hrun as [[] [s1 [H1 Hrun]]].
  apply lib_item_inr in H1. subst s1.
  do 4 (apply pbind_inr in Hrun; destruct Hrun as [[] [s1 [H1 Hrun]]];
        apply need_inr in H1; subst s1).
  apply pbind_inr in Hrun. destruct Hrun as [[] [s1 [H1 Hrun]]].
  apply result_of_call in H1.
  unfold convert_rgb_no_xyz in Hrun.
  rewrite (for_each_calls_made
             (fun key => [{| c_model := key; c_illuminant := AStr illuminant;
                             c_observer := AFalse; c_cat := None |}])
             _ _
             (fun key sa sb H => result_of_call lib key _ _ _ sa sb _ H)
             _ _ Hrun).
  rewrite H1. unfold xyz_to_rgb_calls. rewrite <- app_assoc. reflexivity.
Qed.


Lemma sample_convert_xyz_to_rgb_returns :
  convert_xyz_to_rgb sample_library "sRGB" observer_2 "D65" None
                     computed_state
  = (inr tt,
     snd (convert_xyz_to_rgb sample_library "sRGB" observer_2 "D65" None
                             computed_state)).
Proof.
  refine (pair_of_fst
            (convert_xyz_to_rgb sample_library "sRGB" observer_2 "D65" None
                                computed_state)
            (inr tt) _).
  vm_compute. reflexivity.
Qed.

Lemma convert_xyz_to_rgb_calls_made_witness :
  g_calls (snd (convert_xyz_to_rgb sample_library "sRGB" observer_2 "D65"
                                   None computed_state))
  = (g_calls computed_state
     ++ xyz_to_rgb_calls "sRGB" observer_2 "D65" None)%list.
Proof.
  exact (convert_xyz_to_rgb_calls_made sample_library "sRGB" observer_2 "D65"
           None computed_state _ sample_convert_xyz_to_rgb_returns).
Defined.

(** ** The results of a run on RGB input *)



(** ** Where the main loop stops *)

Lemma for_each_app {A : Type} (l1 l2 : list A) (body : A -> P unit)
  (s : pstate) :
  for_each (l1 ++ l2) body s = (for_each l1 body ;;> for_each l2 body) s.
Proof.
  revert s. induction l1 as [| x l1 IH]; intros s; simpl.
  - reflexivity.
  - unfold pbind in *. destruct (body x s) as [[e | []] s1];
      [reflexivity | apply IH].
Qed.

Lemma for_each_map {A B : Type} (f : A -> B) (l : list A)
  (body : B -> P unit) (s : pstate) :
  for_each (map f l) body s = for_each l (fun x => body (f x)) s.
Proof.
  revert s. induction l as [| x l IH]; intros s; simpl.
  - reflexivity.
  - unfold pbind. destruct (body (f x) s) as [[e | []] s1];
      [reflexivity | apply IH].
Qed.

(** Two nested loops run their body on the pairs of [list_prod], in
    its order. *)
Lemma for_each_list_prod {A B : Type} (l : list A) (l' : list B)
  (body : A * B -> P unit) (s : pstate) :
  for_each l (fun x => for_each l' (fun y => body (x, y))) s
  = for_each (list_prod l l') body s.
Proof.
  revert s. induction l as [| x l IH]; intros s; simpl.
  - reflexivity.
  - rewrite for_each_app. unfold pbind. rewrite for_each_map.
    destruct (for_each l' (fun y => body (x, y)) s) as [[e | []] s1];
      [reflexivity | apply IH].
Qed.

(** The call the main loop makes for a pair. *)
Lemma main_loop_list_prod (lib : Library) (args : Args) (model : ColorModel)
  (s : pstate) :
  main_loop lib args model s
  = for_each (list_prod STANDARD_OBSERVERS
                        (selected_illuminants (illuminant_list args)))
             (fun p => log_attempt (fst p) (snd p) ;;>
                       convert_with_xyz lib args model (fst p) (snd p)) s.
Proof.
  unfold main_loop.
  exact (for_each_list_prod _ _
           (fun p => log_attempt (fst p) (snd p) ;;>
                     convert_with_xyz lib args model (fst p) (snd p)) s).
Qed.

(** A round of the main loop: the pair is noted, then
    [convert_with_xyz] is called. *)
Lemma main_loop_round (lib : Library) (args : Args) (model : ColorModel)
  (o i : string) (k : P unit) (s : pstate) :
  ((log_attempt o i ;;> convert_with_xyz lib args model o i) ;;> k) s
  = match convert_with_xyz lib args model o i
            {| g_res := g_res s; g_bound := g_bound s;
               g_ciexyz_c_None := g_ciexyz_c_None s;
               g_attempted := (g_attempted s ++ [(o, i)])%list;
               g_calls := g_calls s |} with
    | (inl e, s1) => (inl e, s1)
    | (inr _, s1) => k s1
    end.
Proof.
  unfold pbind, log_attempt.
  destruct (convert_with_xyz lib args model o i _) as [[e | []] s1];
    reflexivity.
Qed.

(** A loop of calls of [convert_with_xyz] for an input model other than
    RGB ends at the first pair the library has the data for. *)
Lemma pairs_stop_at_first_with_data (lib : Library) (args : Args)
  (model : ColorModel) (before after : list (string * string))
  (o i : string) (s : pstate) :
  model <> RGB ->
  unbound_locals s ->
  Forall (fun p => skipped lib model (fst p) (snd p)) before ->
  has_illuminant_data lib model o i = true ->
  let run :=
    for_each (before ++ (o, i) :: after)
             (fun p => log_attempt (fst p) (snd p) ;;>
                       convert_with_xyz lib args model (fst p) (snd p)) s in
  returns (fst run) = false
  /\ g_attempted (snd run) = (g_attempted s ++ before ++ [(o, i)])%list.
Proof.
  intros Hmodel Hu Hskipped Hdata. revert s Hu.
  induction Hskipped as [| [o' i'] before Hp Hbefore IH]; intros s Hu; simpl.
  - rewrite main_loop_round.
    set (s0 := {| g_res := g_res s; g_bound := g_bound s;
                  g_ciexyz_c_None := g_ciexyz_c_None s;
                  g_attempted := (g_attempted s ++ [(o, i)])%list;
                  g_calls := g_calls s |}).
    pose proof (convert_with_xyz_other_models_raise lib args model o i s0
                  Hmodel Hdata Hu) as Hraise.
    pose proof (convert_with_xyz_attempted lib args model o i s0) as Hsame.
    unfold same_attempted in Hsame.
    destruct (convert_with_xyz lib args model o i s0) as [[e | []] s1];
      simpl in *; [| discriminate Hraise].
    split; [reflexivity | exact Hsame].
  - rewrite main_loop_round.
    set (s0 := {| g_res := g_res s; g_bound := g_bound s;
                  g_ciexyz_c_None := g_ciexyz_c_None s;
                  g_attempted := (g_attempted s ++ [(o', i')])%list;
                  g_calls := g_calls s |}).
    rewrite (convert_with_xyz_skipped lib args model o' i' s0 Hp).
    destruct (IH s0 Hu) as [Hraise Hatt].
    split; [exact Hraise |].
    rewrite Hatt. simpl. rewrite <- app_assoc. reflexivity.
Qed.

Lemma convert_rgb_to_rgb_attempted (lib : Library) (args : Args)
  (colorspaceid : string) :
  respects same_attempted (convert_rgb_to_rgb lib args colorspaceid).
Proof.
  unfold convert_rgb_to_rgb, use_cats.
  destruct (negb (str_in colorspaceid COLOR_MODELS_ALIASES));
    [| apply (respects_pret _ same_attempted_refl)].
  destruct (cat args) as [cats |];
    [| apply (respects_praise _ same_attempted_refl)].
  induction cats as [| c cats IH]; simpl;
    [apply (respects_pret _ same_attempted_refl) |].
  respects_tac same_attempted_refl same_attempted_trans
               ltac:(first [ apply result_of_attempted | exact IH ]).
Qed.

(** Before the main loop no pair is noted. *)
Lemma stages_attempted (lib : Library) (args : Args) (model : ColorModel) :
  respects same_attempted (init_res lib args ;;> model_stage lib args model).
Proof.
  unfold init_res, model_stage, stage_rgb, stage_cielab, stage_cieluv,
    stage_ciexyz, stage_spectrum, stage_wavelength, three_floats.
  respects_tac same_attempted_refl same_attempted_trans
               ltac:(first [ apply assign_attempted
                           | apply set_res_attempted
                           | apply result_of_attempted
                           | apply convert_rgb_to_rgb_attempted ]).
Qed.

(** X30.  A run on an input model other than RGB, once the stage of
    the model has returned, ends at the first pair of the main loop that
    the library has the illuminant data for: when [convert_with_xyz]
    skips every pair before it, the call for this pair raises, the
    conversions end with the exception, and the pairs attempted are the
    skipped ones and this one, none after it. *)
Theorem conversions_stop_at_first_pair_with_data :
  forall (lib : Library) (args : Args) (model : ColorModel)
         (before after : list (string * string)) (o i : string),
    model <> RGB ->
    returns (fst ((init_res lib args ;;> model_stage lib args model)
                    initial_state)) = true ->
    list_prod STANDARD_OBSERVERS
              (selected_illuminants (illuminant_list args))
    = (before ++ (o, i) :: after)%list ->
    Forall (fun p => skipped lib model (fst p) (snd p)) before ->
    has_illuminant_data lib model o i = true ->
    returns (fst (conversions lib args model initial_state)) = false
    /\ g_attempted (snd (conversions lib args model initial_state))
       = (before ++ [(o, i)])%list.
Proof.
  intros lib args model before after o i Hmodel Hstages Hpairs Hskipped Hdata.
  pose proof (stages_attempted lib args model initial_state) as Hnone.
  pose proof (init_res_keeps_unbound
                ["illuminant_xy_d65"; "illuminant_xyz_d65"; "ciexyz_d65"]
                lib args initial_state) as Hinit.
  unfold conversions. unfold same_attempted in Hnone. unfold pbind in *.
  destruct (init_res lib args initial_state) as [[e | []] s0];
    [discriminate Hstages |].
  pose proof (model_stage_keeps_unbound lib args model s0) as Hstage.
  destruct (model_stage lib args model s0) as [[e | []] s1];
    [discriminate Hstages |].
  simpl in Hnone, Hinit, Hstage.
  assert (unbound_locals s1) as Hu.
  { assert (unbound ["illuminant_xy_d65"; "illuminant_xyz_d65"; "ciexyz_d65"]
                    s1) as Hs1
      by (apply Hstage, Hinit, unbound_initial_state).
    split; apply Hs1; simpl; auto. }
  rewrite main_loop_list_prod, Hpairs.
  destruct (pairs_stop_at_first_with_data lib args model before after o i s1
              Hmodel Hu Hskipped Hdata) as [Hraise Hatt].
  rewrite Hnone in Hatt. simpl in Hatt.
  destruct (for_each (before ++ (o, i) :: after)
              (fun p => log_attempt (fst p) (snd p) ;;>
                        convert_with_xyz lib args model (fst p) (snd p)) s1)
    as [[e | []] s2]; simpl in *; [| discriminate Hraise].
  split; [reflexivity | exact Hatt].
Qed.

(** CIELAB input on a library without the illuminant A: the pair of
    the 2 degree observer with A is skipped, the next one ends the
    run. *)
Lemma conversions_stop_at_first_pair_with_data_witness :
  let run :=
    conversions daylight_library (cielab_args 50 0 0) CIELAB initial_state in
  returns (fst run) = false
  /\ g_attempted (snd run) = [(observer_2, "A"); (observer_2, "C")].
Proof.
  apply (conversions_stop_at_first_pair_with_data
           daylight_library (cielab_args 50 0 0) CIELAB
           [(observer_2, "A")]
           (skipn 2 (list_prod STANDARD_OBSERVERS RGB_ILLUMINANTS_LIST))
           observer_2 "C").
  - intros H. discriminate H.
  - vm_compute. reflexivity.
  - vm_compute. reflexivity.
  - constructor; [| constructor]. right.
    exists ["C"; "D50"; "D55"; "D65"; "D75"]. split; reflexivity.
  - vm_compute. reflexivity.
Defined.
